(** * The BAPB / BAPP document workflow core

    A shallow embedding of the repositories, approval controllers and the
    payment service of the backend, over an explicit model of the remote
    store.  Every call of the query builder is one step of a small
    state-and-exception monad; it may be refused by the store (a fault
    oracle decides), in which case it has no effect and answers with an
    error object, exactly as the client library reports failures
    ([{ data, error }], never a thrown exception). *)

From Stdlib Require Import ZArith QArith Qround Qabs Qpower List String Ascii Bool Arith Lia Lqa.
From Stdlib Require Import DecimalString.
Import ListNotations.
Local Open Scope string_scope.
Local Open Scope nat_scope.

Set Implicit Arguments.

(** ** JavaScript helpers *)

Module Js.

(** [Array.prototype.includes] on an array of string literals. *)
Definition includes (xs : list string) (x : string) : bool :=
  existsb (String.eqb x) xs.

(** [String(n)] for a non-negative integer. *)
Definition String_ (n : nat) : string :=
  NilZero.string_of_uint (Nat.to_uint n).

Fixpoint replicate (n : nat) (c : ascii) : string :=
  match n with
  | O => EmptyString
  | S k => String c (replicate k c)
  end.

(** [s.padStart(n, c)] with a one-character filler. *)
Definition padStart (s : string) (n : nat) (c : ascii) : string :=
  replicate (n - String.length s) c ++ s.

(** Truthiness of an optional string ([undefined], [null] and the empty string are falsy). *)
Definition truthy (s : option string) : bool :=
  match s with
  | Some EmptyString => false
  | Some _ => true
  | None => false
  end.

(** Strings are the UTF-8 bytes of the JavaScript string.

    [String.prototype.trim] strips the white space and line terminators
    of ECMAScript: U+0009 to U+000D and U+0020, one byte each; U+00A0 (C2
    A0); U+1680 (E1 9A 80); U+2000 to U+200A, U+2028, U+2029 and U+202F
    (E2 80 80..8A, A8, A9, AF); U+205F (E2 81 9F); U+3000 (E3 80 80) and
    U+FEFF (EF BB BF). *)
Definition is_blank_char (c : ascii) : bool :=
  match nat_of_ascii c with
  | 32 | 9 | 10 | 11 | 12 | 13 => true
  | _ => false
  end.

Definition is_blank_2 (a b : ascii) : bool :=
  (nat_of_ascii a =? 194) && (nat_of_ascii b =? 160).

Definition is_blank_3 (a b c : ascii) : bool :=
  match nat_of_ascii a, nat_of_ascii b with
  | 225, 154 => nat_of_ascii c =? 128
  | 226, 128 =>
      ((128 <=? nat_of_ascii c) && (nat_of_ascii c <=? 138))
      || (nat_of_ascii c =? 168) || (nat_of_ascii c =? 169)
      || (nat_of_ascii c =? 175)
  | 226, 129 => nat_of_ascii c =? 159
  | 227, 128 => nat_of_ascii c =? 128
  | 239, 187 => nat_of_ascii c =? 191
  | _, _ => false
  end.

(** [s.trim().length === 0]: the string is made of white space only. *)
Fixpoint all_blank (s : string) : bool :=
  match s with
  | EmptyString => true
  | String a r =>
      if is_blank_char a then all_blank r
      else
        match r with
        | String b r2 =>
            if is_blank_2 a b then all_blank r2
            else
              match r2 with
              | String c r3 => is_blank_3 a b c && all_blank r3
              | EmptyString => false
              end
        | EmptyString => false
        end
  end.

(** *** Numbers

    A JavaScript number is a binary64 floating-point number; its value is
    a rational.  The result of [+] and [/] is the exact result rounded to
    the nearest binary64 number, ties to the even significand.  The
    binary64 numbers around a value [x] with [2^k <= |x| < 2^(k+1)] are
    the multiples of [2^(k-52)], and the multiples of [2^-1074] below
    [2^-1022].  Overflow to [Infinity] (from [2^1024] on) and [NaN] are
    left out: the numbers here are percentages and their sums. *)

(** The integer [k] with [2^k <= x < 2^(k+1)], for a positive [x]. *)
Definition ilog2 (x : Q) : Z :=
  let k := (Z.log2 (Qnum x) - Z.log2 (Zpos (Qden x)))%Z in
  if Qle_bool (2 ^ k) x then k else (k - 1)%Z.

(** The nearest integer, the even one of two. *)
Definition rne (x : Q) : Z :=
  let f := Qfloor x in
  match Qcompare (x - inject_Z f) (1 # 2) with
  | Lt => f
  | Gt => (f + 1)%Z
  | Eq => if Z.even f then f else (f + 1)%Z
  end.

(** The binary64 number nearest to [x]. *)
Definition round64 (x : Q) : Q :=
  if Qeq_bool x 0 then 0%Q
  else
    let e := Z.max (ilog2 (Qabs x) - 52) (-1074) in
    Qred (inject_Z (rne (x / 2 ^ e)) * 2 ^ e)%Q.

(** The bounds on the error of one rounding: [2^-53] of the value, and
    [2^-1075] among the smallest numbers. *)
Definition u53 : Q := 1 # 9007199254740992.

Definition eta : Q := (2 ^ (-1075))%Q.

End Js.

(** ** Data model *)

Definition Id := nat.

Inductive Status :=
| draft | submitted | in_review | approved | rejected | revision_required.

Definition Status_eqb (a b : Status) : bool :=
  match a, b with
  | draft, draft | submitted, submitted | in_review, in_review
  | approved, approved | rejected, rejected
  | revision_required, revision_required => true
  | _, _ => false
  end.

Definition status_in (xs : list Status) (x : Status) : bool :=
  existsb (Status_eqb x) xs.

Inductive Action := act_approved | act_rejected | act_revision_required.

Definition Action_eqb (a b : Action) : bool :=
  match a, b with
  | act_approved, act_approved | act_rejected, act_rejected
  | act_revision_required, act_revision_required => true
  | _, _ => false
  end.

Inductive DocType := BAPB | BAPP.

Definition DocType_name (t : DocType) : string :=
  match t with BAPB => "BAPB" | BAPP => "BAPP" end.

(** Server-local broken-down time, as the [Date] getters return it.  The
    chronological order of instants is the lexicographic order of the fields
    (one fixed offset to UTC, which [toISOString] applies to both sides of
    every comparison). *)
Record DateTime := mkDate {
  dt_year : nat;
  dt_month : nat;          (* 0 .. 11, as [getMonth()] *)
  dt_day : nat;
  dt_hours : nat;
  dt_minutes : nat;
  dt_seconds : nat;
  dt_ms : nat
}.

Fixpoint lex_leb (a b : list nat) : bool :=
  match a, b with
  | x :: a', y :: b' => (x <? y) || ((x =? y) && lex_leb a' b')
  | _, _ => true
  end.

Definition dt_fields (d : DateTime) : list nat :=
  [dt_year d; dt_month d; dt_day d; dt_hours d; dt_minutes d; dt_seconds d; dt_ms d].

Definition dt_leb (a b : DateTime) : bool := lex_leb (dt_fields a) (dt_fields b).

Record User := {
  user_id : Id;
  user_name : string;
  user_role : string;
  is_active : bool
}.

(** What [_calculateTotalProgress] hands to the store: the number [0] for
    an empty list, otherwise the text printed by [toFixed(2)], kept as its
    value in hundredths. *)
Inductive JsTotal :=
| TotalNumber (z : Z)          (* a plain number; only [0] is produced *)
| TotalFixed (hundredths : Z). (* a [toFixed(2)] string *)

(** A row of [bapb] or [bapp] (the union of the two column sets). *)
Record Doc := {
  id : Id;
  number : string;                    (* bapb_number / bapp_number *)
  vendor_id : Id;
  reviewer_id : option Id;            (* pic_gudang_id / direksi_pekerjaan_id *)
  status : Status;
  rejection_reason : option string;
  notes : option string;
  order_number : option string;       (* BAPB *)
  delivery_date : option string;      (* BAPB *)
  contract_number : option string;    (* BAPP *)
  project_name : option string;       (* BAPP *)
  project_location : option string;   (* BAPP *)
  start_date : option string;         (* BAPP *)
  end_date : option string;           (* BAPP *)
  completion_date : option string;    (* BAPP *)
  total_progress : JsTotal;           (* BAPP *)
  created_at : DateTime
}.

Record BapbItem := {
  bi_bapb_id : Id;
  item_name : option string;
  quantity_ordered : option Q;
  quantity_received : option Q;
  bi_unit : option string;
  condition : option string;
  bi_notes : option string
}.

Record WorkItem := {
  wi_bapp_id : Id;
  work_item_name : option string;
  planned_progress : Q;
  actual_progress : Q;
  wi_unit : option string;
  quality : string;
  wi_notes : option string
}.

Record Approval := {
  ap_doc_id : Id;                     (* bapb_id / bapp_id *)
  approver_id : Id;
  action : Action;
  ap_notes : option string
}.

Record Attachment := {
  at_doc_id : Id;                     (* bapb_id / bapp_id *)
  file_type : string;
  file_path : string;
  file_name : string;
  uploaded_by : Id
}.

Record Notification := {
  n_user_id : Id;
  n_type : string;
  n_related_document_type : string;
  n_related_document_id : Id;
  n_priority : string
}.

Record PaymentLog := {
  pl_document_type : string;
  pl_document_id : Id;
  pl_vendor_id : Id;
  pl_amount : option Q;
  pl_payment_method : string;
  pl_status : string;
  pl_transaction_id : Q
}.

(** The tables that exist once per document type. *)
Record Tables := {
  docs : list Doc;
  approvals : list Approval;
  attachments : list Attachment
}.

Record Store := {
  bapb : Tables;
  bapb_items : list BapbItem;
  bapp : Tables;
  bapp_work_items : list WorkItem;
  payment_logs : list PaymentLog;
  notifications : list Notification;
  users : list User;
  next_id : Id
}.

Definition tables (t : DocType) (s : Store) : Tables :=
  match t with BAPB => bapb s | BAPP => bapp s end.

Definition set_tables (t : DocType) (x : Tables) (s : Store) : Store :=
  match t with
  | BAPB => {| bapb := x; bapb_items := bapb_items s; bapp := bapp s;
               bapp_work_items := bapp_work_items s;
               payment_logs := payment_logs s; notifications := notifications s;
               users := users s; next_id := next_id s |}
  | BAPP => {| bapb := bapb s; bapb_items := bapb_items s; bapp := x;
               bapp_work_items := bapp_work_items s;
               payment_logs := payment_logs s; notifications := notifications s;
               users := users s; next_id := next_id s |}
  end.

Definition set_docs (t : DocType) (l : list Doc) (s : Store) : Store :=
  set_tables t {| docs := l; approvals := approvals (tables t s);
                  attachments := attachments (tables t s) |} s.

Definition set_approvals (t : DocType) (l : list Approval) (s : Store) : Store :=
  set_tables t {| docs := docs (tables t s); approvals := l;
                  attachments := attachments (tables t s) |} s.

Definition set_attachments (t : DocType) (l : list Attachment) (s : Store) : Store :=
  set_tables t {| docs := docs (tables t s); approvals := approvals (tables t s);
                  attachments := l |} s.

Definition set_bapb_items (l : list BapbItem) (s : Store) : Store :=
  {| bapb := bapb s; bapb_items := l; bapp := bapp s;
     bapp_work_items := bapp_work_items s;
     payment_logs := payment_logs s; notifications := notifications s;
     users := users s; next_id := next_id s |}.

Definition set_bapp_work_items (l : list WorkItem) (s : Store) : Store :=
  {| bapb := bapb s; bapb_items := bapb_items s; bapp := bapp s;
     bapp_work_items := l;
     payment_logs := payment_logs s; notifications := notifications s;
     users := users s; next_id := next_id s |}.

Definition set_payment_logs (l : list PaymentLog) (s : Store) : Store :=
  {| bapb := bapb s; bapb_items := bapb_items s; bapp := bapp s;
     bapp_work_items := bapp_work_items s;
     payment_logs := l; notifications := notifications s;
     users := users s; next_id := next_id s |}.

Definition set_notifications (l : list Notification) (s : Store) : Store :=
  {| bapb := bapb s; bapb_items := bapb_items s; bapp := bapp s;
     bapp_work_items := bapp_work_items s;
     payment_logs := payment_logs s; notifications := l;
     users := users s; next_id := next_id s |}.

Definition set_next_id (n : Id) (s : Store) : Store :=
  {| bapb := bapb s; bapb_items := bapb_items s; bapp := bapp s;
     bapp_work_items := bapp_work_items s;
     payment_logs := payment_logs s; notifications := notifications s;
     users := users s; next_id := n |}.

(** ** The remote store as a monad *)

Record Error := { err_code : string; err_message : string }.

(** "JSON object requested, multiple (or no) rows returned". *)
Definition PGRST116 : Error :=
  {| err_code := "PGRST116";
     err_message := "JSON object requested, multiple (or no) rows returned" |}.

(** The error object of a call the store refused. *)
Definition store_failure : Error :=
  {| err_code := "08006"; err_message := "connection failure" |}.

Inductive Op := op_select | op_insert | op_update | op_delete.

(** One call of the query builder, with the table and whether it came back
    without an error object. *)
Record Event := { ev_op : Op; ev_table : string; ev_ok : bool }.

Record World := {
  db : Store;
  now : DateTime;              (* server clock, [new Date()] *)
  fault_at : nat -> bool;      (* does the store refuse the n-th call? *)
  ncalls : nat;                (* calls issued so far *)
  trace : list Event;          (* calls issued so far, oldest first *)
  random : nat -> Q;           (* successive results of [Math.random()] *)
  ndraws : nat
}.

Inductive Outcome (A : Type) :=
| Returned (a : A)
| Thrown (e : Error).
Arguments Thrown {A} e.

Definition M (A : Type) := World -> Outcome A * World.

Definition ret {A} (a : A) : M A := fun w => (Returned a, w).

Definition throw {A} (e : Error) : M A := fun w => (Thrown e, w).

Definition bind {A B} (m : M A) (k : A -> M B) : M B :=
  fun w =>
    match m w with
    | (Returned a, w') => k a w'
    | (Thrown e, w') => (Thrown e, w')
    end.

(** [try { m } catch (error) { h error }]. *)
Definition try_catch {A} (m : M A) (h : Error -> M A) : M A :=
  fun w =>
    match m w with
    | (Returned a, w') => (Returned a, w')
    | (Thrown e, w') => h e w'
    end.

Notation "x <- m ;; k" := (bind m (fun x => k))
  (at level 61, m at next level, right associativity).
Notation "m ;;; k" := (bind m (fun _ => k))
  (at level 61, right associativity).

(** The [{ data, error }] (or [{ count, error }]) object a query resolves to. *)
Record Reply (A : Type) := { data : option A; error : option Error }.

Definition ok_reply {A} (a : A) : Reply A := {| data := Some a; error := None |}.
Definition empty_reply {A} : Reply A := {| data := None; error := None |}.
Definition error_reply {A} (e : Error) : Reply A := {| data := None; error := Some e |}.

Definition is_none {A} (o : option A) : bool :=
  match o with None => true | Some _ => false end.

(** The world after one more call of the query builder. *)
Definition tick (w : World) (e : Event) (s : Store) : World :=
  {| db := s; now := now w; fault_at := fault_at w;
     ncalls := S (ncalls w); trace := trace w ++ [e];
     random := random w; ndraws := ndraws w |}.

(** A call of the query builder on [table]: refused by the store, or run
    against the tables. *)
Definition query {A} (op : Op) (table : string)
           (run : Store -> Reply A * Store) : M (Reply A) :=
  fun w =>
    if fault_at w (ncalls w) then
      (Returned (error_reply store_failure),
       tick w {| ev_op := op; ev_table := table; ev_ok := false |} (db w))
    else
      (Returned (fst (run (db w))),
       tick w {| ev_op := op; ev_table := table;
                 ev_ok := is_none (error (fst (run (db w)))) |}
            (snd (run (db w)))).

Definition get_now : M DateTime := fun w => (Returned (now w), w).

(** [Math.random()]. *)
Definition Math_random : M Q :=
  fun w =>
    (Returned (random w (ndraws w)),
     {| db := db w; now := now w; fault_at := fault_at w; ncalls := ncalls w;
        trace := trace w; random := random w; ndraws := S (ndraws w) |}).

(** [.single()]: exactly one row, otherwise PGRST116. *)
Definition single {A} (rows : list A) : Reply A :=
  match rows with
  | [r] => ok_reply r
  | _ => error_reply PGRST116
  end.

(** [.maybeSingle()]: no row is not an error; several rows are. *)
Definition maybeSingle {A} (rows : list A) : Reply A :=
  match rows with
  | [] => empty_reply
  | [r] => ok_reply r
  | _ => error_reply PGRST116
  end.

(** [if (error) throw error; return data]. *)
Definition throw_on_error {A} (r : Reply A) : M (option A) :=
  match error r with
  | Some e => throw e
  | None => ret (data r)
  end.

(** [if (error) { if (error.code === 'PGRST116') return null; throw error }
     return data]. *)
Definition null_if_not_found {A} (r : Reply A) : M (option A) :=
  match error r with
  | Some e => if String.eqb (err_code e) "PGRST116" then ret None else throw e
  | None => ret (data r)
  end.

Definition table_name (t : DocType) : string :=
  match t with BAPB => "bapb" | BAPP => "bapp" end.

Definition items_table (t : DocType) : string :=
  match t with BAPB => "bapb_items" | BAPP => "bapp_work_items" end.

Definition approvals_table (t : DocType) : string :=
  match t with BAPB => "bapb_approvals" | BAPP => "bapp_approvals" end.

Definition attachments_table (t : DocType) : string :=
  match t with BAPB => "bapb_attachments" | BAPP => "bapp_attachments" end.

(** ** BaseRepository *)

(** The columns an [update] call may carry; [None] leaves a column alone. *)
Record Patch := {
  p_status : option Status;
  p_rejection_reason : option (option string);
  p_reviewer_id : option Id;
  p_notes : option (option string);
  p_order_number : option string;
  p_delivery_date : option string;
  p_contract_number : option string;
  p_project_name : option string;
  p_project_location : option string;
  p_start_date : option string;
  p_end_date : option string;
  p_completion_date : option (option string);
  p_total_progress : option JsTotal
}.

Definition empty_patch : Patch :=
  {| p_status := None; p_rejection_reason := None; p_reviewer_id := None;
     p_notes := None; p_order_number := None; p_delivery_date := None;
     p_contract_number := None; p_project_name := None;
     p_project_location := None; p_start_date := None; p_end_date := None;
     p_completion_date := None; p_total_progress := None |}.

Definition or_old {A} (new : option A) (old : A) : A :=
  match new with Some v => v | None => old end.

Definition or_keep {A} (new : option A) (old : option A) : option A :=
  match new with Some v => Some v | None => old end.

Definition apply_patch (p : Patch) (d : Doc) : Doc :=
  {| id := id d;
     number := number d;
     vendor_id := vendor_id d;
     reviewer_id := or_keep (p_reviewer_id p) (reviewer_id d);
     status := or_old (p_status p) (status d);
     rejection_reason := or_old (p_rejection_reason p) (rejection_reason d);
     notes := or_old (p_notes p) (notes d);
     order_number := or_keep (p_order_number p) (order_number d);
     delivery_date := or_keep (p_delivery_date p) (delivery_date d);
     contract_number := or_keep (p_contract_number p) (contract_number d);
     project_name := or_keep (p_project_name p) (project_name d);
     project_location := or_keep (p_project_location p) (project_location d);
     start_date := or_keep (p_start_date p) (start_date d);
     end_date := or_keep (p_end_date p) (end_date d);
     completion_date := or_old (p_completion_date p) (completion_date d);
     total_progress := or_old (p_total_progress p) (total_progress d);
     created_at := created_at d |}.

Definition has_id (i : Id) (d : Doc) : bool := id d =? i.

(** The row as the store keeps it: the store assigns [id] and [created_at]. *)
Definition stamp (i : Id) (t : DateTime) (d : Doc) : Doc :=
  {| id := i; number := number d; vendor_id := vendor_id d;
     reviewer_id := reviewer_id d; status := status d;
     rejection_reason := rejection_reason d; notes := notes d;
     order_number := order_number d; delivery_date := delivery_date d;
     contract_number := contract_number d; project_name := project_name d;
     project_location := project_location d; start_date := start_date d;
     end_date := end_date d; completion_date := completion_date d;
     total_progress := total_progress d; created_at := t |}.

Module BaseRepository.

(** [findById(id)]: [select('*').eq('id', id).single()]. *)
Definition findById (t : DocType) (i : Id) : M (option Doc) :=
  r <- query op_select (table_name t)
         (fun s => (single (filter (has_id i) (docs (tables t s))), s)) ;;
  null_if_not_found r.

(** [create(data)]: [insert(data).select().single()]. *)
Definition create (t : DocType) (d : Doc) : M (option Doc) :=
  clock <- get_now ;;
  r <- query op_insert (table_name t)
         (fun s =>
            let row := stamp (next_id s) clock d in
            (ok_reply row,
             set_next_id (S (next_id s))
               (set_docs t (docs (tables t s) ++ [row]) s))) ;;
  throw_on_error r.

(** [update(id, data)]: [update(data).eq('id', id).select('*').single()]. *)
Definition update (t : DocType) (i : Id) (p : Patch) : M (option Doc) :=
  r <- query op_update (table_name t)
         (fun s =>
            let rows := docs (tables t s) in
            (single (map (apply_patch p) (filter (has_id i) rows)),
             set_docs t
               (map (fun d => if has_id i d then apply_patch p d else d) rows)
               s)) ;;
  throw_on_error r.

(** Modelled from the spec: the schema of the store is not part of the
    sources.  A document exclusively owns its line items and attachments,
    and they are deleted with it (cascade). *)
Definition cascade (t : DocType) (i : Id) (s : Store) : Store :=
  let s2 := set_attachments t
              (filter (fun a => negb (at_doc_id a =? i)) (attachments (tables t s)))
              s in
  match t with
  | BAPB => set_bapb_items
              (filter (fun x => negb (bi_bapb_id x =? i)) (bapb_items s2)) s2
  | BAPP => set_bapp_work_items
              (filter (fun x => negb (wi_bapp_id x =? i)) (bapp_work_items s2)) s2
  end.

(** [delete(id)]: [delete().eq('id', id)]. *)
Definition delete (t : DocType) (i : Id) : M bool :=
  r <- query op_delete (table_name t)
         (fun s =>
            (ok_reply tt,
             cascade t i
               (set_docs t (filter (fun d => negb (has_id i d)) (docs (tables t s)))
                         s))) ;;
  throw_on_error r ;;;
  ret true.

End BaseRepository.

Module UserRepository.

(** [BaseRepository.findById] on the [users] table. *)
Definition findById (i : Id) : M (option User) :=
  r <- query op_select "users"
         (fun s => (single (filter (fun u => user_id u =? i) (users s)), s)) ;;
  null_if_not_found r.

End UserRepository.

(** ** The document repositories (BAPBRepository, BAPPRepository) *)

Inductive Items :=
| GoodsItems (l : list BapbItem)
| WorkItems (l : list WorkItem).

Definition items_length (x : Items) : nat :=
  match x with GoodsItems l => List.length l | WorkItems l => List.length l end.

(** A document hydrated with its relations. *)
Record DocWithRelations := {
  w_doc : Doc;
  w_vendor : option User;
  w_reviewer : option User;
  w_items : Items;
  w_approvals : list Approval;
  w_attachments : list Attachment
}.

Definition find_user (s : Store) (i : Id) : option User :=
  find (fun u => user_id u =? i) (users s).

Definition items_of (t : DocType) (s : Store) (i : Id) : Items :=
  match t with
  | BAPB => GoodsItems (filter (fun x => bi_bapb_id x =? i) (bapb_items s))
  | BAPP => WorkItems (filter (fun x => wi_bapp_id x =? i) (bapp_work_items s))
  end.

Definition hydrate (t : DocType) (s : Store) (d : Doc) : DocWithRelations :=
  {| w_doc := d;
     w_vendor := find_user s (vendor_id d);
     w_reviewer := match reviewer_id d with
                   | Some r => find_user s r
                   | None => None
                   end;
     w_items := items_of t s (id d);
     w_approvals := filter (fun a => ap_doc_id a =? id d) (approvals (tables t s));
     w_attachments := filter (fun a => at_doc_id a =? id d) (attachments (tables t s)) |}.

Definition is_approved_by (i u : Id) (a : Approval) : bool :=
  (ap_doc_id a =? i) && (approver_id a =? u) && Action_eqb (action a) act_approved.

Definition is_signature_of (i u : Id) (a : Attachment) : bool :=
  (at_doc_id a =? i) && (uploaded_by a =? u) && String.eqb (file_type a) "signature".

Module Repository.

(** [findByIdWithRelations(id)]. *)
Definition findByIdWithRelations (t : DocType) (i : Id)
  : M (option DocWithRelations) :=
  r <- query op_select (table_name t)
         (fun s => (single (map (hydrate t s)
                                (filter (has_id i) (docs (tables t s)))), s)) ;;
  null_if_not_found r.

(** [updateStatus(id, status)]. *)
Definition updateStatus (t : DocType) (i : Id) (st : Status) : M (option Doc) :=
  BaseRepository.update t i
    {| p_status := Some st; p_rejection_reason := None; p_reviewer_id := None;
       p_notes := None; p_order_number := None; p_delivery_date := None;
       p_contract_number := None; p_project_name := None;
       p_project_location := None; p_start_date := None; p_end_date := None;
       p_completion_date := None; p_total_progress := None |}.

(** [createApproval(approvalData)]: [insert(...).select().single()]. *)
Definition createApproval (t : DocType) (a : Approval) : M (option Approval) :=
  r <- query op_insert (approvals_table t)
         (fun s => (ok_reply a,
                    set_approvals t (approvals (tables t s) ++ [a]) s)) ;;
  throw_on_error r.

(** [hasUserApproved(id, approverId)]:
    [select('id').eq(..).eq(..).eq('action','approved').single()], then
    [if (error && error.code !== 'PGRST116') throw error; return !!data]. *)
Definition hasUserApproved (t : DocType) (i u : Id) : M bool :=
  r <- query op_select (approvals_table t)
         (fun s => (single (filter (is_approved_by i u)
                                   (approvals (tables t s))), s)) ;;
  match error r with
  | Some e =>
      if negb (String.eqb (err_code e) "PGRST116") then throw e
      else ret (negb (is_none (data r)))
  | None => ret (negb (is_none (data r)))
  end.

End Repository.

(** ** notificationService *)

Definition TypeError (msg : string) : Error :=
  {| err_code := "TypeError"; err_message := msg |}.

Definition ReferenceError (msg : string) : Error :=
  {| err_code := "ReferenceError"; err_message := msg |}.

Definition lower_name (t : DocType) : string :=
  match t with BAPB => "bapb" | BAPP => "bapp" end.

(** Roles that may review a document of the given type. *)
Definition reviewer_roles (t : DocType) : list string :=
  match t with
  | BAPB => ["pic_gudang"; "approver"; "admin"]
  | BAPP => ["approver"; "admin"]
  end.

Module notificationService.

(** [createNotification(data)]: [insert(...).select().single()]. *)
Definition createNotification (n : Notification) : M (option Notification) :=
  r <- query op_insert "notifications"
         (fun s => (ok_reply n, set_notifications (notifications s ++ [n]) s)) ;;
  throw_on_error r.

(** [createBulkNotifications(userIds, data)]. *)
Definition createBulkNotifications (userIds : list Id)
           (mk : Id -> Notification) : M nat :=
  r <- query op_insert "notifications"
         (fun s => (@empty_reply unit,
                    set_notifications (notifications s ++ map mk userIds) s)) ;;
  throw_on_error r ;;;
  ret (List.length userIds).

(** Every [notify...] method is [try { ... } catch (error) { console.error }]. *)
Definition logged_only {A} (m : M A) : M unit :=
  try_catch (m ;;; ret tt) (fun _ => ret tt).

Definition about (t : DocType) (event priority : string) (d : Doc) (u : Id)
  : Notification :=
  {| n_user_id := u;
     n_type := lower_name t ++ event;
     n_related_document_type := DocType_name t;
     n_related_document_id := id d;
     n_priority := priority |}.

(** [notifyBAPBSubmitted] / [notifyBAPPSubmitted]. *)
Definition notifySubmitted (t : DocType) (d : Doc) : M unit :=
  logged_only
    (r <- query op_select "users"
            (fun s => (ok_reply
                         (filter (fun u => Js.includes (reviewer_roles t) (user_role u)
                                           && is_active u) (users s)), s)) ;;
     recipients <- throw_on_error r ;;
     match recipients with
     | None => throw (TypeError "Cannot read properties of null (reading 'map')")
     | Some us =>
         createBulkNotifications (map user_id us) (about t "_submitted" "high" d)
     end).

(** A notifier for one recipient:
    [try { await this.createNotification({...}) } catch (error) { ... }]. *)
Definition notify (n : Notification) : M unit :=
  logged_only (createNotification n).

(** The row of [notifyBAPBApproved] / [notifyBAPPApproved]. *)
Definition approved_note (t : DocType) (d : Doc) : Notification :=
  about t "_approved" "high" d (vendor_id d).

(** The row of [notifyBAPBRejected] / [notifyBAPPRejected]. *)
Definition rejected_note (t : DocType) (d : Doc) : Notification :=
  about t "_rejected" "urgent" d (vendor_id d).

(** The row of [notifyBAPBRevisionRequired] / [notifyBAPPRevisionRequired]. *)
Definition revision_note (t : DocType) (d : Doc) : Notification :=
  about t "_revision_required" "high" d (vendor_id d).

(** [notifyPaymentProcessed(vendorId, paymentData)]: the message is built
    with [paymentData.amount.toLocaleString('id-ID')] before the insert. *)
Definition notifyPaymentProcessed (vendorId : Id) (documentType : string)
           (documentId : Id) (amount : option Q) : M unit :=
  logged_only
    (match amount with
     | None =>
         throw (TypeError "Cannot read properties of undefined (reading 'toLocaleString')")
     | Some _ =>
         createNotification
           {| n_user_id := vendorId;
              n_type := "payment_processed";
              n_related_document_type := documentType;
              n_related_document_id := documentId;
              n_priority := "high" |}
     end).

End notificationService.

(** ** The approval controllers *)

Record Response := {
  code : nat;
  success : bool;
  message : string;
  warning : option string;
  hint : option string;
  res_data : option DocWithRelations;
  res_error : option string
}.

Definition failure (c : nat) (msg : string) : Response :=
  {| code := c; success := false; message := msg; warning := None;
     hint := None; res_data := None; res_error := None |}.

(** A refusal that explains itself in the [error] field. *)
Definition refusal (c : nat) (msg err : string) : Response :=
  {| code := c; success := false; message := msg; warning := None;
     hint := None; res_data := None; res_error := Some err |}.

Definition server_error (msg : string) (e : Error) : Response :=
  {| code := 500; success := false; message := msg; warning := None;
     hint := None; res_data := None; res_error := Some (err_message e) |}.

Definition done (c : nat) (msg : string) (d : option DocWithRelations)
           (warn : option string) : Response :=
  {| code := c; success := true; message := msg; warning := warn;
     hint := None; res_data := d; res_error := None |}.

(** [req.user], [req.params.id] and the body of an approval request
    ([rq_reason] is [rejectionReason] or [revisionReason]). *)
Record ApprovalReq := {
  rq_user : User;
  rq_id : Id;
  rq_notes : option string;
  rq_reason : option string
}.

(** The role pinned as primary reviewer by the first approval. *)
Definition primary_role (t : DocType) : string :=
  match t with BAPB => "pic_gudang" | BAPP => "approver" end.

Definition status_patch (st : Status) (reason : option (option string))
           (reviewer : option Id) : Patch :=
  {| p_status := Some st; p_rejection_reason := reason; p_reviewer_id := reviewer;
     p_notes := None; p_order_number := None; p_delivery_date := None;
     p_contract_number := None; p_project_name := None;
     p_project_location := None; p_start_date := None; p_end_date := None;
     p_completion_date := None; p_total_progress := None |}.

(** The signature step of [approveBAPB] (controllers/bapbApprovalController.js
    as shipped with the signature controller): a missing or unverifiable
    signature only sets [signatureWarning]. *)
Definition signatureWarningBAPB (i approverId : Id) : M (Response + option string) :=
  try_catch
    (r <- query op_select (attachments_table BAPB)
            (fun s => (maybeSingle (filter (is_signature_of i approverId)
                                           (attachments (tables BAPB s))), s)) ;;
     match error r with
     | Some _ => ret (inr (Some "Could not verify signature status"))
     | None =>
         if is_none (data r)
         then ret (inr (Some "Approved without signature - please upload signature for complete documentation"))
         else ret (inr None)
     end)
    (fun _ => ret (inr (Some "Signature verification failed - proceeding without signature"))).

(** The 400 answer of [approveBAPP] to a caller without signature. *)
Definition signature_refusal : Response :=
  {| code := 400; success := false;
     message := "Please upload your signature first before approving. Use POST /api/bapp/:id/signature to upload.";
     warning := None;
     hint := Some "Signature must be uploaded separately before approval";
     res_data := None; res_error := None |}.

(** The signature step of [approveBAPP]: [.single()] on the caller's
    signature attachments; without [data] the request is answered 400. *)
Definition signatureRequiredBAPP (i approverId : Id) : M (Response + option string) :=
  r <- query op_select (attachments_table BAPP)
         (fun s => (single (filter (is_signature_of i approverId)
                                   (attachments (tables BAPP s))), s)) ;;
  if is_none (data r) then ret (inl signature_refusal) else ret (inr None).

(** The same place in backend-main's [approveBAPB]: [if (signature)] reads
    an identifier that is declared nowhere. *)
Definition signatureUndeclared (i approverId : Id) : M (Response + option string) :=
  throw (ReferenceError "signature is not defined").

(** The four statements every approval handler ends with: create the
    approval record, update the document, notify the vendor, fetch the
    document again and answer 200. *)
Definition record_then_update (t : DocType) (a : Approval) (p : Patch)
           (n : Notification) (finished : string) (warn : option string)
  : M Response :=
  Repository.createApproval t a ;;;
  BaseRepository.update t (ap_doc_id a) p ;;;
  notificationService.notify n ;;;
  updated <- Repository.findByIdWithRelations t (ap_doc_id a) ;;
  ret (done 200 finished updated warn).

(** The body shared by the three [approve...] handlers. *)
Definition approve (t : DocType)
           (signature_step : Id -> Id -> M (Response + option string))
           (req : ApprovalReq) : M Response :=
  let i := rq_id req in
  let approverId := user_id (rq_user req) in
  try_catch
    (found <- Repository.findByIdWithRelations t i ;;
     match found with
     | None => ret (failure 404 (DocType_name t ++ " not found"))
     | Some doc =>
         if negb (status_in [submitted; in_review] (status (w_doc doc))) then
           ret (failure 400 (DocType_name t ++
                  " must be in submitted or in_review status to be approved"))
         else if negb (Js.includes (reviewer_roles t) (user_role (rq_user req))) then
           ret (failure 403 ("Not authorized to approve " ++ DocType_name t))
         else
           hasApproved <- Repository.hasUserApproved t i approverId ;;
           if (hasApproved : bool) then
             ret (failure 400 ("You have already approved this " ++ DocType_name t))
           else
             step <- signature_step i approverId ;;
             match step with
             | inl refused => ret refused
             | inr signatureWarning =>
                 record_then_update t
                   {| ap_doc_id := i; approver_id := approverId;
                      action := act_approved; ap_notes := rq_notes req |}
                   (status_patch approved None
                      (if is_none (reviewer_id (w_doc doc))
                          && String.eqb (user_role (rq_user req)) (primary_role t)
                       then Some approverId else None))
                   (notificationService.approved_note t (w_doc doc))
                   (DocType_name t ++ " approved successfully")
                   signatureWarning
             end
     end)
    (fun e => ret (server_error ("Error approving " ++ DocType_name t) e)).

Definition approveBAPB : ApprovalReq -> M Response := approve BAPB signatureWarningBAPB.
Definition approveBAPP : ApprovalReq -> M Response := approve BAPP signatureRequiredBAPP.

Module BackendMain.
(** backend-main/src/controllers/bapbApprovalController.js *)
Definition approveBAPB : ApprovalReq -> M Response := approve BAPB signatureUndeclared.
End BackendMain.

Definition reason_missing (r : option string) : bool :=
  match r with
  | None => true
  | Some s => negb (Js.truthy (Some s)) || Js.all_blank s
  end.

(** The body shared by [rejectBAPB], [rejectBAPP], [requestRevisionBAPB]
    and [requestRevisionBAPP]. *)
Definition decide (t : DocType) (act : Action) (target : Status)
           (required verb_status unauthorized finished failed : string)
           (note : DocType -> Doc -> Notification)
           (req : ApprovalReq) : M Response :=
  let i := rq_id req in
  let approverId := user_id (rq_user req) in
  try_catch
    (if reason_missing (rq_reason req) then ret (failure 400 required)
     else
       found <- BaseRepository.findById t i ;;
       match found with
       | None => ret (failure 404 (DocType_name t ++ " not found"))
       | Some doc =>
           if negb (status_in [submitted; in_review] (status doc)) then
             ret (failure 400 (DocType_name t ++ verb_status))
           else if negb (Js.includes (reviewer_roles t) (user_role (rq_user req))) then
             ret (failure 403 unauthorized)
           else
             record_then_update t
               {| ap_doc_id := i; approver_id := approverId;
                  action := act; ap_notes := rq_notes req |}
               (status_patch target (Some (rq_reason req)) None)
               (note t doc)
               finished None
       end)
    (fun e => ret (server_error failed e)).

Definition reject (t : DocType) : ApprovalReq -> M Response :=
  decide t act_rejected rejected
    "Rejection reason is required"
    " must be in submitted or in_review status to be rejected"
    ("Not authorized to reject " ++ DocType_name t)
    (DocType_name t ++ " rejected")
    ("Error rejecting " ++ DocType_name t)
    notificationService.rejected_note.

Definition requestRevision (t : DocType) : ApprovalReq -> M Response :=
  decide t act_revision_required revision_required
    "Revision reason is required"
    " must be in submitted or in_review status to request revision"
    "Not authorized to request revision"
    ("Revision requested for " ++ DocType_name t)
    "Error requesting revision"
    notificationService.revision_note.

Definition rejectBAPB := reject BAPB.
Definition rejectBAPP := reject BAPP.
Definition requestRevisionBAPB := requestRevision BAPB.
Definition requestRevisionBAPP := requestRevision BAPP.

(** ** Line items as they arrive in a request body

    A number of a request is the value of the binary64 number the JSON
    parser made of it, a rational. *)

Definition num_truthy (x : option Q) : bool :=
  match x with
  | Some q => negb (Qeq_bool q 0)
  | None => false
  end.

(** [a || b] on optional strings and numbers. *)
Definition or_str (a b : option string) : option string :=
  if Js.truthy a then a else b.

Definition or_num (a b : option Q) : option Q :=
  if num_truthy a then a else b.

(** [x || 0] read as a number. *)
Definition or_zero (x : option Q) : Q :=
  match x with
  | Some q => if Qeq_bool q 0 then 0%Q else q
  | None => 0%Q
  end.

Record BapbItemInput := {
  in_itemName : option string;
  in_item_name : option string;
  in_quantityOrdered : option Q;
  in_quantity_ordered : option Q;
  in_quantityReceived : option Q;
  in_quantity_received : option Q;
  in_unit : option string;
  in_condition : option string;
  in_notes : option string
}.

Record WorkItemInput := {
  in_workItemName : option string;
  in_work_item_name : option string;
  in_plannedProgress : option Q;
  in_planned_progress : option Q;
  in_actualProgress : option Q;
  in_actual_progress : option Q;
  in_wi_unit : option string;
  in_quality : option string;
  in_wi_notes : option string
}.

(** The row built by [items.map(item => ({ bapb_id, item_name: item.itemName
    || item.item_name, ... }))]. *)
Definition bapb_item_row (i : Id) (item : BapbItemInput) : BapbItem :=
  {| bi_bapb_id := i;
     item_name := or_str (in_itemName item) (in_item_name item);
     quantity_ordered := or_num (in_quantityOrdered item) (in_quantity_ordered item);
     quantity_received := or_num (in_quantityReceived item) (in_quantity_received item);
     bi_unit := in_unit item;
     condition := in_condition item;
     bi_notes := or_str (in_notes item) None |}.

Definition work_item_row (i : Id) (item : WorkItemInput) : WorkItem :=
  {| wi_bapp_id := i;
     work_item_name := or_str (in_workItemName item) (in_work_item_name item);
     planned_progress :=
       or_zero (or_num (in_plannedProgress item) (in_planned_progress item));
     actual_progress :=
       or_zero (or_num (in_actualProgress item) (in_actual_progress item));
     wi_unit := in_wi_unit item;
     quality := match or_str (in_quality item) (Some "acceptable") with
                | Some q => q
                | None => "acceptable"
                end;
     wi_notes := or_str (in_wi_notes item) None |}.

(** ** Derived progress *)

(** [x.toFixed(2)] as the integer number of hundredths it prints: the
    integer [n] for which [n / 100 - x] is closest to zero, the larger one
    on a tie, computed on the absolute value and then signed.  [x] is the
    exact value of the binary64 number ([|x| < 10^21]). *)
Definition toFixed2 (x : Q) : Z :=
  let n := Qfloor (Qabs x * 100 + (1 # 2))%Q in
  if Qle_bool 0 x then n else (- n)%Z.

(** The digits [toFixed(2)] prints for a value given in hundredths. *)
Definition fixed2_text (h : Z) : string :=
  let a := Z.abs_nat h in
  (if (h <? 0)%Z then "-" else EmptyString) ++
  Js.String_ (a / 100) ++ "." ++ Js.padStart (Js.String_ (a mod 100)) 2 "0".

Definition JsTotal_text (t : JsTotal) : string :=
  match t with
  | TotalNumber z => (if (z <? 0)%Z then "-" else EmptyString) ++ Js.String_ (Z.abs_nat z)
  | TotalFixed h => fixed2_text h
  end.

Definition JsTotal_value (t : JsTotal) : Q :=
  match t with
  | TotalNumber z => inject_Z z
  | TotalFixed h => (h # 100)%Q
  end.

(** [parseFloat(item.actual_progress || item.actualProgress || 0)]: the
    number of the request, as the JSON parser made it. *)
Definition actual_read (item : WorkItemInput) : Q :=
  or_zero (or_num (in_actual_progress item) (in_actualProgress item)).

(** [workItems.reduce((sum, item) => sum + parseFloat(...), 0)]: every
    addition is rounded to binary64. *)
Definition sum_actual (l : list WorkItemInput) : Q :=
  fold_left (fun sum item => Js.round64 (sum + actual_read item)%Q) l 0%Q.

(** [_calculateTotalProgress(workItems)]: [(total / workItems.length)
    .toFixed(2)], the quotient rounded to binary64 and then printed with
    two decimals. *)
Definition _calculateTotalProgress (workItems : option (list WorkItemInput)) : JsTotal :=
  match workItems with
  | None | Some [] => TotalNumber 0
  | Some l =>
      TotalFixed
        (toFixed2 (Js.round64 (sum_actual l / inject_Z (Z.of_nat (List.length l)))%Q))
  end.

(** ** Numbering *)

Definition is_leap (y : nat) : bool :=
  (y mod 4 =? 0) && (negb (y mod 100 =? 0) || (y mod 400 =? 0)).

Definition days_in_month (y m : nat) : nat :=
  match m with
  | 1 => if is_leap y then 29 else 28
  | 3 | 5 | 8 | 10 => 30
  | _ => 31
  end.

(** [new Date(year, date.getMonth(), 1)]. *)
Definition startOfMonth (d : DateTime) : DateTime :=
  mkDate (dt_year d) (dt_month d) 1 0 0 0 0.

(** [new Date(year, date.getMonth() + 1, 0, 23, 59, 59)]: day 0 of the next
    month is the last day of this one; the milliseconds default to 0. *)
Definition endOfMonth (d : DateTime) : DateTime :=
  mkDate (dt_year d) (dt_month d) (days_in_month (dt_year d) (dt_month d)) 23 59 59 0.

Definition counted_in_month (date : DateTime) (d : Doc) : bool :=
  dt_leb (startOfMonth date) (created_at d) && dt_leb (created_at d) (endOfMonth date).

Definition Error_ (msg : string) : Error :=
  {| err_code := "Error"; err_message := msg |}.

(** [generateBAPBNumber()] / [generateBAPPNumber()]. *)
Definition generateNumber (t : DocType) : M string :=
  try_catch
    (date <- get_now ;;
     let year := dt_year date in
     let month := Js.padStart (Js.String_ (dt_month date + 1)) 2 "0" in
     r <- query op_select (table_name t)
            (fun s => (ok_reply (List.length (filter (counted_in_month date)
                                                     (docs (tables t s)))), s)) ;;
     count <- throw_on_error r ;;
     let sequence :=
       Js.padStart (Js.String_ (match count with Some c => c | None => 0 end + 1))
                   4 "0" in
     ret (DocType_name t ++ "/" ++ Js.String_ year ++ "/" ++ month ++ "/" ++ sequence))
    (fun e => throw e).

Definition generateBAPBNumber : M string := generateNumber BAPB.
Definition generateBAPPNumber : M string := generateNumber BAPP.

(** ** Create and update with line items *)

Definition is_some_cons {A} (l : option (list A)) : bool :=
  match l with Some (_ :: _) => true | _ => false end.

Definition reading_id_of_null : Error :=
  TypeError "Cannot read properties of null (reading 'id')".

Module BAPBRepository.

(** [createWithItems(bapbData, items = [])]. *)
Definition createWithItems (bapbData : Doc) (items : option (list BapbItemInput))
  : M (option DocWithRelations) :=
  try_catch
    (created <- BaseRepository.create BAPB bapbData ;;
     match created with
     | None => throw reading_id_of_null
     | Some bapb =>
         match items with
         | Some (x :: l) =>
             let itemsToCreate := map (bapb_item_row (id bapb)) (x :: l) in
             r <- query op_insert "bapb_items"
                    (fun s => (ok_reply itemsToCreate,
                               set_bapb_items (bapb_items s ++ itemsToCreate) s)) ;;
             match error r with
             | Some itemsError =>
                 (* Rollback: delete the BAPB if items creation failed *)
                 BaseRepository.delete BAPB (id bapb) ;;;
                 throw (Error_ ("Failed to create BAPB items: "
                                  ++ err_message itemsError))
             | None => ret tt
             end
         | _ => ret tt
         end ;;;
         Repository.findByIdWithRelations BAPB (id bapb)
     end)
    (fun e => throw e).

(** [updateWithItems(id, bapbData, items = null)]. *)
Definition updateWithItems (i : Id) (bapbData : Patch)
           (items : option (list BapbItemInput)) : M (option DocWithRelations) :=
  try_catch
    (BaseRepository.update BAPB i bapbData ;;;
     match items with
     | Some l =>
         r <- query op_delete "bapb_items"
                (fun s => (@empty_reply unit,
                           set_bapb_items
                             (filter (fun x => negb (bi_bapb_id x =? i))
                                     (bapb_items s)) s)) ;;
         match error r with
         | Some deleteError => throw deleteError
         | None =>
             match l with
             | _ :: _ =>
                 let itemsToCreate := map (bapb_item_row i) l in
                 r2 <- query op_insert "bapb_items"
                         (fun s => (@empty_reply unit,
                                    set_bapb_items (bapb_items s ++ itemsToCreate) s)) ;;
                 match error r2 with
                 | Some insertError => throw insertError
                 | None => ret tt
                 end
             | [] => ret tt
             end
         end
     | None => ret tt
     end ;;;
     Repository.findByIdWithRelations BAPB i)
    (fun e => throw e).

End BAPBRepository.

Definition with_total (p : Patch) (v : JsTotal) : Patch :=
  {| p_status := p_status p; p_rejection_reason := p_rejection_reason p;
     p_reviewer_id := p_reviewer_id p; p_notes := p_notes p;
     p_order_number := p_order_number p; p_delivery_date := p_delivery_date p;
     p_contract_number := p_contract_number p; p_project_name := p_project_name p;
     p_project_location := p_project_location p; p_start_date := p_start_date p;
     p_end_date := p_end_date p; p_completion_date := p_completion_date p;
     p_total_progress := Some v |}.

Definition doc_with_total (d : Doc) (v : JsTotal) : Doc :=
  {| id := id d; number := number d; vendor_id := vendor_id d;
     reviewer_id := reviewer_id d; status := status d;
     rejection_reason := rejection_reason d; notes := notes d;
     order_number := order_number d; delivery_date := delivery_date d;
     contract_number := contract_number d; project_name := project_name d;
     project_location := project_location d; start_date := start_date d;
     end_date := end_date d; completion_date := completion_date d;
     total_progress := v; created_at := created_at d |}.

Module BAPPRepository.

(** [createWithWorkItems(bappData, workItems = [])]. *)
Definition createWithWorkItems (bappData : Doc)
           (workItems : option (list WorkItemInput)) : M (option DocWithRelations) :=
  try_catch
    (let totalProgress :=
       _calculateTotalProgress (match workItems with
                                | None => Some []
                                | Some l => Some l
                                end) in
     created <- BaseRepository.create BAPP (doc_with_total bappData totalProgress) ;;
     match created with
     | None => throw reading_id_of_null
     | Some bapp =>
         match workItems with
         | Some (x :: l) =>
             let itemsToCreate := map (work_item_row (id bapp)) (x :: l) in
             r <- query op_insert "bapp_work_items"
                    (fun s => (ok_reply itemsToCreate,
                               set_bapp_work_items
                                 (bapp_work_items s ++ itemsToCreate) s)) ;;
             match error r with
             | Some itemsError =>
                 (* Rollback: delete the BAPP if items creation failed *)
                 BaseRepository.delete BAPP (id bapp) ;;;
                 throw (Error_ ("Failed to create BAPP work items: "
                                  ++ err_message itemsError))
             | None => ret tt
             end
         | _ => ret tt
         end ;;;
         Repository.findByIdWithRelations BAPP (id bapp)
     end)
    (fun e => throw e).

(** [updateWithWorkItems(id, bappData, workItems = null)]. *)
Definition updateWithWorkItems (i : Id) (bappData : Patch)
           (workItems : option (list WorkItemInput)) : M (option DocWithRelations) :=
  try_catch
    (updateData <-
       match workItems with
       | Some l =>
           r <- query op_delete "bapp_work_items"
                  (fun s => (@empty_reply unit,
                             set_bapp_work_items
                               (filter (fun x => negb (wi_bapp_id x =? i))
                                       (bapp_work_items s)) s)) ;;
           match error r with
           | Some deleteError => throw deleteError
           | None =>
               match l with
               | _ :: _ =>
                   let itemsToCreate := map (work_item_row i) l in
                   r2 <- query op_insert "bapp_work_items"
                           (fun s => (@empty_reply unit,
                                      set_bapp_work_items
                                        (bapp_work_items s ++ itemsToCreate) s)) ;;
                   match error r2 with
                   | Some insertError => throw insertError
                   | None => ret tt
                   end
               | [] => ret tt
               end
           end ;;;
           ret (with_total bappData (_calculateTotalProgress (Some l)))
       | None => ret bappData
       end ;;
     BaseRepository.update BAPP i updateData ;;;
     Repository.findByIdWithRelations BAPP i)
    (fun e => throw e).

End BAPPRepository.

(** ** The document controllers *)

(** [canManageBAPB] / [canManageBAPP]. *)
Definition canManage (t : DocType) (userRole : string) : bool :=
  Js.includes (match t with
               | BAPB => ["vendor_barang"; "vendor"; "admin"]
               | BAPP => ["vendor_jasa"; "vendor"; "admin"]
               end) userRole.

(** [isVendorBarang] / [isVendorJasa]. *)
Definition isVendor (t : DocType) (userRole : string) : bool :=
  Js.includes (match t with
               | BAPB => ["vendor_barang"; "vendor"]
               | BAPP => ["vendor_jasa"; "vendor"]
               end) userRole.

Definition epoch : DateTime := mkDate 1970 0 1 0 0 0 0.

(** A row with only the store's column defaults. *)
Definition blank_doc : Doc :=
  {| id := 0; number := EmptyString; vendor_id := 0; reviewer_id := None; status := draft;
     rejection_reason := None; notes := None; order_number := None;
     delivery_date := None; contract_number := None; project_name := None;
     project_location := None; start_date := None; end_date := None;
     completion_date := None; total_progress := TotalNumber 0;
     created_at := epoch |}.

Record CreateBAPBReq := {
  cb_user : User;
  cb_orderNumber : option string;
  cb_deliveryDate : option string;
  cb_items : option (list BapbItemInput);
  cb_notes : option string
}.

(** The loop "Validate each item" of [createBAPB]: the first complaint. *)
Fixpoint validate_items (k : nat) (l : list BapbItemInput) : option string :=
  match l with
  | [] => None
  | item :: rest =>
      let label := "Item " ++ Js.String_ (k + 1) in
      if negb (Js.truthy (in_itemName item)) then
        Some (label ++ ": itemName is required")
      else if is_none (in_quantityOrdered item) then
        Some (label ++ ": quantityOrdered is required")
      else if is_none (in_quantityReceived item) then
        Some (label ++ ": quantityReceived is required")
      else if negb (Js.truthy (in_unit item)) then
        Some (label ++ ": unit is required")
      else validate_items (S k) rest
  end.

Fixpoint validate_work_items (k : nat) (l : list WorkItemInput) : option string :=
  match l with
  | [] => None
  | item :: rest =>
      let label := "Work item " ++ Js.String_ (k + 1) in
      if negb (Js.truthy (in_workItemName item)) then
        Some (label ++ ": workItemName is required")
      else if is_none (in_plannedProgress item) then
        Some (label ++ ": plannedProgress is required")
      else if is_none (in_actualProgress item) then
        Some (label ++ ": actualProgress is required")
      else if negb (Js.truthy (in_wi_unit item)) then
        Some (label ++ ": unit is required")
      else validate_work_items (S k) rest
  end.

(** [createBAPB]. *)
Definition createBAPB (req : CreateBAPBReq) : M Response :=
  try_catch
    (if negb (canManage BAPB (user_role (cb_user req))) then
       ret (refusal 403 "Access denied. Only vendor barang can create BAPB"
                    ("Your role (" ++ user_role (cb_user req)
                     ++ ") is not authorized to create BAPB. Only vendor_barang can create BAPB for goods delivery."))
     else
       match cb_items req with
       | None | Some [] =>
           ret (failure 400 "At least one item is required. Please provide items array.")
       | Some items =>
           match validate_items 0 items with
           | Some complaint => ret (failure 400 complaint)
           | None =>
               bapbNumber <- generateBAPBNumber ;;
               let bapbData :=
                 {| id := 0; number := bapbNumber;
                    vendor_id := user_id (cb_user req); reviewer_id := None;
                    status := draft; rejection_reason := None;
                    notes := cb_notes req; order_number := cb_orderNumber req;
                    delivery_date := cb_deliveryDate req; contract_number := None;
                    project_name := None; project_location := None;
                    start_date := None; end_date := None; completion_date := None;
                    total_progress := TotalNumber 0; created_at := epoch |} in
               created <- BAPBRepository.createWithItems bapbData (Some items) ;;
               match created with
               | None => throw reading_id_of_null
               | Some bapb =>
                   if items_length (w_items bapb) =? 0 then
                     ret (failure 500 "BAPB created but items were not saved properly. Please try again.")
                   else ret (done 201 "BAPB created successfully" (Some bapb) None)
               end
           end
       end)
    (fun e => ret (server_error "Error creating BAPB" e)).

Record CreateBAPPReq := {
  cp_user : User;
  cp_contractNumber : option string;
  cp_projectName : option string;
  cp_projectLocation : option string;
  cp_startDate : option string;
  cp_endDate : option string;
  cp_completionDate : option string;
  cp_workItems : option (list WorkItemInput);
  cp_notes : option string
}.

(** [createBAPP]. *)
Definition createBAPP (req : CreateBAPPReq) : M Response :=
  try_catch
    (if negb (canManage BAPP (user_role (cp_user req))) then
       ret (refusal 403 "Access denied. Only vendor jasa can create BAPP"
                    ("Your role (" ++ user_role (cp_user req)
                     ++ ") is not authorized to create BAPP. Please contact administrator if you need access."))
     else if negb (Js.truthy (cp_contractNumber req) && Js.truthy (cp_projectName req)
                   && Js.truthy (cp_projectLocation req) && Js.truthy (cp_startDate req)
                   && Js.truthy (cp_endDate req)) then
       ret (failure 400 "Contract number, project name, location, start date, and end date are required")
     else
       match cp_workItems req with
       | None | Some [] =>
           ret (failure 400 "At least one work item is required. Please provide workItems array.")
       | Some workItems =>
           match validate_work_items 0 workItems with
           | Some complaint => ret (failure 400 complaint)
           | None =>
               bappNumber <- generateBAPPNumber ;;
               let bappData :=
                 {| id := 0; number := bappNumber;
                    vendor_id := user_id (cp_user req); reviewer_id := None;
                    status := draft; rejection_reason := None;
                    notes := cp_notes req; order_number := None;
                    delivery_date := None;
                    contract_number := cp_contractNumber req;
                    project_name := cp_projectName req;
                    project_location := cp_projectLocation req;
                    start_date := cp_startDate req; end_date := cp_endDate req;
                    completion_date := cp_completionDate req;
                    total_progress := TotalNumber 0; created_at := epoch |} in
               created <- BAPPRepository.createWithWorkItems bappData (Some workItems) ;;
               match created with
               | None => throw reading_id_of_null
               | Some bapp =>
                   if items_length (w_items bapp) =? 0 then
                     ret (failure 500 "BAPP created but work items were not saved properly. Please try again.")
                   else ret (done 201 "BAPP created successfully" (Some bapp) None)
               end
           end
       end)
    (fun e => ret (server_error "Error creating BAPP" e)).

(** [if (x) updateData.col = x]. *)
Definition if_truthy (x : option string) : option string :=
  if Js.truthy x then x else None.

Record UpdateBAPBReq := {
  ub_user : User;
  ub_id : Id;
  ub_orderNumber : option string;
  ub_deliveryDate : option string;
  ub_notes : option (option string);      (* [None] is [undefined] *)
  ub_items : option (list BapbItemInput)  (* [None]: no array in the body *)
}.

(** The part of [updateData] that says "If was in revision, change to draft". *)
Definition back_to_draft (d : Doc) : option Status :=
  if Status_eqb (status d) revision_required then Some draft else None.

Definition clear_reason (d : Doc) : option (option string) :=
  if Status_eqb (status d) revision_required then Some None else None.

(** "Prepare update data" of [updateBAPB], with "If was in revision,
    change to draft". *)
Definition updateDataBAPB (req : UpdateBAPBReq) (bapb : Doc) : Patch :=
  {| p_status := back_to_draft bapb;
     p_rejection_reason := clear_reason bapb;
     p_reviewer_id := None;
     p_notes := ub_notes req;
     p_order_number := if_truthy (ub_orderNumber req);
     p_delivery_date := if_truthy (ub_deliveryDate req);
     p_contract_number := None; p_project_name := None;
     p_project_location := None; p_start_date := None;
     p_end_date := None; p_completion_date := None;
     p_total_progress := None |}.

(** [updateBAPB]. *)
Definition updateBAPB (req : UpdateBAPBReq) : M Response :=
  try_catch
    (found <- BaseRepository.findById BAPB (ub_id req) ;;
     match found with
     | None => ret (failure 404 "BAPB not found")
     | Some bapb =>
         if isVendor BAPB (user_role (ub_user req))
            && negb (vendor_id bapb =? user_id (ub_user req)) then
           ret (failure 403 "Not authorized to update this BAPB")
         else if negb (canManage BAPB (user_role (ub_user req))) then
           ret (failure 403 "Access denied. Only vendor barang can update BAPB")
         else if negb (status_in [draft; revision_required] (status bapb)) then
           ret (failure 400 "Cannot update BAPB that is not in draft or revision status")
         else
           updatedBAPB <- BAPBRepository.updateWithItems (ub_id req)
                            (updateDataBAPB req bapb) (ub_items req) ;;
           ret (done 200 "BAPB updated successfully" updatedBAPB None)
     end)
    (fun e => ret (server_error "Error updating BAPB" e)).

Record UpdateBAPPReq := {
  up_user : User;
  up_id : Id;
  up_contractNumber : option string;
  up_projectName : option string;
  up_projectLocation : option string;
  up_startDate : option string;
  up_endDate : option string;
  up_completionDate : option (option string);
  up_notes : option (option string);
  up_workItems : option (list WorkItemInput)
}.

(** "Prepare update data" of [updateBAPP]. *)
Definition updateDataBAPP (req : UpdateBAPPReq) (bapp : Doc) : Patch :=
  {| p_status := back_to_draft bapp;
     p_rejection_reason := clear_reason bapp;
     p_reviewer_id := None;
     p_notes := up_notes req;
     p_order_number := None; p_delivery_date := None;
     p_contract_number := if_truthy (up_contractNumber req);
     p_project_name := if_truthy (up_projectName req);
     p_project_location := if_truthy (up_projectLocation req);
     p_start_date := if_truthy (up_startDate req);
     p_end_date := if_truthy (up_endDate req);
     p_completion_date := up_completionDate req;
     p_total_progress := None |}.

(** [updateBAPP]. *)
Definition updateBAPP (req : UpdateBAPPReq) : M Response :=
  try_catch
    (found <- BaseRepository.findById BAPP (up_id req) ;;
     match found with
     | None => ret (failure 404 "BAPP not found")
     | Some bapp =>
         if isVendor BAPP (user_role (up_user req))
            && negb (vendor_id bapp =? user_id (up_user req)) then
           ret (failure 403 "Not authorized to update this BAPP")
         else if negb (canManage BAPP (user_role (up_user req))) then
           ret (failure 403 "Access denied. Only vendor jasa can update BAPP")
         else if negb (status_in [draft; revision_required] (status bapp)) then
           ret (failure 400 "Cannot update BAPP that is not in draft or revision status")
         else
           updatedBAPP <- BAPPRepository.updateWithWorkItems (up_id req)
                            (updateDataBAPP req bapp) (up_workItems req) ;;
           ret (done 200 "BAPP updated successfully" updatedBAPP None)
     end)
    (fun e => ret (server_error "Error updating BAPP" e)).

(** [req.user] and [req.params.id]. *)
Record DocReq := { dr_user : User; dr_id : Id }.

Definition vendor_label (t : DocType) : string :=
  match t with BAPB => "vendor barang" | BAPP => "vendor jasa" end.

Definition item_label (t : DocType) : string :=
  match t with BAPB => "item" | BAPP => "work item" end.

(** [deleteBAPB] / [deleteBAPP]. *)
Definition deleteDoc (t : DocType) (req : DocReq) : M Response :=
  try_catch
    (found <- BaseRepository.findById t (dr_id req) ;;
     match found with
     | None => ret (failure 404 (DocType_name t ++ " not found"))
     | Some doc =>
         if isVendor t (user_role (dr_user req))
            && negb (vendor_id doc =? user_id (dr_user req)) then
           ret (failure 403 ("Not authorized to delete this " ++ DocType_name t))
         else if negb (canManage t (user_role (dr_user req))) then
           ret (failure 403 ("Access denied. Only " ++ vendor_label t
                               ++ " can delete " ++ DocType_name t))
         else if negb (Status_eqb (status doc) draft) then
           ret (failure 400 ("Can only delete " ++ DocType_name t ++ " in draft status"))
         else
           BaseRepository.delete t (dr_id req) ;;;
           ret (done 200 (DocType_name t ++ " deleted successfully") None None)
     end)
    (fun e => ret (server_error ("Error deleting " ++ DocType_name t) e)).

Definition deleteBAPB := deleteDoc BAPB.
Definition deleteBAPP := deleteDoc BAPP.

(** [submitBAPB] / [submitBAPP]. *)
Definition submit (t : DocType) (req : DocReq) : M Response :=
  try_catch
    (found <- Repository.findByIdWithRelations t (dr_id req) ;;
     match found with
     | None => ret (failure 404 (DocType_name t ++ " not found"))
     | Some doc =>
         if negb (vendor_id (w_doc doc) =? user_id (dr_user req)) then
           ret (failure 403 ("Not authorized to submit this " ++ DocType_name t))
         else if negb (canManage t (user_role (dr_user req))) then
           ret (failure 403 ("Access denied. Only " ++ vendor_label t
                               ++ " can submit " ++ DocType_name t))
         else if negb (status_in [draft; revision_required] (status (w_doc doc))) then
           ret (failure 400 ("Can only submit " ++ DocType_name t
                               ++ " in draft or revision status"))
         else if items_length (w_items doc) =? 0 then
           ret (failure 400 (DocType_name t ++ " must have at least one "
                               ++ item_label t ++ ". Please add "
                               ++ item_label t ++ "s before submitting."))
         else
           Repository.updateStatus t (dr_id req) submitted ;;;
           notificationService.notifySubmitted t (w_doc doc) ;;;
           updated <- Repository.findByIdWithRelations t (dr_id req) ;;
           ret (done 200 (DocType_name t ++ " submitted successfully") updated None)
     end)
    (fun e => ret (server_error ("Error submitting " ++ DocType_name t) e)).

Definition submitBAPB := submit BAPB.
Definition submitBAPP := submit BAPP.

(** ** Signature upload (signatureController.js) *)

Record SignatureReq := {
  sg_user : User;
  sg_id : Id;
  sg_signatureData : option string
}.

(** [/^data:image\/(png|jpeg|jpg);base64,/.test(s)]. *)
Definition is_base64_image (s : string) : bool :=
  String.prefix "data:image/png;base64," s
  || String.prefix "data:image/jpeg;base64," s
  || String.prefix "data:image/jpg;base64," s.

Definition signer_role (t : DocType) : string :=
  match t with BAPB => "vendor_barang" | BAPP => "vendor_jasa" end.

(** [uploadBAPBSignature] / [uploadBAPPSignature].  The file system is
    not modelled: the upload directory and the image file are taken to be
    written (a failure there is answered 500 before the insert), and the
    file name leaves out the [Date.now()] stamp. *)
Definition uploadSignature (t : DocType) (req : SignatureReq) : M Response :=
  let userId := user_id (sg_user req) in
  try_catch
    (match sg_signatureData req with
     | None | Some EmptyString => ret (failure 400 "Signature data is required")
     | Some signatureData =>
         if negb (is_base64_image signatureData) then
           ret (failure 400 "Invalid signature format. Must be base64 image data")
         else
           found <- BaseRepository.findById t (sg_id req) ;;
           match found with
           | None => ret (failure 404 (DocType_name t ++ " not found"))
           | Some doc =>
               if negb ((String.eqb (user_role (sg_user req)) (signer_role t)
                         && (vendor_id doc =? userId))
                        || Js.includes (reviewer_roles t) (user_role (sg_user req))) then
                 ret (failure 403 ("Not authorized to sign this " ++ DocType_name t))
               else
                 let filename := lower_name t ++ "_" ++ Js.String_ (sg_id req) ++ "_"
                                   ++ Js.String_ userId ++ ".png" in
                 let row := {| at_doc_id := sg_id req; file_type := "signature";
                               file_path := "/uploads/signatures/" ++ filename;
                               file_name := filename; uploaded_by := userId |} in
                 r <- query op_insert (attachments_table t)
                        (fun s => (ok_reply row,
                                   set_attachments t
                                     (attachments (tables t s) ++ [row]) s)) ;;
                 throw_on_error r ;;;
                 ret (done 201 "Signature uploaded successfully" None None)
           end
     end)
    (fun e => ret (server_error "Error uploading signature" e)).

Definition uploadBAPBSignature := uploadSignature BAPB.
Definition uploadBAPPSignature := uploadSignature BAPP.

(** ** paymentService *)

Record PaymentData := {
  pd_amount : option Q;
  pd_paymentMethod : option string;
  pd_contractAmount : option Q
}.

Record GatewayResult := {
  gw_status : string;
  gw_transactionId : Q;
  gw_errorMessage : option string
}.

Definition failureReasons : list string :=
  ["Insufficient funds in system account";
   "Vendor bank account validation failed";
   "Daily transaction limit exceeded";
   "Payment gateway timeout";
   "Vendor account suspended"].

(** [simulatePaymentGateway(paymentRequest)]; the delay is not modelled. *)
Definition simulatePaymentGateway : M GatewayResult :=
  _delay <- Math_random ;;
  transactionId <- Math_random ;;
  r <- Math_random ;;
  if negb (Qle_bool r (5 # 100)) then
    ret {| gw_status := "success"; gw_transactionId := transactionId;
           gw_errorMessage := None |}
  else
    pick <- Math_random ;;
    ret {| gw_status := "failed"; gw_transactionId := transactionId;
           gw_errorMessage :=
             Some (nth (Z.to_nat (Qfloor (pick * 5))) failureReasons EmptyString) |}.

(** [logPaymentAttempt(logData)]: the reply of the insert is not looked at,
    and the whole body sits in [try { } catch { console.error }]. *)
Definition logPaymentAttempt (row : PaymentLog) : M unit :=
  try_catch
    (query op_insert "payment_logs"
       (fun s => (@empty_reply unit, set_payment_logs (payment_logs s ++ [row]) s)) ;;;
     ret tt)
    (fun _ => ret tt).

Record PaymentResult := {
  pr_success : bool;
  pr_status : string;
  pr_transactionId : Q;
  pr_paidAmount : option Q
}.

Definition or_default (x : option string) (d : string) : string :=
  match or_str x (Some d) with Some v => v | None => d end.

(** [processBAPBPayment(bapbId, paymentData)]. *)
Definition processBAPBPayment (bapbId : Id) (paymentData : PaymentData)
  : M PaymentResult :=
  try_catch
    (found <- Repository.findByIdWithRelations BAPB bapbId ;;
     match found with
     | None => throw (Error_ "BAPB not found")
     | Some w =>
         let bapb := w_doc w in
         if negb (Status_eqb (status bapb) approved) then
           throw (Error_ "BAPB must be approved before payment processing")
         else
           paymentResult <- simulatePaymentGateway ;;
           logPaymentAttempt
             {| pl_document_type := "BAPB"; pl_document_id := id bapb;
                pl_vendor_id := vendor_id bapb; pl_amount := pd_amount paymentData;
                pl_payment_method :=
                  or_default (pd_paymentMethod paymentData) "bank_transfer";
                pl_status := gw_status paymentResult;
                pl_transaction_id := gw_transactionId paymentResult |} ;;;
           (if String.eqb (gw_status paymentResult) "success" then
              notificationService.notifyPaymentProcessed (vendor_id bapb) "BAPB"
                (id bapb) (pd_amount paymentData)
            else ret tt) ;;;
           ret {| pr_success := true; pr_status := gw_status paymentResult;
                  pr_transactionId := gw_transactionId paymentResult;
                  pr_paidAmount := pd_amount paymentData |}
     end)
    (fun e => throw e).

(** [(paymentData.contractAmount * bapp.total_progress) / 100]; [None] is [NaN]. *)
Definition progressBasedAmount (paymentData : PaymentData) (bapp : Doc) : option Q :=
  match pd_contractAmount paymentData with
  | Some c => Some (c * JsTotal_value (total_progress bapp) / 100)%Q
  | None => None
  end.

(** [processBAPPPayment(bappId, paymentData)]. *)
Definition processBAPPPayment (bappId : Id) (paymentData : PaymentData)
  : M PaymentResult :=
  try_catch
    (found <- Repository.findByIdWithRelations BAPP bappId ;;
     match found with
     | None => throw (Error_ "BAPP not found")
     | Some w =>
         let bapp := w_doc w in
         if negb (Status_eqb (status bapp) approved) then
           throw (Error_ "BAPP must be approved before payment processing")
         else
           let amount := or_num (pd_amount paymentData)
                                (progressBasedAmount paymentData bapp) in
           paymentResult <- simulatePaymentGateway ;;
           logPaymentAttempt
             {| pl_document_type := "BAPP"; pl_document_id := id bapp;
                pl_vendor_id := vendor_id bapp; pl_amount := amount;
                pl_payment_method :=
                  or_default (pd_paymentMethod paymentData) "bank_transfer";
                pl_status := gw_status paymentResult;
                pl_transaction_id := gw_transactionId paymentResult |} ;;;
           (if String.eqb (gw_status paymentResult) "success" then
              notificationService.notifyPaymentProcessed (vendor_id bapp) "BAPP"
                (id bapp) (pd_amount paymentData)
            else ret tt) ;;;
           ret {| pr_success := true; pr_status := gw_status paymentResult;
                  pr_transactionId := gw_transactionId paymentResult;
                  pr_paidAmount := amount |}
     end)
    (fun e => throw e).

Record Readiness := {
  ready : bool;
  rd_reason : string;
  blockers : list string;
  rd_document : option Doc
}.

Definition is_success_log (documentType : string) (documentId : Id)
           (l : PaymentLog) : bool :=
  String.eqb (pl_document_type l) documentType
  && (pl_document_id l =? documentId)
  && String.eqb (pl_status l) "success".

(** [checkPaymentReadiness(documentType, documentId)]. *)
Definition checkPaymentReadiness (documentType : string) (documentId : Id)
  : M Readiness :=
  try_catch
    (let t := if String.eqb documentType "BAPB" then BAPB else BAPP in
     found <- BaseRepository.findById t documentId ;;
     match found with
     | None =>
         ret {| ready := false; rd_reason := "Document not found";
                blockers := ["Document does not exist"]; rd_document := None |}
     | Some document =>
         let b1 := if negb (Status_eqb (status document) approved)
                   then ["Document is not approved"] else [] in
         r <- query op_select "payment_logs"
                (fun s => (ok_reply (filter (is_success_log documentType documentId)
                                            (payment_logs s)), s)) ;;
         let b2 := match data r with
                   | Some (_ :: _) => ["Payment already processed for this document"]
                   | _ => []
                   end in
         vendor <- UserRepository.findById (vendor_id document) ;;
         let b3 := match vendor with
                   | Some v => if is_active v then []
                               else ["Vendor account is inactive or not found"]
                   | None => ["Vendor account is inactive or not found"]
                   end in
         let blockers := (b1 ++ b2 ++ b3)%list in
         ret {| ready := (List.length blockers =? 0);
                rd_reason := if 0 <? List.length blockers
                             then "Document not ready for payment"
                             else "Document ready for payment";
                blockers := blockers;
                rd_document := Some document |}
     end)
    (fun e => throw e).

(** ** Vocabulary of the statements *)

Local Open Scope list_scope.

Definition ev (op : Op) (table : string) (ok : bool) : Event :=
  {| ev_op := op; ev_table := table; ev_ok := ok |}.

(** The tables after [update(data).eq('id', i)] went through. *)
Definition patched (t : DocType) (i : Id) (p : Patch) (s : Store) : Store :=
  set_docs t (map (fun d => if has_id i d then apply_patch p d else d)
                  (docs (tables t s))) s.

(** The outcome and the final world of a run. *)
Definition result_of {A} (m : M A) (w : World) : Outcome A := fst (m w).
Definition world_after {A} (m : M A) (w : World) : World := snd (m w).

(** The calls a run added to the trace. *)
Definition calls_of {A} (m : M A) (w : World) : list Event :=
  skipn (List.length (trace w)) (trace (snd (m w))).

(** The tables after an approval record, a notification went in. *)
Definition recorded (t : DocType) (a : Approval) (s : Store) : Store :=
  set_approvals t (approvals (tables t s) ++ [a]) s.

Definition noted (n : Notification) (s : Store) : Store :=
  set_notifications (notifications s ++ [n]) s.

(** ** The system as a whole *)

Inductive Request :=
| ReqCreateBAPB (r : CreateBAPBReq)
| ReqCreateBAPP (r : CreateBAPPReq)
| ReqUpdateBAPB (r : UpdateBAPBReq)
| ReqUpdateBAPP (r : UpdateBAPPReq)
| ReqDelete (t : DocType) (r : DocReq)
| ReqSubmit (t : DocType) (r : DocReq)
| ReqApproveBAPB (r : ApprovalReq)
| ReqApproveBAPBMain (r : ApprovalReq)
| ReqApproveBAPP (r : ApprovalReq)
| ReqReject (t : DocType) (r : ApprovalReq)
| ReqRevision (t : DocType) (r : ApprovalReq)
| ReqUploadSignature (t : DocType) (r : SignatureReq)
| ReqPayBAPB (i : Id) (p : PaymentData)
| ReqPayBAPP (i : Id) (p : PaymentData)
| ReqReadiness (documentType : string) (i : Id).

(** The world once the request has been answered. *)
Definition serve (r : Request) (w : World) : World :=
  match r with
  | ReqCreateBAPB r => snd (createBAPB r w)
  | ReqCreateBAPP r => snd (createBAPP r w)
  | ReqUpdateBAPB r => snd (updateBAPB r w)
  | ReqUpdateBAPP r => snd (updateBAPP r w)
  | ReqDelete t r => snd (deleteDoc t r w)
  | ReqSubmit t r => snd (submit t r w)
  | ReqApproveBAPB r => snd (approveBAPB r w)
  | ReqApproveBAPBMain r => snd (BackendMain.approveBAPB r w)
  | ReqApproveBAPP r => snd (approveBAPP r w)
  | ReqReject t r => snd (reject t r w)
  | ReqRevision t r => snd (requestRevision t r w)
  | ReqUploadSignature t r => snd (uploadSignature t r w)
  | ReqPayBAPB i p => snd (processBAPBPayment i p w)
  | ReqPayBAPP i p => snd (processBAPPPayment i p w)
  | ReqReadiness dt i => snd (checkPaymentReadiness dt i w)
  end.

(** Worlds the handlers can bring about, starting without approval
    records.  Between two requests the clock, the faults of the store and
    the random numbers are whatever the environment makes them. *)
Inductive reachable : World -> Prop :=
| reach_start (w : World) :
    approvals (bapb (db w)) = [] -> approvals (bapp (db w)) = [] -> reachable w
| reach_serve (w : World) (r : Request) :
    reachable w -> reachable (serve r w)
| reach_env (w w' : World) :
    reachable w -> db w' = db w -> reachable w'.

(** The approval records with action [approved] of one (document, approver). *)
Definition approved_by (t : DocType) (i u : Id) (s : Store) : list Approval :=
  filter (is_approved_by i u) (approvals (tables t s)).

(** The handlers of [POST /:id/approve] for a document type. *)
Definition approve_handler (t : DocType) (h : ApprovalReq -> M Response) : Prop :=
  match t with
  | BAPB => h = approveBAPB \/ h = BackendMain.approveBAPB
  | BAPP => h = approveBAPP
  end.

(** A computation that leaves [f] of the tables as it found it. *)
Definition keeps {X A} (f : Store -> X) (m : M A) : Prop :=
  forall w, f (db (snd (m w))) = f (db w).

Definition all_approvals (s : Store) : list Approval * list Approval :=
  (approvals (bapb s), approvals (bapp s)).

(** The approval record and the patch written by an approve call. *)
Definition approval_of (req : ApprovalReq) (act : Action) : Approval :=
  {| ap_doc_id := rq_id req; approver_id := user_id (rq_user req);
     action := act; ap_notes := rq_notes req |}.

Definition approve_patch (t : DocType) (req : ApprovalReq) (d : Doc) : Patch :=
  status_patch approved None
    (if is_none (reviewer_id d)
        && String.eqb (user_role (rq_user req)) (primary_role t)
     then Some (user_id (rq_user req)) else None).

(** What the handler answers when its commit sequence threw or returned. *)
Definition answered (failed : string) (x : Outcome Response * World)
  : Outcome Response * World :=
  match x with
  | (Returned r, w) => (Returned r, w)
  | (Thrown e, w) => (Returned (server_error failed e), w)
  end.

(** A signature step that does not write. *)
Definition quiet (step : Id -> Id -> M (Response + option string)) : Prop :=
  forall i u w, db (snd (step i u w)) = db w.

(** At most one [approved] record per (document, approver). *)
Definition at_most_one_approval (s : Store) : Prop :=
  forall t i u, List.length (approved_by t i u s) <= 1.

(** ** Approval-cycle transitions *)





Definition Op_eqb (a b : Op) : bool :=
  match a, b with
  | op_select, op_select | op_insert, op_insert
  | op_update, op_update | op_delete, op_delete => true
  | _, _ => false
  end.



(** Does every [later] call in [evs] come after a [first] call ([seen]:
    one was met already)? *)
Fixpoint each_after (first later : Event -> bool) (seen : bool) (evs : list Event)
  : bool :=
  match evs with
  | [] => true
  | e :: rest =>
      if later e then seen && each_after first later seen rest
      else each_after first later (seen || first e) rest
  end.



(** A signature step that only reads, and whose refusal is not a 200. *)
Definition read_step (step : Id -> Id -> M (Response + option string)) : Prop :=
  forall i u w,
    db (snd (step i u w)) = db w
    /\ (forall r, fst (step i u w) = Returned (inl r) -> code r <> 200)
    /\ exists evs,
        trace (snd (step i u w)) = trace w ++ evs
        /\ Forall (fun e => ev_op e = op_select) evs.



(** The store accepts every call from now on. *)
Definition no_faults (w : World) : Prop :=
  forall n, ncalls w <= n -> fault_at w n = false.

(** The signature attachments of [u] on document [i]. *)
Definition signatures_of (t : DocType) (i u : Id) (s : Store) : list Attachment :=
  filter (is_signature_of i u) (attachments (tables t s)).

Definition unsigned_warning : string :=
  "Approved without signature - please upload signature for complete documentation".

(** The warning of [approveBAPB] when the lookup of the signature came
    back with an error. *)
Definition unverified_warning : string := "Could not verify signature status".

(** The store refuses one of the calls of an approval by a caller without
    signature whose error the handler surfaces (it answers 500): the
    lookup of the document and the lookup of the caller's [approved]
    record, and for a BAPB, which goes on, the insert of the approval
    record, the update of the status and the final read.  The third call
    (the lookup of the signature) and the sixth (the insert of the
    notification) are not among them: their errors are swallowed. *)
Definition approve_call_refused (t : DocType) (w : World) : bool :=
  let c := ncalls w in
  fault_at w c || fault_at w (1 + c)
  || match t with
     | BAPP => false
     | BAPB => fault_at w (3 + c) || fault_at w (4 + c) || fault_at w (6 + c)
     end.

(** The tables after [create] inserted [d] at time [clock], and after
    [delete(i)] (with the cascade) went through. *)
Definition inserted (t : DocType) (clock : DateTime) (d : Doc) (s : Store) : Store :=
  set_next_id (S (next_id s))
    (set_docs t (docs (tables t s) ++ [stamp (next_id s) clock d]) s).

Definition deleted (t : DocType) (i : Id) (s : Store) : Store :=
  BaseRepository.cascade t i
    (set_docs t (filter (fun d => negb (has_id i d)) (docs (tables t s))) s).

(** The line items of a document type, as a number of rows. *)
Definition item_rows (t : DocType) (s : Store) : nat :=
  match t with
  | BAPB => List.length (bapb_items s)
  | BAPP => List.length (bapp_work_items s)
  end.

(** The aggregated error of a failed create. *)
Definition items_error (t : DocType) (e : Error) : Error :=
  Error_ (match t with
          | BAPB => "Failed to create BAPB items: "
          | BAPP => "Failed to create BAPP work items: "
          end ++ err_message e)%string.

(** The row a create writes: as given for a BAPB, with the total
    progress of the work items for a BAPP. *)
Definition row_written (t : DocType) (d : Doc) (work : list WorkItemInput) : Doc :=
  match t with
  | BAPB => d
  | BAPP => doc_with_total d (_calculateTotalProgress (Some work))
  end.

(** The line items of a document type, all of them. *)
Definition item_table (t : DocType) (s : Store) : Items :=
  match t with
  | BAPB => GoodsItems (bapb_items s)
  | BAPP => WorkItems (bapp_work_items s)
  end.

(** [createWithItems] / [createWithWorkItems], by document type. *)
Definition create_with_children (t : DocType) (d : Doc)
           (goods : list BapbItemInput) (work : list WorkItemInput)
  : M (option DocWithRelations) :=
  match t with
  | BAPB => BAPBRepository.createWithItems d (Some goods)
  | BAPP => BAPPRepository.createWithWorkItems d (Some work)
  end.

Definition children_given (t : DocType) (goods : list BapbItemInput)
           (work : list WorkItemInput) : nat :=
  match t with BAPB => List.length goods | BAPP => List.length work end.

(** The columns of the state machine, row by row. *)
Definition review_state (d : Doc) : Id * Status * option string :=
  (id d, status d, rejection_reason d).

(** [notes !== undefined ? notes : old]. *)
Definition or_defined {A} (new : option A) (old : A) : A :=
  match new with Some v => v | None => old end.

(** [x ? x : old] for an optional text column. *)
Definition truthy_or (new old : option string) : option string :=
  if Js.truthy new then new else old.

(** The caller may edit the document: the vendor who owns it, in a role
    that manages the document type. *)
Definition owning_vendor (t : DocType) (u : User) (d : Doc) : Prop :=
  vendor_id d = user_id u /\ canManage t (user_role u) = true.

Definition docs_of (t : DocType) (s : Store) : list Doc := docs (tables t s).

(** The patch [updateWithWorkItems] ends up writing. *)
Definition work_patch (p : Patch) (workItems : option (list WorkItemInput)) : Patch :=
  match workItems with
  | Some l => with_total p (_calculateTotalProgress (Some l))
  | None => p
  end.

(** *** The total progress in the words of the specification

    The specification's [computeTotalProgress]: the arithmetic mean of
    each item's actual-progress value, rounded to two decimals.  Both are
    stated on the work-item rows of a document and on exact rationals,
    independently of the repository's arithmetic. *)

(** The arithmetic mean of the [actual_progress] of the rows. *)
Definition mean_progress (rows : list WorkItem) : Q :=
  (fold_right Qplus 0 (map actual_progress rows)
   / inject_Z (Z.of_nat (List.length rows)))%Q.

(** [h] hundredths are [x] rounded to two decimals: no number of
    hundredths is nearer to [x] (halfway between two, either is). *)
Definition rounded_to_two_decimals (x : Q) (h : Z) : Prop :=
  (Qabs (inject_Z h - x * 100) <= 1 # 2)%Q.

(** The distance binary64 arithmetic may add for [n] values between 0
    and 100, in hundredths: [(n + 2) / 2^39]. *)
Definition drift (n : nat) : Q :=
  (inject_Z (Z.of_nat n + 2) * (1 # 549755813888))%Q.

(** A progress value is a percentage. *)
Definition percentage (x : Q) : Prop := (0 <= x)%Q /\ (x <= 100)%Q.

(** A whole number of percent. *)
Definition whole (x : Q) : Prop := exists z : Z, (x == inject_Z z)%Q.

(** The work-item rows of a hydrated document. *)
Definition work_rows (view : DocWithRelations) : list WorkItem :=
  match w_items view with
  | WorkItems l => l
  | GoodsItems _ => []
  end.

(** The store accepts the next [k] calls. *)
Definition accepts (k : nat) (w : World) : Prop :=
  forall j, j < k -> fault_at w (j + ncalls w) = false.

(** The item gives its progress under one name: [actual_progress] or
    [actualProgress], not both. *)
Definition one_spelling (item : WorkItemInput) : Prop :=
  in_actual_progress item = None \/ in_actualProgress item = None.

(** A work item as [createBAPP] validates it, with the given progress. *)
Definition work_item_with (name : string) (planned actual : Q) : WorkItemInput :=
  {| in_workItemName := Some name; in_work_item_name := None;
     in_plannedProgress := Some planned; in_planned_progress := None;
     in_actualProgress := Some actual; in_actual_progress := None;
     in_wi_unit := Some "m2"%string; in_quality := None; in_wi_notes := None |}.

(** ** Vocabulary of the numbering claim *)

(** [c] lies in the calendar month of [date]. *)
Definition in_calendar_month (date c : DateTime) : Prop :=
  dt_year c = dt_year date /\ dt_month c = dt_month date.

Definition in_calendar_monthb (date c : DateTime) : bool :=
  (dt_year c =? dt_year date) && (dt_month c =? dt_month date).

(** A date-time that exists on the calendar. *)
Definition valid_time (c : DateTime) : Prop :=
  1 <= dt_day c <= days_in_month (dt_year c) (dt_month c)
  /\ dt_hours c < 24 /\ dt_minutes c < 60 /\ dt_seconds c < 60 /\ dt_ms c < 1000.

(** The last second of the month of [c], after its first instant. *)
Definition in_last_second (c : DateTime) : Prop :=
  dt_day c = days_in_month (dt_year c) (dt_month c)
  /\ dt_hours c = 23 /\ dt_minutes c = 59 /\ dt_seconds c = 59 /\ 0 < dt_ms c.

(** The number the numbering scheme asks for when [count] documents of
    the type exist in the month of [date]. *)
Definition number_text (t : DocType) (date : DateTime) (count : nat) : string :=
  (DocType_name t ++ "/" ++ Js.String_ (dt_year date) ++ "/"
   ++ Js.padStart (Js.String_ (dt_month date + 1)) 2 "0" ++ "/"
   ++ Js.padStart (Js.String_ (count + 1)) 4 "0")%string.

(** ** Sample data *)

Module Sample.

Definition vendor : User :=
  {| user_id := 1; user_name := "PT Sumber Barang";
     user_role := "vendor_barang"; is_active := true |}.

Definition contractor : User :=
  {| user_id := 3; user_name := "CV Jasa Konstruksi";
     user_role := "vendor_jasa"; is_active := true |}.

Definition reviewer : User :=
  {| user_id := 2; user_name := "Approver"; user_role := "approver";
     is_active := true |}.

Definition march (day h m s ms : nat) : DateTime := mkDate 2024 2 day h m s ms.

(** A BAPB / BAPP row of the vendor, in the given status. *)
Definition doc (i : Id) (owner : Id) (st : Status) (reason : option string)
           (c : DateTime) : Doc :=
  {| id := i; number := EmptyString; vendor_id := owner; reviewer_id := None;
     status := st; rejection_reason := reason; notes := None;
     order_number := Some "PO-1"%string; delivery_date := Some "2024-03-10"%string;
     contract_number := None; project_name := None; project_location := None;
     start_date := None; end_date := None; completion_date := None;
     total_progress := TotalNumber 0; created_at := c |}.

Definition item (i : Id) : BapbItem :=
  {| bi_bapb_id := i; item_name := Some "Semen"%string;
     quantity_ordered := Some 10%Q; quantity_received := Some 10%Q;
     bi_unit := Some "sak"%string; condition := Some "good"%string;
     bi_notes := None |}.

Definition work (i : Id) : WorkItem :=
  {| wi_bapp_id := i; work_item_name := Some "Pondasi"%string;
     planned_progress := 50%Q; actual_progress := 40%Q;
     wi_unit := Some "m2"%string; quality := "acceptable"; wi_notes := None |}.

Definition no_tables : Tables := {| docs := []; approvals := []; attachments := [] |}.

(** A store with the given BAPB and BAPP rows, one line item each. *)
Definition store (goods : list Doc) (works : list Doc) : Store :=
  {| bapb := {| docs := goods; approvals := []; attachments := [] |};
     bapb_items := map (fun d => item (id d)) goods;
     bapp := {| docs := works; approvals := []; attachments := [] |};
     bapp_work_items := map (fun d => work (id d)) works;
     payment_logs := []; notifications := [];
     users := [vendor; reviewer; contractor]; next_id := 100 |}.

(** A world on [s] at [clock] whose store refuses the calls [refused]
    picks out, and whose random numbers are all [r]. *)
Definition world (s : Store) (clock : DateTime) (refused : nat -> bool) (r : Q)
  : World :=
  {| db := s; now := clock; fault_at := refused; ncalls := 0; trace := [];
     random := fun _ => r; ndraws := 0 |}.

Definition never : nat -> bool := fun _ => false.
Definition only (k : nat) : nat -> bool := fun n => n =? k.
Definition both (j k : nat) : nat -> bool := fun n => (n =? j) || (n =? k).

Definition approve_req (i : Id) : ApprovalReq :=
  {| rq_user := reviewer; rq_id := i; rq_notes := None; rq_reason := None |}.

End Sample.

(** ** Vocabulary of the payment claims *)

(** The repository [checkPaymentReadiness] picks for a document type. *)
Definition repository_of (documentType : string) : DocType :=
  if String.eqb documentType "BAPB" then BAPB else BAPP.

(** The vendor account of the document exists and is active. *)
Definition vendor_active (s : Store) (d : Doc) : bool :=
  match filter (fun u => user_id u =? vendor_id d) (users s) with
  | [v] => is_active v
  | _ => false
  end.

(** A payment log with status [success] exists for the document. *)
Definition already_paid (s : Store) (documentType : string) (i : Id) : bool :=
  negb (is_none (match filter (is_success_log documentType i) (payment_logs s) with
                 | [] => None
                 | x :: _ => Some x
                 end)).

Definition blocker_not_approved : string := "Document is not approved".
Definition blocker_paid : string := "Payment already processed for this document".
Definition blocker_vendor : string := "Vendor account is inactive or not found".

(** The world after [k] more random draws. *)
Definition drawn (k : nat) (w : World) : World :=
  {| db := db w; now := now w; fault_at := fault_at w; ncalls := ncalls w;
     trace := trace w; random := random w; ndraws := k + ndraws w |}.

(** Did the gateway settle, given the third draw? *)
Definition settles (w : World) : bool :=
  negb (Qle_bool (random w (2 + ndraws w)) (5 # 100)).

(** What [simulatePaymentGateway] returns in world [w]. *)
Definition gateway_result (w : World) : GatewayResult :=
  if settles w then
    {| gw_status := "success"; gw_transactionId := random w (1 + ndraws w);
       gw_errorMessage := None |}
  else
    {| gw_status := "failed"; gw_transactionId := random w (1 + ndraws w);
       gw_errorMessage :=
         Some (nth (Z.to_nat (Qfloor (random w (3 + ndraws w) * 5))) failureReasons
                   EmptyString) |}.

(** The payment log row of an attempt. *)
Definition payment_row (documentType : string) (d : Doc) (amount : option Q)
           (method : option string) (g : GatewayResult) : PaymentLog :=
  {| pl_document_type := documentType; pl_document_id := id d;
     pl_vendor_id := vendor_id d; pl_amount := amount;
     pl_payment_method := or_default method "bank_transfer";
     pl_status := gw_status g;
     pl_transaction_id := gw_transactionId g |}.

(** [processBAPBPayment] / [processBAPPPayment], by document type. *)
Definition processPayment (t : DocType) : Id -> PaymentData -> M PaymentResult :=
  match t with BAPB => processBAPBPayment | BAPP => processBAPPPayment end.

(** The amount a payment run logs. *)
Definition logged_amount (t : DocType) (p : PaymentData) (d : Doc) : option Q :=
  match t with
  | BAPB => pd_amount p
  | BAPP => or_num (pd_amount p) (progressBasedAmount p d)
  end.

Definition is_log_insert (e : Event) : bool :=
  Op_eqb (ev_op e) op_insert && String.eqb (ev_table e) "payment_logs".

Definition is_notification (e : Event) : bool :=
  Op_eqb (ev_op e) op_insert && String.eqb (ev_table e) "notifications".

(** The calls of a payment run, read off the world: the lookup of the
    document, then for an approved document the insert of the log row and,
    after a settlement, the insert of the notification. *)
Definition payment_calls (t : DocType) (i : Id) (p : PaymentData) (w : World)
  : list Event :=
  if fault_at w (ncalls w) then [ev op_select (table_name t) false]
  else
    match filter (has_id i) (docs (tables t (db w))) with
    | [d] =>
        ev op_select (table_name t) true ::
        (if Status_eqb (status d) approved then
           ev op_insert "payment_logs" (negb (fault_at w (S (ncalls w)))) ::
           (if settles w && negb (is_none (pd_amount p)) then
              [ev op_insert "notifications" (negb (fault_at w (S (S (ncalls w)))))]
            else [])
         else [])
    | _ => [ev op_select (table_name t) false]
    end.

(** ** Scenarios

    Concrete worlds and requests on which the statements below are run. *)

Module Scenario.

Definition clock : DateTime := Sample.march 5 9 0 0 0.

(** Document 1 of the vendor in the given status, in both tables, with
    one line item each and no attachment. *)
Definition doc_in (st : Status) (reason : option string) : Doc :=
  Sample.doc 1 1 st reason (Sample.march 1 8 0 0 0).

Definition store_in (st : Status) (reason : option string) : Store :=
  Sample.store [doc_in st reason] [doc_in st reason].

Definition submitted_world (refused : nat -> bool) : World :=
  Sample.world (store_in submitted None) clock refused (1 # 2).

(** The reviewer approved BAPB 1, and the store refused the update of
    the status (the fifth call of that run). *)
Definition half_approved : World :=
  serve (ReqApproveBAPB (Sample.approve_req 1)) (submitted_world (Sample.only 4)).

(** The same tables a minute later, the store accepting every call. *)
Definition orphaned : World :=
  Sample.world (db half_approved) (Sample.march 5 9 1 0 0) Sample.never (1 # 2).

(** A draft without line items, and the vendor's submit of it. *)
Definition empty_draft : World :=
  Sample.world (set_bapb_items [] (store_in draft None)) clock Sample.never (1 # 2).

Definition full_draft : World :=
  Sample.world (store_in draft None) clock Sample.never (1 # 2).

Definition submit_req : DocReq := {| dr_user := Sample.vendor; dr_id := 1 |}.

(** One line item of a create request. *)
Definition cement : BapbItemInput :=
  {| in_itemName := Some "Semen"; in_item_name := None;
     in_quantityOrdered := Some 10%Q; in_quantity_ordered := None;
     in_quantityReceived := Some 10%Q; in_quantity_received := None;
     in_unit := Some "sak"; in_condition := Some "good"; in_notes := None |}.

Definition new_doc : Doc := Sample.doc 0 1 draft None clock.

(** An empty store whose second call (the bulk insert) is refused. *)
Definition bulk_insert_refused : World :=
  Sample.world (Sample.store [] []) clock (Sample.only 1) (1 # 2).

(** An empty store that refuses the bulk insert and the delete after it
    (the second and the third call). *)
Definition rollback_refused : World :=
  Sample.world (Sample.store [] []) clock (Sample.both 1 2) (1 # 2).

(** The vendor's edit of a document sent back for revision. *)
Definition sent_back : World :=
  Sample.world (store_in revision_required (Some "Jumlah tidak sesuai"))
               clock Sample.never (1 # 2).

Definition edit_req : UpdateBAPBReq :=
  {| ub_user := Sample.vendor; ub_id := 1; ub_orderNumber := Some "PO-2";
     ub_deliveryDate := None; ub_notes := None; ub_items := None |}.

(** Two work items, 40 and 60 percent done. *)
Definition two_items : list WorkItemInput :=
  [work_item_with "Pondasi" 50 40; work_item_with "Dinding" 50 60].

(** Two work items: 0.03 percent done, the binary64 number the request's
    [0.03] is, and [1.3010426069826053e-18] percent, which is 3 * 2^-61. *)
Definition near_half : list WorkItemInput :=
  [work_item_with "Pondasi" 50 (1080863910568919 # 36028797018963968);
   work_item_with "Dinding" 50 (3 # 2305843009213693952)].

(** Forty work items: 39 are 50 percent done and one is 51. *)
Definition forty_items : list WorkItemInput :=
  repeat (work_item_with "Lantai" 50 50) 39 ++ [work_item_with "Atap" 50 51].

Definition new_bapp : Doc := Sample.doc 0 3 draft None clock.

Definition empty_world : World :=
  Sample.world (Sample.store [] []) clock Sample.never (1 # 2).

(** An approved BAPB 1; the random numbers are all [r], so the gateway
    settles exactly when [r] is above 0.05. *)
Definition approved_world (logs : list PaymentLog) (refused : nat -> bool) (r : Q)
  : World :=
  Sample.world (set_payment_logs logs (store_in approved None)) clock refused r.

Definition pay : PaymentData :=
  {| pd_amount := Some 1500000%Q; pd_paymentMethod := None;
     pd_contractAmount := None |}.

(** The log row of a payment of BAPB 1 that settled. *)
Definition paid : PaymentLog :=
  {| pl_document_type := "BAPB"; pl_document_id := 1; pl_vendor_id := 1;
     pl_amount := Some 1500000%Q; pl_payment_method := "bank_transfer";
     pl_status := "success"; pl_transaction_id := 1 # 2 |}.

End Scenario.

(** * Further code of the backend *)

(** ** Vocabulary of the further statements *)

(** The two decisions that need a reason, with the action they record and
    the status they set. *)
Definition decision (t : DocType) (h : ApprovalReq -> M Response)
           (act : Action) (target : Status) : Prop :=
  (h = reject t /\ act = act_rejected /\ target = rejected)
  \/ (h = requestRevision t /\ act = act_revision_required
      /\ target = revision_required).

(** The document table with the rows of id [i] replaced by [d']. *)
Definition replaced (i : Id) (d' : Doc) (l : list Doc) : list Doc :=
  map (fun d => if has_id i d then d' else d) l.

(** An answer that says the request was not carried out because of what
    it asked for. *)
Definition turned_down (resp : Response) : Prop :=
  code resp = 400 \/ code resp = 403 \/ code resp = 404.

(** The accounts [notifyBAPBSubmitted] / [notifyBAPPSubmitted] write to:
    the active users with a reviewing role. *)
Definition submit_recipients (t : DocType) (s : Store) : list User :=
  filter (fun u => Js.includes (reviewer_roles t) (user_role u) && is_active u)
         (users s).

(** The two statuses no handler leaves. *)
Definition settled (st : Status) : Prop := st = approved \/ st = rejected.

(** The id the store hands out next is above every id in use. *)
Definition fresh_ids (s : Store) : Prop :=
  forall t d, In d (docs (tables t s)) -> id d < next_id s.

Definition other (t : DocType) : DocType :=
  match t with BAPB => BAPP | BAPP => BAPB end.

(** The moves of the status column: a document that can be edited is
    submitted, or goes from [revision_required] back to [draft]; a
    document under review is approved, rejected or sent back. *)
Definition edge (a b : Status) : bool :=
  match a, b with
  | draft, submitted
  | revision_required, submitted
  | revision_required, draft
  | submitted, approved | submitted, rejected | submitted, revision_required
  | in_review, approved | in_review, rejected | in_review, revision_required => true
  | _, _ => false
  end.

(** How one request can change the document table [t]: not at all; the
    one row with some id, which is not settled, is patched and its status
    stays or moves along an edge; the one row with some id is removed and
    it was a draft; a draft with the next id is appended; or the rows with
    the next id are removed (a create that was rolled back). *)
Inductive row_change (t : DocType) (s s' : Store) : Prop :=
| rows_same :
    docs (tables t s') = docs (tables t s) -> row_change t s s'
| row_patched (i : Id) (d0 : Doc) (p : Patch) :
    filter (has_id i) (docs (tables t s)) = [d0] ->
    ~ settled (status d0) ->
    status (apply_patch p d0) = status d0
    \/ edge (status d0) (status (apply_patch p d0)) = true ->
    docs (tables t s')
    = map (fun d => if has_id i d then apply_patch p d else d) (docs (tables t s)) ->
    row_change t s s'
| row_removed (i : Id) (d0 : Doc) :
    filter (has_id i) (docs (tables t s)) = [d0] ->
    status d0 = draft ->
    docs (tables t s') = filter (fun d => negb (has_id i d)) (docs (tables t s)) ->
    row_change t s s'
| row_added (row : Doc) :
    id row = next_id s -> next_id s < next_id s' -> status row = draft ->
    docs (tables t s') = docs (tables t s) ++ [row] ->
    row_change t s s'
| row_rolled_back :
    docs (tables t s')
    = filter (fun d => negb (has_id (next_id s) d)) (docs (tables t s)) ->
    row_change t s s'.

(** A change of the tables that leaves the id counter where it was or
    moves it up, and changes each document table in one of those ways. *)
Definition mild (s s' : Store) : Prop :=
  next_id s <= next_id s' /\ forall t, row_change t s s'.

(** What every handler leaves of the two document tables and the id
    counter when it does not write to them. *)
Definition doc_tables (s : Store) : list Doc * list Doc * Id :=
  (docs (bapb s), docs (bapp s), next_id s).

(** ** Vocabulary of the create requests *)

(** The field the loop "Validate each item" of [createBAPB] finds missing
    in an item, if any. *)
Definition missing_field (item : BapbItemInput) : option string :=
  if negb (Js.truthy (in_itemName item)) then Some "itemName"
  else if is_none (in_quantityOrdered item) then Some "quantityOrdered"
  else if is_none (in_quantityReceived item) then Some "quantityReceived"
  else if negb (Js.truthy (in_unit item)) then Some "unit"
  else None.

Definition complete (item : BapbItemInput) : bool := is_none (missing_field item).

(** The same for the work items of [createBAPP]. *)
Definition missing_work_field (item : WorkItemInput) : option string :=
  if negb (Js.truthy (in_workItemName item)) then Some "workItemName"
  else if is_none (in_plannedProgress item) then Some "plannedProgress"
  else if is_none (in_actualProgress item) then Some "actualProgress"
  else if negb (Js.truthy (in_wi_unit item)) then Some "unit"
  else None.

Definition complete_work (item : WorkItemInput) : bool :=
  is_none (missing_work_field item).

(** The row [createBAPB] hands to the repository. *)
Definition new_bapb (req : CreateBAPBReq) (bapbNumber : string) : Doc :=
  {| id := 0; number := bapbNumber;
     vendor_id := user_id (cb_user req); reviewer_id := None;
     status := draft; rejection_reason := None;
     notes := cb_notes req; order_number := cb_orderNumber req;
     delivery_date := cb_deliveryDate req; contract_number := None;
     project_name := None; project_location := None;
     start_date := None; end_date := None; completion_date := None;
     total_progress := TotalNumber 0; created_at := epoch |}.

(** The number of documents of the type that the count of
    [generateNumber] sees at [date]. *)
Definition counted (t : DocType) (date : DateTime) (s : Store) : nat :=
  List.length (filter (counted_in_month date) (docs (tables t s))).

(** ** Requests that name a document *)

(** [getBAPBById] / [getBAPPById]; the answer carries the document and
    no message. *)
Definition getById (t : DocType) (req : DocReq) : M Response :=
  try_catch
    (found <- Repository.findByIdWithRelations t (dr_id req) ;;
     match found with
     | None => ret (failure 404 (DocType_name t ++ " not found"))
     | Some doc =>
         if isVendor t (user_role (dr_user req))
            && negb (vendor_id (w_doc doc) =? user_id (dr_user req)) then
           ret (failure 403 ("Not authorized to view this " ++ DocType_name t))
         else
           ret (done 200 EmptyString (Some doc) None)
     end)
    (fun e => ret (server_error ("Error fetching " ++ DocType_name t) e)).

(** The handlers that start by looking up the document an id names, with
    the type and the id they look up. *)
Inductive names_document : DocType -> Id -> M Response -> Prop :=
| names_updateBAPB (r : UpdateBAPBReq) : names_document BAPB (ub_id r) (updateBAPB r)
| names_updateBAPP (r : UpdateBAPPReq) : names_document BAPP (up_id r) (updateBAPP r)
| names_delete (t : DocType) (r : DocReq) : names_document t (dr_id r) (deleteDoc t r)
| names_submit (t : DocType) (r : DocReq) : names_document t (dr_id r) (submit t r)
| names_get (t : DocType) (r : DocReq) : names_document t (dr_id r) (getById t r)
| names_approveBAPB (r : ApprovalReq) : names_document BAPB (rq_id r) (approveBAPB r)
| names_approveMain (r : ApprovalReq) :
    names_document BAPB (rq_id r) (BackendMain.approveBAPB r)
| names_approveBAPP (r : ApprovalReq) : names_document BAPP (rq_id r) (approveBAPP r)
| names_reject (t : DocType) (r : ApprovalReq) :
    reason_missing (rq_reason r) = false -> names_document t (rq_id r) (reject t r)
| names_revision (t : DocType) (r : ApprovalReq) :
    reason_missing (rq_reason r) = false ->
    names_document t (rq_id r) (requestRevision t r)
| names_upload (t : DocType) (r : SignatureReq) (data : string) :
    sg_signatureData r = Some data -> is_base64_image data = true ->
    names_document t (sg_id r) (uploadSignature t r).

(** ** Vocabulary of the further payment statements *)

(** Everything in the store but the payment log and the notifications. *)
Definition document_side (s : Store)
  : Tables * list BapbItem * Tables * list WorkItem * list User * Id :=
  (bapb s, bapb_items s, bapp s, bapp_work_items s, users s, next_id s).


(** ** Vocabulary of the ownership statement *)

(** The account a request is made by: [req.user]; the payment service is
    not called with one. *)
Definition caller (r : Request) : option User :=
  match r with
  | ReqCreateBAPB r => Some (cb_user r)
  | ReqCreateBAPP r => Some (cp_user r)
  | ReqUpdateBAPB r => Some (ub_user r)
  | ReqUpdateBAPP r => Some (up_user r)
  | ReqDelete _ r | ReqSubmit _ r => Some (dr_user r)
  | ReqApproveBAPB r | ReqApproveBAPBMain r | ReqApproveBAPP r
  | ReqReject _ r | ReqRevision _ r => Some (rq_user r)
  | ReqUploadSignature _ r => Some (sg_user r)
  | ReqPayBAPB _ _ | ReqPayBAPP _ _ | ReqReadiness _ _ => None
  end.

(** The three vendor roles of the controllers. *)
Definition vendor_roles : list string := ["vendor"; "vendor_barang"; "vendor_jasa"].

(** Every document row of another vendor than [u] is in [s'] as it is in
    [s]. *)
Definition spared (u : Id) (s s' : Store) : Prop :=
  forall t d, In d (docs (tables t s)) -> id d < next_id s -> vendor_id d <> u ->
              In d (docs (tables t s')).

(** ** Counting and statistics (BaseRepository.js, BAPBRepository.js,
       BAPPRepository.js) *)

Module Statistics.

(** The filter objects the statistics pass to [count]: [{ vendor_id }]
    and [{ vendor_id, status }]; a key that is not there is [None]. *)
Record Filters := { f_vendor_id : option Id; f_status : option Status }.

(** [_applyFilters(query, filters)] for keys with plain values: one
    [.eq(key, value)] for each key of the object. *)
Definition _applyFilters (filters : Filters) (d : Doc) : bool :=
  match f_vendor_id filters with
  | Some v => vendor_id d =? v
  | None => true
  end
  && match f_status filters with
     | Some st => Status_eqb (status d) st
     | None => true
     end.

(** [count(filters)]:
    [select('*', { count: 'exact', head: true })] with the filters
    applied, then [if (error) throw error; return count || 0]. *)
Definition count (t : DocType) (filters : Filters) : M nat :=
  try_catch
    (r <- query op_select (table_name t)
            (fun s => (ok_reply (List.length (filter (_applyFilters filters)
                                                     (docs (tables t s)))), s)) ;;
     count <- throw_on_error r ;;
     ret (match count with Some c => c | None => 0 end))
    (fun e => throw e).

(** [Promise.all(promises)]: the calls of the array are all made, in the
    order of the array, whatever becomes of them; the result is the array
    of their values, or a rejection when one of them is rejected.  (The
    rejections of [count] all carry the error object of the store.) *)
Fixpoint Promise_all {A} (promises : list (M A)) : M (list A) :=
  fun w =>
    match promises with
    | [] => (Returned [], w)
    | p :: rest =>
        let (o, w1) := p w in
        let (os, w2) := Promise_all rest w1 in
        (match o, os with
         | Returned a, Returned l => Returned (a :: l)
         | Thrown e, _ => Thrown e
         | Returned _, Thrown e => Thrown e
         end, w2)
    end.

Record VendorStatistics := {
  vs_total : nat;
  vs_draft : nat;
  vs_submitted : nat;
  vs_approved : nat;
  vs_rejected : nat
}.

(** [BAPBRepository.getVendorStatistics(vendorId)]. *)
Definition getVendorStatistics (vendorId : Id) : M VendorStatistics :=
  let of_status st := {| f_vendor_id := Some vendorId; f_status := Some st |} in
  try_catch
    (counts <- Promise_all
                 [count BAPB {| f_vendor_id := Some vendorId; f_status := None |};
                  count BAPB (of_status draft);
                  count BAPB (of_status submitted);
                  count BAPB (of_status approved);
                  count BAPB (of_status rejected)] ;;
     ret {| vs_total := nth 0 counts 0;
            vs_draft := nth 1 counts 0;
            vs_submitted := nth 2 counts 0;
            vs_approved := nth 3 counts 0;
            vs_rejected := nth 4 counts 0 |})
    (fun e => throw e).

Record TypeStatistics := {
  vendor_barang : nat;
  vendor_jasa : nat;
  vendor_legacy : nat;
  total : nat
}.

(** [bapb.vendor?.role], with the vendor joined through [vendor_id]. *)
Definition vendor_role (s : Store) (d : Doc) : option string :=
  match find_user s (vendor_id d) with
  | Some u => Some (user_role u)
  | None => None
  end.

Definition is_role (role : option string) (name : string) : bool :=
  match role with
  | Some r => String.eqb r name
  | None => false
  end.

(** The body of the [forEach]: BAPBRepository asks for [vendor_barang]
    first, BAPPRepository for [vendor_jasa] first. *)
Definition tally (t : DocType) (stats : TypeStatistics) (role : option string)
  : TypeStatistics :=
  let barang := {| vendor_barang := S (vendor_barang stats);
                   vendor_jasa := vendor_jasa stats;
                   vendor_legacy := vendor_legacy stats; total := total stats |} in
  let jasa := {| vendor_barang := vendor_barang stats;
                 vendor_jasa := S (vendor_jasa stats);
                 vendor_legacy := vendor_legacy stats; total := total stats |} in
  let legacy := {| vendor_barang := vendor_barang stats;
                   vendor_jasa := vendor_jasa stats;
                   vendor_legacy := S (vendor_legacy stats); total := total stats |} in
  match t with
  | BAPB =>
      if is_role role "vendor_barang" then barang
      else if is_role role "vendor_jasa" then jasa
      else if is_role role "vendor" then legacy
      else stats
  | BAPP =>
      if is_role role "vendor_jasa" then jasa
      else if is_role role "vendor_barang" then barang
      else if is_role role "vendor" then legacy
      else stats
  end.

(** [getStatisticsByVendorType()] of both repositories. *)
Definition getStatisticsByVendorType (t : DocType) : M TypeStatistics :=
  try_catch
    (r <- query op_select (table_name t)
            (fun s => (ok_reply (map (vendor_role s) (docs (tables t s))), s)) ;;
     data <- throw_on_error r ;;
     match data with
     | None => throw (TypeError "Cannot read properties of null (reading 'length')")
     | Some rows =>
         ret (fold_left (tally t) rows
                        {| vendor_barang := 0; vendor_jasa := 0; vendor_legacy := 0;
                           total := List.length rows |})
     end)
    (fun e => throw e).

End Statistics.

(** The documents of vendor [v] that are under review or sent back. *)
Definition in_the_loop (v : Id) (d : Doc) : bool :=
  (vendor_id d =? v) && status_in [in_review; revision_required] (status d).

(** The documents whose vendor is no account, or an account with another
    role than the three vendor roles. *)
Definition no_vendor_role (role : option string) : bool :=
  match role with
  | Some r => negb (Js.includes vendor_roles r)
  | None => true
  end.

Definition without_vendor_role (s : Store) (d : Doc) : bool :=
  no_vendor_role (Statistics.vendor_role s d).

(** ** The notification inbox (notificationService.js) *)

Module Inbox.

(** A row of [notifications], with the columns the inbox functions read
    and write. *)
Record Row := {
  nt_id : Id;
  nt_user_id : Id;
  nt_is_read : bool;
  nt_read_at : option DateTime
}.

(** One call of the query builder on [notifications]: refused by the
    store, or run against the rows. *)
Definition call {A} (refused : bool) (run : list Row -> Reply A * list Row)
           (rows : list Row) : Reply A * list Row :=
  if refused then (error_reply store_failure, rows) else run rows.

(** [.eq('user_id', userId).eq('is_read', false)]. *)
Definition unread_of (userId : Id) (r : Row) : bool :=
  (nt_user_id r =? userId) && negb (nt_is_read r).

(** [.eq('id', notificationId).eq('user_id', userId)]. *)
Definition is_note (notificationId userId : Id) (r : Row) : bool :=
  (nt_id r =? notificationId) && (nt_user_id r =? userId).

(** [update({ is_read: true, read_at: new Date().toISOString() })]. *)
Definition mark (clock : DateTime) (r : Row) : Row :=
  {| nt_id := nt_id r; nt_user_id := nt_user_id r; nt_is_read := true;
     nt_read_at := Some clock |}.

(** [getUnreadCount(userId)]: an error is caught and answered with 0. *)
Definition getUnreadCount (userId : Id) (refused : bool) (rows : list Row) : nat :=
  let reply :=
    fst (call refused
              (fun rows => (ok_reply (List.length (filter (unread_of userId) rows)), rows))
              rows) in
  match error reply with
  | Some _ => 0
  | None => match data reply with Some c => c | None => 0 end
  end.

(** [markAsRead(notificationId, userId)]:
    [update(...).eq('id', ...).eq('user_id', ...).select().single()]. *)
Definition markAsRead (notificationId userId : Id) (clock : DateTime)
           (refused : bool) (rows : list Row) : Outcome (option Row) * list Row :=
  let hit := is_note notificationId userId in
  let (reply, rows') :=
    call refused
         (fun rows => (single (map (mark clock) (filter hit rows)),
                       map (fun r => if hit r then mark clock r else r) rows))
         rows in
  match error reply with
  | Some e => (Thrown e, rows')
  | None => (Returned (data reply), rows')
  end.

(** [markAllAsRead(userId)]: the count of the answer is [data.length]. *)
Definition markAllAsRead (userId : Id) (clock : DateTime) (refused : bool)
           (rows : list Row) : Outcome nat * list Row :=
  let hit := unread_of userId in
  let (reply, rows') :=
    call refused
         (fun rows => (ok_reply (map (mark clock) (filter hit rows)),
                       map (fun r => if hit r then mark clock r else r) rows))
         rows in
  match error reply with
  | Some e => (Thrown e, rows')
  | None =>
      match data reply with
      | Some changed => (Returned (List.length changed), rows')
      | None =>
          (Thrown (TypeError "Cannot read properties of null (reading 'length')"),
           rows')
      end
  end.

(** [deleteNotification(notificationId, userId)]; [true] is
    [{ success: true }]. *)
Definition deleteNotification (notificationId userId : Id) (refused : bool)
           (rows : list Row) : Outcome bool * list Row :=
  let hit := is_note notificationId userId in
  let (reply, rows') :=
    call refused
         (fun rows => (ok_reply tt, filter (fun r => negb (hit r)) rows))
         rows in
  match error reply with
  | Some e => (Thrown e, rows')
  | None => (Returned true, rows')
  end.

End Inbox.

(** ** Concrete requests and tables *)

Module Cases.

(** The reviewer turns BAPB 1 down. *)
Definition reject_req : ApprovalReq :=
  {| rq_user := Sample.reviewer; rq_id := 1; rq_notes := None;
     rq_reason := Some "Jumlah tidak sesuai" |}.

(** A reason made of a no-break space (U+00A0, bytes C2 A0) and a
    zero-width no-break space (U+FEFF, bytes EF BB BF), and the
    reviewer's reject of a BAPB that is not there with it. *)
Definition blank_reason : string :=
  String (ascii_of_nat 194) (String (ascii_of_nat 160)
    (String (ascii_of_nat 239) (String (ascii_of_nat 187)
      (String (ascii_of_nat 191) EmptyString)))).

Definition blank_reject_req : ApprovalReq :=
  {| rq_user := Sample.reviewer; rq_id := 7; rq_notes := None;
     rq_reason := Some blank_reason |}.

(** The vendor creates a BAPB with one line item. *)
Definition create_req (item : BapbItemInput) : CreateBAPBReq :=
  {| cb_user := Sample.vendor; cb_orderNumber := Some "PO-7";
     cb_deliveryDate := Some "2024-03-04"; cb_items := Some [item];
     cb_notes := None |}.

(** A line item of which nothing was received. *)
Definition nothing_received : BapbItemInput :=
  {| in_itemName := Some "Semen"; in_item_name := None;
     in_quantityOrdered := Some 10%Q; in_quantity_ordered := None;
     in_quantityReceived := Some 0%Q; in_quantity_received := None;
     in_unit := Some "sak"; in_condition := Some "good"; in_notes := None |}.

(** A request for a document that is not there. *)
Definition missing_req : DocReq := {| dr_user := Sample.vendor; dr_id := 7 |}.

(** Another vendor, and its requests for document 1 of the vendor. *)
Definition stranger : User :=
  {| user_id := 5; user_name := "PT Lain"; user_role := "vendor";
     is_active := true |}.

Definition strangers_req : DocReq := {| dr_user := stranger; dr_id := 1 |}.




(** The vendor's signature for document 1. *)
Definition signature_req : SignatureReq :=
  {| sg_user := Sample.vendor; sg_id := 1;
     sg_signatureData := Some "data:image/png;base64,iVBORw0KGgo=" |}.

(** Two notifications: an unread one of user 1 and an unread one of
    user 2. *)
Definition inbox : list Inbox.Row :=
  [{| Inbox.nt_id := 1; Inbox.nt_user_id := 1; Inbox.nt_is_read := false;
      Inbox.nt_read_at := None |};
   {| Inbox.nt_id := 2; Inbox.nt_user_id := 2; Inbox.nt_is_read := false;
      Inbox.nt_read_at := None |}].

(** The vendor replaces the line items of its draft BAPB 1, and the
    store refuses the fourth call of the request, the insert of the new
    items. *)
Definition replace_req : UpdateBAPBReq :=
  {| ub_user := Sample.vendor; ub_id := 1; ub_orderNumber := Some "PO-2";
     ub_deliveryDate := None; ub_notes := None;
     ub_items := Some [Scenario.cement] |}.

Definition insert_refused : World :=
  Sample.world (Scenario.store_in draft None) Scenario.clock (Sample.only 3) (1 # 2).

End Cases.

(** * Properties *)

Lemma Status_eqb_eq a b : Status_eqb a b = true <-> a = b.
Proof. destruct a, b; simpl; split; congruence. Qed.

Lemma Status_eqb_refl a : Status_eqb a a = true.
Proof. now destruct a. Qed.

(** ** Stepping through the monad *)

Ltac break_innermost :=
  match goal with
  | |- context [match ?x with _ => _ end] =>
      lazymatch x with
      | context [match _ with _ => _ end] => fail
      | _ => destruct x eqn:?
      end
  | |- context [if ?x then _ else _] =>
      lazymatch x with
      | context [match _ with _ => _ end] => fail
      | context [if _ then _ else _] => fail
      | _ => destruct x eqn:?
      end
  end.

Ltac unfold_monad :=
  cbv beta iota delta [bind ret throw try_catch query throw_on_error
                       null_if_not_found get_now Math_random] in *.

Lemma store_failure_not_116 : String.eqb (err_code store_failure) "PGRST116" = false.
Proof. reflexivity. Qed.

Section RunEquations.

Variable t : DocType.
Variable w : World.

Lemma findById_run (i : Id) :
  BaseRepository.findById t i w =
  if fault_at w (ncalls w) then
    (Thrown store_failure, tick w (ev op_select (table_name t) false) (db w))
  else
    match filter (has_id i) (docs (tables t (db w))) with
    | [d] => (Returned (Some d), tick w (ev op_select (table_name t) true) (db w))
    | _ => (Returned None, tick w (ev op_select (table_name t) false) (db w))
    end.
Proof.
  unfold BaseRepository.findById, ev; unfold_monad.
  destruct (fault_at w (ncalls w)); [reflexivity|].
  destruct (filter _ _) as [|d [|d' l]]; reflexivity.
Qed.

Lemma findByIdWithRelations_run (i : Id) :
  Repository.findByIdWithRelations t i w =
  if fault_at w (ncalls w) then
    (Thrown store_failure, tick w (ev op_select (table_name t) false) (db w))
  else
    match filter (has_id i) (docs (tables t (db w))) with
    | [d] => (Returned (Some (hydrate t (db w) d)),
              tick w (ev op_select (table_name t) true) (db w))
    | _ => (Returned None, tick w (ev op_select (table_name t) false) (db w))
    end.
Proof.
  unfold Repository.findByIdWithRelations, ev; unfold_monad.
  destruct (fault_at w (ncalls w)); [reflexivity|].
  destruct (filter _ _) as [|d [|d' l]]; reflexivity.
Qed.

Lemma update_run (i : Id) (p : Patch) :
  BaseRepository.update t i p w =
  if fault_at w (ncalls w) then
    (Thrown store_failure, tick w (ev op_update (table_name t) false) (db w))
  else
    match filter (has_id i) (docs (tables t (db w))) with
    | [d] => (Returned (Some (apply_patch p d)),
              tick w (ev op_update (table_name t) true) (patched t i p (db w)))
    | _ => (Thrown PGRST116,
            tick w (ev op_update (table_name t) false) (patched t i p (db w)))
    end.
Proof.
  unfold BaseRepository.update, ev, patched; unfold_monad.
  destruct (fault_at w (ncalls w)); [reflexivity|].
  destruct (filter _ _) as [|d [|d' l]]; reflexivity.
Qed.

Lemma updateStatus_run (i : Id) (st : Status) :
  Repository.updateStatus t i st w =
  BaseRepository.update t i (status_patch st None None) w.
Proof. reflexivity. Qed.

Lemma createApproval_run (a : Approval) :
  Repository.createApproval t a w =
  if fault_at w (ncalls w) then
    (Thrown store_failure, tick w (ev op_insert (approvals_table t) false) (db w))
  else
    (Returned (Some a),
     tick w (ev op_insert (approvals_table t) true)
          (set_approvals t (approvals (tables t (db w)) ++ [a]) (db w))).
Proof.
  unfold Repository.createApproval, ev; unfold_monad.
  destruct (fault_at w (ncalls w)); reflexivity.
Qed.

Lemma hasUserApproved_run (i u : Id) :
  Repository.hasUserApproved t i u w =
  if fault_at w (ncalls w) then
    (Thrown store_failure, tick w (ev op_select (approvals_table t) false) (db w))
  else
    match filter (is_approved_by i u) (approvals (tables t (db w))) with
    | [_] => (Returned true, tick w (ev op_select (approvals_table t) true) (db w))
    | _ => (Returned false, tick w (ev op_select (approvals_table t) false) (db w))
    end.
Proof.
  unfold Repository.hasUserApproved, ev; unfold_monad.
  destruct (fault_at w (ncalls w)); [reflexivity|].
  destruct (filter _ _) as [|d [|d' l]]; reflexivity.
Qed.

End RunEquations.

Lemma createNotification_run (w : World) (n : Notification) :
  notificationService.createNotification n w =
  if fault_at w (ncalls w) then
    (Thrown store_failure, tick w (ev op_insert "notifications" false) (db w))
  else
    (Returned (Some n),
     tick w (ev op_insert "notifications" true)
          (set_notifications (notifications (db w) ++ [n]) (db w))).
Proof.
  unfold notificationService.createNotification, ev; unfold_monad.
  destruct (fault_at w (ncalls w)); reflexivity.
Qed.

(** A notifier issues its insert and never throws. *)
Lemma notify_run (w : World) (n : Notification) :
  notificationService.notify n w =
  (Returned tt,
   if fault_at w (ncalls w) then
     tick w (ev op_insert "notifications" false) (db w)
   else
     tick w (ev op_insert "notifications" true)
          (set_notifications (notifications (db w) ++ [n]) (db w))).
Proof.
  unfold notificationService.notify, notificationService.logged_only.
  cbv beta delta [try_catch bind ret].
  rewrite createNotification_run.
  destruct (fault_at w (ncalls w)); reflexivity.
Qed.

Lemma notifySubmitted_run (t : DocType) (w : World) (d : Doc) :
  notificationService.notifySubmitted t d w =
  (Returned tt,
   if fault_at w (ncalls w) then tick w (ev op_select "users" false) (db w)
   else
     let w1 := tick w (ev op_select "users" true) (db w) in
     if fault_at w (S (ncalls w)) then
       tick w1 (ev op_insert "notifications" false) (db w)
     else
       tick w1 (ev op_insert "notifications" true)
            (set_notifications
               (notifications (db w)
                  ++ map (notificationService.about t "_submitted" "high" d)
                         (map user_id
                              (filter (fun u => Js.includes (reviewer_roles t) (user_role u)
                                                && is_active u) (users (db w)))))
               (db w))).
Proof.
  unfold notificationService.notifySubmitted, notificationService.logged_only,
    notificationService.createBulkNotifications, ev.
  unfold_monad.
  destruct (fault_at w (ncalls w)) eqn:F1; cbn; [reflexivity|].
  destruct (fault_at w (S (ncalls w))) eqn:F2; reflexivity.
Qed.

Lemma filter_has_id_single (i : Id) (l : list Doc) (d : Doc) :
  filter (has_id i) l = [d] -> id d = i /\ In d l.
Proof.
  intros H.
  assert (Hin : In d (filter (has_id i) l)) by (rewrite H; now left).
  apply filter_In in Hin. destruct Hin as [Hin Hid].
  unfold has_id in Hid. apply Nat.eqb_eq in Hid. auto.
Qed.

Ltac world_simpl :=
  cbn [tick db now fault_at ncalls trace random ndraws fst snd] in *.

(** ** Submission *)

(** A submit that is answered with a failure before any write. *)
Ltac submit_refused :=
  cbn; split; [intros resp H; inversion H; subst; cbn; discriminate|];
  intros _; split; [reflexivity|]; eexists; split; [reflexivity|]; cbn;
  split; [reflexivity|discriminate].

(** C5. A submit succeeds only for a document in [draft] or
    [revision_required] that the caller owns and that has at least one line
    item; a submit of a document without line items is answered with a
    failure and leaves every table as it was. *)
Theorem submit_preconditions (t : DocType) (req : DocReq) (w : World) :
  (forall resp,
      result_of (submit t req) w = Returned resp -> code resp = 200 ->
      exists d,
        filter (has_id (dr_id req)) (docs (tables t (db w))) = [d]
        /\ (status d = draft \/ status d = revision_required)
        /\ vendor_id d = user_id (dr_user req)
        /\ canManage t (user_role (dr_user req)) = true
        /\ 1 <= items_length (items_of t (db w) (dr_id req)))
  /\ (items_length (items_of t (db w) (dr_id req)) = 0 ->
      db (world_after (submit t req) w) = db w
      /\ exists resp,
          result_of (submit t req) w = Returned resp
          /\ success resp = false /\ code resp <> 200).
Proof.
  unfold result_of, world_after, submit.
  cbv beta delta [try_catch bind ret].
  rewrite findByIdWithRelations_run.
  destruct (fault_at w (ncalls w)) eqn:F0.
  { submit_refused. }
  destruct (filter (has_id (dr_id req)) (docs (tables t (db w)))) as [|d [|d' l]] eqn:Hf.
  { submit_refused. }
  2:{ submit_refused. }
  destruct (filter_has_id_single _ _ Hf) as [Hid _].
  cbn [hydrate w_doc w_items].
  rewrite Hid.
  destruct (vendor_id d =? user_id (dr_user req)) eqn:Hv; cbn [negb].
  2:{ submit_refused. }
  destruct (canManage t (user_role (dr_user req))) eqn:Hm; cbn [negb].
  2:{ submit_refused. }
  destruct (status_in [draft; revision_required] (status d)) eqn:Hs; cbn [negb].
  2:{ submit_refused. }
  destruct (items_length (items_of t (db w) (dr_id req)) =? 0) eqn:Hn.
  { submit_refused. }
  apply Nat.eqb_neq in Hn.
  split; [|intros H0; contradiction].
  intros resp _ _. exists d. split; [reflexivity|].
  apply Nat.eqb_eq in Hv.
  repeat split; auto; [|lia].
  unfold status_in in Hs. cbn in Hs.
  destruct (status d); cbn in Hs; try discriminate; auto.
Qed.

(** ** Reading the tables after a write *)

Lemma tables_set_tables (t : DocType) (x : Tables) (s : Store) :
  tables t (set_tables t x s) = x.
Proof. now destruct t. Qed.

Lemma tables_set_tables_other (t t' : DocType) (x : Tables) (s : Store) :
  t <> t' -> tables t' (set_tables t x s) = tables t' s.
Proof. destruct t, t'; intros H; try reflexivity; now elim H. Qed.

Lemma docs_recorded (t t' : DocType) (a : Approval) (s : Store) :
  docs (tables t' (recorded t a s)) = docs (tables t' s).
Proof. now destruct t, t'. Qed.

Lemma docs_noted (t : DocType) (n : Notification) (s : Store) :
  docs (tables t (noted n s)) = docs (tables t s).
Proof. now destruct t. Qed.

Lemma docs_patched (t : DocType) (i : Id) (p : Patch) (s : Store) :
  docs (tables t (patched t i p s)) =
  map (fun d => if has_id i d then apply_patch p d else d) (docs (tables t s)).
Proof. now destruct t. Qed.

Lemma docs_patched_other (t t' : DocType) (i : Id) (p : Patch) (s : Store) :
  t <> t' -> docs (tables t' (patched t i p s)) = docs (tables t' s).
Proof. destruct t, t'; intros H; try reflexivity; now elim H. Qed.

Lemma approvals_patched (t t' : DocType) (i : Id) (p : Patch) (s : Store) :
  approvals (tables t' (patched t i p s)) = approvals (tables t' s).
Proof. now destruct t, t'. Qed.

Lemma approvals_noted (t : DocType) (n : Notification) (s : Store) :
  approvals (tables t (noted n s)) = approvals (tables t s).
Proof. now destruct t. Qed.

Lemma approvals_recorded (t : DocType) (a : Approval) (s : Store) :
  approvals (tables t (recorded t a s)) = approvals (tables t s) ++ [a].
Proof. now destruct t. Qed.

Lemma approvals_recorded_other (t t' : DocType) (a : Approval) (s : Store) :
  t <> t' -> approvals (tables t' (recorded t a s)) = approvals (tables t' s).
Proof. destruct t, t'; intros H; try reflexivity; now elim H. Qed.

Lemma id_apply_patch (p : Patch) (d : Doc) : id (apply_patch p d) = id d.
Proof. reflexivity. Qed.

Lemma filter_has_id_patch (i : Id) (p : Patch) (l : list Doc) :
  filter (has_id i) (map (fun d => if has_id i d then apply_patch p d else d) l)
  = map (apply_patch p) (filter (has_id i) l).
Proof.
  induction l as [|d l IH]; [reflexivity|].
  cbn [map filter].
  destruct (has_id i d) eqn:H.
  - unfold has_id at 1. rewrite id_apply_patch. fold (has_id i d). rewrite H.
    cbn [map]. now rewrite IH.
  - rewrite H. exact IH.
Qed.

Lemma map_patch_no_match (i : Id) (p : Patch) (l : list Doc) :
  filter (has_id i) l = [] ->
  map (fun d => if has_id i d then apply_patch p d else d) l = l.
Proof.
  induction l as [|d l IH]; [reflexivity|].
  cbn [map filter]. destruct (has_id i d); [discriminate|].
  intros H. now rewrite IH.
Qed.

(** ** The commit sequence of the approval handlers *)

Lemma record_then_update_run (t : DocType) (a : Approval) (p : Patch)
      (n : Notification) (msg : string) (warn : option string) (w : World) :
  record_then_update t a p n msg warn w =
  let c := ncalls w in
  if fault_at w c then
    (Thrown store_failure, tick w (ev op_insert (approvals_table t) false) (db w))
  else
    let s1 := recorded t a (db w) in
    let w1 := tick w (ev op_insert (approvals_table t) true) s1 in
    if fault_at w (S c) then
      (Thrown store_failure, tick w1 (ev op_update (table_name t) false) s1)
    else
      match filter (has_id (ap_doc_id a)) (docs (tables t (db w))) with
      | [d] =>
          let s2 := patched t (ap_doc_id a) p s1 in
          let w2 := tick w1 (ev op_update (table_name t) true) s2 in
          let s3 := if fault_at w (S (S c)) then s2 else noted n s2 in
          let w3 := tick w2 (ev op_insert "notifications"
                                (negb (fault_at w (S (S c))))) s3 in
          if fault_at w (S (S (S c))) then
            (Thrown store_failure, tick w3 (ev op_select (table_name t) false) s3)
          else
            (Returned (done 200 msg (Some (hydrate t s3 (apply_patch p d))) warn),
             tick w3 (ev op_select (table_name t) true) s3)
      | _ =>
          (Thrown PGRST116,
           tick w1 (ev op_update (table_name t) false)
                (patched t (ap_doc_id a) p s1))
      end.
Proof.
  unfold record_then_update.
  cbv beta delta [bind ret].
  rewrite createApproval_run.
  cbv zeta.
  destruct (fault_at w (ncalls w)) eqn:F0; [reflexivity|].
  rewrite update_run. world_simpl.
  destruct (fault_at w (S (ncalls w))) eqn:F1; [reflexivity|].
  fold (recorded t a (db w)).
  rewrite docs_recorded.
  destruct (filter (has_id (ap_doc_id a)) (docs (tables t (db w))))
    as [|d [|d' l]] eqn:Hf; try reflexivity.
  rewrite notify_run. world_simpl.
  rewrite findByIdWithRelations_run.
  destruct (fault_at w (S (S (ncalls w)))) eqn:F2; world_simpl;
    (destruct (fault_at w (S (S (S (ncalls w))))) eqn:F3; [reflexivity|]).
  - rewrite docs_patched, docs_recorded, filter_has_id_patch, Hf. reflexivity.
  - fold (noted n (patched t (ap_doc_id a) p (recorded t a (db w)))).
    rewrite docs_noted, docs_patched, docs_recorded, filter_has_id_patch, Hf.
    reflexivity.
Qed.

(** ** What a computation leaves alone *)

Section Keeps.

Context {X : Type} (f : Store -> X).

Lemma keeps_ret {A} (a : A) : keeps f (ret a).
Proof. intros w; reflexivity. Qed.

Lemma keeps_throw {A} (e : Error) : keeps f (@throw A e).
Proof. intros w; reflexivity. Qed.

Lemma keeps_get_now : keeps f get_now.
Proof. intros w; reflexivity. Qed.

Lemma keeps_random : keeps f Math_random.
Proof. intros w; reflexivity. Qed.

Lemma keeps_bind {A B} (m : M A) (k : A -> M B) :
  keeps f m -> (forall a, keeps f (k a)) -> keeps f (bind m k).
Proof.
  intros Hm Hk w. unfold bind.
  specialize (Hm w). destruct (m w) as [[a|e] w1]; cbn in *.
  - rewrite (Hk a w1). exact Hm.
  - exact Hm.
Qed.

Lemma keeps_try_catch {A} (m : M A) (h : Error -> M A) :
  keeps f m -> (forall e, keeps f (h e)) -> keeps f (try_catch m h).
Proof.
  intros Hm Hh w. unfold try_catch.
  specialize (Hm w). destruct (m w) as [[a|e] w1]; cbn in *.
  - exact Hm.
  - rewrite (Hh e w1). exact Hm.
Qed.

Lemma keeps_query {A} (op : Op) (table : string) (run : Store -> Reply A * Store) :
  (forall s, f (snd (run s)) = f s) -> keeps f (query op table run).
Proof.
  intros H w. unfold query.
  destruct (fault_at w (ncalls w)); cbn; [reflexivity|apply H].
Qed.

End Keeps.

Ltac keeps_step :=
  lazymatch goal with
  | |- keeps _ (ret _) => apply keeps_ret
  | |- keeps _ (throw _) => apply keeps_throw
  | |- keeps _ get_now => apply keeps_get_now
  | |- keeps _ Math_random => apply keeps_random
  | |- keeps _ (bind _ _) => apply keeps_bind; [|intros ?]
  | |- keeps _ (try_catch _ _) => apply keeps_try_catch; [|intros ?]
  | |- keeps _ (query _ _ _) =>
      apply keeps_query; intros ?; cbn;
      repeat match goal with t : DocType |- _ => destruct t end; reflexivity
  | |- keeps _ (match ?x with _ => _ end) => destruct x
  | |- keeps _ (let _ := _ in _) => cbv zeta
  end.

Ltac keeps_tac := cbv zeta; repeat keeps_step.

Lemma keeps_findById {X} (f : Store -> X) t i : keeps f (BaseRepository.findById t i).
Proof. unfold BaseRepository.findById, null_if_not_found. keeps_tac. Qed.

Lemma keeps_findByIdWithRelations {X} (f : Store -> X) t i :
  keeps f (Repository.findByIdWithRelations t i).
Proof. unfold Repository.findByIdWithRelations, null_if_not_found. keeps_tac. Qed.

Lemma keeps_user_findById {X} (f : Store -> X) i : keeps f (UserRepository.findById i).
Proof. unfold UserRepository.findById, null_if_not_found. keeps_tac. Qed.

Lemma keeps_generateNumber {X} (f : Store -> X) t : keeps f (generateNumber t).
Proof. unfold generateNumber, throw_on_error. keeps_tac. Qed.

Lemma keeps_approvals_create t d : keeps all_approvals (BaseRepository.create t d).
Proof. unfold BaseRepository.create, throw_on_error. keeps_tac. Qed.

Lemma keeps_approvals_update t i p : keeps all_approvals (BaseRepository.update t i p).
Proof. unfold BaseRepository.update, throw_on_error. keeps_tac. Qed.

Lemma keeps_approvals_delete t i : keeps all_approvals (BaseRepository.delete t i).
Proof. unfold BaseRepository.delete, throw_on_error. keeps_tac. Qed.

Lemma keeps_approvals_notify n : keeps all_approvals (notificationService.notify n).
Proof.
  unfold notificationService.notify, notificationService.logged_only,
    notificationService.createNotification, throw_on_error.
  keeps_tac.
Qed.

Lemma keeps_approvals_notifySubmitted t d :
  keeps all_approvals (notificationService.notifySubmitted t d).
Proof.
  unfold notificationService.notifySubmitted, notificationService.logged_only,
    notificationService.createBulkNotifications, throw_on_error.
  keeps_tac.
Qed.

Create HintDb keeps.
#[local] Hint Resolve keeps_findById keeps_findByIdWithRelations keeps_user_findById
  keeps_generateNumber keeps_approvals_create keeps_approvals_update
  keeps_approvals_delete keeps_approvals_notify keeps_approvals_notifySubmitted
  : keeps.

Ltac keeps_auto :=
  cbv zeta;
  repeat first [ solve [auto with keeps] | keeps_step ].

Lemma keeps_approvals_createWithItems d items :
  keeps all_approvals (BAPBRepository.createWithItems d items).
Proof. unfold BAPBRepository.createWithItems. keeps_auto. Qed.

Lemma keeps_approvals_updateWithItems i p items :
  keeps all_approvals (BAPBRepository.updateWithItems i p items).
Proof. unfold BAPBRepository.updateWithItems. keeps_auto. Qed.

Lemma keeps_approvals_createWithWorkItems d items :
  keeps all_approvals (BAPPRepository.createWithWorkItems d items).
Proof. unfold BAPPRepository.createWithWorkItems. keeps_auto. Qed.

Lemma keeps_approvals_updateWithWorkItems i p items :
  keeps all_approvals (BAPPRepository.updateWithWorkItems i p items).
Proof. unfold BAPPRepository.updateWithWorkItems. keeps_auto. Qed.

#[local] Hint Resolve keeps_approvals_createWithItems keeps_approvals_updateWithItems
  keeps_approvals_createWithWorkItems keeps_approvals_updateWithWorkItems : keeps.

Lemma keeps_approvals_createBAPB r : keeps all_approvals (createBAPB r).
Proof. unfold createBAPB, generateBAPBNumber. keeps_auto. Qed.

Lemma keeps_approvals_createBAPP r : keeps all_approvals (createBAPP r).
Proof. unfold createBAPP, generateBAPPNumber. keeps_auto. Qed.

Lemma keeps_approvals_updateBAPB r : keeps all_approvals (updateBAPB r).
Proof. unfold updateBAPB. keeps_auto. Qed.

Lemma keeps_approvals_updateBAPP r : keeps all_approvals (updateBAPP r).
Proof. unfold updateBAPP. keeps_auto. Qed.

Lemma keeps_approvals_deleteDoc t r : keeps all_approvals (deleteDoc t r).
Proof. unfold deleteDoc. keeps_auto. Qed.

Lemma keeps_approvals_submit t r : keeps all_approvals (submit t r).
Proof. unfold submit, Repository.updateStatus. keeps_auto. Qed.

Lemma keeps_approvals_uploadSignature t r : keeps all_approvals (uploadSignature t r).
Proof. unfold uploadSignature, throw_on_error. keeps_auto. Qed.

Lemma keeps_simulatePaymentGateway {X} (f : Store -> X) : keeps f simulatePaymentGateway.
Proof. unfold simulatePaymentGateway. keeps_auto. Qed.

Lemma keeps_approvals_logPaymentAttempt row : keeps all_approvals (logPaymentAttempt row).
Proof. unfold logPaymentAttempt. keeps_auto. Qed.

Lemma keeps_approvals_notifyPaymentProcessed v dt i a :
  keeps all_approvals (notificationService.notifyPaymentProcessed v dt i a).
Proof.
  unfold notificationService.notifyPaymentProcessed, notificationService.logged_only,
    notificationService.createNotification, throw_on_error.
  keeps_auto.
Qed.

#[local] Hint Resolve keeps_simulatePaymentGateway keeps_approvals_logPaymentAttempt
  keeps_approvals_notifyPaymentProcessed : keeps.

Lemma keeps_approvals_processBAPBPayment i p : keeps all_approvals (processBAPBPayment i p).
Proof. unfold processBAPBPayment. keeps_auto. Qed.

Lemma keeps_approvals_processBAPPPayment i p : keeps all_approvals (processBAPPPayment i p).
Proof. unfold processBAPPPayment. keeps_auto. Qed.

Lemma keeps_approvals_checkPaymentReadiness dt i :
  keeps all_approvals (checkPaymentReadiness dt i).
Proof. unfold checkPaymentReadiness. keeps_auto. Qed.

(** ** The approve handlers, step by step *)

Lemma approve_run (t : DocType) (step : Id -> Id -> M (Response + option string))
      (req : ApprovalReq) (w : World) :
  approve t step req w =
  let i := rq_id req in
  let u := user_id (rq_user req) in
  let failed := ("Error approving " ++ DocType_name t)%string in
  if fault_at w (ncalls w) then
    (Returned (server_error failed store_failure),
     tick w (ev op_select (table_name t) false) (db w))
  else
    match filter (has_id i) (docs (tables t (db w))) with
    | [d] =>
        let w1 := tick w (ev op_select (table_name t) true) (db w) in
        if negb (status_in [submitted; in_review] (status d)) then
          (Returned (failure 400 (DocType_name t ++
                       " must be in submitted or in_review status to be approved")%string),
           w1)
        else if negb (Js.includes (reviewer_roles t) (user_role (rq_user req))) then
          (Returned (failure 403 ("Not authorized to approve " ++ DocType_name t)%string),
           w1)
        else if fault_at w (S (ncalls w)) then
          (Returned (server_error failed store_failure),
           tick w1 (ev op_select (approvals_table t) false) (db w))
        else
          match approved_by t i u (db w) with
          | [_] =>
              (Returned (failure 400 ("You have already approved this "
                                        ++ DocType_name t)%string),
               tick w1 (ev op_select (approvals_table t) true) (db w))
          | _ =>
              let w2 := tick w1 (ev op_select (approvals_table t) false) (db w) in
              match step i u w2 with
              | (Thrown e, w3) => (Returned (server_error failed e), w3)
              | (Returned (inl refused), w3) => (Returned refused, w3)
              | (Returned (inr warn), w3) =>
                  answered failed
                    (record_then_update t (approval_of req act_approved)
                       (approve_patch t req d)
                       (notificationService.approved_note t d)
                       (DocType_name t ++ " approved successfully")%string warn w3)
              end
          end
    | _ =>
        (Returned (failure 404 (DocType_name t ++ " not found")%string),
         tick w (ev op_select (table_name t) false) (db w))
    end.
Proof.
  unfold approve, approved_by.
  cbv beta zeta delta [try_catch bind ret].
  rewrite findByIdWithRelations_run.
  destruct (fault_at w (ncalls w)) eqn:F0; [reflexivity|].
  destruct (filter (has_id (rq_id req)) (docs (tables t (db w))))
    as [|d [|d' l]] eqn:Hf; try reflexivity.
  cbn [hydrate w_doc].
  destruct (negb (status_in [submitted; in_review] (status d))); [reflexivity|].
  destruct (negb (Js.includes (reviewer_roles t) (user_role (rq_user req))));
    [reflexivity|].
  rewrite hasUserApproved_run. world_simpl.
  destruct (fault_at w (S (ncalls w))) eqn:F1; [reflexivity|].
  assert (Hgo : forall w2,
    (let (o, w') :=
       let (o, w') := step (rq_id req) (user_id (rq_user req)) w2 in
       match o with
       | Returned a =>
           match a with
           | inl refused => fun w0 : World => (Returned refused, w0)
           | inr signatureWarning =>
               record_then_update t
                 {| ap_doc_id := rq_id req; approver_id := user_id (rq_user req);
                    action := act_approved; ap_notes := rq_notes req |}
                 (status_patch approved None
                    (if is_none (reviewer_id d)
                        && String.eqb (user_role (rq_user req)) (primary_role t)
                     then Some (user_id (rq_user req)) else None))
                 (notificationService.approved_note t d)
                 (DocType_name t ++ " approved successfully")%string signatureWarning
           end w'
       | Thrown e => (Thrown e, w')
       end in
     match o with
     | Returned a => (Returned a, w')
     | Thrown e =>
         (Returned (server_error ("Error approving " ++ DocType_name t)%string e), w')
     end) =
    match step (rq_id req) (user_id (rq_user req)) w2 with
    | (Thrown e, w3) =>
        (Returned (server_error ("Error approving " ++ DocType_name t)%string e), w3)
    | (Returned (inl refused), w3) => (Returned refused, w3)
    | (Returned (inr warn), w3) =>
        answered ("Error approving " ++ DocType_name t)%string
          (record_then_update t (approval_of req act_approved)
             (approve_patch t req d)
             (notificationService.approved_note t d)
             (DocType_name t ++ " approved successfully")%string warn w3)
    end).
  { intros w2. destruct (step _ _ w2) as [[[r|warn]|e] w3]; try reflexivity. }
  destruct (filter (is_approved_by (rq_id req) (user_id (rq_user req)))
                   (approvals (tables t (db w)))) as [|a [|a' l]]; cbv iota beta;
    try reflexivity; apply Hgo.
Qed.

Lemma decide_run (t : DocType) (act : Action) (target : Status)
      (required verb_status unauthorized finished failed : string)
      (note : DocType -> Doc -> Notification) (req : ApprovalReq) (w : World) :
  decide t act target required verb_status unauthorized finished failed note req w =
  if reason_missing (rq_reason req) then (Returned (failure 400 required), w)
  else if fault_at w (ncalls w) then
    (Returned (server_error failed store_failure),
     tick w (ev op_select (table_name t) false) (db w))
  else
    match filter (has_id (rq_id req)) (docs (tables t (db w))) with
    | [d] =>
        let w1 := tick w (ev op_select (table_name t) true) (db w) in
        if negb (status_in [submitted; in_review] (status d)) then
          (Returned (failure 400 (DocType_name t ++ verb_status)%string), w1)
        else if negb (Js.includes (reviewer_roles t) (user_role (rq_user req))) then
          (Returned (failure 403 unauthorized), w1)
        else
          answered failed
            (record_then_update t (approval_of req act)
               (status_patch target (Some (rq_reason req)) None)
               (note t d) finished None w1)
    | _ =>
        (Returned (failure 404 (DocType_name t ++ " not found")%string),
         tick w (ev op_select (table_name t) false) (db w))
    end.
Proof.
  unfold decide.
  cbv beta zeta delta [try_catch bind ret].
  destruct (reason_missing (rq_reason req)); [reflexivity|].
  rewrite findById_run.
  destruct (fault_at w (ncalls w)) eqn:F0; [reflexivity|].
  destruct (filter (has_id (rq_id req)) (docs (tables t (db w))))
    as [|d [|d' l]] eqn:Hf; try reflexivity.
  destruct (negb (status_in [submitted; in_review] (status d))); [reflexivity|].
  destruct (negb (Js.includes (reviewer_roles t) (user_role (rq_user req))));
    [reflexivity|].
  unfold answered, approval_of.
  destruct (record_then_update _ _ _ _ _ _ _) as [[r|e] w']; reflexivity.
Qed.

Lemma signatureWarningBAPB_run (i u : Id) (w : World) :
  signatureWarningBAPB i u w =
  if fault_at w (ncalls w) then
    (Returned (inr (Some "Could not verify signature status"%string)),
     tick w (ev op_select "bapb_attachments" false) (db w))
  else
    match filter (is_signature_of i u) (attachments (bapb (db w))) with
    | [] =>
        (Returned (inr (Some "Approved without signature - please upload signature for complete documentation"%string)),
         tick w (ev op_select "bapb_attachments" true) (db w))
    | [_] =>
        (Returned (inr None), tick w (ev op_select "bapb_attachments" true) (db w))
    | _ =>
        (Returned (inr (Some "Could not verify signature status"%string)),
         tick w (ev op_select "bapb_attachments" false) (db w))
    end.
Proof.
  unfold signatureWarningBAPB.
  cbv beta zeta delta [try_catch bind ret query].
  destruct (fault_at w (ncalls w)); [reflexivity|].
  cbn [attachments_table tables fst snd].
  destruct (filter _ _) as [|a [|a' l]]; reflexivity.
Qed.

Lemma signatureRequiredBAPP_run (i u : Id) (w : World) :
  signatureRequiredBAPP i u w =
  if fault_at w (ncalls w) then
    (Returned (inl signature_refusal),
     tick w (ev op_select "bapp_attachments" false) (db w))
  else
    match filter (is_signature_of i u) (attachments (bapp (db w))) with
    | [_] =>
        (Returned (inr None), tick w (ev op_select "bapp_attachments" true) (db w))
    | _ =>
        (Returned (inl signature_refusal),
         tick w (ev op_select "bapp_attachments" false) (db w))
    end.
Proof.
  unfold signatureRequiredBAPP.
  cbv beta zeta delta [try_catch bind ret query].
  destruct (fault_at w (ncalls w)); [reflexivity|].
  cbn [attachments_table tables fst snd].
  destruct (filter _ _) as [|a [|a' l]]; reflexivity.
Qed.

Lemma signatureUndeclared_run (i u : Id) (w : World) :
  signatureUndeclared i u w = (Thrown (ReferenceError "signature is not defined"), w).
Proof. reflexivity. Qed.

Lemma quiet_signatureWarningBAPB : quiet signatureWarningBAPB.
Proof.
  intros i u w. rewrite signatureWarningBAPB_run.
  destruct (fault_at w (ncalls w)); [reflexivity|].
  destruct (filter _ _) as [|a [|a' l]]; reflexivity.
Qed.

Lemma quiet_signatureRequiredBAPP : quiet signatureRequiredBAPP.
Proof.
  intros i u w. rewrite signatureRequiredBAPP_run.
  destruct (fault_at w (ncalls w)); [reflexivity|].
  destruct (filter _ _) as [|a [|a' l]]; reflexivity.
Qed.

Lemma quiet_signatureUndeclared : quiet signatureUndeclared.
Proof. intros i u w. reflexivity. Qed.

(** ** At most one approval per approver *)

Lemma answered_db (failed : string) (x : Outcome Response * World) :
  db (snd (answered failed x)) = db (snd x).
Proof. now destruct x as [[r|e] w]. Qed.

Lemma record_then_update_approvals t a p n msg warn w t' :
  approvals (tables t' (db (snd (record_then_update t a p n msg warn w)))) =
  if fault_at w (ncalls w) then approvals (tables t' (db w))
  else approvals (tables t' (recorded t a (db w))).
Proof.
  rewrite record_then_update_run. cbv zeta.
  destruct (fault_at w (ncalls w)); [reflexivity|].
  destruct (fault_at w (S (ncalls w))); [reflexivity|].
  destruct (filter _ _) as [|d [|d' l]]; world_simpl;
    try (rewrite approvals_patched; reflexivity).
  destruct (fault_at w (S (S (S (ncalls w))))); world_simpl;
    (destruct (fault_at w (S (S (ncalls w))));
     [|rewrite approvals_noted]; rewrite approvals_patched; reflexivity).
Qed.

Lemma approved_by_recorded t a s t' i u :
  approved_by t' i u (recorded t a s) =
  approved_by t' i u s ++
  (if match t, t' with BAPB, BAPB | BAPP, BAPP => true | _, _ => false end
      && is_approved_by i u a then [a] else []).
Proof.
  unfold approved_by.
  assert (H : approvals (tables t' (recorded t a s)) =
              approvals (tables t' s) ++
              (if match t, t' with BAPB, BAPB | BAPP, BAPP => true | _, _ => false end
               then [a] else [])).
  { destruct t, t'; cbn; rewrite ?app_nil_r; reflexivity. }
  rewrite H, filter_app.
  destruct t, t'; cbn [andb filter]; try reflexivity;
    destruct (is_approved_by i u a); reflexivity.
Qed.

Lemma at_most_one_recorded t a s :
  at_most_one_approval s ->
  (action a = act_approved -> approved_by t (ap_doc_id a) (approver_id a) s = []) ->
  at_most_one_approval (recorded t a s).
Proof.
  intros Hs Hnew t' i u.
  rewrite approved_by_recorded.
  destruct (match t, t' with BAPB, BAPB | BAPP, BAPP => true | _, _ => false end
            && is_approved_by i u a) eqn:E.
  - apply andb_true_iff in E. destruct E as [Et E].
    unfold is_approved_by in E.
    apply andb_true_iff in E. destruct E as [E Ea].
    apply andb_true_iff in E. destruct E as [Ei Eu].
    apply Nat.eqb_eq in Ei, Eu. subst i u.
    assert (t' = t) by (destruct t, t'; congruence). subst t'.
    rewrite Hnew; [cbn; lia|].
    destruct (action a); cbn in Ea; congruence.
  - rewrite app_nil_r. apply Hs.
Qed.

Lemma at_most_one_same_approvals (s s' : Store) :
  (forall t, approvals (tables t s') = approvals (tables t s)) ->
  at_most_one_approval s -> at_most_one_approval s'.
Proof.
  intros H Hs t i u. unfold approved_by. rewrite H. apply Hs.
Qed.

Lemma at_most_one_keeps {A} (m : M A) (w : World) :
  keeps all_approvals m ->
  at_most_one_approval (db w) -> at_most_one_approval (db (snd (m w))).
Proof.
  intros Hk. apply at_most_one_same_approvals.
  specialize (Hk w). unfold all_approvals in Hk.
  injection Hk as H1 H2. intros [|]; assumption.
Qed.

Lemma at_most_one_record_then_update t a p n msg warn w :
  at_most_one_approval (db w) ->
  (action a = act_approved -> approved_by t (ap_doc_id a) (approver_id a) (db w) = []) ->
  at_most_one_approval (db (snd (record_then_update t a p n msg warn w))).
Proof.
  intros Hs Hnew.
  destruct (fault_at w (ncalls w)) eqn:F.
  - apply at_most_one_same_approvals with (s := db w); [|exact Hs].
    intros t'. rewrite record_then_update_approvals, F. reflexivity.
  - apply at_most_one_same_approvals with (s := recorded t a (db w)).
    + intros t'. rewrite record_then_update_approvals, F. reflexivity.
    + now apply at_most_one_recorded.
Qed.

Lemma at_most_one_approve t step req w :
  quiet step ->
  at_most_one_approval (db w) ->
  at_most_one_approval (db (snd (approve t step req w))).
Proof.
  intros Hq Hs.
  rewrite approve_run. cbv zeta.
  destruct (fault_at w (ncalls w)); [exact Hs|].
  destruct (filter _ _) as [|d [|d' l]]; try exact Hs.
  destruct (negb (status_in _ _)); [exact Hs|].
  destruct (negb (Js.includes _ _)); [exact Hs|].
  destruct (fault_at w (S (ncalls w))); [exact Hs|].
  pose proof (Hs t (rq_id req) (user_id (rq_user req))) as Hle.
  destruct (approved_by t (rq_id req) (user_id (rq_user req)) (db w))
    as [|a [|a' l]] eqn:Hab; try exact Hs; [|cbn in Hle; lia].
  match goal with
  | |- context [step ?i ?u ?w2] =>
      pose proof (Hq i u w2) as Hdb; destruct (step i u w2) as [[[r|warn]|e] w3]
  end; cbn [snd] in Hdb; world_simpl; try (rewrite Hdb; exact Hs).
  rewrite answered_db.
  apply at_most_one_record_then_update; rewrite Hdb; [exact Hs|].
  intros _. exact Hab.
Qed.

Lemma at_most_one_decide t act target required verb unauthorized finished failed
      note req w :
  act <> act_approved ->
  at_most_one_approval (db w) ->
  at_most_one_approval
    (db (snd (decide t act target required verb unauthorized finished failed
                     note req w))).
Proof.
  intros Hact Hs.
  rewrite decide_run.
  destruct (reason_missing _); [exact Hs|].
  destruct (fault_at w (ncalls w)); [exact Hs|].
  destruct (filter _ _) as [|d [|d' l]]; try exact Hs.
  cbv zeta.
  destruct (negb (status_in _ _)); [exact Hs|].
  destruct (negb (Js.includes _ _)); [exact Hs|].
  rewrite answered_db.
  apply at_most_one_record_then_update; [exact Hs|].
  cbn. intros H. now elim Hact.
Qed.

Lemma at_most_one_serve (r : Request) (w : World) :
  at_most_one_approval (db w) -> at_most_one_approval (db (serve r w)).
Proof.
  destruct r; cbn [serve].
  - apply at_most_one_keeps, keeps_approvals_createBAPB.
  - apply at_most_one_keeps, keeps_approvals_createBAPP.
  - apply at_most_one_keeps, keeps_approvals_updateBAPB.
  - apply at_most_one_keeps, keeps_approvals_updateBAPP.
  - apply at_most_one_keeps, keeps_approvals_deleteDoc.
  - apply at_most_one_keeps, keeps_approvals_submit.
  - apply at_most_one_approve, quiet_signatureWarningBAPB.
  - apply at_most_one_approve, quiet_signatureUndeclared.
  - apply at_most_one_approve, quiet_signatureRequiredBAPP.
  - apply at_most_one_decide. discriminate.
  - apply at_most_one_decide. discriminate.
  - apply at_most_one_keeps, keeps_approvals_uploadSignature.
  - apply at_most_one_keeps, keeps_approvals_processBAPBPayment.
  - apply at_most_one_keeps, keeps_approvals_processBAPPPayment.
  - apply at_most_one_keeps, keeps_approvals_checkPaymentReadiness.
Qed.

Lemma reachable_at_most_one (w : World) :
  reachable w -> at_most_one_approval (db w).
Proof.
  induction 1 as [w H1 H2|w r _ IH|w w' _ IH Hdb].
  - intros [|] i u; unfold approved_by; cbn [tables]; rewrite ?H1, ?H2;
      cbn; lia.
  - now apply at_most_one_serve.
  - now rewrite Hdb.
Qed.

(** An approve call by someone whose approval is on record is refused,
    and writes nothing. *)
Lemma approve_again_refused t step req w a :
  approved_by t (rq_id req) (user_id (rq_user req)) (db w) = [a] ->
  db (snd (approve t step req w)) = db w
  /\ exists resp, fst (approve t step req w) = Returned resp
                  /\ success resp = false /\ code resp <> 200.
Proof.
  intros Hab.
  rewrite approve_run. cbv zeta. rewrite Hab.
  destruct (fault_at w (ncalls w));
    [split; [reflexivity|eexists; split; [reflexivity|split; [reflexivity|cbn; lia]]]|].
  destruct (filter _ _) as [|d [|d' l]];
    try (split; [reflexivity|eexists; split; [reflexivity|split; [reflexivity|cbn; lia]]]).
  destruct (negb (status_in _ _));
    [split; [reflexivity|eexists; split; [reflexivity|split; [reflexivity|cbn; lia]]]|].
  destruct (negb (Js.includes _ _));
    [split; [reflexivity|eexists; split; [reflexivity|split; [reflexivity|cbn; lia]]]|].
  destruct (fault_at w (S (ncalls w)));
    split; try reflexivity; eexists; (split; [reflexivity|split; [reflexivity|cbn; lia]]).
Qed.

(** C1. In every reachable world there is at most one approval record with
    action [approved] per (document, approver), for both document types;
    and an approve call by an approver whose [approved] record exists is
    answered with a failure and leaves every table as it was (no second
    record, the status untouched). *)
Theorem one_approval_per_approver (w : World) (t : DocType) (i u : Id) :
  reachable w ->
  List.length (approved_by t i u (db w)) <= 1
  /\ forall (h : ApprovalReq -> M Response) (req : ApprovalReq),
      approve_handler t h ->
      rq_id req = i -> user_id (rq_user req) = u ->
      (exists a, In a (approvals (tables t (db w))) /\ is_approved_by i u a = true) ->
      db (world_after (h req) w) = db w
      /\ exists resp,
          result_of (h req) w = Returned resp
          /\ success resp = false /\ code resp <> 200.
Proof.
  intros Hr. pose proof (reachable_at_most_one Hr t i u) as Hle.
  split; [exact Hle|].
  intros h req Hh Hi Hu [a [Hin Ha]]. subst i u.
  assert (Hab : exists a', approved_by t (rq_id req) (user_id (rq_user req)) (db w) = [a']).
  { assert (In a (approved_by t (rq_id req) (user_id (rq_user req)) (db w)))
      by (unfold approved_by; apply filter_In; auto).
    destruct (approved_by t (rq_id req) (user_id (rq_user req)) (db w))
      as [|a1 [|a2 l]]; [contradiction|eauto|cbn in Hle; lia]. }
  destruct Hab as [a' Hab].
  unfold world_after, result_of.
  destruct t; cbn in Hh.
  - destruct Hh as [-> | ->]; eapply approve_again_refused; eauto.
  - subst h. eapply approve_again_refused; eauto.
Qed.

(** ** Order of the writes in an approval-cycle transition *)

Lemma skipn_length_app {A} (l r : list A) : skipn (List.length l) (l ++ r) = r.
Proof. induction l; cbn; auto. Qed.

Lemma calls_of_intro {A} (m : M A) (w : World) (evs : list Event) :
  trace (snd (m w)) = trace w ++ evs -> calls_of m w = evs.
Proof. unfold calls_of. intros ->. apply skipn_length_app. Qed.


Lemma each_after_sound (first later : Event -> bool) (evs : list Event) :
  forall seen pre e post,
    each_after first later seen evs = true ->
    evs = pre ++ e :: post ->
    later e = true ->
    seen = true \/ exists e', In e' pre /\ first e' = true.
Proof.
  induction evs as [|x evs IH]; intros seen pre e post Hc Heq He.
  - now destruct pre.
  - destruct pre as [|y pre]; cbn in Heq; injection Heq as -> ->.
    + cbn in Hc. rewrite He in Hc. apply andb_true_iff in Hc. now left.
    + cbn in Hc. destruct (later y) eqn:Hy.
      * apply andb_true_iff in Hc. now left.
      * destruct (IH _ pre e post Hc eq_refl He) as [H|[e' [Hin H]]].
        -- apply orb_true_iff in H. destruct H as [H|H]; [now left|].
           right. exists y. split; [now left|exact H].
        -- right. exists e'. split; [now right|exact H].
Qed.




Lemma trace_tick w e s : trace (tick w e s) = trace w ++ [e].
Proof. reflexivity. Qed.

Ltac trace_norm :=
  repeat rewrite trace_tick; repeat rewrite <- app_assoc; cbn [app].











Lemma answered_returned failed x resp :
  fst (answered failed x) = Returned resp -> code resp = 200 ->
  fst x = Returned resp.
Proof.
  destruct x as [[r|e] w]; cbn; [auto|].
  intros H. injection H as <-. cbn. discriminate.
Qed.


Lemma read_step_signatureWarningBAPB : read_step signatureWarningBAPB.
Proof.
  intros i u w. split; [apply quiet_signatureWarningBAPB|].
  rewrite signatureWarningBAPB_run.
  destruct (fault_at w (ncalls w));
    [split; [discriminate|eexists; split; [reflexivity|repeat constructor]]|].
  destruct (filter _ _) as [|a [|a' l]];
    (split; [discriminate|eexists; (split; [reflexivity|repeat constructor])]).
Qed.

Lemma read_step_signatureRequiredBAPP : read_step signatureRequiredBAPP.
Proof.
  intros i u w. split; [apply quiet_signatureRequiredBAPP|].
  rewrite signatureRequiredBAPP_run.
  destruct (fault_at w (ncalls w));
    [split; [intros r H; injection H as <-; cbn; discriminate
            |eexists; split; [reflexivity|repeat constructor]]|].
  destruct (filter _ _) as [|a [|a' l]];
    (split; [intros r H; try discriminate; injection H as <-; cbn; discriminate
            |eexists; (split; [reflexivity|repeat constructor])]).
Qed.

Lemma read_step_signatureUndeclared : read_step signatureUndeclared.
Proof.
  intros i u w. split; [reflexivity|]. split; [discriminate|].
  exists []. split; [cbn; now rewrite app_nil_r|constructor].
Qed.






(** ** Approval without an uploaded signature *)

Lemma no_faults_here w : no_faults w -> fault_at w (ncalls w) = false.
Proof. intros H. apply H. lia. Qed.

Lemma no_faults_ahead w k : no_faults w -> fault_at w (k + ncalls w) = false.
Proof. intros H. apply H. lia. Qed.

(** C2 (amended). A reviewer-eligible caller without an [approved] record
    and without a signature attachment for a document in [submitted] or
    [in_review], whatever calls the store refuses.  [approveBAPP] changes
    nothing, and unless it answers 500 (the store refused the lookup of
    the document or of the caller's record) it answers with the 400
    guidance message.  [approveBAPB] answers 500 exactly when the store
    refused a call whose error is surfaced; otherwise it answers 200 with
    a warning field (the warning of the missing signature, or the one of
    the lookup when the store refused it), the approval record is
    appended and the status is [approved], also when the insert of the
    notification was refused. *)
Theorem approve_without_signature (req : ApprovalReq) (w : World) (d : Doc) :
  (status d = submitted \/ status d = in_review) ->
  (filter (has_id (rq_id req)) (docs (bapp (db w))) = [d] ->
   Js.includes (reviewer_roles BAPP) (user_role (rq_user req)) = true ->
   approved_by BAPP (rq_id req) (user_id (rq_user req)) (db w) = [] ->
   signatures_of BAPP (rq_id req) (user_id (rq_user req)) (db w) = [] ->
   db (world_after (approveBAPP req) w) = db w
   /\ exists resp,
       result_of (approveBAPP req) w = Returned resp
       /\ (code resp = 500 <-> approve_call_refused BAPP w = true)
       /\ (code resp <> 500 -> resp = signature_refusal))
  /\
  (filter (has_id (rq_id req)) (docs (bapb (db w))) = [d] ->
   Js.includes (reviewer_roles BAPB) (user_role (rq_user req)) = true ->
   approved_by BAPB (rq_id req) (user_id (rq_user req)) (db w) = [] ->
   signatures_of BAPB (rq_id req) (user_id (rq_user req)) (db w) = [] ->
   exists resp,
     result_of (approveBAPB req) w = Returned resp
     /\ (code resp = 500 <-> approve_call_refused BAPB w = true)
     /\ (code resp <> 500 ->
         code resp = 200 /\ success resp = true
         /\ warning resp
            = Some (if fault_at w (2 + ncalls w) then unverified_warning
                    else unsigned_warning)
         /\ approvals (bapb (db (world_after (approveBAPB req) w)))
            = approvals (bapb (db w)) ++ [approval_of req act_approved]
         /\ exists d',
             filter (has_id (rq_id req))
                    (docs (bapb (db (world_after (approveBAPB req) w)))) = [d']
             /\ status d' = approved)).
Proof.
  intros Hst.
  assert (Hs : status_in [submitted; in_review] (status d) = true)
    by (destruct Hst as [-> | ->]; reflexivity).
  unfold approve_call_refused. cbn [Nat.add].
  split; intros Hf Hrole Hab Hsig; unfold result_of, world_after.
  - unfold approveBAPP. rewrite approve_run. cbv zeta.
    cbn [tables] in *. 
    destruct (fault_at w (ncalls w)) eqn:F0.
    { cbn [fst snd tick db orb]. split; [reflexivity|]. eexists.
      split; [reflexivity|]. cbn [code server_error].
      split; [split; reflexivity|congruence]. }
    rewrite Hf, Hs, Hrole. cbn [negb].
    destruct (fault_at w (S (ncalls w))) eqn:F1.
    { cbn [fst snd tick db orb]. split; [reflexivity|]. eexists.
      split; [reflexivity|]. cbn [code server_error].
      split; [split; reflexivity|congruence]. }
    unfold approved_by in *. cbn [tables] in *. rewrite Hab.
    rewrite signatureRequiredBAPP_run. world_simpl.
    unfold signatures_of in Hsig. cbn [tables] in Hsig. rewrite Hsig.
    destruct (fault_at w (S (S (ncalls w)))); cbn [fst snd tick db orb];
      (split; [reflexivity|]); eexists; (split; [reflexivity|]);
      cbn [code signature_refusal]; (split; [split; discriminate|reflexivity]).
  - unfold approveBAPB. rewrite approve_run. cbv zeta.
    cbn [tables] in *.
    destruct (fault_at w (ncalls w)) eqn:F0.
    { cbn [fst snd orb]. eexists. split; [reflexivity|]. cbn [code server_error].
      split; [split; reflexivity|congruence]. }
    rewrite Hf, Hs, Hrole. cbn [negb].
    destruct (fault_at w (S (ncalls w))) eqn:F1.
    { cbn [fst snd orb]. eexists. split; [reflexivity|]. cbn [code server_error].
      split; [split; reflexivity|congruence]. }
    unfold approved_by in *. cbn [tables] in *. rewrite Hab.
    rewrite signatureWarningBAPB_run. world_simpl.
    unfold signatures_of in Hsig. cbn [tables] in Hsig. rewrite Hsig.
    assert (Hstep :
              (if fault_at w (S (S (ncalls w)))
               then (Returned (inr (Some "Could not verify signature status"%string)),
                     tick (tick (tick w (ev op_select (table_name BAPB) true) (db w))
                                (ev op_select (approvals_table BAPB) false) (db w))
                          (ev op_select "bapb_attachments" false) (db w))
               else (Returned (inr (Some "Approved without signature - please upload signature for complete documentation"%string)),
                     tick (tick (tick w (ev op_select (table_name BAPB) true) (db w))
                                (ev op_select (approvals_table BAPB) false) (db w))
                          (ev op_select "bapb_attachments" true) (db w)))
              = (Returned (inr (Some (if fault_at w (S (S (ncalls w)))
                                      then unverified_warning else unsigned_warning))),
                 tick (tick (tick w (ev op_select (table_name BAPB) true) (db w))
                            (ev op_select (approvals_table BAPB) false) (db w))
                      (ev op_select "bapb_attachments"
                          (negb (fault_at w (S (S (ncalls w)))))) (db w))
              :> Outcome (Response + option string) * World)
      by (destruct (fault_at w (S (S (ncalls w)))); reflexivity).
    rewrite Hstep. clear Hstep.
    set (warn := if fault_at w (S (S (ncalls w))) then _ else _).
    rewrite record_then_update_run. cbv zeta. world_simpl.
    destruct (fault_at w (S (S (S (ncalls w))))) eqn:F3.
    { cbn [answered fst snd orb]. eexists. split; [reflexivity|].
      cbn [code server_error orb]. rewrite ?orb_true_r.
      split; [split; reflexivity|congruence]. }
    destruct (fault_at w (S (S (S (S (ncalls w)))))) eqn:F4.
    { cbn [answered fst snd orb]. eexists. split; [reflexivity|].
      cbn [code server_error orb]. rewrite ?orb_true_r.
      split; [split; reflexivity|congruence]. }
    cbn [approval_of ap_doc_id tables]. rewrite Hf.
    destruct (fault_at w (S (S (S (S (S (S (ncalls w)))))))) eqn:F6.
    { cbn [answered fst snd orb]. eexists. split; [reflexivity|].
      cbn [code server_error orb]. rewrite ?orb_true_r.
      split; [split; reflexivity|congruence]. }
    cbn [answered fst snd orb negb]. world_simpl.
    eexists. split; [reflexivity|]. cbn [code done].
    split; [split; discriminate|]. intros _.
    split; [reflexivity|]. split; [reflexivity|]. split; [reflexivity|].
    change (bapb ?s) with (tables BAPB s).
    destruct (fault_at w (S (S (S (S (S (ncalls w))))))) eqn:F5.
    + split.
      * rewrite approvals_patched, approvals_recorded. reflexivity.
      * exists (apply_patch (approve_patch BAPB req d) d).
        rewrite docs_patched, docs_recorded, filter_has_id_patch.
        cbn [tables]. rewrite Hf. split; reflexivity.
    + split.
      * rewrite approvals_noted, approvals_patched, approvals_recorded. reflexivity.
      * exists (apply_patch (approve_patch BAPB req d) d).
        rewrite docs_noted, docs_patched, docs_recorded, filter_has_id_patch.
        cbn [tables]. rewrite Hf. split; reflexivity.
Qed.

(** ** Create with line items: compensation *)

Lemma create_run (t : DocType) (d : Doc) (w : World) :
  BaseRepository.create t d w =
  if fault_at w (ncalls w) then
    (Thrown store_failure, tick w (ev op_insert (table_name t) false) (db w))
  else
    (Returned (Some (stamp (next_id (db w)) (now w) d)),
     tick w (ev op_insert (table_name t) true) (inserted t (now w) d (db w))).
Proof.
  unfold BaseRepository.create, ev, inserted; unfold_monad.
  destruct (fault_at w (ncalls w)); reflexivity.
Qed.

Lemma delete_run (t : DocType) (i : Id) (w : World) :
  BaseRepository.delete t i w =
  if fault_at w (ncalls w) then
    (Thrown store_failure, tick w (ev op_delete (table_name t) false) (db w))
  else
    (Returned true, tick w (ev op_delete (table_name t) true) (deleted t i (db w))).
Proof.
  unfold BaseRepository.delete, ev, deleted; unfold_monad.
  destruct (fault_at w (ncalls w)); reflexivity.
Qed.

Lemma docs_deleted_inserted (t : DocType) (clock : DateTime) (d : Doc) (s : Store) :
  docs (tables t (deleted t (next_id s) (inserted t clock d s)))
  = filter (fun x => negb (has_id (next_id s) x)) (docs (tables t s)).
Proof.
  destruct t; cbn; rewrite filter_app; cbn; unfold has_id; cbn;
    rewrite Nat.eqb_refl; cbn; now rewrite app_nil_r.
Qed.

Lemma filter_fresh (n : Id) (l : list Doc) :
  (forall x, In x l -> id x < n) ->
  filter (fun x => negb (has_id n x)) l = l.
Proof.
  induction l as [|x l IH]; intros H; [reflexivity|].
  cbn. unfold has_id at 1.
  assert ((id x =? n) = false) as -> by (apply Nat.eqb_neq; specialize (H x (or_introl eq_refl)); lia).
  cbn. rewrite IH; [reflexivity|]. intros y Hy. apply H. now right.
Qed.

Lemma createWithItems_rollback (d : Doc) (x : BapbItemInput) (l : list BapbItemInput)
      (w : World) :
  fault_at w (ncalls w) = false ->
  fault_at w (S (ncalls w)) = true ->
  let s1 := inserted BAPB (now w) d (db w) in
  let w2 := tick (tick w (ev op_insert "bapb" true) s1)
                 (ev op_insert "bapb_items" false) s1 in
  BAPBRepository.createWithItems d (Some (x :: l)) w =
  if fault_at w (S (S (ncalls w))) then
    (Thrown store_failure, tick w2 (ev op_delete "bapb" false) s1)
  else
    (Thrown (items_error BAPB store_failure),
     tick w2 (ev op_delete "bapb" true) (deleted BAPB (next_id (db w)) s1)).
Proof.
  intros F0 F1 s1 w2. unfold w2, s1.
  unfold BAPBRepository.createWithItems.
  cbv beta zeta delta [try_catch bind ret throw].
  rewrite create_run, F0. cbv beta iota.
  unfold query. world_simpl. rewrite F1. cbv beta iota. cbn [error error_reply].
  rewrite delete_run. world_simpl.
  destruct (fault_at w (S (S (ncalls w)))); reflexivity.
Qed.

Lemma createWithWorkItems_rollback (d : Doc) (x : WorkItemInput)
      (l : list WorkItemInput) (w : World) :
  fault_at w (ncalls w) = false ->
  fault_at w (S (ncalls w)) = true ->
  let d' := doc_with_total d (_calculateTotalProgress (Some (x :: l))) in
  let s1 := inserted BAPP (now w) d' (db w) in
  let w2 := tick (tick w (ev op_insert "bapp" true) s1)
                 (ev op_insert "bapp_work_items" false) s1 in
  BAPPRepository.createWithWorkItems d (Some (x :: l)) w =
  if fault_at w (S (S (ncalls w))) then
    (Thrown store_failure, tick w2 (ev op_delete "bapp" false) s1)
  else
    (Thrown (items_error BAPP store_failure),
     tick w2 (ev op_delete "bapp" true) (deleted BAPP (next_id (db w)) s1)).
Proof.
  intros F0 F1 d' s1 w2. unfold w2, s1, d'.
  unfold BAPPRepository.createWithWorkItems.
  cbv beta zeta delta [try_catch bind ret throw].
  rewrite create_run, F0. cbv beta iota.
  unfold query. world_simpl. rewrite F1. cbv beta iota. cbn [error error_reply].
  rewrite delete_run. world_simpl.
  destruct (fault_at w (S (S (ncalls w)))); reflexivity.
Qed.

(** Both repositories at once. *)
Lemma create_with_children_rollback (t : DocType) (d : Doc)
      (goods : list BapbItemInput) (work : list WorkItemInput) (w : World) :
  0 < children_given t goods work ->
  fault_at w (ncalls w) = false ->
  fault_at w (S (ncalls w)) = true ->
  let s1 := inserted t (now w) (row_written t d work) (db w) in
  let w2 := tick (tick w (ev op_insert (table_name t) true) s1)
                 (ev op_insert (items_table t) false) s1 in
  create_with_children t d goods work w =
  if fault_at w (S (S (ncalls w))) then
    (Thrown store_failure, tick w2 (ev op_delete (table_name t) false) s1)
  else
    (Thrown (items_error t store_failure),
     tick w2 (ev op_delete (table_name t) true) (deleted t (next_id (db w)) s1)).
Proof.
  intros Hn F0 F1. unfold create_with_children.
  destruct t; cbn [children_given] in Hn.
  - destruct goods as [|x l]; [cbn in Hn; lia|].
    exact (createWithItems_rollback d x l w F0 F1).
  - destruct work as [|x l]; [cbn in Hn; lia|].
    exact (createWithWorkItems_rollback d x l w F0 F1).
Qed.

Lemma item_table_inserted (t : DocType) (clock : DateTime) (d : Doc) (s : Store) :
  item_table t (inserted t clock d s) = item_table t s.
Proof. destruct t; reflexivity. Qed.

(** C4 (amended).  A create with a non-empty list of line items whose
    document insert is accepted and whose bulk insert of the items is
    refused: the delete of the new row is the next and last call, and no
    line item was added.  When the store accepts that delete, the caller
    gets the one aggregated error, no row with the new id is left, and
    (ids below [next_id]) the document table is exactly what it was.
    When the store refuses the delete too, the caller gets the error of
    the delete and not the aggregated one, and the new row stays, without
    line items added to it. *)
Theorem failed_create_is_compensated (t : DocType) (d : Doc)
        (goods : list BapbItemInput) (work : list WorkItemInput) (w : World) :
  0 < children_given t goods work ->
  fault_at w (ncalls w) = false ->
  fault_at w (S (ncalls w)) = true ->
  let m := create_with_children t d goods work in
  let refused := fault_at w (S (S (ncalls w))) in
  calls_of m w = [ev op_insert (table_name t) true;
                  ev op_insert (items_table t) false;
                  ev op_delete (table_name t) (negb refused)]
  /\ item_rows t (db (world_after m w)) <= item_rows t (db w)
  /\ (refused = false ->
      result_of m w = Thrown (items_error t store_failure)
      /\ (forall x, In x (docs (tables t (db (world_after m w)))) ->
                    id x <> next_id (db w))
      /\ ((forall x, In x (docs (tables t (db w))) -> id x < next_id (db w)) ->
          docs (tables t (db (world_after m w))) = docs (tables t (db w))))
  /\ (refused = true ->
      result_of m w = Thrown store_failure
      /\ docs (tables t (db (world_after m w)))
         = docs (tables t (db w))
           ++ [stamp (next_id (db w)) (now w) (row_written t d work)]
      /\ item_table t (db (world_after m w)) = item_table t (db w)).
Proof.
  intros Hn F0 F1 m refused. unfold m, refused, result_of, world_after.
  pose proof (create_with_children_rollback t d goods work w Hn F0 F1) as Hrun.
  cbv zeta in Hrun.
  destruct (fault_at w (S (S (ncalls w)))) eqn:F2.
  - rewrite (@calls_of_intro _ _ w
               [ev op_insert (table_name t) true; ev op_insert (items_table t) false;
                ev op_delete (table_name t) false])
      by (rewrite Hrun; cbn [snd]; trace_norm; reflexivity).
    rewrite Hrun. cbn [fst snd negb]. world_simpl.
    split; [reflexivity|]. split.
    { destruct t; cbn; lia. }
    split; [discriminate|]. intros _.
    split; [reflexivity|]. split; [|apply item_table_inserted].
    destruct t; reflexivity.
  - rewrite (@calls_of_intro _ _ w
               [ev op_insert (table_name t) true; ev op_insert (items_table t) false;
                ev op_delete (table_name t) true])
      by (rewrite Hrun; cbn [snd]; trace_norm; reflexivity).
    rewrite Hrun. cbn [fst snd negb]. world_simpl.
    split; [reflexivity|]. split.
    { destruct t; cbn; apply filter_length_le. }
    split; [|discriminate]. intros _.
    split; [reflexivity|].
    rewrite docs_deleted_inserted. split.
    + intros y Hy. apply filter_In in Hy. destruct Hy as [_ Hy].
      unfold has_id in Hy. apply negb_true_iff, Nat.eqb_neq in Hy. exact Hy.
    + intros Hwf. now apply filter_fresh.
Qed.

(** ** Update, and the way back from [revision_required] *)

Lemma updateWithItems_docs (i : Id) (p : Patch) (items : option (list BapbItemInput))
      (w : World) :
  let r := BAPBRepository.updateWithItems i p items w in
  (docs (bapb (db (snd r))) = docs (bapb (db w))
   \/ docs (bapb (db (snd r))) = docs (bapb (patched BAPB i p (db w))))
  /\ (forall x, fst r = Returned x ->
      exists d, filter (has_id i) (docs (bapb (db w))) = [d]
                /\ docs (bapb (db (snd r))) = docs (bapb (patched BAPB i p (db w)))).
Proof.
  unfold BAPBRepository.updateWithItems.
  set (K := (match items with
             | Some l => _
             | None => ret tt
             end ;;; Repository.findByIdWithRelations BAPB i)).
  assert (HK : keeps (docs_of BAPB) K).
  { unfold K, docs_of. keeps_auto. }
  cbv beta zeta delta [try_catch bind throw].
  rewrite update_run.
  destruct (fault_at w (ncalls w)).
  { cbn. split; [now left|discriminate]. }
  cbn [tables].
  destruct (filter (has_id i) (docs (bapb (db w)))) as [|d [|d' l]] eqn:Hf.
  - cbn. split; [now right|discriminate].
  - specialize (HK (tick w (ev op_update (table_name BAPB) true) (patched BAPB i p (db w)))).
    unfold docs_of in HK. cbn [tables db tick] in HK.
    change (bind ?m ?k) with K.
    destruct (K _) as [[x|e] w'] eqn:EK; cbn [fst snd] in *.
    + split; [now right|]. intros _ _. exists d. split; [reflexivity|exact HK].
    + split; [now right|discriminate].
  - cbn. split; [now right|discriminate].
Qed.

Lemma updateWithWorkItems_docs (i : Id) (p : Patch)
      (items : option (list WorkItemInput)) (w : World) :
  let r := BAPPRepository.updateWithWorkItems i p items w in
  let p' := work_patch p items in
  (docs (bapp (db (snd r))) = docs (bapp (db w))
   \/ docs (bapp (db (snd r))) = docs (bapp (patched BAPP i p' (db w))))
  /\ (forall x, fst r = Returned x ->
      exists d, filter (has_id i) (docs (bapp (db w))) = [d]
                /\ docs (bapp (db (snd r))) = docs (bapp (patched BAPP i p' (db w)))).
Proof.
  unfold BAPPRepository.updateWithWorkItems.
  set (ITEMS := match items with
                | Some l => _
                | None => ret p
                end).
  assert (HI : forall w0, docs (bapp (db (snd (ITEMS w0)))) = docs (bapp (db w0))
                          /\ forall x, fst (ITEMS w0) = Returned x -> x = work_patch p items).
  { intros w0. split.
    - assert (Hk : keeps (docs_of BAPP) ITEMS) by (unfold ITEMS, docs_of; keeps_auto).
      apply Hk.
    - unfold ITEMS, work_patch. destruct items as [l|]; [|cbn; congruence].
      cbv beta zeta delta [bind ret throw query].
      destruct (fault_at w0 (ncalls w0)); cbn; [discriminate|].
      destruct l as [|y l]; cbn; [congruence|].
      destruct (fault_at w0 (S (ncalls w0))); cbn; [discriminate|congruence]. }
  cbv beta zeta delta [try_catch bind throw].
  destruct (HI w) as [Hd Hp].
  destruct (ITEMS w) as [[p0|e] w1] eqn:EI; cbn [fst snd] in *.
  2:{ split; [now left|discriminate]. }
  rewrite (Hp p0 eq_refl).
  rewrite update_run.
  destruct (fault_at w1 (ncalls w1)).
  { cbn. split; [now left|discriminate]. }
  cbn [tables]. rewrite Hd.
  assert (Hpd : forall s, docs (bapp s) = docs (bapp (db w)) ->
                docs (bapp (patched BAPP i (work_patch p items) s))
                = docs (bapp (patched BAPP i (work_patch p items) (db w)))).
  { intros s Hs. change (bapp ?s) with (tables BAPP s).
    rewrite !docs_patched. cbn [tables]. now rewrite Hs. }
  destruct (filter (has_id i) (docs (bapp (db w)))) as [|d [|d' l]] eqn:Hf.
  - cbn. split; [right; now apply Hpd|discriminate].
  - assert (Hk : keeps (docs_of BAPP) (Repository.findByIdWithRelations BAPP i))
      by apply keeps_findByIdWithRelations.
    match goal with
    | |- context [Repository.findByIdWithRelations BAPP i ?w2] =>
        specialize (Hk w2); unfold docs_of in Hk; cbn [tables db tick] in Hk;
        destruct (Repository.findByIdWithRelations BAPP i w2) as [[x|e] w'] eqn:EK
    end; cbn [fst snd] in *.
    + rewrite Hk. split; [right; now apply Hpd|].
      intros _ _. exists d. split; [reflexivity|now apply Hpd].
    + rewrite Hk. split; [right; now apply Hpd|discriminate].
  - cbn. split; [right; now apply Hpd|discriminate].
Qed.

Lemma no_faults_tick w e s : no_faults w -> no_faults (tick w e s).
Proof. intros H n Hn. cbn in *. apply H. lia. Qed.

Lemma findByIdWithRelations_returns t i w :
  no_faults w -> exists x, fst (Repository.findByIdWithRelations t i w) = Returned x.
Proof.
  intros H. rewrite findByIdWithRelations_run, (no_faults_here H).
  destruct (filter _ _) as [|d [|d' l]]; eexists; reflexivity.
Qed.

Ltac find_returns :=
  rewrite findByIdWithRelations_run; world_simpl;
  match goal with
  | H : fault_at ?w ?n = false |- context [fault_at ?w ?n] => rewrite H
  end;
  match goal with
  | |- context [match filter ?f ?l with _ => _ end] =>
      destruct (filter f l) as [|? [|? ?]]
  end; eexists; reflexivity.

Lemma updateWithItems_returns i p items w d :
  no_faults w ->
  filter (has_id i) (docs (bapb (db w))) = [d] ->
  exists x, fst (BAPBRepository.updateWithItems i p items w) = Returned x.
Proof.
  intros Hnf Hf.
  pose proof (no_faults_here Hnf) as F0.
  pose proof (no_faults_ahead 1 Hnf) as F1.
  pose proof (no_faults_ahead 2 Hnf) as F2.
  pose proof (no_faults_ahead 3 Hnf) as F3.
  cbn [Nat.add] in *.
  unfold BAPBRepository.updateWithItems.
  cbv beta zeta delta [try_catch bind ret throw].
  rewrite update_run, F0. cbn [tables]. rewrite Hf.
  destruct items as [l|].
  - unfold query. world_simpl. rewrite F1. cbn [error empty_reply fst snd].
    destruct l as [|y l].
    + find_returns.
    + world_simpl. rewrite F2. cbn [error empty_reply fst snd]. find_returns.
  - find_returns.
Qed.

Lemma updateWithWorkItems_returns i p items w d :
  no_faults w ->
  filter (has_id i) (docs (bapp (db w))) = [d] ->
  exists x, fst (BAPPRepository.updateWithWorkItems i p items w) = Returned x.
Proof.
  intros Hnf Hf.
  pose proof (no_faults_here Hnf) as F0.
  pose proof (no_faults_ahead 1 Hnf) as F1.
  pose proof (no_faults_ahead 2 Hnf) as F2.
  pose proof (no_faults_ahead 3 Hnf) as F3.
  cbn [Nat.add] in *.
  unfold BAPPRepository.updateWithWorkItems.
  cbv beta zeta delta [try_catch bind ret throw].
  destruct items as [l|].
  - unfold query at 1. rewrite F0. cbn [error empty_reply fst snd].
    destruct l as [|y l].
    + rewrite update_run. world_simpl. rewrite F1. cbn [tables set_bapp_work_items bapp].
      rewrite Hf. find_returns.
    + unfold query. world_simpl. rewrite F1. cbn [error empty_reply fst snd].
      rewrite update_run. world_simpl. rewrite F2.
      cbn [tables set_bapp_work_items bapp]. rewrite Hf. find_returns.
  - rewrite update_run, F0. cbn [tables]. rewrite Hf. find_returns.
Qed.

Lemma or_keep_if_truthy (x old : option string) :
  or_keep (if_truthy x) old = truthy_or x old.
Proof.
  unfold or_keep, if_truthy, truthy_or.
  destruct x as [[|c s]|]; reflexivity.
Qed.

Lemma review_state_patched (t : DocType) (i : Id) (p : Patch) (s : Store) :
  p_status p = None -> p_rejection_reason p = None ->
  map review_state (docs (tables t (patched t i p s)))
  = map review_state (docs (tables t s)).
Proof.
  intros H1 H2. rewrite docs_patched, map_map.
  apply map_ext. intros d. destruct (has_id i d); [|reflexivity].
  unfold review_state, apply_patch. cbn. rewrite H1, H2. reflexivity.
Qed.

Lemma updateBAPB_facts (req : UpdateBAPBReq) (w : World) :
  let r := updateBAPB req w in
  (forall d, filter (has_id (ub_id req)) (docs (bapb (db w))) = [d] ->
     docs (bapb (db (snd r))) = docs (bapb (db w))
     \/ docs (bapb (db (snd r)))
        = docs (bapb (patched BAPB (ub_id req) (updateDataBAPB req d) (db w))))
  /\ (forall resp, fst r = Returned resp -> code resp = 200 ->
      exists d, filter (has_id (ub_id req)) (docs (bapb (db w))) = [d]
                /\ docs (bapb (db (snd r)))
                   = docs (bapb (patched BAPB (ub_id req) (updateDataBAPB req d) (db w))))
  /\ (no_faults w ->
      forall d, filter (has_id (ub_id req)) (docs (bapb (db w))) = [d] ->
                owning_vendor BAPB (ub_user req) d ->
                (status d = draft \/ status d = revision_required) ->
                exists resp, fst r = Returned resp /\ code resp = 200).
Proof.
  unfold updateBAPB.
  cbv beta zeta delta [try_catch bind ret].
  rewrite findById_run.
  destruct (fault_at w (ncalls w)) eqn:F0.
  { cbn. split; [auto|]. split.
    - intros resp H. injection H as <-. cbn. discriminate.
    - intros Hnf. rewrite (no_faults_here Hnf) in F0. discriminate. }
  cbn [tables].
  destruct (filter (has_id (ub_id req)) (docs (bapb (db w)))) as [|d [|d' l]] eqn:Hf.
  { cbn. split; [auto|]. split.
    - intros resp H. injection H as <-. cbn. discriminate.
    - intros _ d0 H0. discriminate. }
  2:{ cbn. split; [auto|]. split.
    - intros resp H. injection H as <-. cbn. discriminate.
    - intros _ d0 H0. discriminate. }
  destruct (isVendor BAPB (user_role (ub_user req))
            && negb (vendor_id d =? user_id (ub_user req))) eqn:Hown.
  { cbn. split; [auto|]. split.
    - intros resp H. injection H as <-. cbn. discriminate.
    - intros _ d0 H0 [Hv _]. injection H0 as <-.
      apply andb_true_iff in Hown. destruct Hown as [_ Hown].
      apply negb_true_iff, Nat.eqb_neq in Hown. contradiction. }
  destruct (canManage BAPB (user_role (ub_user req))) eqn:Hman; cbn [negb].
  2:{ cbn. split; [auto|]. split.
    - intros resp H. injection H as <-. cbn. discriminate.
    - intros _ d0 H0 [_ Hm]. congruence. }
  destruct (status_in [draft; revision_required] (status d)) eqn:Hst; cbn [negb].
  2:{ cbn. split; [auto|]. split.
    - intros resp H. injection H as <-. cbn. discriminate.
    - intros _ d0 H0 _ Hs. injection H0 as <-.
      destruct Hs as [Hs|Hs]; rewrite Hs in Hst; discriminate. }
  set (w1 := tick w (ev op_select (table_name BAPB) true) (db w)).
  pose proof (updateWithItems_docs (ub_id req) (updateDataBAPB req d) (ub_items req) w1)
    as [Hdocs Hret].
  cbv zeta in Hdocs, Hret. change (db w1) with (db w) in *.
  destruct (BAPBRepository.updateWithItems _ _ _ w1) as [[x|e] w2] eqn:EU;
    cbn [fst snd] in *.
  - split; [intros d0 H0; injection H0 as <-; exact Hdocs|]. split.
    + intros resp _ _. destruct (Hret x eq_refl) as [d0 [H0 H1]].
      exists d. split; [reflexivity|exact H1].
    + intros _ _ _ _ _. eexists. split; reflexivity.
  - split; [intros d0 H0; injection H0 as <-; exact Hdocs|]. split.
    + intros resp H. injection H as <-. cbn. discriminate.
    + intros Hnf d0 H0 _ _.
      assert (N1 : no_faults w1) by (now apply no_faults_tick).
      destruct (updateWithItems_returns (ub_id req) (updateDataBAPB req d) (ub_items req) N1 Hf)
        as [x Hx].
      rewrite EU in Hx. discriminate.
Qed.

Lemma updateBAPP_facts (req : UpdateBAPPReq) (w : World) :
  let r := updateBAPP req w in
  let p := fun d => work_patch (updateDataBAPP req d) (up_workItems req) in
  (forall d, filter (has_id (up_id req)) (docs (bapp (db w))) = [d] ->
     docs (bapp (db (snd r))) = docs (bapp (db w))
     \/ docs (bapp (db (snd r)))
        = docs (bapp (patched BAPP (up_id req) (p d) (db w))))
  /\ (forall resp, fst r = Returned resp -> code resp = 200 ->
      exists d, filter (has_id (up_id req)) (docs (bapp (db w))) = [d]
                /\ docs (bapp (db (snd r)))
                   = docs (bapp (patched BAPP (up_id req) (p d) (db w))))
  /\ (no_faults w ->
      forall d, filter (has_id (up_id req)) (docs (bapp (db w))) = [d] ->
                owning_vendor BAPP (up_user req) d ->
                (status d = draft \/ status d = revision_required) ->
                exists resp, fst r = Returned resp /\ code resp = 200).
Proof.
  unfold updateBAPP.
  cbv beta zeta delta [try_catch bind ret].
  rewrite findById_run.
  destruct (fault_at w (ncalls w)) eqn:F0.
  { cbn. split; [auto|]. split.
    - intros resp H. injection H as <-. cbn. discriminate.
    - intros Hnf. rewrite (no_faults_here Hnf) in F0. discriminate. }
  cbn [tables].
  destruct (filter (has_id (up_id req)) (docs (bapp (db w)))) as [|d [|d' l]] eqn:Hf.
  { cbn. split; [auto|]. split.
    - intros resp H. injection H as <-. cbn. discriminate.
    - intros _ d0 H0. discriminate. }
  2:{ cbn. split; [auto|]. split.
    - intros resp H. injection H as <-. cbn. discriminate.
    - intros _ d0 H0. discriminate. }
  destruct (isVendor BAPP (user_role (up_user req))
            && negb (vendor_id d =? user_id (up_user req))) eqn:Hown.
  { cbn. split; [auto|]. split.
    - intros resp H. injection H as <-. cbn. discriminate.
    - intros _ d0 H0 [Hv _]. injection H0 as <-.
      apply andb_true_iff in Hown. destruct Hown as [_ Hown].
      apply negb_true_iff, Nat.eqb_neq in Hown. contradiction. }
  destruct (canManage BAPP (user_role (up_user req))) eqn:Hman; cbn [negb].
  2:{ cbn. split; [auto|]. split.
    - intros resp H. injection H as <-. cbn. discriminate.
    - intros _ d0 H0 [_ Hm]. congruence. }
  destruct (status_in [draft; revision_required] (status d)) eqn:Hst; cbn [negb].
  2:{ cbn. split; [auto|]. split.
    - intros resp H. injection H as <-. cbn. discriminate.
    - intros _ d0 H0 _ Hs. injection H0 as <-.
      destruct Hs as [Hs|Hs]; rewrite Hs in Hst; discriminate. }
  set (w1 := tick w (ev op_select (table_name BAPP) true) (db w)).
  pose proof (updateWithWorkItems_docs (up_id req) (updateDataBAPP req d)
                                       (up_workItems req) w1) as [Hdocs Hret].
  cbv zeta in Hdocs, Hret. change (db w1) with (db w) in *.
  destruct (BAPPRepository.updateWithWorkItems _ _ _ w1) as [[x|e] w2] eqn:EU;
    cbn [fst snd] in *.
  - split; [intros d0 H0; injection H0 as <-; exact Hdocs|]. split.
    + intros resp _ _. destruct (Hret x eq_refl) as [d0 [H0 H1]].
      exists d. split; [reflexivity|exact H1].
    + intros _ _ _ _ _. eexists. split; reflexivity.
  - split; [intros d0 H0; injection H0 as <-; exact Hdocs|]. split.
    + intros resp H. injection H as <-. cbn. discriminate.
    + intros Hnf d0 H0 _ _.
      assert (N1 : no_faults w1) by (now apply no_faults_tick).
      destruct (updateWithWorkItems_returns (up_id req) (updateDataBAPP req d)
                                            (up_workItems req) N1 Hf) as [x Hx].
      rewrite EU in Hx. discriminate.
Qed.

Lemma filter_patched_single (t : DocType) (i : Id) (p : Patch) (s s' : Store) (d : Doc) :
  filter (has_id i) (docs (tables t s)) = [d] ->
  docs (tables t s') = docs (tables t (patched t i p s)) ->
  filter (has_id i) (docs (tables t s')) = [apply_patch p d].
Proof.
  intros Hf Hd. rewrite Hd, docs_patched, filter_has_id_patch, Hf. reflexivity.
Qed.

Lemma status_back_to_draft (d : Doc) :
  status d = draft \/ status d = revision_required ->
  or_old (back_to_draft d) (status d) = draft.
Proof. unfold back_to_draft. intros [H|H]; rewrite H; reflexivity. Qed.

Lemma reason_cleared (d : Doc) :
  or_old (clear_reason d) (rejection_reason d)
  = if Status_eqb (status d) revision_required then None else rejection_reason d.
Proof. unfold clear_reason. destruct (Status_eqb _ _); reflexivity. Qed.

(** C6. An accepted update (answer 200) of a document in
    [revision_required] leaves it in [draft] with [rejection_reason] null,
    and with the supplied columns written; the owning vendor's update is
    accepted whenever the store accepts its calls; and an update of a
    document already in [draft] changes no row's status or
    rejection_reason, whatever the outcome.  Both document types. *)
Theorem edit_after_revision :
  (forall (req : UpdateBAPBReq) (w : World) (d : Doc),
      filter (has_id (ub_id req)) (docs (bapb (db w))) = [d] ->
      let w' := world_after (updateBAPB req) w in
      (forall resp,
          result_of (updateBAPB req) w = Returned resp -> code resp = 200 ->
          exists d',
            filter (has_id (ub_id req)) (docs (bapb (db w'))) = [d']
            /\ status d' = draft
            /\ rejection_reason d'
               = (if Status_eqb (status d) revision_required then None
                  else rejection_reason d)
            /\ order_number d' = truthy_or (ub_orderNumber req) (order_number d)
            /\ delivery_date d' = truthy_or (ub_deliveryDate req) (delivery_date d)
            /\ notes d' = or_defined (ub_notes req) (notes d))
      /\ (no_faults w -> owning_vendor BAPB (ub_user req) d ->
          status d = revision_required ->
          exists resp, result_of (updateBAPB req) w = Returned resp /\ code resp = 200)
      /\ (status d = draft ->
          map review_state (docs (bapb (db w'))) = map review_state (docs (bapb (db w)))))
  /\
  (forall (req : UpdateBAPPReq) (w : World) (d : Doc),
      filter (has_id (up_id req)) (docs (bapp (db w))) = [d] ->
      let w' := world_after (updateBAPP req) w in
      (forall resp,
          result_of (updateBAPP req) w = Returned resp -> code resp = 200 ->
          exists d',
            filter (has_id (up_id req)) (docs (bapp (db w'))) = [d']
            /\ status d' = draft
            /\ rejection_reason d'
               = (if Status_eqb (status d) revision_required then None
                  else rejection_reason d)
            /\ contract_number d' = truthy_or (up_contractNumber req) (contract_number d)
            /\ project_name d' = truthy_or (up_projectName req) (project_name d)
            /\ project_location d'
               = truthy_or (up_projectLocation req) (project_location d)
            /\ start_date d' = truthy_or (up_startDate req) (start_date d)
            /\ end_date d' = truthy_or (up_endDate req) (end_date d)
            /\ completion_date d' = or_defined (up_completionDate req) (completion_date d)
            /\ notes d' = or_defined (up_notes req) (notes d))
      /\ (no_faults w -> owning_vendor BAPP (up_user req) d ->
          status d = revision_required ->
          exists resp, result_of (updateBAPP req) w = Returned resp /\ code resp = 200)
      /\ (status d = draft ->
          map review_state (docs (bapp (db w'))) = map review_state (docs (bapp (db w))))).
Proof.
  split; intros req w d Hf w'; unfold w', world_after, result_of.
  - destruct (updateBAPB_facts req w) as [Hany [Hok Hgo]]. cbv zeta in *.
    split; [|split].
    + intros resp Hr Hc. destruct (Hok resp Hr Hc) as [d0 [Hf0 Hd]].
      rewrite Hf in Hf0. injection Hf0 as <-.
      exists (apply_patch (updateDataBAPB req d) d).
      split; [exact (filter_patched_single BAPB _ _ _ _ Hf Hd)|].
      assert (Hst : status d = draft \/ status d = revision_required).
      { revert Hr Hc. unfold updateBAPB.
        cbv beta zeta delta [try_catch bind ret]. rewrite findById_run.
        destruct (fault_at w (ncalls w)); [intros H; injection H as <-; discriminate|].
        cbn [tables]. rewrite Hf.
        destruct (isVendor _ _ && _); [intros H; injection H as <-; discriminate|].
        destruct (negb (canManage _ _)); [intros H; injection H as <-; discriminate|].
        destruct (status d); cbn; auto; intros H; injection H as <-; discriminate. }
      cbn [apply_patch status rejection_reason order_number delivery_date notes
           updateDataBAPB p_status p_rejection_reason p_order_number
           p_delivery_date p_notes].
      rewrite (status_back_to_draft d Hst), reason_cleared, !or_keep_if_truthy.
      repeat split.
    + intros Hnf Hown Hs. apply (Hgo Hnf d Hf Hown). now right.
    + intros Hs. destruct (Hany d Hf) as [Hd|Hd].
      * now rewrite Hd.
      * rewrite Hd. apply (review_state_patched BAPB).
        -- cbn. unfold back_to_draft. now rewrite Hs.
        -- cbn. unfold clear_reason. now rewrite Hs.
  - destruct (updateBAPP_facts req w) as [Hany [Hok Hgo]]. cbv zeta in *.
    split; [|split].
    + intros resp Hr Hc. destruct (Hok resp Hr Hc) as [d0 [Hf0 Hd]].
      rewrite Hf in Hf0. injection Hf0 as <-.
      exists (apply_patch (work_patch (updateDataBAPP req d) (up_workItems req)) d).
      split; [exact (filter_patched_single BAPP _ _ _ _ Hf Hd)|].
      assert (Hst : status d = draft \/ status d = revision_required).
      { revert Hr Hc. unfold updateBAPP.
        cbv beta zeta delta [try_catch bind ret]. rewrite findById_run.
        destruct (fault_at w (ncalls w)); [intros H; injection H as <-; discriminate|].
        cbn [tables]. rewrite Hf.
        destruct (isVendor _ _ && _); [intros H; injection H as <-; discriminate|].
        destruct (negb (canManage _ _)); [intros H; injection H as <-; discriminate|].
        destruct (status d); cbn; auto; intros H; injection H as <-; discriminate. }
      assert (Hp : forall p, apply_patch (work_patch p (up_workItems req)) d
                             = doc_with_total (apply_patch p d)
                                 (total_progress
                                    (apply_patch (work_patch p (up_workItems req)) d))).
      { intros p. unfold work_patch. destruct (up_workItems req); reflexivity. }
      rewrite Hp.
      cbn [doc_with_total apply_patch status rejection_reason contract_number
           project_name project_location start_date end_date completion_date
           notes updateDataBAPP p_status p_rejection_reason p_contract_number
           p_project_name p_project_location p_start_date p_end_date
           p_completion_date p_notes].
      rewrite (status_back_to_draft d Hst), reason_cleared, !or_keep_if_truthy.
      repeat split.
    + intros Hnf Hown Hs. apply (Hgo Hnf d Hf Hown). now right.
    + intros Hs. destruct (Hany d Hf) as [Hd|Hd].
      * now rewrite Hd.
      * rewrite Hd. apply (review_state_patched BAPP).
        -- unfold work_patch. destruct (up_workItems req); cbn;
             unfold back_to_draft; now rewrite Hs.
        -- unfold work_patch. destruct (up_workItems req); cbn;
             unfold clear_reason; now rewrite Hs.
Qed.

(** ** Derived progress *)

Section Binary64.
Local Open Scope Q_scope.

Lemma two_pow_pos (e : Z) : 0 < 2 ^ e.
Proof. apply Qpower_0_lt. reflexivity. Qed.

Lemma Qpos_num (x : Q) : 0 < x -> (0 < Qnum x)%Z.
Proof. unfold Qlt. cbn. lia. Qed.

(** [2 ^ Js.ilog2 x <= x] for a positive [x]. *)
Lemma ilog2_le (x : Q) : 0 < x -> 2 ^ Js.ilog2 x <= x.
Proof.
  intros Hx. unfold Js.ilog2.
  set (a := Z.log2 (Qnum x)). set (b := Z.log2 (Zpos (Qden x))).
  destruct (Qle_bool (2 ^ (a - b)) x) eqn:E; [now apply Qle_bool_iff|].
  pose proof (Qpos_num Hx) as Hn.
  destruct (Z.log2_spec (Qnum x) Hn) as [Ha _]. fold a in Ha.
  destruct (Z.log2_spec (Zpos (Qden x)) eq_refl) as [_ Hb]. fold b in Hb.
  assert (Ha0 : (0 <= a)%Z) by apply Z.log2_nonneg.
  assert (Hb0 : (0 <= b)%Z) by apply Z.log2_nonneg.
  replace (a - b - 1)%Z with (a + - (b + 1))%Z by lia.
  rewrite Qpower_plus by discriminate. rewrite Qpower_opp.
  rewrite <- (Zpower_Qpower 2 a) by exact Ha0.
  rewrite <- (Zpower_Qpower 2 (b + 1)) by lia.
  assert (Hp : (0 < 2 ^ (b + 1))%Z) by (apply Z.pow_pos_nonneg; lia).
  destruct x as [n d]. cbn [Qnum Qden] in *.
  apply Qle_shift_div_r.
  { change 0 with (inject_Z 0). rewrite <- Zlt_Qlt. exact Hp. }
  unfold Qle, Qmult, inject_Z. cbn [Qnum Qden]. rewrite !Z.mul_1_r.
  rewrite Pos.mul_1_r.
  change (Z.succ b) with (b + 1)%Z in Hb.
  apply Z.le_trans with (n * Z.pos d)%Z.
  - apply Z.mul_le_mono_nonneg_r; [lia|exact Ha].
  - apply Z.mul_le_mono_nonneg_l; lia.
Qed.

Lemma rne_near (y : Q) :
  inject_Z (Js.rne y) - y <= 1 # 2 /\ y - inject_Z (Js.rne y) <= 1 # 2.
Proof.
  unfold Js.rne.
  pose proof (Qfloor_le y) as Hlo. pose proof (Qlt_floor y) as Hhi.
  rewrite inject_Z_plus in Hhi. change (inject_Z 1) with 1 in Hhi.
  set (f := Qfloor y) in *.
  destruct (Qcompare (y - inject_Z f) (1 # 2)) eqn:E.
  - apply Qeq_alt in E. destruct (Z.even f);
      [|rewrite inject_Z_plus; change (inject_Z 1) with 1]; split; lra.
  - apply Qlt_alt in E. split; lra.
  - apply Qgt_alt in E. rewrite inject_Z_plus. change (inject_Z 1) with 1.
    split; lra.
Qed.

Lemma rne_nonneg (y : Q) : 0 <= y -> (0 <= Js.rne y)%Z.
Proof.
  intros Hy. unfold Js.rne.
  assert (Hf : (0 <= Qfloor y)%Z).
  { change 0%Z with (Qfloor 0). now apply Qfloor_resp_le. }
  destruct (Qcompare _ _); [destruct (Z.even _)| |]; lia.
Qed.

Lemma rne_le_int (y : Q) (m : Z) : y <= inject_Z m -> (Js.rne y <= m)%Z.
Proof.
  intros Hy. unfold Js.rne.
  pose proof (Qfloor_le y) as Hlo.
  assert (Hf : (Qfloor y <= m)%Z).
  { rewrite Zle_Qle. lra. }
  set (f := Qfloor y) in *.
  destruct (Z.eq_dec f m) as [->|Hne].
  - assert (Hz : y - inject_Z m <= 0) by lra.
    destruct (Qcompare (y - inject_Z m) (1 # 2)) eqn:E.
    + apply Qeq_alt in E. lra.
    + lia.
    + apply Qgt_alt in E. lra.
  - destruct (Qcompare _ _); [destruct (Z.even _)| |]; lia.
Qed.

Lemma rne_int (m : Z) : Js.rne (inject_Z m) = m.
Proof.
  unfold Js.rne. rewrite Qfloor_Z.
  assert (E : Qcompare (inject_Z m - inject_Z m) (1 # 2) = Lt).
  { apply Qlt_alt. setoid_replace (inject_Z m - inject_Z m) with 0 by ring.
    reflexivity. }
  now rewrite E.
Qed.



Lemma round64_nonneg (x : Q) : 0 <= x -> 0 <= Js.round64 x.
Proof.
  intros Hx. unfold Js.round64. destruct (Qeq_bool x 0); [apply Qle_refl|].
  rewrite Qred_correct.
  set (e := Z.max _ _). pose proof (two_pow_pos e) as Hp.
  apply Qmult_le_0_compat; [|lra].
  change 0 with (inject_Z 0). rewrite <- Zle_Qle. apply rne_nonneg.
  apply Qle_shift_div_l; [exact Hp|lra].
Qed.

Lemma ilog2_small (x : Q) (n : Z) :
  0 < x -> (0 <= n)%Z -> x < 2 ^ n -> (Js.ilog2 x < n)%Z.
Proof.
  intros Hx Hn Hlt. pose proof (ilog2_le Hx) as Hk.
  destruct (Z_lt_le_dec (Js.ilog2 x) n) as [H|H]; [exact H|exfalso].
  assert (2 ^ n <= 2 ^ Js.ilog2 x) by (apply Qpower_le_compat_l; [exact H|discriminate]).
  lra.
Qed.

Lemma Qabs_of_nonneg (x : Q) : 0 <= x -> Qabs x = x.
Proof.
  destruct x as [n d]. unfold Qle, Qabs. cbn. intros H.
  rewrite Z.abs_eq by lia. reflexivity.
Qed.

(** Whole numbers below 2^53 are not passed. *)
Lemma round64_le_int (x : Q) (n : Z) :
  0 <= x -> x <= inject_Z n -> (n < 2 ^ 53)%Z -> Js.round64 x <= inject_Z n.
Proof.
  intros H0 Hn Hb. unfold Js.round64.
  destruct (Qeq_bool x 0) eqn:E.
  { apply Qeq_bool_iff in E. lra. }
  assert (Hx : 0 < x).
  { apply Qeq_bool_neq in E. destruct (Qlt_le_dec 0 x) as [H|H]; [exact H|].
    elim E. lra. }
  rewrite Qred_correct, (Qabs_of_nonneg H0).
  assert (Hk : (Js.ilog2 x < 53)%Z).
  { apply ilog2_small; [exact Hx|lia|].
    apply Qle_lt_trans with (inject_Z n); [exact Hn|].
    rewrite <- (Zpower_Qpower 2 53) by lia. rewrite <- Zlt_Qlt. exact Hb. }
  set (e := Z.max (Js.ilog2 x - 52) (-1074)).
  assert (He : (e <= 0)%Z) by (unfold e; lia).
  pose proof (two_pow_pos e) as Hp.
  assert (Hinv : 2 ^ e == / inject_Z (2 ^ (- e))).
  { replace e with (- (- e))%Z at 1 by lia. rewrite Qpower_opp.
    now rewrite Zpower_Qpower by lia. }
  set (m := (2 ^ (- e))%Z) in *.
  assert (Hm : (0 < m)%Z) by (apply Z.pow_pos_nonneg; lia).
  assert (Hmq : 0 < inject_Z m) by (change 0 with (inject_Z 0); now rewrite <- Zlt_Qlt).
  assert (Hr : (Js.rne (x / 2 ^ e) <= n * m)%Z).
  { apply rne_le_int. rewrite inject_Z_mult, Hinv.
    unfold Qdiv. rewrite Qinv_involutive.
    apply Qmult_le_compat_r; [exact Hn|lra]. }
  rewrite Zle_Qle, inject_Z_mult in Hr.
  assert (Hone : inject_Z m * 2 ^ e == 1) by (rewrite Hinv; apply Qmult_inv_r; lra).
  apply Qle_trans with (inject_Z n * inject_Z m * 2 ^ e).
  - apply Qmult_le_compat_r; [exact Hr|lra].
  - rewrite <- Qmult_assoc, Hone. lra.
Qed.


(** The error of one rounding: at most 2^-53 of the value, or 2^-1075
    among the subnormal numbers. *)
Lemma round64_error (x : Q) :
  0 <= x -> Qabs (Js.round64 x - x) <= x * Js.u53 + Js.eta.
Proof.
  intros H0. unfold Js.round64.
  assert (Heta : 0 < Js.eta) by apply two_pow_pos.
  destruct (Qeq_bool x 0) eqn:E.
  { apply Qeq_bool_iff in E. apply Qabs_Qle_condition. unfold Js.u53. split; lra. }
  assert (Hx : 0 < x).
  { apply Qeq_bool_neq in E. destruct (Qlt_le_dec 0 x) as [H|H]; [exact H|].
    elim E. lra. }
  rewrite Qred_correct, (Qabs_of_nonneg H0).
  pose proof (ilog2_le Hx) as Hk.
  set (k := Js.ilog2 x) in *.
  set (e := Z.max (k - 52) (-1074)).
  pose proof (two_pow_pos e) as Hp.
  destruct (rne_near (x / 2 ^ e)) as [Hup Hdn].
  set (r := inject_Z (Js.rne (x / 2 ^ e))) in *.
  assert (Hxe : x / 2 ^ e * 2 ^ e == x) by (field; lra).
  assert (Hhalf : 2 ^ e * (1 # 2) <= x * Js.u53 + Js.eta).
  { unfold e. destruct (Z.max_spec (k - 52) (-1074)) as [[_ ->]|[_ ->]].
    - change (2 ^ (-1074) * (1 # 2)) with (2 ^ (-1074) * 2 ^ (-1)).
      rewrite <- Qpower_plus by discriminate. change (-1074 + -1)%Z with (-1075)%Z.
      fold Js.eta. assert (0 <= x * Js.u53) by (unfold Js.u53; lra). lra.
    - replace (k - 52)%Z with (k + -52)%Z by lia.
      rewrite Qpower_plus by discriminate.
      assert (Hc : 2 ^ (-52) * (1 # 2) == Js.u53) by reflexivity.
      rewrite <- Qmult_assoc, Hc.
      assert (2 ^ k * Js.u53 <= x * Js.u53)
        by (apply Qmult_le_compat_r; [exact Hk|discriminate]).
      lra. }
  assert (Hd1 : (r - x / 2 ^ e) * 2 ^ e <= (1 # 2) * 2 ^ e)
    by (apply Qmult_le_compat_r; lra).
  assert (Hd2 : (x / 2 ^ e - r) * 2 ^ e <= (1 # 2) * 2 ^ e)
    by (apply Qmult_le_compat_r; lra).
  apply Qabs_Qle_condition. split.
  - setoid_replace (r * 2 ^ e - x) with (- ((x / 2 ^ e - r) * 2 ^ e))
      by (rewrite <- Hxe at 1; ring).
    lra.
  - setoid_replace (r * 2 ^ e - x) with ((r - x / 2 ^ e) * 2 ^ e)
      by (rewrite <- Hxe at 1; ring).
    lra.
Qed.


Lemma ilog2_lt (x : Q) : 0 < x -> x < 2 ^ (Js.ilog2 x + 1).
Proof.
  intros Hx. pose proof (Qpos_num Hx) as Hn.
  destruct x as [n d]. cbn in Hn. unfold Js.ilog2. cbn [Qnum Qden].
  pose proof (Z.log2_spec n Hn) as [Hn1 Hn2].
  pose proof (Z.log2_spec (Zpos d) (Pos2Z.is_pos d)) as [Hd1 Hd2].
  pose proof (Z.log2_nonneg n) as Ha. pose proof (Z.log2_nonneg (Zpos d)) as Hb.
  set (a := Z.log2 n) in *. set (b := Z.log2 (Zpos d)) in *.
  assert (Hx' : n # d == inject_Z n / inject_Z (Zpos d)) by (apply Qmake_Qdiv).
  assert (Hdq : 0 < inject_Z (Zpos d)) by reflexivity.
  destruct (Qle_bool (2 ^ (a - b)) (n # d)) eqn:E.
  - (* x < 2^(a-b+1) since n < 2^(a+1) and d >= 2^b *)
    rewrite Hx'. apply Qlt_shift_div_r; [exact Hdq|].
    replace (a - b + 1)%Z with ((a + 1) + - b)%Z by lia.
    rewrite Qpower_plus by discriminate. rewrite Qpower_opp.
    rewrite <- (Zpower_Qpower 2 (a + 1)), <- (Zpower_Qpower 2 b) by lia.
    assert (H1 : inject_Z n < inject_Z (2 ^ (a + 1))).
    { rewrite <- Zlt_Qlt. replace (a + 1)%Z with (Z.succ a) by lia. exact Hn2. }
    assert (H2 : inject_Z (2 ^ b) <= inject_Z (Zpos d)) by (rewrite <- Zle_Qle; exact Hd1).
    assert (H3 : 0 < inject_Z (2 ^ b)).
    { change 0 with (inject_Z 0). rewrite <- Zlt_Qlt. apply Z.pow_pos_nonneg; lia. }
    assert (H4 : 0 < inject_Z (2 ^ (a + 1))).
    { change 0 with (inject_Z 0). rewrite <- Zlt_Qlt. apply Z.pow_pos_nonneg; lia. }
    apply Qlt_le_trans with (inject_Z (2 ^ (a + 1))); [exact H1|].
    setoid_replace (inject_Z (2 ^ (a + 1)))
      with (inject_Z (2 ^ (a + 1)) * / inject_Z (2 ^ b) * inject_Z (2 ^ b)) at 1
      by (field; lra).
    apply Qmult_le_l; [|exact H2].
    apply Qmult_lt_0_compat; [exact H4|]. apply Qinv_lt_0_compat. exact H3.
  - replace (a - b - 1 + 1)%Z with (a - b)%Z by lia.
    destruct (Qlt_le_dec (n # d) (2 ^ (a - b))) as [H|H]; [exact H|].
    apply Qle_bool_iff in H. congruence.
Qed.

Lemma toFixed2_nearest (x : Q) :
  (Qabs (inject_Z (toFixed2 x) - x * 100) <= 1 # 2)%Q.
Proof.
  unfold toFixed2.
  pose proof (Qfloor_le (Qabs x * 100 + (1 # 2))) as Hlo.
  pose proof (Qlt_floor (Qabs x * 100 + (1 # 2))) as Hhi.
  rewrite inject_Z_plus in Hhi. change (inject_Z 1) with 1%Q in Hhi.
  set (n := Qfloor (Qabs x * 100 + (1 # 2))) in *.
  destruct (Qle_bool 0 x) eqn:Hx.
  - apply Qle_bool_iff in Hx.
    assert (Ha : (Qabs x == x)%Q) by (now apply Qabs_pos).
    apply Qabs_Qle_condition. split; lra.
  - assert (Hneg : (x < 0)%Q).
    { apply Qnot_le_lt. intros H. apply Qle_bool_iff in H. congruence. }
    assert (Ha : (Qabs x == - x)%Q) by (apply Qabs_neg; lra).
    rewrite inject_Z_opp.
    apply Qabs_Qle_condition. split; lra.
Qed.

Lemma toFixed2_half_up (x : Q) :
  (0 <= x)%Q ->
  (inject_Z (toFixed2 x) <= x * 100 + (1 # 2) < inject_Z (toFixed2 x) + 1)%Q.
Proof.
  intros Hx. unfold toFixed2.
  assert (Hb : Qle_bool 0 x = true) by (now apply Qle_bool_iff).
  rewrite Hb.
  assert (Ha : (Qabs x == x)%Q) by (now apply Qabs_pos).
  pose proof (Qfloor_le (Qabs x * 100 + (1 # 2))) as Hlo.
  pose proof (Qlt_floor (Qabs x * 100 + (1 # 2))) as Hhi.
  rewrite inject_Z_plus in Hhi. change (inject_Z 1) with 1%Q in Hhi.
  set (n := Qfloor (Qabs x * 100 + (1 # 2))) in *.
  split; lra.
Qed.


Lemma rne_eq (x : Q) (m : Z) : x == inject_Z m -> Js.rne x = m.
Proof.
  intros Hx. destruct (rne_near x) as [H1 H2].
  assert (A : inject_Z (Js.rne x) < inject_Z (m + 1))
    by (rewrite inject_Z_plus; change (inject_Z 1) with 1; lra).
  assert (B : inject_Z (m - 1) < inject_Z (Js.rne x)).
  { unfold Z.sub. rewrite inject_Z_plus, inject_Z_opp. change (inject_Z 1) with 1. lra. }
  rewrite <- Zlt_Qlt in A, B. lia.
Qed.

(** The rounding on numbers whose binary64 value is known: 0.1; 0.1 +
    0.2, which is not the number 0.3 is; 2^53 + 1, halfway between two
    numbers, and 2^53 + 3; 50.025, which is below it as a number. *)
Example round64_samples :
  Js.round64 (1 # 10) = 3602879701896397 # 36028797018963968
  /\ Js.round64 (Js.round64 (1 # 10) + Js.round64 (2 # 10))
     = 1351079888211149 # 4503599627370496
  /\ Js.round64 (3 # 10) = 5404319552844595 # 18014398509481984
  /\ Js.round64 (inject_Z (2 ^ 53 + 1)) = inject_Z (2 ^ 53)
  /\ Js.round64 (inject_Z (2 ^ 53 + 3)) = inject_Z (2 ^ 53 + 4)
  /\ Js.round64 (50025 # 1000) = 7040392854975283 # 140737488355328
  /\ Js.round64 (50025 # 1000) < 50025 # 1000.
Proof. repeat split; vm_compute; reflexivity. Qed.

(** A whole number below 2^53 is a binary64 number. *)
Lemma round64_whole (x : Q) (m : Z) :
  x == inject_Z m -> (0 <= m < 2 ^ 53)%Z -> Js.round64 x == inject_Z m.
Proof.
  intros Hx [Hm0 Hm1]. unfold Js.round64.
  destruct (Qeq_bool x 0) eqn:E.
  { apply Qeq_bool_iff in E. rewrite <- Hx, E. reflexivity. }
  assert (H0 : 0 <= x).
  { rewrite Hx. change 0 with (inject_Z 0). now rewrite <- Zle_Qle. }
  assert (Hpos : 0 < x).
  { apply Qeq_bool_neq in E. destruct (Qlt_le_dec 0 x) as [H|H]; [exact H|].
    elim E. lra. }
  rewrite Qred_correct, (Qabs_of_nonneg H0).
  assert (Hk : (Js.ilog2 x < 53)%Z).
  { apply ilog2_small; [exact Hpos|lia|].
    rewrite Hx, <- (Zpower_Qpower 2 53) by lia. rewrite <- Zlt_Qlt. exact Hm1. }
  set (e := Z.max (Js.ilog2 x - 52) (-1074)).
  assert (He : (e <= 0)%Z) by (unfold e; lia).
  pose proof (two_pow_pos e) as Hp.
  assert (Hinv : 2 ^ e == / inject_Z (2 ^ (- e))).
  { replace e with (- (- e))%Z at 1 by lia. rewrite Qpower_opp.
    now rewrite Zpower_Qpower by lia. }
  set (p := (2 ^ (- e))%Z) in *.
  assert (Hpz : (0 < p)%Z) by (apply Z.pow_pos_nonneg; lia).
  assert (Hpq : 0 < inject_Z p)
    by (change 0 with (inject_Z 0); now rewrite <- Zlt_Qlt).
  assert (Hr : Js.rne (x / 2 ^ e) = (m * p)%Z).
  { apply rne_eq. rewrite inject_Z_mult, Hinv, Hx.
    unfold Qdiv. now rewrite Qinv_involutive. }
  rewrite Hr, inject_Z_mult, Hinv. field. lra.
Qed.

(** The sum of the progress values, as the code adds them up: between 0
    and 100 times their number, and off the exact sum by at most one
    rounding error for each. *)
Lemma sum_actual_from (N : Z) :
  (100 * N < 2 ^ 53)%Z ->
  forall (l : list WorkItemInput) (s0 E0 : Q) (k : Z),
    (0 <= k)%Z -> (k + Z.of_nat (List.length l) <= N)%Z ->
    0 <= s0 -> s0 <= 100 * inject_Z k ->
    Qabs (s0 - E0) <= inject_Z k * (100 * inject_Z N * Js.u53 + Js.eta) ->
    (forall item, In item l -> percentage (actual_read item)) ->
    let s := fold_left (fun sum item => Js.round64 (sum + actual_read item)) l s0 in
    0 <= s
    /\ s <= 100 * inject_Z (k + Z.of_nat (List.length l))
    /\ Qabs (s - (E0 + fold_right Qplus 0 (map actual_read l)))
       <= inject_Z (k + Z.of_nat (List.length l))
          * (100 * inject_Z N * Js.u53 + Js.eta).
Proof.
  intros HN l. induction l as [|x l IH]; intros s0 E0 k Hk Hlen H0 H1 Herr Hall.
  - cbn [fold_left List.length map fold_right Z.of_nat].
    replace (k + 0)%Z with k by lia. repeat split; try assumption.
    setoid_replace (s0 - (E0 + 0)) with (s0 - E0) by ring. exact Herr.
  - destruct (Hall x (or_introl eq_refl)) as [Ha0 Ha1].
    set (a := actual_read x) in *.
    cbn [List.length] in *. rewrite Nat2Z.inj_succ in *.
    cbn [fold_left map fold_right]. fold a. cbv zeta.
    assert (Hs0 : 0 <= s0 + a) by lra.
    assert (Hs1 : s0 + a <= inject_Z (100 * (k + 1))).
    { rewrite inject_Z_mult, inject_Z_plus. change (inject_Z 100) with 100.
      change (inject_Z 1) with 1. lra. }
    pose proof (round64_nonneg Hs0) as Hr0.
    assert (Hr1 : Js.round64 (s0 + a) <= inject_Z (100 * (k + 1))).
    { apply round64_le_int; [exact Hs0|exact Hs1|lia]. }
    pose proof (round64_error Hs0) as He.
    set (c := 100 * inject_Z N * Js.u53 + Js.eta) in *.
    assert (Hkq : inject_Z (k + 1) <= inject_Z N) by (rewrite <- Zle_Qle; lia).
    rewrite inject_Z_mult, inject_Z_plus in Hr1, Hs1.
    rewrite inject_Z_plus in Hkq.
    change (inject_Z 100) with 100 in *. change (inject_Z 1) with 1 in *.
    assert (Heta : 0 < Js.eta) by apply two_pow_pos.
    destruct (IH (Js.round64 (s0 + a)) (E0 + a) (k + 1)%Z) as (I0 & I1 & I2).
    + lia.
    + lia.
    + exact Hr0.
    + rewrite inject_Z_plus. exact Hr1.
    + rewrite inject_Z_plus. change (inject_Z 1) with 1.
      apply Qabs_Qle_condition in Herr. apply Qabs_Qle_condition in He.
      assert (Hu : (s0 + a) * Js.u53 <= 100 * inject_Z N * Js.u53).
      { apply Qmult_le_compat_r; [lra|discriminate]. }
      assert (Hc : c == 100 * inject_Z N * Js.u53 + Js.eta) by reflexivity.
      set (t := (s0 + a) * Js.u53) in *. set (T := 100 * inject_Z N * Js.u53) in *.
      set (kc := inject_Z k * c) in *.
      setoid_replace ((inject_Z k + 1) * c) with (kc + c) by (unfold kc; ring).
      clearbody t T kc c.
      apply Qabs_Qle_condition. split; lra.
    + intros item Hin. apply Hall. now right.
    + replace (k + Z.succ (Z.of_nat (List.length l)))%Z
        with (k + 1 + Z.of_nat (List.length l))%Z by lia.
      repeat split; try assumption.
      setoid_replace (fold_left (fun sum item => Js.round64 (sum + actual_read item)) l
                                (Js.round64 (s0 + a))
                      - (E0 + (a + fold_right Qplus 0 (map actual_read l))))
        with (fold_left (fun sum item => Js.round64 (sum + actual_read item)) l
                        (Js.round64 (s0 + a))
              - (E0 + a + fold_right Qplus 0 (map actual_read l))) by ring.
      exact I2.
Qed.

Lemma eta_small : 200 * Js.eta <= 1 # 549755813888.
Proof.
  unfold Js.eta.
  assert (H : 2 ^ (-1075) <= 2 ^ (-47))
    by (apply Qpower_le_compat_l; [lia|discriminate]).
  assert (H' : 200 * 2 ^ (-47) <= 1 # 549755813888) by (vm_compute; discriminate).
  lra.
Qed.

Lemma items_positive (l : list WorkItemInput) :
  l <> [] -> 1 <= inject_Z (Z.of_nat (List.length l)).
Proof.
  intros Hne. change 1 with (inject_Z 1). rewrite <- Zle_Qle.
  destruct l; [congruence|]. cbn [List.length]. lia.
Qed.

(** The quotient the code prints: a percentage, off the exact mean by
    at most [100 (n + 1) 2^-53 + 2^-1074]; printed with two decimals it
    is within half a hundredth and [drift n] of the exact mean. *)
Lemma quotient_bounds (l : list WorkItemInput) :
  l <> [] -> (Z.of_nat (List.length l) < 2 ^ 32)%Z ->
  (forall item, In item l -> percentage (actual_read item)) ->
  let n := inject_Z (Z.of_nat (List.length l)) in
  let q := Js.round64 (sum_actual l / n) in
  0 <= q /\ q <= 100
  /\ Qabs (inject_Z (toFixed2 q) - fold_right Qplus 0 (map actual_read l) / n * 100)
     <= (1 # 2) + drift (List.length l).
Proof.
  intros Hne Hlen Hall n q.
  set (N := Z.of_nat (List.length l)) in *.
  pose proof (items_positive Hne) as Hn. fold N in Hn. fold n in Hn.
  destruct (@sum_actual_from N ltac:(lia) l 0 0 0%Z) as (S0 & S1 & S2);
    try lia; try exact Hall.
  { apply Qle_refl. }
  { cbn. discriminate. }
  { cbn. discriminate. }
  change (0 + Z.of_nat (List.length l))%Z with N in *. fold n in S1, S2.
  fold (sum_actual l) in S0, S1, S2.
  set (s := sum_actual l) in *.
  set (E := fold_right Qplus 0 (map actual_read l)) in *.
  set (c := 100 * n * Js.u53 + Js.eta) in *.
  assert (Hm0 : 0 <= s / n) by (apply Qle_shift_div_l; lra).
  assert (Hm1 : s / n <= inject_Z 100).
  { apply Qle_shift_div_r; [lra|]. change (inject_Z 100) with 100. lra. }
  pose proof (round64_nonneg Hm0) as Q0.
  assert (Q1 : Js.round64 (s / n) <= inject_Z 100)
    by (apply round64_le_int; [exact Hm0|exact Hm1|lia]).
  pose proof (round64_error Hm0) as Qe.
  fold q in Q0, Q1, Qe. change (inject_Z 100) with 100 in *.
  split; [exact Q0|]. split; [exact Q1|].
  destruct (toFixed2_half_up Q0) as [Hlo Hhi].
  set (h := inject_Z (toFixed2 q)) in *.
  assert (Hdiv : Qabs (s / n - E / n) <= c).
  { setoid_replace (s / n - E / n) with ((s - (0 + E)) / n) by (field; lra).
    unfold Qdiv. rewrite Qabs_Qmult.
    rewrite (Qabs_pos (/ n)) by (apply Qlt_le_weak, Qinv_lt_0_compat; lra).
    apply Qle_shift_div_r; [lra|]. rewrite (Qmult_comm c n). exact S2. }
  assert (Hu : s / n * Js.u53 <= 100 * Js.u53)
    by (apply Qmult_le_compat_r; [exact Hm1|discriminate]).
  pose proof eta_small as He.
  assert (Hc : c == n * (100 * Js.u53) + Js.eta) by (unfold c; ring).
  assert (Hk : 10000 * Js.u53 <= 1 # 549755813888) by (vm_compute; discriminate).
  assert (Hd : drift (List.length l) == (n + 2) * (1 # 549755813888)).
  { unfold drift. fold N. rewrite inject_Z_plus. reflexivity. }
  rewrite Hd.
  assert (Heta : 0 < Js.eta) by apply two_pow_pos.
  apply Qabs_Qle_condition in Hdiv. apply Qabs_Qle_condition in Qe.
  set (m := s / n) in *. set (M := E / n) in *.
  set (t := m * Js.u53) in *. set (U := 100 * Js.u53) in *.
  assert (HU : 100 * U <= 1 # 549755813888) by (unfold U; lra).
  assert (HnU : 100 * (n * U) <= n * (1 # 549755813888)).
  { setoid_replace (100 * (n * U)) with (n * (100 * U)) by ring.
    apply Qmult_le_l; lra. }
  set (nU := n * U) in *. set (nk := n * (1 # 549755813888)) in *.
  setoid_replace ((n + 2) * (1 # 549755813888)) with (nk + 2 * (1 # 549755813888))
    by (unfold nk; ring).
  clearbody t U nU nk c m M h.
  apply Qabs_Qle_condition. split; lra.
Qed.

(** Whole percentages add up without a rounding error. *)
Lemma sum_actual_whole_from (N : Z) :
  (100 * N < 2 ^ 53)%Z ->
  forall (l : list WorkItemInput) (s0 : Q) (z0 k : Z),
    (0 <= k)%Z -> (k + Z.of_nat (List.length l) <= N)%Z ->
    s0 == inject_Z z0 -> (0 <= z0 <= 100 * k)%Z ->
    (forall item, In item l ->
                  percentage (actual_read item) /\ whole (actual_read item)) ->
    exists S : Z,
      fold_left (fun sum item => Js.round64 (sum + actual_read item)) l s0
      == inject_Z S
      /\ inject_Z z0 + fold_right Qplus 0 (map actual_read l) == inject_Z S
      /\ (0 <= S <= 100 * (k + Z.of_nat (List.length l)))%Z.
Proof.
  intros HN l. induction l as [|x l IH]; intros s0 z0 k Hk Hlen Hs Hz Hall.
  - exists z0. cbn [fold_left List.length map fold_right Z.of_nat].
    split; [exact Hs|]. split; [ring|lia].
  - destruct (Hall x (or_introl eq_refl)) as [[Ha0 Ha1] [za Hza]].
    cbn [List.length] in *. rewrite Nat2Z.inj_succ in *.
    cbn [fold_left map fold_right].
    set (a := actual_read x) in *.
    assert (Hza0 : (0 <= za <= 100)%Z).
    { rewrite Hza in Ha0, Ha1. change 0 with (inject_Z 0) in Ha0.
      change 100 with (inject_Z 100) in Ha1. rewrite <- Zle_Qle in Ha0, Ha1. lia. }
    assert (Hsum : s0 + a == inject_Z (z0 + za))
      by (rewrite inject_Z_plus, Hs, Hza; reflexivity).
    assert (Hr : Js.round64 (s0 + a) == inject_Z (z0 + za))
      by (apply round64_whole; [exact Hsum|lia]).
    destruct (IH (Js.round64 (s0 + a)) (z0 + za)%Z (k + 1)%Z) as [S [S1 [S2 S3]]].
    + lia.
    + lia.
    + exact Hr.
    + lia.
    + intros item Hin. apply Hall. now right.
    + exists S. split; [exact S1|]. split; [|lia].
      rewrite <- S2, inject_Z_plus, Hza. ring.
Qed.

Lemma delta_small :
  200 * (4294967296 * (100 * Js.u53 + Js.eta)) < 1.
Proof.
  unfold Js.eta.
  assert (H : 2 ^ (-1075) <= 2 ^ (-47))
    by (apply Qpower_le_compat_l; [lia|discriminate]).
  assert (H' : 200 * (4294967296 * (100 * Js.u53 + 2 ^ (-47))) < 1)
    by (vm_compute; reflexivity).
  lra.
Qed.

(** For whole percentages the two decimals the code prints are the
    exact mean rounded to two decimals. *)
Lemma whole_quotient_nearest (l : list WorkItemInput) :
  l <> [] -> (Z.of_nat (List.length l) < 2 ^ 32)%Z ->
  (forall item, In item l ->
                percentage (actual_read item) /\ whole (actual_read item)) ->
  let n := inject_Z (Z.of_nat (List.length l)) in
  rounded_to_two_decimals
    (fold_right Qplus 0 (map actual_read l) / n)
    (toFixed2 (Js.round64 (sum_actual l / n))).
Proof.
  intros Hne Hlen Hall n.
  set (N := Z.of_nat (List.length l)) in *.
  pose proof (items_positive Hne) as Hn. fold N in Hn. fold n in Hn.
  assert (HN : (1 <= N)%Z).
  { unfold n in Hn. change 1 with (inject_Z 1) in Hn. now rewrite <- Zle_Qle in Hn. }
  destruct (@sum_actual_whole_from N ltac:(lia) l 0 0%Z 0%Z) as [S [S1 [S2 S3]]];
    try lia; try exact Hall; try reflexivity.
  fold (sum_actual l) in S1. replace (0 + Z.of_nat (List.length l))%Z with N in S3 by lia.
  set (s := sum_actual l) in *.
  set (E := fold_right Qplus 0 (map actual_read l)) in *.
  assert (HE : E == inject_Z S) by (rewrite <- S2; change (inject_Z 0) with 0; ring).
  assert (HS0 : 0 <= inject_Z S)
    by (change 0 with (inject_Z 0); rewrite <- Zle_Qle; lia).
  assert (HS1 : inject_Z S <= 100 * n).
  { change 100 with (inject_Z 100). unfold n. rewrite <- inject_Z_mult, <- Zle_Qle. lia. }
  assert (Hm0 : 0 <= s / n) by (apply Qle_shift_div_l; lra).
  assert (Hm1 : s / n <= 100) by (apply Qle_shift_div_r; lra).
  pose proof (round64_nonneg Hm0) as Q0.
  pose proof (round64_error Hm0) as Qe.
  set (q := Js.round64 (s / n)) in *.
  destruct (toFixed2_half_up Q0) as [Hlo Hhi].
  set (hz := toFixed2 q) in *. set (h := inject_Z hz) in *.
  assert (Heta : 0 < Js.eta) by apply two_pow_pos.
  assert (Hu : s / n * Js.u53 <= 100 * Js.u53)
    by (apply Qmult_le_compat_r; [exact Hm1|discriminate]).
  apply Qabs_Qle_condition in Qe. destruct Qe as [Qe1 Qe2].
  set (delta := 100 * Js.u53 + Js.eta) in *.
  assert (Hd0 : 0 <= delta) by (unfold delta, Js.u53; lra).
  (* everything times n *)
  assert (Hsn : s / n * n == inject_Z S) by (rewrite <- S1; field; lra).
  assert (HEn : E / n * n == inject_Z S) by (rewrite <- HE; field; lra).
  assert (Hnear : q - s / n <= delta /\ s / n - q <= delta).
  { assert (Hdel : delta == 100 * Js.u53 + Js.eta) by reflexivity.
    set (t := s / n * Js.u53) in *. set (U := 100 * Js.u53) in *.
    clearbody t U delta. split; lra. }
  destruct Hnear as [Hn1 Hn2].
  assert (Hq1 : (q - s / n) * n <= delta * n)
    by (apply Qmult_le_compat_r; lra).
  assert (Hq2 : (s / n - q) * n <= delta * n)
    by (apply Qmult_le_compat_r; lra).
  assert (Hdn : delta * n <= 4294967296 * delta).
  { rewrite (Qmult_comm delta n). apply Qmult_le_compat_r; [|exact Hd0].
    change 4294967296 with (inject_Z (2 ^ 32)). unfold n. rewrite <- Zle_Qle. lia. }
  pose proof delta_small as Hsmall. fold delta in Hsmall.
  assert (Hlo' : h * n <= (q * 100 + (1 # 2)) * n)
    by (apply Qmult_le_compat_r; lra).
  assert (Hhi' : (q * 100 + (1 # 2)) * n < (h + 1) * n)
    by (apply Qmult_lt_compat_r; lra).
  assert (Hhn : h * n == inject_Z (hz * N)) by (rewrite inject_Z_mult; reflexivity).
  unfold rounded_to_two_decimals. fold h.
  set (hn := inject_Z (hz * N)) in *.
  assert (HEn' : 100 * (E / n) * n == 100 * inject_Z S) by (rewrite <- HEn; ring).
  setoid_replace ((q - s / n) * n) with (q * n - s / n * n) in Hq1 by ring.
  setoid_replace ((s / n - q) * n) with (s / n * n - q * n) in Hq2 by ring.
  rewrite Hsn in Hq1, Hq2.
  setoid_replace ((q * 100 + (1 # 2)) * n) with (100 * (q * n) + (1 # 2) * n)
    in Hlo' by ring.
  setoid_replace ((q * 100 + (1 # 2)) * n) with (100 * (q * n) + (1 # 2) * n)
    in Hhi' by ring.
  setoid_replace ((h + 1) * n) with (h * n + n) in Hhi' by ring.
  rewrite Hhn in Hlo', Hhi'.
  set (qn := q * n) in *. set (dn := delta * n) in *.
  apply Qabs_Qle_condition. split.
  - destruct (Qlt_le_dec (h - E / n * 100) (- (1 # 2))) as [Hbad|Hok]; [exfalso|exact Hok].
    assert (X : (h - E / n * 100) * n < - (1 # 2) * n)
      by (apply Qmult_lt_compat_r; lra).
    assert (XQ : 2 * hn + n < 200 * inject_Z S).
    { setoid_replace ((h - E / n * 100) * n) with (h * n - 100 * (E / n) * n) in X by ring.
      rewrite Hhn, HEn' in X. clearbody hn qn dn. lra. }
    assert (Hz : (2 * (hz * N) + N < 200 * S)%Z).
    { rewrite Zlt_Qlt, inject_Z_plus, (inject_Z_mult 2), (inject_Z_mult 200). exact XQ. }
    assert (Hz' : (2 * (hz * N) + N + 1 <= 200 * S)%Z) by lia.
    rewrite Zle_Qle, !inject_Z_plus, (inject_Z_mult 2), (inject_Z_mult 200) in Hz'.
    fold hn in Hz'. fold n in Hz'.
    change (inject_Z 2) with 2 in Hz'. change (inject_Z 200) with 200 in Hz'.
    change (inject_Z 1) with 1 in Hz'.
    clearbody hn qn dn. lra.
  - destruct (Qlt_le_dec (1 # 2) (h - E / n * 100)) as [Hbad|Hok]; [exfalso|exact Hok].
    assert (X : (1 # 2) * n < (h - E / n * 100) * n)
      by (apply Qmult_lt_compat_r; lra).
    assert (XQ : 200 * inject_Z S + n < 2 * hn).
    { setoid_replace ((h - E / n * 100) * n) with (h * n - 100 * (E / n) * n) in X by ring.
      rewrite Hhn, HEn' in X. clearbody hn qn dn. lra. }
    assert (Hz : (200 * S + N < 2 * (hz * N))%Z).
    { rewrite Zlt_Qlt, inject_Z_plus, (inject_Z_mult 2), (inject_Z_mult 200). exact XQ. }
    assert (Hz' : (200 * S + N + 1 <= 2 * (hz * N))%Z) by lia.
    rewrite Zle_Qle, !inject_Z_plus, (inject_Z_mult 2), (inject_Z_mult 200) in Hz'.
    fold hn in Hz'. fold n in Hz'.
    change (inject_Z 2) with 2 in Hz'. change (inject_Z 200) with 200 in Hz'.
    change (inject_Z 1) with 1 in Hz'.
    clearbody hn qn dn. lra.
Qed.

End Binary64.

(** The stored row reads the two spellings of the progress in the other
    order ([actualProgress] first).  For an item that carries one spelling
    only, the stored [actual_progress] is the value that was averaged. *)
Lemma stored_progress_is_read (i : Id) (item : WorkItemInput) :
  one_spelling item ->
  actual_progress (work_item_row i item) = actual_read item.
Proof.
  unfold one_spelling, work_item_row, actual_read, or_num; cbn [actual_progress].
  intros [H|H]; rewrite H; cbn [num_truthy].
  - destruct (num_truthy (in_actualProgress item)) eqn:E; [reflexivity|].
    destruct (in_actualProgress item) as [q|]; [|reflexivity].
    cbn in E. apply negb_false_iff in E. cbn. rewrite E. reflexivity.
  - destruct (num_truthy (in_actual_progress item)) eqn:E; [reflexivity|].
    destruct (in_actual_progress item) as [q|]; [|reflexivity].
    cbn in E. apply negb_false_iff in E. cbn. rewrite E. reflexivity.
Qed.

Lemma stored_progress_are_read (i : Id) (items : list WorkItemInput) :
  (forall item, In item items -> one_spelling item) ->
  map actual_progress (map (work_item_row i) items) = map actual_read items.
Proof.
  intros H. rewrite map_map. apply map_ext_in. intros item Hin.
  now apply stored_progress_is_read, H.
Qed.

Lemma filter_own_rows (i : Id) (items : list WorkItemInput) :
  filter (fun x => wi_bapp_id x =? i) (map (work_item_row i) items)
  = map (work_item_row i) items.
Proof.
  induction items as [|x l IH]; [reflexivity|].
  cbn [map filter wi_bapp_id work_item_row]. rewrite Nat.eqb_refl. now rewrite IH.
Qed.

Lemma filter_other_rows (i : Id) (rows : list WorkItem) :
  filter (fun x => wi_bapp_id x =? i)
         (filter (fun x => negb (wi_bapp_id x =? i)) rows) = [].
Proof.
  induction rows as [|x l IH]; [reflexivity|].
  cbn [filter]. destruct (wi_bapp_id x =? i) eqn:E; cbn [negb]; [exact IH|].
  cbn [filter]. now rewrite E.
Qed.

(** A create the store accepts: the row is written with the total of
    the items given, the items are appended, and the new row is read
    back with them. *)
Lemma createWithWorkItems_accepted (d : Doc) (items : list WorkItemInput) (w : World) :
  accepts 3 w ->
  (forall x, In x (docs (bapp (db w))) -> id x < next_id (db w)) ->
  let m := BAPPRepository.createWithWorkItems d (Some items) in
  let i := next_id (db w) in
  exists view,
    fst (m w) = Returned (Some view)
    /\ w_doc view
       = stamp i (now w) (doc_with_total d (_calculateTotalProgress (Some items)))
    /\ filter (has_id i) (docs (bapp (db (snd (m w))))) = [w_doc view]
    /\ work_rows view
       = filter (fun x => wi_bapp_id x =? i) (bapp_work_items (db w))
         ++ map (work_item_row i) items.
Proof.
  intros Hok Hfresh m i.
  pose proof (Hok 0 ltac:(lia)) as F0.
  pose proof (Hok 1 ltac:(lia)) as F1.
  pose proof (Hok 2 ltac:(lia)) as F2.
  cbn [Nat.add] in F0, F1, F2.
  set (row := stamp i (now w) (doc_with_total d (_calculateTotalProgress (Some items)))).
  assert (Hrow : filter (has_id i) (docs (bapp (db w)) ++ [row]) = [row]).
  { rewrite filter_app. cbn [filter]. unfold has_id at 2. cbn [id row stamp].
    rewrite Nat.eqb_refl.
    assert (Hnone : filter (has_id i) (docs (bapp (db w))) = []).
    { clear - Hfresh. fold i in Hfresh.
      induction (docs (bapp (db w))) as [|x l IH]; [reflexivity|].
      cbn [filter]. unfold has_id at 1.
      assert ((id x =? i) = false) as ->
          by (apply Nat.eqb_neq; specialize (Hfresh x (or_introl eq_refl)); lia).
      apply IH. intros y Hy. apply Hfresh. now right. }
    now rewrite Hnone. }
  assert (Hfind : forall w1,
             docs (bapp (db w1)) = docs (bapp (db w)) ++ [row] ->
             fault_at w1 (ncalls w1) = false ->
             Repository.findByIdWithRelations BAPP i w1
             = (Returned (Some (hydrate BAPP (db w1) row)),
                tick w1 (ev op_select (table_name BAPP) true) (db w1))).
  { intros w1 Hd Hf. rewrite findByIdWithRelations_run, Hf. cbn [tables].
    now rewrite Hd, Hrow. }
  unfold m, BAPPRepository.createWithWorkItems.
  cbv beta zeta delta [try_catch bind ret throw].
  rewrite create_run, F0. cbv beta iota. cbn [id stamp]. fold i.
  destruct items as [|x l].
  - cbv beta iota.
    match goal with
    | |- context [Repository.findByIdWithRelations BAPP i ?w1] =>
        rewrite (Hfind w1) by (try reflexivity; exact F1)
    end.
    cbn [fst snd]. eexists. split; [reflexivity|].
    cbn [hydrate w_doc work_rows w_items items_of tick db].
    split; [reflexivity|]. split; [exact Hrow|].
    cbn [id row stamp map]. now rewrite app_nil_r.
  - cbv beta iota. unfold query. world_simpl. rewrite F1.
    cbn [error ok_reply fst snd]. cbv beta iota.
    match goal with
    | |- context [Repository.findByIdWithRelations BAPP i ?w1] =>
        rewrite (Hfind w1) by (try reflexivity; exact F2)
    end.
    cbn [fst snd]. eexists. split; [reflexivity|].
    cbn [hydrate w_doc work_rows w_items items_of tick db].
    split; [reflexivity|]. split; [exact Hrow|].
    cbn [id row stamp]. unfold inserted. cbn. rewrite filter_app.
    f_equal. apply (filter_own_rows i (x :: l)).
Qed.

(** An update with a list of work items that the store accepts: the
    items of the document are replaced by the ones given, the row is
    written with their total and read back with them. *)
Lemma updateWithWorkItems_accepted (i : Id) (p : Patch) (items : list WorkItemInput)
      (w : World) (d : Doc) :
  accepts 4 w ->
  filter (has_id i) (docs (bapp (db w))) = [d] ->
  let m := BAPPRepository.updateWithWorkItems i p (Some items) in
  let d' := apply_patch (with_total p (_calculateTotalProgress (Some items))) d in
  exists view,
    fst (m w) = Returned (Some view)
    /\ w_doc view = d'
    /\ filter (has_id i) (docs (bapp (db (snd (m w))))) = [d']
    /\ work_rows view = map (work_item_row i) items.
Proof.
  intros Hok Hf m d'.
  pose proof (Hok 0 ltac:(lia)) as F0.
  pose proof (Hok 1 ltac:(lia)) as F1.
  pose proof (Hok 2 ltac:(lia)) as F2.
  pose proof (Hok 3 ltac:(lia)) as F3.
  cbn [Nat.add] in F0, F1, F2, F3.
  set (p' := with_total p (_calculateTotalProgress (Some items))) in *.
  assert (Hd' : forall s, docs (bapp s) = docs (bapp (db w)) ->
                filter (has_id i) (docs (bapp (patched BAPP i p' s))) = [d']).
  { intros s Hs. change (bapp ?s) with (tables BAPP s).
    rewrite docs_patched, filter_has_id_patch. cbn [tables]. now rewrite Hs, Hf. }
  destruct (m w) as [o w'] eqn:Hrun. cbn [fst snd].
  unfold m, BAPPRepository.updateWithWorkItems in Hrun.
  cbv beta zeta delta [try_catch bind ret throw] in Hrun.
  unfold query at 1 in Hrun. rewrite F0 in Hrun. cbn [error empty_reply fst snd] in Hrun.
  destruct items as [|y l].
  - rewrite update_run in Hrun. world_simpl. rewrite F1 in Hrun.
    cbn [tables set_bapp_work_items bapp] in Hrun. rewrite Hf in Hrun.
    rewrite findByIdWithRelations_run in Hrun. world_simpl. rewrite F2 in Hrun.
    cbn [tables] in Hrun. rewrite Hd' in Hrun by reflexivity.
    injection Hrun as <- <-. eexists. split; [reflexivity|].
    cbn [hydrate w_doc work_rows w_items items_of tick db].
    split; [reflexivity|]. split; [now apply Hd'|].
    unfold d'. rewrite id_apply_patch.
    destruct (filter_has_id_single _ _ Hf) as [-> _].
    unfold patched. cbn. apply filter_other_rows.
  - unfold query in Hrun. world_simpl. rewrite F1 in Hrun.
    cbn [error empty_reply fst snd] in Hrun.
    rewrite update_run in Hrun. world_simpl. rewrite F2 in Hrun.
    cbn [tables set_bapp_work_items bapp] in Hrun. rewrite Hf in Hrun.
    rewrite findByIdWithRelations_run in Hrun. world_simpl. rewrite F3 in Hrun.
    cbn [tables] in Hrun. rewrite Hd' in Hrun by reflexivity.
    injection Hrun as <- <-. eexists. split; [reflexivity|].
    cbn [hydrate w_doc work_rows w_items items_of tick db].
    split; [reflexivity|]. split; [now apply Hd'|].
    unfold d'. rewrite id_apply_patch.
    destruct (filter_has_id_single _ _ Hf) as [-> _].
    unfold patched. cbn. rewrite filter_app, filter_other_rows.
    cbn [app]. apply (filter_own_rows i (y :: l)).
Qed.

(** C3 (amended).  [_calculateTotalProgress] answers 0 for a missing or
    empty list.  For a list of work items (a JavaScript array: fewer
    than 2^32 of them) that give their progress under one spelling, as a
    percentage, it answers the [toFixed(2)] of the mean it computed in
    binary64: a number of hundredths within half a hundredth and
    [(n + 2) / 2^39] hundredths of the exact mean of the rows'
    [actual_progress], and for whole percentages the exact mean rounded
    to two decimals (halfway between two, one of them: 40 and 60 give
    "50.00", 39 items at 50 and one at 51, mean 50.025, give 50.02).  A
    create the store accepts writes the new row with this total and reads
    it back with the items given; an update with a list of work items
    that the store accepts replaces the items, writes the total of the
    new ones on the row and reads it back; a read returns the stored
    row. *)
Theorem total_progress_is_rounded_mean :
  _calculateTotalProgress None = TotalNumber 0
  /\ _calculateTotalProgress (Some []) = TotalNumber 0
  /\ (forall (i : Id) (items : list WorkItemInput),
        items <> [] ->
        (Z.of_nat (List.length items) < 2 ^ 32)%Z ->
        (forall item, In item items ->
           one_spelling item
           /\ percentage (actual_progress (work_item_row i item))) ->
        exists h,
          _calculateTotalProgress (Some items) = TotalFixed h
          /\ (Qabs (inject_Z h - mean_progress (map (work_item_row i) items) * 100)
              <= (1 # 2) + drift (List.length items))%Q
          /\ ((forall item, In item items ->
                 whole (actual_progress (work_item_row i item))) ->
              rounded_to_two_decimals
                (mean_progress (map (work_item_row i) items)) h))
  /\ (_calculateTotalProgress (Some Scenario.two_items) = TotalFixed 5000
      /\ JsTotal_text (TotalFixed 5000) = "50.00"%string)
  /\ (_calculateTotalProgress (Some Scenario.forty_items) = TotalFixed 5002
      /\ (mean_progress (map (work_item_row 1%nat) Scenario.forty_items)
          == 50025 # 1000)%Q)
  /\ (forall (d : Doc) (items : list WorkItemInput) (w : World),
        accepts 3 w ->
        (forall x, In x (docs (bapp (db w))) -> id x < next_id (db w)) ->
        let m := BAPPRepository.createWithWorkItems d (Some items) in
        let i := next_id (db w) in
        exists view,
          result_of m w = Returned (Some view)
          /\ total_progress (w_doc view) = _calculateTotalProgress (Some items)
          /\ filter (has_id i) (docs (bapp (db (world_after m w)))) = [w_doc view]
          /\ work_rows view
             = filter (fun x => wi_bapp_id x =? i) (bapp_work_items (db w))
               ++ map (work_item_row i) items)
  /\ (forall (i : Id) (p : Patch) (items : list WorkItemInput) (w : World) (d : Doc),
        accepts 4 w ->
        filter (has_id i) (docs (bapp (db w))) = [d] ->
        let m := BAPPRepository.updateWithWorkItems i p (Some items) in
        exists view,
          result_of m w = Returned (Some view)
          /\ total_progress (w_doc view) = _calculateTotalProgress (Some items)
          /\ filter (has_id i) (docs (bapp (db (world_after m w)))) = [w_doc view]
          /\ work_rows view = map (work_item_row i) items)
  /\ (forall (i : Id) (w : World) (view : DocWithRelations),
        result_of (Repository.findByIdWithRelations BAPP i) w = Returned (Some view) ->
        In (w_doc view) (docs (bapp (db w)))
        /\ db (world_after (Repository.findByIdWithRelations BAPP i) w) = db w).
Proof.
  split; [reflexivity|]. split; [reflexivity|].
  split; [|split; [|split; [|split; [|split]]]].
  - intros i items Hne Hlen Hall.
    assert (Hread : forall item, In item items -> percentage (actual_read item)).
    { intros item Hin. destruct (Hall item Hin) as [H1 H2].
      now rewrite (stored_progress_is_read i H1) in H2. }
    assert (Hmap : map actual_progress (map (work_item_row i) items)
                   = map actual_read items).
    { apply stored_progress_are_read. intros item Hin. apply (Hall item Hin). }
    destruct (quotient_bounds Hne Hlen Hread) as [_ [_ Hb]].
    exists (toFixed2 (Js.round64 (sum_actual items
                                  / inject_Z (Z.of_nat (List.length items))))).
    split; [destruct items; [congruence|reflexivity]|].
    unfold mean_progress. rewrite Hmap, length_map.
    split; [exact Hb|].
    intros Hwhole. apply (whole_quotient_nearest Hne Hlen).
    intros item Hin. split; [now apply Hread|].
    destruct (Hall item Hin) as [H1 _].
    rewrite <- (stored_progress_is_read i H1). now apply Hwhole.
  - split; vm_compute; reflexivity.
  - split; vm_compute; reflexivity.
  - intros d items w Hok Hfresh m i.
    destruct (@createWithWorkItems_accepted d items w Hok Hfresh)
      as [view [Hr [Hd [Hf Hrows]]]].
    exists view. unfold result_of, world_after.
    split; [exact Hr|]. split; [now rewrite Hd|]. split; [exact Hf|exact Hrows].
  - intros i p items w d Hok Hf m.
    destruct (@updateWithWorkItems_accepted i p items w d Hok Hf)
      as [view [Hr [Hd [Hf' Hrows]]]].
    exists view. unfold result_of, world_after.
    split; [exact Hr|]. split; [now rewrite Hd|].
    split; [now rewrite Hd|exact Hrows].
  - intros i w view. unfold result_of, world_after.
    rewrite findByIdWithRelations_run.
    destruct (fault_at w (ncalls w)); [discriminate|].
    destruct (filter (has_id i) (docs (tables BAPP (db w)))) as [|x [|y l]] eqn:Hf;
      try discriminate.
    cbn [fst snd tick db]. intros H. injection H as <-. cbn [hydrate w_doc].
    split; [|reflexivity].
    destruct (filter_has_id_single _ _ Hf) as [_ Hin]. exact Hin.
Qed.

(** An item that carries both spellings with different values is stored
    with one and averaged with the other. *)
Example both_spellings :
  let item := {| in_workItemName := Some "Pondasi"; in_work_item_name := None;
                 in_plannedProgress := Some 50%Q; in_planned_progress := None;
                 in_actualProgress := Some 60%Q; in_actual_progress := Some 40%Q;
                 in_wi_unit := Some "m2"; in_quality := None; in_wi_notes := None |} in
  actual_progress (work_item_row 1 item) = 60%Q
  /\ _calculateTotalProgress (Some [item]) = TotalFixed 4000.
Proof. split; vm_compute; reflexivity. Qed.

(** ** Numbering *)

Lemma generateNumber_run (t : DocType) (w : World) :
  generateNumber t w =
  if fault_at w (ncalls w) then
    (Thrown store_failure, tick w (ev op_select (table_name t) false) (db w))
  else
    (Returned (number_text t (now w)
                 (List.length (filter (counted_in_month (now w)) (docs (tables t (db w)))))),
     tick w (ev op_select (table_name t) true) (db w)).
Proof.
  unfold generateNumber, number_text, ev; unfold_monad.
  destruct (fault_at w (ncalls w)); reflexivity.
Qed.

Lemma lex_leb_cons x y a b :
  lex_leb (x :: a) (y :: b) = true <-> x < y \/ (x = y /\ lex_leb a b = true).
Proof.
  cbn [lex_leb]. rewrite orb_true_iff, andb_true_iff, Nat.ltb_lt, Nat.eqb_eq. reflexivity.
Qed.

(** What the range filter of the count keeps: the documents of the month,
    but for those created after 23:59:59.000 of its last day. *)
Lemma counted_in_month_spec (date : DateTime) (d : Doc) :
  valid_time (created_at d) ->
  (counted_in_month date d = true
   <-> in_calendar_month date (created_at d) /\ ~ in_last_second (created_at d)).
Proof.
  unfold valid_time, in_calendar_month, in_last_second, counted_in_month.
  unfold dt_leb, dt_fields, startOfMonth, endOfMonth.
  destruct date as [Y M D h m s ms], (created_at d) as [y mo dd h' m' s' ms'].
  cbn [dt_year dt_month dt_day dt_hours dt_minutes dt_seconds dt_ms].
  intros [[Hd1 Hd2] [Hh [Hm [Hs Hms]]]].
  rewrite andb_true_iff, !lex_leb_cons.
  cbn [lex_leb].
  split.
  - intros [H1 H2]. split.
    + lia.
    + assert (y = Y /\ mo = M) as [-> ->] by lia. lia.
  - intros [[-> ->] Hn]. split; lia.
Qed.

(** With no document of the month in its last second, the number is
    prefix/year/month/sequence, the sequence one more than the documents of
    the calendar month. *)
Lemma generateNumber_counts_month (t : DocType) (w : World) :
  fault_at w (ncalls w) = false ->
  Forall (fun d => valid_time (created_at d)) (docs (tables t (db w))) ->
  Forall (fun d => ~ in_last_second (created_at d)) (docs (tables t (db w))) ->
  result_of (generateNumber t) w =
  Returned (number_text t (now w)
              (List.length (filter (fun d => in_calendar_monthb (now w) (created_at d))
                                   (docs (tables t (db w)))))).
Proof.
  intros F Hv Hn. unfold result_of. rewrite generateNumber_run, F. cbn [fst].
  do 2 f_equal. f_equal.
  induction (docs (tables t (db w))) as [|d l IH]; [reflexivity|].
  inversion Hv as [|? ? Hvd Hvl]; inversion Hn as [|? ? Hnd Hnl]; subst.
  cbn [filter]. rewrite (IH Hvl Hnl).
  assert (E : counted_in_month (now w) d = in_calendar_monthb (now w) (created_at d)).
  { destruct (counted_in_month (now w) d) eqn:Ec.
    - apply (counted_in_month_spec (now w)) in Ec; [|exact Hvd].
      destruct Ec as [[Hy Hm] _]. unfold in_calendar_monthb.
      now rewrite Hy, Hm, !Nat.eqb_refl.
    - destruct (in_calendar_monthb (now w) (created_at d)) eqn:Eb; [|reflexivity].
      unfold in_calendar_monthb in Eb. apply andb_true_iff in Eb.
      destruct Eb as [Hy Hm]. apply Nat.eqb_eq in Hy, Hm.
      assert (counted_in_month (now w) d = true); [|congruence].
      apply counted_in_month_spec; [exact Hvd|]. split; [split; assumption|exact Hnd]. }
  now rewrite E.
Qed.

(** C7 (the code at the failing input). One BAPB document exists, created
    at 23:59:59.500 on 31 March 2024, in the calendar month of the call
    at 23:59:59.800 of the same day; the range filter of the count ends at
    23:59:59.000 and misses it, so the number carries sequence 0001
    where count + 1 is 0002. *)
Theorem number_in_last_second_of_month :
  let late := Sample.doc 7 1 draft None (Sample.march 31 23 59 59 500) in
  let w := Sample.world (Sample.store [late] []) (Sample.march 31 23 59 59 800)
                        Sample.never 0 in
  docs (bapb (db w)) = [late]
  /\ in_calendar_month (now w) (created_at late)
  /\ valid_time (created_at late)
  /\ dt_leb (created_at late) (now w) = true
  /\ result_of generateBAPBNumber w = Returned "BAPB/2024/03/0001"%string
  /\ number_text BAPB (now w) 1 = "BAPB/2024/03/0002"%string.
Proof.
  cbv zeta. split; [reflexivity|]. split; [split; reflexivity|].
  split; [repeat split; first [apply Nat.leb_le|apply Nat.ltb_lt]; reflexivity|].
  split; [reflexivity|]. split; reflexivity.
Qed.

(** Six BAPB documents of the month, none in its last second: 0007. *)
Example number_after_six :
  let six := map (fun k => Sample.doc k 1 draft None (Sample.march (9 + k) 8 30 0 0))
                 [1; 2; 3; 4; 5; 6] in
  let w := Sample.world (Sample.store six []) (Sample.march 20 10 0 0 0)
                        Sample.never 0 in
  result_of generateBAPBNumber w = Returned "BAPB/2024/03/0007"%string.
Proof. reflexivity. Qed.

(** ** Payment readiness *)

Lemma user_findById_run (i : Id) (w : World) :
  UserRepository.findById i w =
  if fault_at w (ncalls w) then
    (Thrown store_failure, tick w (ev op_select "users" false) (db w))
  else
    match filter (fun u => user_id u =? i) (users (db w)) with
    | [u] => (Returned (Some u), tick w (ev op_select "users" true) (db w))
    | _ => (Returned None, tick w (ev op_select "users" false) (db w))
    end.
Proof.
  unfold UserRepository.findById, ev; unfold_monad.
  destruct (fault_at w (ncalls w)); [reflexivity|].
  destruct (filter _ _) as [|d [|d' l]]; reflexivity.
Qed.

(** Readiness when every read is answered.  For an existing document and
    a store that answers the three reads, [checkPaymentReadiness] returns
    [ready = true] exactly when the status is [approved], no payment log
    with status [success] exists for (documentType, documentId), and the
    vendor account exists and is active; the blockers are one entry per
    violated condition, all of them, in that order. *)
Theorem readiness_collects_all_blockers (documentType : string) (documentId : Id)
        (w : World) (document : Doc) :
  no_faults w ->
  filter (has_id documentId) (docs (tables (repository_of documentType) (db w)))
  = [document] ->
  exists r,
    result_of (checkPaymentReadiness documentType documentId) w = Returned r
    /\ blockers r =
       (if Status_eqb (status document) approved then [] else [blocker_not_approved])
       ++ (if already_paid (db w) documentType documentId then [blocker_paid] else [])
       ++ (if vendor_active (db w) document then [] else [blocker_vendor])
    /\ (ready r = true <->
        status document = approved
        /\ already_paid (db w) documentType documentId = false
        /\ vendor_active (db w) document = true)
    /\ db (world_after (checkPaymentReadiness documentType documentId) w) = db w.
Proof.
  intros Hnf Hf.
  pose proof (no_faults_here Hnf) as F0.
  pose proof (no_faults_ahead 1 Hnf) as F1.
  pose proof (no_faults_ahead 2 Hnf) as F2.
  cbn [Nat.add] in *.
  unfold result_of, world_after, checkPaymentReadiness.
  fold (repository_of documentType).
  cbv beta zeta delta [try_catch bind ret].
  rewrite findById_run, F0, Hf. cbv beta iota.
  unfold query. world_simpl. rewrite F1. cbv beta iota. cbn [fst snd].
  rewrite user_findById_run. world_simpl. rewrite F2.
  unfold already_paid, vendor_active.
  destruct (filter (is_success_log documentType documentId) (payment_logs (db w)))
    as [|lg lgs]; cbn [data ok_reply is_none negb];
    (destruct (filter (fun u => user_id u =? vendor_id document) (users (db w)))
      as [|v [|v' vs]]; cbn [fst snd];
     [| destruct (is_active v) |];
     (eexists; split; [reflexivity|]; cbn [blockers ready db tick];
      split; [destruct (Status_eqb (status document) approved); reflexivity|];
      split; [|reflexivity];
      destruct (status document); cbn; split; intros H;
      try discriminate; try (decompose [and] H; discriminate);
      repeat split; reflexivity)).
Qed.

(** Whatever the store answers to the lookup of the payment logs: a
    lookup answered with an error counts as no payment made. *)
Lemma readiness_ignores_lookup_error (documentType : string) (documentId : Id)
      (w : World) (document : Doc) :
  fault_at w (ncalls w) = false ->
  fault_at w (S (S (ncalls w))) = false ->
  filter (has_id documentId) (docs (tables (repository_of documentType) (db w)))
  = [document] ->
  exists r,
    result_of (checkPaymentReadiness documentType documentId) w = Returned r
    /\ blockers r =
       (if Status_eqb (status document) approved then [] else [blocker_not_approved])
       ++ (if negb (fault_at w (S (ncalls w)))
              && already_paid (db w) documentType documentId
           then [blocker_paid] else [])
       ++ (if vendor_active (db w) document then [] else [blocker_vendor])
    /\ ready r = (List.length (blockers r) =? 0).
Proof.
  intros F0 F2 Hf.
  unfold result_of, checkPaymentReadiness.
  fold (repository_of documentType).
  cbv beta zeta delta [try_catch bind ret].
  rewrite findById_run, F0, Hf. cbv beta iota.
  unfold query. world_simpl.
  destruct (fault_at w (S (ncalls w))) eqn:F1; cbv beta iota; cbn [fst snd];
    rewrite user_findById_run; world_simpl; rewrite F2;
    unfold already_paid, vendor_active; cbn [negb andb].
  - destruct (filter (fun u => user_id u =? vendor_id document) (users (db w)))
      as [|v [|v' vs]]; cbn [fst snd];
      [| destruct (is_active v) |];
      (eexists; split; [reflexivity|]; cbn [blockers ready];
       destruct (Status_eqb (status document) approved); split; reflexivity).
  - destruct (filter (is_success_log documentType documentId) (payment_logs (db w)))
      as [|lg lgs]; cbn [data ok_reply is_none negb];
      (destruct (filter (fun u => user_id u =? vendor_id document) (users (db w)))
        as [|v [|v' vs]]; cbn [fst snd];
       [| destruct (is_active v) |];
       (eexists; split; [reflexivity|]; cbn [blockers ready];
        destruct (Status_eqb (status document) approved); split; reflexivity)).
Qed.

(** ** Payment runs *)

Lemma simulatePaymentGateway_run (w : World) :
  simulatePaymentGateway w =
  (Returned (gateway_result w), drawn (if settles w then 3 else 4) w).
Proof.
  unfold simulatePaymentGateway, gateway_result, settles, drawn.
  cbv beta zeta delta [bind ret Math_random]. cbn [random ndraws db now fault_at ncalls trace].
  destruct (negb (Qle_bool (random w (S (S (ndraws w)))) (5 # 100))) eqn:E;
    cbn [Nat.add]; rewrite E; reflexivity.
Qed.

Lemma logPaymentAttempt_run (row : PaymentLog) (w : World) :
  logPaymentAttempt row w =
  (Returned tt,
   if fault_at w (ncalls w) then tick w (ev op_insert "payment_logs" false) (db w)
   else tick w (ev op_insert "payment_logs" true)
             (set_payment_logs (payment_logs (db w) ++ [row]) (db w))).
Proof.
  unfold logPaymentAttempt, ev.
  cbv beta zeta delta [try_catch bind ret query].
  destruct (fault_at w (ncalls w)); reflexivity.
Qed.

Lemma notifyPaymentProcessed_run v dt i amount (w : World) :
  notificationService.notifyPaymentProcessed v dt i amount w =
  (Returned tt,
   match amount with
   | None => w
   | Some _ =>
       if fault_at w (ncalls w) then tick w (ev op_insert "notifications" false) (db w)
       else tick w (ev op_insert "notifications" true)
                 (noted {| n_user_id := v; n_type := "payment_processed";
                           n_related_document_type := dt;
                           n_related_document_id := i; n_priority := "high" |}
                        (db w))
   end).
Proof.
  unfold notificationService.notifyPaymentProcessed, notificationService.logged_only.
  destruct amount as [a|].
  - cbv beta zeta delta [try_catch bind ret]. rewrite createNotification_run.
    destruct (fault_at w (ncalls w)); reflexivity.
  - reflexivity.
Qed.

Lemma gw_status_settles (w : World) :
  gw_status (gateway_result w) = if settles w then "success"%string else "failed"%string.
Proof. unfold gateway_result. now destruct (settles w). Qed.

Lemma settles_tick w e s : settles (tick w e s) = settles w.
Proof. reflexivity. Qed.

Lemma gateway_result_tick w e s : gateway_result (tick w e s) = gateway_result w.
Proof. reflexivity. Qed.

Lemma payment_facts (t : DocType) (i : Id) (p : PaymentData) (w : World) :
  let r := processPayment t i p w in
  trace (snd r) = trace w ++ payment_calls t i p w
  /\ match filter (has_id i) (docs (tables t (db w))) with
     | [d] =>
         if fault_at w (ncalls w) then (exists e, fst r = Thrown e) /\ db (snd r) = db w
         else if Status_eqb (status d) approved then
           (exists x, fst r = Returned x /\ pr_status x = gw_status (gateway_result w))
           /\ payment_logs (db (snd r))
              = (if fault_at w (S (ncalls w)) then payment_logs (db w)
                 else payment_logs (db w)
                      ++ [payment_row (DocType_name t) d (logged_amount t p d)
                                      (pd_paymentMethod p) (gateway_result w)])
           /\ (settles w = false -> notifications (db (snd r)) = notifications (db w))
         else (exists e, fst r = Thrown e) /\ db (snd r) = db w
     | _ => (exists e, fst r = Thrown e) /\ db (snd r) = db w
     end.
Proof.
  unfold payment_calls.
  destruct t; cbn [processPayment].
  - unfold processBAPBPayment.
    cbv beta zeta delta [try_catch bind ret throw].
    rewrite findByIdWithRelations_run. cbn [tables table_name].
    destruct (fault_at w (ncalls w)) eqn:F0.
    { cbn [fst snd]. split; [reflexivity|].
      destruct (filter _ _) as [|d [|d' l]]; split; eauto. }
    destruct (filter (has_id i) (docs (bapb (db w)))) as [|d [|d' l]] eqn:Hf;
      try (cbn [fst snd]; split; [reflexivity|]; split; eauto).
    cbv beta iota. cbn [hydrate w_doc].
    destruct (Status_eqb (status d) approved) eqn:Hs; cbn [negb];
      [|cbn [fst snd]; split; [reflexivity|]; split; eauto].
    rewrite simulatePaymentGateway_run. cbv beta iota.
    rewrite logPaymentAttempt_run. cbv beta iota.
    rewrite !settles_tick, !gateway_result_tick, !gw_status_settles.
    cbn [drawn tick db now fault_at ncalls trace random ndraws].
    destruct (settles w) eqn:Hset; cbn [String.eqb Ascii.eqb Bool.eqb andb];
      [rewrite notifyPaymentProcessed_run; destruct (pd_amount p) as [a|] eqn:Ha|];
      destruct (fault_at w (S (ncalls w))) eqn:F1;
      cbn [drawn tick db now fault_at ncalls trace random ndraws fst snd
           is_none negb andb];
      try destruct (fault_at w (S (S (ncalls w)))) eqn:F2;
      cbn [drawn tick db now fault_at ncalls trace random ndraws fst snd
           is_none negb andb];
      (split; [rewrite <- ?app_assoc; reflexivity|];
       split; [eexists; split; [reflexivity|cbn; rewrite ?gw_status_settles, ?Hset; reflexivity]|];
       split; [try reflexivity;
               unfold payment_row, logged_amount, noted; cbn;
               rewrite ?gw_status_settles, ?Hset, ?Ha; reflexivity
              |intros; try discriminate; reflexivity]).
  - unfold processBAPPPayment.
    cbv beta zeta delta [try_catch bind ret throw].
    rewrite findByIdWithRelations_run. cbn [tables table_name].
    destruct (fault_at w (ncalls w)) eqn:F0.
    { cbn [fst snd]. split; [reflexivity|].
      destruct (filter _ _) as [|d [|d' l]]; split; eauto. }
    destruct (filter (has_id i) (docs (bapp (db w)))) as [|d [|d' l]] eqn:Hf;
      try (cbn [fst snd]; split; [reflexivity|]; split; eauto).
    cbv beta iota. cbn [hydrate w_doc].
    destruct (Status_eqb (status d) approved) eqn:Hs; cbn [negb];
      [|cbn [fst snd]; split; [reflexivity|]; split; eauto].
    rewrite simulatePaymentGateway_run. cbv beta iota.
    rewrite logPaymentAttempt_run. cbv beta iota.
    rewrite !settles_tick, !gateway_result_tick, !gw_status_settles.
    cbn [drawn tick db now fault_at ncalls trace random ndraws].
    destruct (settles w) eqn:Hset; cbn [String.eqb Ascii.eqb Bool.eqb andb];
      [rewrite notifyPaymentProcessed_run; destruct (pd_amount p) as [a|] eqn:Ha|];
      destruct (fault_at w (S (ncalls w))) eqn:F1;
      cbn [drawn tick db now fault_at ncalls trace random ndraws fst snd
           is_none negb andb];
      try destruct (fault_at w (S (S (ncalls w)))) eqn:F2;
      cbn [drawn tick db now fault_at ncalls trace random ndraws fst snd
           is_none negb andb];
      (split; [rewrite <- ?app_assoc; reflexivity|];
       split; [eexists; split; [reflexivity|cbn; rewrite ?gw_status_settles, ?Hset; reflexivity]|];
       split; [try reflexivity;
               unfold payment_row, logged_amount, noted; cbn;
               rewrite ?gw_status_settles, ?Hset, ?Ha; reflexivity
              |intros; try discriminate; reflexivity]).
Qed.

Lemma payment_calls_ordered (t : DocType) (i : Id) (p : PaymentData) (w : World) :
  each_after is_log_insert is_notification false (payment_calls t i p w) = true.
Proof.
  unfold payment_calls.
  destruct (fault_at w (ncalls w)); [reflexivity|].
  destruct (filter _ _) as [|d [|d' l]]; try reflexivity.
  destruct (Status_eqb (status d) approved); [|reflexivity].
  destruct (settles w && negb (is_none (pd_amount p))); reflexivity.
Qed.

Lemma payment_calls_notification (t : DocType) (i : Id) (p : PaymentData) (w : World)
      (e : Event) :
  In e (payment_calls t i p w) -> is_notification e = true ->
  fault_at w (ncalls w) = false
  /\ settles w = true
  /\ exists d, filter (has_id i) (docs (tables t (db w))) = [d]
               /\ Status_eqb (status d) approved = true.
Proof.
  unfold payment_calls. intros Hin He.
  assert (Hsel : forall b, e <> ev op_select (table_name t) b)
    by (intros b ->; vm_compute in He; discriminate He).
  assert (Hlog : forall b, e <> ev op_insert "payment_logs" b)
    by (intros b ->; vm_compute in He; discriminate He).
  destruct (fault_at w (ncalls w)).
  { destruct Hin as [<-|[]]. now elim (Hsel false). }
  destruct (filter _ _) as [|d [|d' l]];
    try (destruct Hin as [<-|[]]; now elim (Hsel false)).
  destruct Hin as [<-|Hin]; [now elim (Hsel true)|].
  destruct (Status_eqb (status d) approved) eqn:Hs; [|destruct Hin].
  destruct Hin as [<-|Hin]; [now elim (Hlog (negb (fault_at w (S (ncalls w)))))|].
  destruct (settles w); cbn [andb] in Hin; [|destruct Hin].
  repeat split. exists d. split; [reflexivity|exact Hs].
Qed.

(** C9 (amended). In every payment run the insert of the payment log row
    is issued before any notification insert; a notification is issued
    only when the gateway result is [success]; every run that reached the
    gateway issued the log insert, and the row (carrying the status of the
    attempt) is in the log whenever the store accepted that insert; a
    failed settlement issues no notification and leaves the notifications
    as they were. *)
Theorem log_insert_precedes_notification (t : DocType) (i : Id) (p : PaymentData)
        (w : World) :
  let run := processPayment t i p in
  let evs := calls_of run w in
  (forall pre e post,
      evs = pre ++ e :: post -> is_notification e = true ->
      exists e', In e' pre /\ is_log_insert e' = true)
  /\ (forall e,
        In e evs -> is_notification e = true ->
        exists r, result_of run w = Returned r /\ pr_status r = "success"%string)
  /\ (forall r,
        result_of run w = Returned r ->
        (pr_status r = "success"%string \/ pr_status r = "failed"%string)
        /\ exists d,
            filter (has_id i) (docs (tables t (db w))) = [d]
            /\ In (ev op_insert "payment_logs" (negb (fault_at w (S (ncalls w))))) evs
            /\ (fault_at w (S (ncalls w)) = false ->
                exists row,
                  payment_logs (db (world_after run w)) = payment_logs (db w) ++ [row]
                  /\ pl_status row = pr_status r
                  /\ pl_document_type row = DocType_name t
                  /\ pl_document_id row = id d))
  /\ (forall r,
        result_of run w = Returned r -> pr_status r = "failed"%string ->
        (forall e, In e evs -> is_notification e = false)
        /\ notifications (db (world_after run w)) = notifications (db w)).
Proof.
  intros run evs.
  destruct (payment_facts t i p w) as [Htr Hcase]. cbv zeta in Hcase.
  assert (Hevs : evs = payment_calls t i p w)
    by (apply calls_of_intro; exact Htr).
  fold run in Hcase. unfold result_of, world_after.
  assert (Hret : forall r, fst (run w) = Returned r ->
            fault_at w (ncalls w) = false
            /\ exists d, filter (has_id i) (docs (tables t (db w))) = [d]
                         /\ Status_eqb (status d) approved = true).
  { intros r Hr.
    destruct (filter (has_id i) (docs (tables t (db w)))) as [|d [|d' l]];
      try (destruct Hcase as [[e He] _]; congruence).
    destruct (fault_at w (ncalls w)); [destruct Hcase as [[e He] _]; congruence|].
    destruct (Status_eqb (status d) approved) eqn:Hs;
      [|destruct Hcase as [[e He] _]; congruence].
    split; [reflexivity|]. now exists d. }
  split; [|split; [|split]].
  - intros pre e post Heq He. rewrite Hevs in Heq.
    destruct (@each_after_sound _ _ _ false pre e post
                (payment_calls_ordered t i p w) Heq He) as [H|H];
      [discriminate|exact H].
  - intros e Hin He. rewrite Hevs in Hin.
    destruct (payment_calls_notification t i p w e Hin He) as [F0 [Hset [d [Hf Hs]]]].
    rewrite Hf, F0, Hs in Hcase. destruct Hcase as [[x [Hx Hst]] _].
    exists x. split; [exact Hx|]. now rewrite Hst, gw_status_settles, Hset.
  - intros r Hr. destruct (Hret r Hr) as [F0 [d [Hf Hs]]].
    rewrite Hf, F0, Hs in Hcase. destruct Hcase as [[x [Hx Hst]] [Hlog _]].
    assert (x = r) by congruence. subst x.
    split.
    { rewrite Hst, gw_status_settles. destruct (settles w); auto. }
    exists d. split; [exact Hf|]. split.
    + rewrite Hevs. unfold payment_calls. rewrite F0, Hf, Hs. right. now left.
    + intros F1. rewrite F1 in Hlog. eexists. split; [exact Hlog|].
      cbn. rewrite Hst. repeat split.
  - intros r Hr Hfailed. destruct (Hret r Hr) as [F0 [d [Hf Hs]]].
    rewrite Hf, F0, Hs in Hcase. destruct Hcase as [[x [Hx Hst]] [_ Hnot]].
    assert (x = r) by congruence. subst x.
    assert (Hset : settles w = false).
    { rewrite Hst, gw_status_settles in Hfailed.
      destruct (settles w); [discriminate|reflexivity]. }
    split; [|exact (Hnot Hset)].
    intros e Hin. rewrite Hevs in Hin.
    destruct (is_notification e) eqn:He; [|reflexivity].
    destruct (payment_calls_notification t i p w e Hin He) as [_ [Hs' _]].
    congruence.
Qed.

(** * The statements on concrete runs *)

Lemma never_no_faults (s : Store) (c : DateTime) (r : Q) :
  no_faults (Sample.world s c Sample.never r).
Proof. intros n _. reflexivity. Defined.

Lemma orphaned_reachable : reachable Scenario.orphaned.
Proof.
  apply reach_env with (w := Scenario.half_approved); [|reflexivity].
  apply reach_serve, reach_start; reflexivity.
Defined.

(** The reviewer's [approved] record of BAPB 1 is there, once, and the
    reviewer's next approve call is answered 400 and writes nothing. *)
Lemma one_approval_per_approver_witness :
  let w := Scenario.orphaned in
  let req := Sample.approve_req 1 in
  reachable w
  /\ approved_by BAPB 1 2 (db w) = [approval_of req act_approved]
  /\ List.length (approved_by BAPB 1 2 (db w)) <= 1
  /\ db (world_after (approveBAPB req) w) = db w
  /\ exists resp,
      result_of (approveBAPB req) w = Returned resp
      /\ success resp = false /\ code resp <> 200.
Proof.
  cbv zeta.
  destruct (@one_approval_per_approver Scenario.orphaned BAPB 1 2 orphaned_reachable)
    as [Hle Hagain].
  split; [exact orphaned_reachable|]. split; [reflexivity|]. split; [exact Hle|].
  apply (Hagain approveBAPB (Sample.approve_req 1)).
  - left. reflexivity.
  - reflexivity.
  - reflexivity.
  - exists (approval_of (Sample.approve_req 1) act_approved).
    split; [left; reflexivity|reflexivity].
Defined.

(** BAPB 1 and BAPP 1 are submitted, the reviewer has uploaded no
    signature and approved nothing, and the store refuses the third call,
    the lookup of the signature: the BAPP approval is refused with the
    guidance message, the BAPB approval goes through with the warning of
    the failed lookup.  With the sixth call refused instead (the insert
    of the notification) the BAPB approval goes through as well, with the
    warning of the missing signature. *)
Lemma approve_without_signature_witness :
  let w := Scenario.submitted_world (Sample.only 2) in
  let w' := Scenario.submitted_world (Sample.only 5) in
  let req := Sample.approve_req 1 in
  status (Scenario.doc_in submitted None) = submitted
  /\ (result_of (approveBAPP req) w = Returned signature_refusal
      /\ db (world_after (approveBAPP req) w) = db w)
  /\ (exists resp,
         result_of (approveBAPB req) w = Returned resp
         /\ code resp = 200 /\ success resp = true
         /\ warning resp = Some unverified_warning)
  /\ map status (docs (bapb (db (world_after (approveBAPB req) w)))) = [approved]
  /\ (exists resp,
         result_of (approveBAPB req) w' = Returned resp
         /\ code resp = 200 /\ success resp = true
         /\ warning resp = Some unsigned_warning)
  /\ map status (docs (bapb (db (world_after (approveBAPB req) w')))) = [approved].
Proof.
  cbv zeta.
  destruct (@approve_without_signature (Sample.approve_req 1)
              (Scenario.submitted_world (Sample.only 2))
              (Scenario.doc_in submitted None) (or_introl eq_refl))
    as [Hbapp Hbapb].
  destruct (@approve_without_signature (Sample.approve_req 1)
              (Scenario.submitted_world (Sample.only 5))
              (Scenario.doc_in submitted None) (or_introl eq_refl))
    as [_ Hbapb'].
  split; [reflexivity|].
  split.
  { destruct (Hbapp eq_refl eq_refl eq_refl eq_refl) as [Hdb [resp [Hr [H500 Hans]]]].
    split; [|exact Hdb]. rewrite Hr. f_equal. apply Hans.
    intros H. apply H500 in H. discriminate H. }
  split.
  { destruct (Hbapb eq_refl eq_refl eq_refl eq_refl) as [resp [Hr [H500 Hans]]].
    exists resp. split; [exact Hr|].
    destruct Hans as [Hc [Hs [Hw _]]];
      [intros H; apply H500 in H; discriminate H|].
    split; [exact Hc|]. split; [exact Hs|exact Hw]. }
  split; [reflexivity|].
  split; [|reflexivity].
  destruct (Hbapb' eq_refl eq_refl eq_refl eq_refl) as [resp [Hr [H500 Hans]]].
  exists resp. split; [exact Hr|].
  destruct Hans as [Hc [Hs [Hw _]]];
    [intros H; apply H500 in H; discriminate H|].
  split; [exact Hc|]. split; [exact Hs|exact Hw].
Defined.

(** The claim C2 as stated fails, in two ways.  BAPB 1 is submitted, the
    caller is reviewer-eligible and has no signature attachment, yet the
    approval is answered 400 without a warning field, appends no record
    and leaves the status: the caller's [approved] record of an earlier
    run, whose status update the store refused, is in the table.  And
    with no such record in the table, when the store refuses the lookup
    of the document, the approval is answered 500 without a warning
    field, appends no record and leaves the status. *)
Lemma approve_without_signature_refused :
  let w := Scenario.orphaned in
  let w0 := Scenario.submitted_world (Sample.only 0) in
  let req := Sample.approve_req 1 in
  (reachable w
   /\ map status (docs (bapb (db w))) = [submitted]
   /\ Js.includes (reviewer_roles BAPB) (user_role (rq_user req)) = true
   /\ signatures_of BAPB (rq_id req) (user_id (rq_user req)) (db w) = []
   /\ (exists resp,
          result_of (approveBAPB req) w = Returned resp
          /\ code resp = 400 /\ success resp = false /\ warning resp = None
          /\ message resp = "You have already approved this BAPB"%string)
   /\ approvals (bapb (db (world_after (approveBAPB req) w))) = approvals (bapb (db w))
   /\ map status (docs (bapb (db (world_after (approveBAPB req) w)))) = [submitted])
  /\ (map status (docs (bapb (db w0))) = [submitted]
      /\ signatures_of BAPB (rq_id req) (user_id (rq_user req)) (db w0) = []
      /\ approved_by BAPB (rq_id req) (user_id (rq_user req)) (db w0) = []
      /\ (exists resp,
             result_of (approveBAPB req) w0 = Returned resp
             /\ code resp = 500 /\ success resp = false /\ warning resp = None
             /\ message resp = "Error approving BAPB"%string)
      /\ approvals (bapb (db (world_after (approveBAPB req) w0)))
         = approvals (bapb (db w0))
      /\ map status (docs (bapb (db (world_after (approveBAPB req) w0))))
         = [submitted]).
Proof.
  cbv zeta. split.
  - split; [exact orphaned_reachable|].
    split; [reflexivity|]. split; [reflexivity|]. split; [reflexivity|].
    split; [|split; reflexivity].
    eexists. split; [reflexivity|]. repeat split.
  - split; [reflexivity|]. split; [reflexivity|]. split; [reflexivity|].
    split; [|split; reflexivity].
    eexists. split; [reflexivity|]. repeat split.
Qed.

(** The bulk insert of the one line item is refused and the delete after
    it is accepted: the new row is taken back and the aggregated error is
    thrown. *)
Lemma failed_create_is_compensated_witness :
  let w := Scenario.bulk_insert_refused in
  let m := create_with_children BAPB Scenario.new_doc [Scenario.cement] [] in
  0 < children_given BAPB [Scenario.cement] []
  /\ fault_at w (ncalls w) = false
  /\ fault_at w (S (ncalls w)) = true
  /\ result_of m w = Thrown (Error_ "Failed to create BAPB items: connection failure")
  /\ calls_of m w = [ev op_insert "bapb" true; ev op_insert "bapb_items" false;
                     ev op_delete "bapb" true]
  /\ docs (bapb (db (world_after m w))) = [].
Proof.
  cbv zeta.
  assert (Hn : 0 < children_given BAPB [Scenario.cement] []) by (cbn; lia).
  destruct (@failed_create_is_compensated BAPB Scenario.new_doc [Scenario.cement] []
              Scenario.bulk_insert_refused Hn eq_refl eq_refl)
    as [Hcalls [_ [Hdone _]]].
  destruct (Hdone eq_refl) as [Hres [_ Hdocs]].
  split; [exact Hn|]. do 2 (split; [reflexivity|]).
  split; [exact Hres|]. split; [exact Hcalls|].
  apply Hdocs. intros x [].
Defined.

(** The claim C4 as stated fails.  The bulk insert of the one line item
    is refused and so is the delete after it: the caller gets the error
    of the delete, not the aggregated one, and the new row stays in the
    table without a line item. *)
Lemma failed_create_not_compensated :
  let w := Scenario.rollback_refused in
  let m := create_with_children BAPB Scenario.new_doc [Scenario.cement] [] in
  calls_of m w = [ev op_insert "bapb" true; ev op_insert "bapb_items" false;
                  ev op_delete "bapb" false]
  /\ result_of m w = Thrown store_failure
  /\ result_of m w <> Thrown (items_error BAPB store_failure)
  /\ docs (bapb (db w)) = []
  /\ map id (docs (bapb (db (world_after m w)))) = [next_id (db w)]
  /\ items_of BAPB (db (world_after m w)) (next_id (db w)) = GoodsItems [].
Proof.
  cbv zeta. split; [reflexivity|]. split; [reflexivity|].
  split; [discriminate|]. split; [reflexivity|]. split; reflexivity.
Qed.

(** The vendor submits a draft without line items (refused, nothing
    written) and a draft with one (accepted). *)
Lemma submit_preconditions_witness :
  (items_length (items_of BAPB (db Scenario.empty_draft) 1) = 0
   /\ db (world_after (submit BAPB Scenario.submit_req) Scenario.empty_draft)
      = db Scenario.empty_draft
   /\ exists resp,
       result_of (submit BAPB Scenario.submit_req) Scenario.empty_draft = Returned resp
       /\ success resp = false /\ code resp <> 200)
  /\ (exists resp,
         result_of (submit BAPB Scenario.submit_req) Scenario.full_draft = Returned resp
         /\ code resp = 200
         /\ exists d,
             filter (has_id 1) (docs (bapb (db Scenario.full_draft))) = [d]
             /\ (status d = draft \/ status d = revision_required)
             /\ vendor_id d = user_id Sample.vendor
             /\ 1 <= items_length (items_of BAPB (db Scenario.full_draft) 1)).
Proof.
  split.
  - split; [reflexivity|].
    apply (proj2 (submit_preconditions BAPB Scenario.submit_req Scenario.empty_draft)).
    reflexivity.
  - destruct (result_of (submit BAPB Scenario.submit_req) Scenario.full_draft)
      as [resp|e] eqn:E; [|vm_compute in E; discriminate E].
    assert (Hc : code resp = 200)
      by (vm_compute in E; injection E as <-; reflexivity).
    exists resp. split; [reflexivity|]. split; [exact Hc|].
    destruct (proj1 (submit_preconditions BAPB Scenario.submit_req Scenario.full_draft)
                    resp E Hc) as [d [Hf [Hs [Hv [_ Hi]]]]].
    exists d. repeat split; assumption.
Defined.

(** The vendor edits BAPB 1, which was sent back for revision: the row is
    a draft again, the reason is gone and the new order number is on it. *)
Lemma edit_after_revision_witness :
  let w := Scenario.sent_back in
  let d := Scenario.doc_in revision_required (Some "Jumlah tidak sesuai"%string) in
  filter (has_id 1) (docs (bapb (db w))) = [d]
  /\ no_faults w
  /\ owning_vendor BAPB Sample.vendor d
  /\ exists resp d',
      result_of (updateBAPB Scenario.edit_req) w = Returned resp
      /\ code resp = 200
      /\ filter (has_id 1) (docs (bapb (db (world_after (updateBAPB Scenario.edit_req) w))))
         = [d']
      /\ status d' = draft
      /\ rejection_reason d' = None
      /\ order_number d' = Some "PO-2"%string.
Proof.
  cbv zeta.
  set (d := Scenario.doc_in revision_required (Some "Jumlah tidak sesuai"%string)).
  assert (Hnf : no_faults Scenario.sent_back) by apply never_no_faults.
  assert (Hov : owning_vendor BAPB Sample.vendor d) by (split; reflexivity).
  destruct (proj1 edit_after_revision Scenario.edit_req Scenario.sent_back d eq_refl)
    as [Hdone [Haccepted _]].
  destruct (Haccepted Hnf Hov eq_refl) as [resp [Hr Hc]].
  destruct (Hdone resp Hr Hc) as [d' [Hf [Hs [Hrr [Hon _]]]]].
  split; [reflexivity|]. split; [exact Hnf|]. split; [exact Hov|].
  exists resp, d'. repeat split; assumption.
Defined.

(** A BAPP created with work items 40 and 60 percent done is stored with
    total progress 50.00, the exact mean rounded to two decimals, and is
    returned with the two items; BAPP 1, updated with the two work items,
    is stored with total progress 50.00 and has these two items. *)
Lemma total_progress_is_rounded_mean_witness :
  let m := BAPPRepository.createWithWorkItems Scenario.new_bapp
             (Some Scenario.two_items) in
  let u := BAPPRepository.updateWithWorkItems 1 empty_patch
             (Some Scenario.two_items) in
  (exists view,
      result_of m Scenario.empty_world = Returned (Some view)
      /\ total_progress (w_doc view) = TotalFixed 5000
      /\ rounded_to_two_decimals (mean_progress (work_rows view)) 5000
      /\ List.length (work_rows view) = 2
      /\ filter (has_id 100) (docs (bapp (db (world_after m Scenario.empty_world))))
         = [w_doc view])
  /\ (exists view,
         result_of u Scenario.full_draft = Returned (Some view)
         /\ total_progress (w_doc view) = TotalFixed 5000
         /\ work_rows view = map (work_item_row 1) Scenario.two_items
         /\ map total_progress
                (docs (bapp (db (world_after u Scenario.full_draft))))
            = [TotalFixed 5000]).
Proof.
  cbv zeta.
  destruct total_progress_is_rounded_mean
    as [_ [_ [Hmean [[Hfifty _] [_ [Hcreate [Hupdate _]]]]]]].
  split.
  - destruct (Hcreate Scenario.new_bapp Scenario.two_items Scenario.empty_world)
      as [view [Hr [Ht [Hf Hrows]]]].
    + intros j Hj. reflexivity.
    + intros x [].
    + exists view. split; [exact Hr|]. rewrite Ht, Hfifty.
      split; [reflexivity|]. rewrite Hrows.
      split; [|split; [reflexivity|exact Hf]].
      destruct (Hmean 100 Scenario.two_items) as [h [Hh [_ Hround]]].
      * discriminate.
      * reflexivity.
      * intros item [<-|[<-|[]]]; (split; [now left|]);
          split; apply Qle_bool_iff; reflexivity.
      * rewrite Hfifty in Hh. injection Hh as <-.
        apply Hround. intros item [<-|[<-|[]]].
        -- exists 40%Z. reflexivity.
        -- exists 60%Z. reflexivity.
  - destruct (Hupdate 1 empty_patch Scenario.two_items Scenario.full_draft
                      (Sample.doc 1 1 draft None (Sample.march 1 8 0 0 0)))
      as [view [Hr [Ht [Hf Hrows]]]].
    + intros j Hj. reflexivity.
    + reflexivity.
    + exists view. split; [exact Hr|]. rewrite Ht, Hfifty.
      split; [reflexivity|]. split; [exact Hrows|reflexivity].
Defined.

(** The claim C3 as stated fails.  Two work items, 0.03 and
    1.3010426069826053e-18 percent done: both are binary64 numbers and
    percentages, given under one spelling.  Their mean is above 0.015
    (also with the first taken as the decimal 0.03), so that rounded to
    two decimals it is 0.02; the BAPP created with them is stored and
    returned with total progress 0.01. *)
Lemma total_progress_off_the_mean :
  let m := BAPPRepository.createWithWorkItems Scenario.new_bapp
             (Some Scenario.near_half) in
  (forall item, In item Scenario.near_half ->
      one_spelling item
      /\ percentage (actual_read item)
      /\ Js.round64 (actual_read item) = actual_read item)
  /\ map actual_read Scenario.near_half
     = [Js.round64 (3 # 100); (3 # 2305843009213693952)%Q]
  /\ (15 # 1000 < ((3 # 100) + (3 # 2305843009213693952)) / 2)%Q
  /\ exists view,
      result_of m Scenario.empty_world = Returned (Some view)
      /\ total_progress (w_doc view) = TotalFixed 1
      /\ JsTotal_text (total_progress (w_doc view)) = "0.01"%string
      /\ work_rows view = map (work_item_row 100) Scenario.near_half
      /\ (15 # 1000 < mean_progress (work_rows view))%Q
      /\ ~ rounded_to_two_decimals (mean_progress (work_rows view)) 1
      /\ rounded_to_two_decimals (mean_progress (work_rows view)) 2.
Proof.
  cbv zeta. split.
  { intros item [<-|[<-|[]]]; (split; [now left|]); (split; [|vm_compute; reflexivity]);
      split; apply Qle_bool_iff; vm_compute; reflexivity. }
  split; [vm_compute; reflexivity|].
  split; [vm_compute; reflexivity|].
  eexists. split; [vm_compute; reflexivity|].
  split; [vm_compute; reflexivity|]. split; [vm_compute; reflexivity|].
  split; [vm_compute; reflexivity|].
  split; [vm_compute; reflexivity|].
  unfold rounded_to_two_decimals. split.
  - intros H. apply Qle_bool_iff in H. vm_compute in H. discriminate H.
  - apply Qle_bool_iff. vm_compute. reflexivity.
Qed.

(** C8 (the code at the failing input).  BAPB 1 is approved, its vendor is
    active and a payment log with status [success] exists for it; the
    store answers the lookup of the payment logs with an error, which
    [checkPaymentReadiness] does not look at: it returns [ready = true]
    with no blocker.  With the lookup answered, the same tables give
    [ready = false] and the blocker of the payment made. *)
Theorem readiness_with_log_lookup_refused :
  let refused := Scenario.approved_world [Scenario.paid] (Sample.only 1) (1 # 2) in
  let answered := Scenario.approved_world [Scenario.paid] Sample.never (1 # 2) in
  db refused = db answered
  /\ filter (has_id 1) (docs (bapb (db refused))) = [Scenario.doc_in approved None]
  /\ already_paid (db refused) "BAPB" 1 = true
  /\ vendor_active (db refused) (Scenario.doc_in approved None) = true
  /\ calls_of (checkPaymentReadiness "BAPB" 1) refused
     = [ev op_select "bapb" true; ev op_select "payment_logs" false;
        ev op_select "users" true]
  /\ (exists r,
         result_of (checkPaymentReadiness "BAPB" 1) refused = Returned r
         /\ ready r = true /\ blockers r = [])
  /\ (exists r,
         result_of (checkPaymentReadiness "BAPB" 1) answered = Returned r
         /\ ready r = false /\ blockers r = [blocker_paid]).
Proof.
  cbv zeta. do 5 (split; [reflexivity|]).
  split; eexists; (split; [reflexivity|split; reflexivity]).
Qed.

(** A payment of the approved BAPB 1 that settles (the log row goes in,
    then the notification) and one that does not (the log row with status
    [failed], no notification). *)
Lemma log_insert_precedes_notification_witness :
  let settled := Scenario.approved_world [] Sample.never (1 # 2) in
  let declined := Scenario.approved_world [] Sample.never (1 # 100) in
  let run := processPayment BAPB 1 Scenario.pay in
  (exists r row,
      result_of run settled = Returned r
      /\ pr_status r = "success"%string
      /\ calls_of run settled
         = [ev op_select "bapb" true; ev op_insert "payment_logs" true;
            ev op_insert "notifications" true]
      /\ payment_logs (db (world_after run settled)) = [row]
      /\ pl_status row = "success"%string /\ pl_document_id row = 1)
  /\ (exists r,
         result_of run declined = Returned r
         /\ pr_status r = "failed"%string
         /\ In (ev op_insert "payment_logs" true) (calls_of run declined)
         /\ (forall e, In e (calls_of run declined) -> is_notification e = false)
         /\ notifications (db (world_after run declined)) = []).
Proof.
  cbv zeta. split.
  - destruct (result_of (processPayment BAPB 1 Scenario.pay)
                (Scenario.approved_world [] Sample.never (1 # 2)))
      as [r|e] eqn:E; [|vm_compute in E; discriminate E].
    destruct (log_insert_precedes_notification BAPB 1 Scenario.pay
                (Scenario.approved_world [] Sample.never (1 # 2)))
      as [_ [_ [Hlog _]]].
    destruct (Hlog r E) as [_ [d [Hf [_ Hrow]]]].
    destruct (Hrow eq_refl) as [row [Hl [Hs [_ Hi]]]].
    assert (Hr : pr_status r = "success"%string)
      by (vm_compute in E; injection E as <-; reflexivity).
    assert (Hd : id d = 1) by (vm_compute in Hf; injection Hf as <-; reflexivity).
    exists r, row. split; [reflexivity|]. split; [exact Hr|].
    split; [reflexivity|]. split; [exact Hl|]. split; congruence.
  - destruct (result_of (processPayment BAPB 1 Scenario.pay)
                (Scenario.approved_world [] Sample.never (1 # 100)))
      as [r|e] eqn:E; [|vm_compute in E; discriminate E].
    destruct (log_insert_precedes_notification BAPB 1 Scenario.pay
                (Scenario.approved_world [] Sample.never (1 # 100)))
      as [_ [_ [_ Hfailed]]].
    assert (Hr : pr_status r = "failed"%string)
      by (vm_compute in E; injection E as <-; reflexivity).
    destruct (Hfailed r E Hr) as [Hnone Hnot].
    exists r. split; [reflexivity|]. split; [exact Hr|].
    split; [right; left; reflexivity|]. split; [exact Hnone|exact Hnot].
Defined.

(** The claim C9 as stated fails.  The store refuses the insert of the
    payment log row of a payment that settles: [logPaymentAttempt] goes on
    without the row, the run returns [success] and the notification goes
    in, while the payment log has no row of the attempt. *)
Lemma notification_without_log_row :
  let w := Scenario.approved_world [] (Sample.only 1) (1 # 2) in
  let run := processPayment BAPB 1 Scenario.pay in
  (exists r, result_of run w = Returned r
             /\ pr_success r = true /\ pr_status r = "success"%string)
  /\ calls_of run w
     = [ev op_select "bapb" true; ev op_insert "payment_logs" false;
        ev op_insert "notifications" true]
  /\ List.length (notifications (db (world_after run w)))
     = S (List.length (notifications (db w)))
  /\ payment_logs (db w) = []
  /\ payment_logs (db (world_after run w)) = [].
Proof.
  cbv zeta. split; [eexists; split; [reflexivity|split; reflexivity]|].
  repeat split.
Qed.


(** * Further properties *)

(** ** What the approval cycle leaves behind *)

Lemma commit_effect t a p n msg warn w resp :
  fst (record_then_update t a p n msg warn w) = Returned resp ->
  code resp = 200
  /\ exists d,
      filter (has_id (ap_doc_id a)) (docs (tables t (db w))) = [d]
      /\ docs (tables t (db (snd (record_then_update t a p n msg warn w))))
         = replaced (ap_doc_id a) (apply_patch p d) (docs (tables t (db w)))
      /\ approvals (tables t (db (snd (record_then_update t a p n msg warn w))))
         = approvals (tables t (db w)) ++ [a].
Proof.
  rewrite record_then_update_run. cbv zeta.
  destruct (fault_at w (ncalls w)); [discriminate|].
  destruct (fault_at w (S (ncalls w))); [discriminate|].
  destruct (filter (has_id (ap_doc_id a)) (docs (tables t (db w))))
    as [|d [|d' l]] eqn:Hf; try discriminate.
  destruct (fault_at w (S (S (S (ncalls w))))); [discriminate|].
  cbn [fst snd]. intros H. injection H as <-. split; [reflexivity|].
  exists d. split; [reflexivity|]. world_simpl.
  assert (Hd : docs (tables t (patched t (ap_doc_id a) p (recorded t a (db w))))
               = replaced (ap_doc_id a) (apply_patch p d) (docs (tables t (db w)))).
  { rewrite docs_patched, docs_recorded. unfold replaced.
    apply map_ext_in. intros x Hx. destruct (has_id (ap_doc_id a) x) eqn:Hi; [|reflexivity].
    assert (In x (filter (has_id (ap_doc_id a)) (docs (tables t (db w)))))
      by (apply filter_In; auto).
    rewrite Hf in H. destruct H as [<-|[]]. reflexivity. }
  destruct (fault_at w (S (S (ncalls w)))).
  - split; [exact Hd|]. now rewrite approvals_patched, approvals_recorded.
  - rewrite docs_noted, approvals_noted. split; [exact Hd|].
    now rewrite approvals_patched, approvals_recorded.
Qed.

Lemma answered_turned_down failed x resp :
  fst (answered failed x) = Returned resp -> turned_down resp ->
  fst x = Returned resp.
Proof.
  destruct x as [[r|e] w']; cbn; [auto|].
  intros H. injection H as <-. cbn. intros [H|[H|H]]; discriminate.
Qed.

(** An accepted reject or request for revision: the caller gave a reason
    that is not blank, the document was [submitted] or [in_review], the
    caller's role may review; the row now carries the new status and the
    reason, its other columns and every other row are as before, and the
    record of the decision is the last of the approvals table.  A request
    turned down with a 400, 403 or 404 has written nothing. *)
Theorem decision_outcome (t : DocType) (h : ApprovalReq -> M Response)
        (act : Action) (target : Status) (req : ApprovalReq) (w : World) :
  decision t h act target ->
  (forall resp,
      result_of (h req) w = Returned resp -> code resp = 200 ->
      exists d reason,
        rq_reason req = Some reason /\ Js.all_blank reason = false
        /\ filter (has_id (rq_id req)) (docs (tables t (db w))) = [d]
        /\ (status d = submitted \/ status d = in_review)
        /\ Js.includes (reviewer_roles t) (user_role (rq_user req)) = true
        /\ docs (tables t (db (world_after (h req) w)))
           = replaced (rq_id req)
               (apply_patch (status_patch target (Some (Some reason)) None) d)
               (docs (tables t (db w)))
        /\ status (apply_patch (status_patch target (Some (Some reason)) None) d)
           = target
        /\ rejection_reason
             (apply_patch (status_patch target (Some (Some reason)) None) d)
           = Some reason
        /\ approvals (tables t (db (world_after (h req) w)))
           = approvals (tables t (db w)) ++ [approval_of req act])
  /\ (forall resp,
        result_of (h req) w = Returned resp -> turned_down resp ->
        db (world_after (h req) w) = db w).
Proof.
  intros Hd. unfold result_of, world_after.
  assert (E : exists required verb_status unauthorized finished failed note,
             h = decide t act target required verb_status unauthorized finished
                        failed note).
  { destruct Hd as [[-> [-> ->]]|[-> [-> ->]]]; unfold reject, requestRevision;
      repeat eexists. }
  destruct E as [required [verb_status [unauthorized [finished [failed [note ->]]]]]].
  clear Hd. rewrite decide_run.
  destruct (rq_reason req) as [reason|] eqn:Hr; cbn [reason_missing].
  2:{ split; intros resp H; injection H as <-; cbn; [discriminate|reflexivity]. }
  destruct (negb (Js.truthy (Some reason)) || Js.all_blank reason) eqn:Hb.
  { split; intros resp H; injection H as <-; cbn; [discriminate|reflexivity]. }
  apply orb_false_iff in Hb. destruct Hb as [_ Hb].
  destruct (fault_at w (ncalls w)).
  { split; intros resp H; injection H as <-; cbn; [discriminate|].
    intros [H|[H|H]]; discriminate. }
  destruct (filter (has_id (rq_id req)) (docs (tables t (db w))))
    as [|d [|d' l]] eqn:Hf;
    try (split; intros resp H; injection H as <-; cbn; [discriminate|reflexivity]).
  cbv zeta.
  destruct (status_in [submitted; in_review] (status d)) eqn:Hs; cbn [negb];
    [|split; intros resp H; injection H as <-; cbn; [discriminate|reflexivity]].
  destruct (Js.includes (reviewer_roles t) (user_role (rq_user req))) eqn:Hrole;
    cbn [negb];
    [|split; intros resp H; injection H as <-; cbn; [discriminate|reflexivity]].
  set (w1 := tick w (ev op_select (table_name t) true) (db w)).
  split.
  - intros resp H Hc. apply answered_returned in H; [|exact Hc].
    rewrite answered_db.
    destruct (commit_effect _ _ _ _ _ _ _ H) as [_ [d0 [Hf0 [Hdocs Happ]]]].
    cbn [approval_of ap_doc_id] in Hf0, Hdocs. subst w1. world_simpl.
    rewrite Hf in Hf0. injection Hf0 as <-.
    exists d, reason. repeat split; try assumption.
    + unfold status_in in Hs. cbn in Hs.
      destruct (status d); cbn in Hs; try discriminate; auto.
  - intros resp H Ht. apply answered_turned_down in H; [|exact Ht].
    apply commit_effect in H. destruct H as [Hc _].
    destruct Ht as [Ht|[Ht|Ht]]; rewrite Hc in Ht; discriminate.
Qed.

(** The blank test is [trim()]'s: a reason of Unicode white space only is
    missing, and the reject is answered 400 before any call; white space
    around a word does not make a reason blank. *)
Example blank_reason_is_missing :
  Js.all_blank Cases.blank_reason = true
  /\ reason_missing (Some Cases.blank_reason) = true
  /\ Js.all_blank (Cases.blank_reason ++ "x" ++ Cases.blank_reason) = false
  /\ Js.all_blank (String (ascii_of_nat 194) "x") = false
  /\ (exists resp,
         result_of (reject BAPB Cases.blank_reject_req)
                   (Scenario.submitted_world Sample.never) = Returned resp
         /\ code resp = 400)
  /\ calls_of (reject BAPB Cases.blank_reject_req)
              (Scenario.submitted_world Sample.never) = [].
Proof.
  split; [reflexivity|]. split; [reflexivity|]. split; [reflexivity|].
  split; [reflexivity|]. split; [eexists; split; reflexivity|reflexivity].
Qed.

Lemma status_in_review d :
  status_in [submitted; in_review] (status d) = true ->
  status d = submitted \/ status d = in_review.
Proof.
  unfold status_in. cbn. destruct (status d); cbn; intros H; try discriminate; auto.
Qed.

Ltac not_accepted :=
  let resp := fresh "resp" in
  let H := fresh "H" in
  let Hc := fresh "Hc" in
  intros resp H Hc; injection H as <-; cbn in Hc; discriminate Hc.

Lemma approve_accepted t step req w resp :
  read_step step ->
  fst (approve t step req w) = Returned resp -> code resp = 200 ->
  exists d warn w2 w3,
    filter (has_id (rq_id req)) (docs (tables t (db w))) = [d]
    /\ status_in [submitted; in_review] (status d) = true
    /\ Js.includes (reviewer_roles t) (user_role (rq_user req)) = true
    /\ List.length (approved_by t (rq_id req) (user_id (rq_user req)) (db w)) <> 1
    /\ db w2 = db w
    /\ step (rq_id req) (user_id (rq_user req)) w2 = (Returned (inr warn), w3)
    /\ docs (tables t (db (snd (approve t step req w))))
       = replaced (rq_id req) (apply_patch (approve_patch t req d) d)
                  (docs (tables t (db w)))
    /\ approvals (tables t (db (snd (approve t step req w))))
       = approvals (tables t (db w)) ++ [approval_of req act_approved].
Proof.
  intros Hq. rewrite approve_run. cbv zeta. revert resp.
  destruct (fault_at w (ncalls w)); [not_accepted|].
  destruct (filter (has_id (rq_id req)) (docs (tables t (db w))))
    as [|d [|d' l]] eqn:Hf; try not_accepted.
  destruct (status_in [submitted; in_review] (status d)) eqn:Hs; cbn [negb];
    [|not_accepted].
  destruct (Js.includes (reviewer_roles t) (user_role (rq_user req))) eqn:Hrole;
    cbn [negb]; [|not_accepted].
  destruct (fault_at w (S (ncalls w))); [not_accepted|].
  set (w1 := tick w (ev op_select (table_name t) true) (db w)).
  destruct (approved_by t (rq_id req) (user_id (rq_user req)) (db w))
    as [|a [|a' l]] eqn:Hab; try not_accepted.
  all: set (w2 := tick w1 (ev op_select (approvals_table t) false) (db w)).
  all: destruct (Hq (rq_id req) (user_id (rq_user req)) w2) as [Hdb [Hno _]].
  all: destruct (step (rq_id req) (user_id (rq_user req)) w2)
    as [[[refused|warn]|e] w3] eqn:Hst; cbn [fst snd] in Hdb, Hno.
  all: intros resp H Hc.
  all: try (injection H as <-; cbn in Hc; discriminate Hc).
  all: try (cbn [fst] in H; injection H as H; subst resp;
            now elim (Hno refused eq_refl)).
  all: apply answered_returned in H; [|exact Hc].
  all: rewrite answered_db.
  all: destruct (commit_effect _ _ _ _ _ _ _ H) as [_ [d0 [Hf0 [Hdocs Happ]]]].
  all: cbn [approval_of ap_doc_id] in Hf0, Hdocs.
  all: rewrite Hdb in Hf0, Hdocs, Happ; subst w2 w1; world_simpl.
  all: rewrite Hf in Hf0; injection Hf0 as <-.
  all: exists d, warn; eexists; exists w3.
  all: split; [reflexivity|]; split; [exact Hs|]; split; [reflexivity|].
  all: split; [cbn; lia|].
  all: split; [|split; [exact Hst|split; [exact Hdocs|exact Happ]]].
  all: reflexivity.
Qed.

Ltac not_turned_down :=
  let resp := fresh "resp" in
  let H := fresh "H" in
  let Ht := fresh "Ht" in
  intros resp H Ht; injection H as <-; destruct Ht as [Ht|[Ht|Ht]];
  cbn in Ht; discriminate Ht.

Ltac wrote_nothing :=
  let resp := fresh "resp" in
  let H := fresh "H" in
  let Ht := fresh "Ht" in
  intros resp H Ht; reflexivity.

Lemma approve_turned_down t step req w resp :
  read_step step ->
  fst (approve t step req w) = Returned resp -> turned_down resp ->
  db (snd (approve t step req w)) = db w.
Proof.
  intros Hq. rewrite approve_run. cbv zeta. revert resp.
  destruct (fault_at w (ncalls w)); [wrote_nothing|].
  destruct (filter (has_id (rq_id req)) (docs (tables t (db w))))
    as [|d [|d' l]] eqn:Hf; try wrote_nothing.
  destruct (negb (status_in [submitted; in_review] (status d))); [wrote_nothing|].
  destruct (negb (Js.includes (reviewer_roles t) (user_role (rq_user req))));
    [wrote_nothing|].
  destruct (fault_at w (S (ncalls w))); [wrote_nothing|].
  set (w1 := tick w (ev op_select (table_name t) true) (db w)).
  destruct (approved_by t (rq_id req) (user_id (rq_user req)) (db w))
    as [|a [|a' l]] eqn:Hab; try wrote_nothing.
  all: set (w2 := tick w1 (ev op_select (approvals_table t) false) (db w)).
  all: destruct (Hq (rq_id req) (user_id (rq_user req)) w2) as [Hdb _].
  all: destruct (step (rq_id req) (user_id (rq_user req)) w2)
    as [[[refused|warn]|e] w3] eqn:Hst; cbn [fst snd] in Hdb.
  all: intros resp H Ht; try exact Hdb.
  all: apply answered_turned_down in H; [|exact Ht].
  all: apply commit_effect in H; destruct H as [Hc _].
  all: destruct Ht as [Ht|[Ht|Ht]]; rewrite Hc in Ht; discriminate.
Qed.

(** An accepted approval, for every approve handler: the document was
    [submitted] or [in_review], the caller's role may review, the lookup
    of the caller's [approved] record did not find exactly one, and for a
    BAPP exactly one signature attachment of the caller exists.  The row
    is now [approved]; its reviewer is the caller when none was assigned
    and the caller has the primary reviewing role, and the one it had
    otherwise; the rejection reason is not touched; every other row is as
    before and the [approved] record is the last of the approvals table.
    A request turned down with a 400, 403 or 404 has written nothing, and
    the handler of backend-main never answers 200. *)
Theorem approval_outcome (t : DocType) (h : ApprovalReq -> M Response)
        (req : ApprovalReq) (w : World) :
  approve_handler t h ->
  let i := rq_id req in
  let u := user_id (rq_user req) in
  (forall resp,
      result_of (h req) w = Returned resp -> code resp = 200 ->
      exists d,
        filter (has_id i) (docs (tables t (db w))) = [d]
        /\ (status d = submitted \/ status d = in_review)
        /\ Js.includes (reviewer_roles t) (user_role (rq_user req)) = true
        /\ List.length (approved_by t i u (db w)) <> 1
        /\ (t = BAPP -> List.length (signatures_of BAPP i u (db w)) = 1)
        /\ docs (tables t (db (world_after (h req) w)))
           = replaced i (apply_patch (approve_patch t req d) d)
                      (docs (tables t (db w)))
        /\ status (apply_patch (approve_patch t req d) d) = approved
        /\ reviewer_id (apply_patch (approve_patch t req d) d)
           = (if is_none (reviewer_id d)
                 && String.eqb (user_role (rq_user req)) (primary_role t)
              then Some u else reviewer_id d)
        /\ rejection_reason (apply_patch (approve_patch t req d) d)
           = rejection_reason d
        /\ approvals (tables t (db (world_after (h req) w)))
           = approvals (tables t (db w)) ++ [approval_of req act_approved])
  /\ (forall resp,
        result_of (h req) w = Returned resp -> turned_down resp ->
        db (world_after (h req) w) = db w)
  /\ (forall resp,
        result_of (BackendMain.approveBAPB req) w = Returned resp ->
        code resp <> 200).
Proof.
  intros Hh i u. unfold result_of, world_after.
  assert (E : exists step,
             h = approve t step /\ read_step step
             /\ (t = BAPP -> step = signatureRequiredBAPP)).
  { destruct t; cbn in Hh.
    - destruct Hh as [-> | ->]; eexists; (split; [reflexivity|]);
        (split; [|discriminate]).
      + exact read_step_signatureWarningBAPB.
      + exact read_step_signatureUndeclared.
    - subst h. eexists. split; [reflexivity|].
      split; [exact read_step_signatureRequiredBAPP|reflexivity]. }
  destruct E as [step [E [Hq Hbapp]]].
  split; [|split].
  - intros resp H Hc. rewrite E in H |- *.
    destruct (@approve_accepted t step req w resp Hq H Hc)
      as [d [warn [w2 [w3 [Hf [Hs [Hrole [Hab [Hdb [Hst [Hdocs Happ]]]]]]]]]]].
    exists d. split; [exact Hf|]. split; [apply status_in_review; exact Hs|].
    split; [exact Hrole|]. split; [exact Hab|].
    split.
    { intros Ht. rewrite (Hbapp Ht) in Hst.
      rewrite signatureRequiredBAPP_run in Hst. unfold signatures_of.
      cbn [tables]. rewrite Hdb in Hst. fold i u in Hst.
      destruct (fault_at w2 (ncalls w2)); [discriminate|].
      destruct (filter (is_signature_of i u) (attachments (bapp (db w))))
        as [|x [|y l]]; try discriminate. reflexivity. }
    split; [exact Hdocs|]. split; [reflexivity|].
    split.
    { unfold approve_patch; cbn. fold u.
      destruct (is_none (reviewer_id d)
                && String.eqb (user_role (rq_user req)) (primary_role t));
        reflexivity. }
    split; [reflexivity|exact Happ].
  - intros resp H Ht. rewrite E in H |- *.
    exact (@approve_turned_down t step req w resp Hq H Ht).
  - intros resp H Hc.
    destruct (@approve_accepted BAPB signatureUndeclared req w resp read_step_signatureUndeclared H Hc)
      as [d [warn [w2 [w3 [_ [_ [_ [_ [_ [Hst _]]]]]]]]]].
    discriminate Hst.
Qed.

(** ** Deleting and submitting *)

Lemma docs_deleted (t : DocType) (i : Id) (s : Store) :
  docs (tables t (deleted t i s))
  = filter (fun d => negb (has_id i d)) (docs (tables t s)).
Proof. destruct t; reflexivity. Qed.

Lemma docs_deleted_other (t t' : DocType) (i : Id) (s : Store) :
  t <> t' -> docs (tables t' (deleted t i s)) = docs (tables t' s).
Proof. destruct t, t'; intros H; try reflexivity; now elim H. Qed.

Lemma approvals_deleted (t t' : DocType) (i : Id) (s : Store) :
  approvals (tables t' (deleted t i s)) = approvals (tables t' s).
Proof. destruct t, t'; reflexivity. Qed.

(** An accepted delete: the document was a [draft], the caller's role
    manages documents of the type, and a caller with a vendor role owns
    it; no row with the id is left and every other row is as before.  A
    request turned down with a 400, 403 or 404 has written nothing. *)
Theorem delete_outcome (t : DocType) (req : DocReq) (w : World) :
  (forall resp,
      result_of (deleteDoc t req) w = Returned resp -> code resp = 200 ->
      exists d,
        filter (has_id (dr_id req)) (docs (tables t (db w))) = [d]
        /\ status d = draft
        /\ canManage t (user_role (dr_user req)) = true
        /\ (isVendor t (user_role (dr_user req)) = true ->
            vendor_id d = user_id (dr_user req))
        /\ docs (tables t (db (world_after (deleteDoc t req) w)))
           = filter (fun x => negb (has_id (dr_id req) x)) (docs (tables t (db w))))
  /\ (forall resp,
        result_of (deleteDoc t req) w = Returned resp -> turned_down resp ->
        db (world_after (deleteDoc t req) w) = db w).
Proof.
  unfold result_of, world_after, deleteDoc.
  cbv beta zeta delta [try_catch bind ret].
  rewrite findById_run.
  destruct (fault_at w (ncalls w)); [split; [not_accepted|not_turned_down]|].
  destruct (filter (has_id (dr_id req)) (docs (tables t (db w))))
    as [|d [|d' l]] eqn:Hf; try (split; [not_accepted|wrote_nothing]).
  destruct (isVendor t (user_role (dr_user req))) eqn:Hv; cbn [andb].
  - destruct (vendor_id d =? user_id (dr_user req)) eqn:Ho; cbn [negb];
      [|split; [not_accepted|wrote_nothing]].
    destruct (canManage t (user_role (dr_user req))) eqn:Hm; cbn [negb];
      [|split; [not_accepted|wrote_nothing]].
    destruct (Status_eqb (status d) draft) eqn:Hs; cbn [negb];
      [|split; [not_accepted|wrote_nothing]].
    rewrite delete_run. world_simpl.
    destruct (fault_at w (S (ncalls w))); [split; [not_accepted|not_turned_down]|].
    split; [|not_turned_down].
    intros resp _ _. exists d. split; [reflexivity|].
    split; [apply Status_eqb_eq; exact Hs|]. split; [reflexivity|].
    split; [intros _; apply Nat.eqb_eq; exact Ho|].
    cbn [fst snd]. world_simpl. apply docs_deleted.
  - destruct (canManage t (user_role (dr_user req))) eqn:Hm; cbn [negb];
      [|split; [not_accepted|wrote_nothing]].
    destruct (Status_eqb (status d) draft) eqn:Hs; cbn [negb];
      [|split; [not_accepted|wrote_nothing]].
    rewrite delete_run. world_simpl.
    destruct (fault_at w (S (ncalls w))); [split; [not_accepted|not_turned_down]|].
    split; [|not_turned_down].
    intros resp _ _. exists d. split; [reflexivity|].
    split; [apply Status_eqb_eq; exact Hs|]. split; [reflexivity|].
    split; [discriminate|].
    cbn [fst snd]. world_simpl. apply docs_deleted.
Qed.

(** An accepted submit: the row now has status [submitted], its other
    columns (the rejection reason of an earlier revision request among
    them) and every other row are as before; when the store accepted the
    two calls of the notification, one notification per active user with
    a reviewing role was appended, and none otherwise.  A request turned
    down with a 400, 403 or 404 has written nothing. *)
Theorem submit_outcome (t : DocType) (req : DocReq) (w : World) :
  (forall resp,
      result_of (submit t req) w = Returned resp -> code resp = 200 ->
      exists d,
        filter (has_id (dr_id req)) (docs (tables t (db w))) = [d]
        /\ docs (tables t (db (world_after (submit t req) w)))
           = replaced (dr_id req) (apply_patch (status_patch submitted None None) d)
                      (docs (tables t (db w)))
        /\ status (apply_patch (status_patch submitted None None) d) = submitted
        /\ rejection_reason (apply_patch (status_patch submitted None None) d)
           = rejection_reason d
        /\ notifications (db (world_after (submit t req) w))
           = notifications (db w)
             ++ (if fault_at w (2 + ncalls w) || fault_at w (3 + ncalls w) then []
                 else map (fun u => notificationService.about t "_submitted" "high" d
                                      (user_id u))
                          (submit_recipients t (db w))))
  /\ (forall resp,
        result_of (submit t req) w = Returned resp -> turned_down resp ->
        db (world_after (submit t req) w) = db w).
Proof.
  unfold result_of, world_after, submit.
  cbv beta zeta delta [try_catch bind ret].
  rewrite findByIdWithRelations_run.
  destruct (fault_at w (ncalls w)); [split; [not_accepted|not_turned_down]|].
  destruct (filter (has_id (dr_id req)) (docs (tables t (db w))))
    as [|d [|d' l]] eqn:Hf; try (split; [not_accepted|wrote_nothing]).
  cbn [hydrate w_doc w_items].
  destruct (negb (vendor_id d =? user_id (dr_user req)));
    [split; [not_accepted|wrote_nothing]|].
  destruct (negb (canManage t (user_role (dr_user req))));
    [split; [not_accepted|wrote_nothing]|].
  destruct (negb (status_in [draft; revision_required] (status d)));
    [split; [not_accepted|wrote_nothing]|].
  destruct (items_length (items_of t (db w) (id d)) =? 0);
    [split; [not_accepted|wrote_nothing]|].
  rewrite updateStatus_run, update_run. world_simpl.
  destruct (fault_at w (S (ncalls w))); [split; [not_accepted|not_turned_down]|].
  rewrite Hf.
  rewrite notifySubmitted_run. world_simpl. cbv zeta.
  assert (Hdocs : forall s n,
             docs (tables t (set_notifications n
                               (patched t (dr_id req) (status_patch submitted None None) s)))
             = docs (tables t (patched t (dr_id req) (status_patch submitted None None) s)))
    by (intros s n; destruct t; reflexivity).
  assert (Hrep : docs (tables t (patched t (dr_id req)
                                   (status_patch submitted None None) (db w)))
                 = replaced (dr_id req)
                     (apply_patch (status_patch submitted None None) d)
                     (docs (tables t (db w)))).
  { rewrite docs_patched. unfold replaced. apply map_ext_in. intros x Hx.
    destruct (has_id (dr_id req) x) eqn:Hi; [|reflexivity].
    assert (In x (filter (has_id (dr_id req)) (docs (tables t (db w)))))
      by (apply filter_In; auto).
    rewrite Hf in H. destruct H as [<-|[]]. reflexivity. }
  assert (Hnot : forall s, notifications (patched t (dr_id req)
                                            (status_patch submitted None None) s)
                           = notifications s)
    by (intros s; destruct t; reflexivity).
  change (2 + ncalls w) with (S (S (ncalls w))).
  change (3 + ncalls w) with (S (S (S (ncalls w)))).
  destruct (fault_at w (S (S (ncalls w)))) eqn:F2; cbn [orb].
  - rewrite findByIdWithRelations_run. world_simpl.
    destruct (fault_at w (S (S (S (ncalls w)))));
      [split; [not_accepted|not_turned_down]|].
    rewrite docs_patched, filter_has_id_patch, Hf.
    cbn [map]. split; [|not_turned_down].
    intros resp _ _. exists d. cbn [fst snd]. world_simpl.
    split; [reflexivity|]. split; [exact Hrep|]. split; [reflexivity|].
    split; [reflexivity|]. rewrite Hnot. now rewrite app_nil_r.
  - destruct (fault_at w (S (S (S (ncalls w))))) eqn:F3.
    + rewrite findByIdWithRelations_run. world_simpl.
      destruct (fault_at w (S (S (S (S (ncalls w))))));
        [split; [not_accepted|not_turned_down]|].
      rewrite docs_patched, filter_has_id_patch, Hf.
      cbn [map]. split; [|not_turned_down].
      intros resp _ _. exists d. cbn [fst snd]. world_simpl.
      split; [reflexivity|]. split; [exact Hrep|]. split; [reflexivity|].
      split; [reflexivity|]. rewrite Hnot. now rewrite app_nil_r.
    + rewrite findByIdWithRelations_run. world_simpl.
      destruct (fault_at w (S (S (S (S (ncalls w))))));
        [split; [not_accepted|not_turned_down]|].
      rewrite Hdocs, docs_patched, filter_has_id_patch, Hf.
      cbn [map]. split; [|not_turned_down].
      intros resp _ _. exists d. cbn [fst snd]. world_simpl.
      split; [reflexivity|]. split; [rewrite Hdocs; exact Hrep|].
      split; [reflexivity|]. split; [reflexivity|].
      destruct t; cbn; rewrite map_map; reflexivity.
Qed.

(** ** Settled documents *)

Lemma DocType_eq_dec (a b : DocType) : {a = b} + {a <> b}.
Proof. decide equality. Defined.

Lemma not_settled_in_review st :
  status_in [submitted; in_review] st = true -> ~ settled st.
Proof. intros H [-> | ->]; discriminate H. Qed.

Lemma edge_from_review st target :
  status_in [submitted; in_review] st = true ->
  target = approved \/ target = rejected \/ target = revision_required ->
  edge st target = true.
Proof.
  intros H [-> | [-> | ->]]; destruct st; try discriminate H; reflexivity.
Qed.

Lemma edge_submit st :
  status_in [draft; revision_required] st = true -> edge st submitted = true.
Proof. destruct st; intros H; try discriminate H; reflexivity. Qed.

Lemma not_settled_editable st :
  status_in [draft; revision_required] st = true -> ~ settled st.
Proof. intros H [-> | ->]; discriminate H. Qed.

Lemma only_row (i : Id) (l : list Doc) (d0 d : Doc) :
  filter (has_id i) l = [d0] -> In d l -> has_id i d = true -> d = d0.
Proof.
  intros Hf Hin Hi.
  assert (H : In d (filter (has_id i) l)) by (apply filter_In; auto).
  rewrite Hf in H. destruct H as [<-|[]]. reflexivity.
Qed.

Lemma row_change_stays (t : DocType) (s s' : Store) (d : Doc) :
  fresh_ids s -> row_change t s s' ->
  In d (docs (tables t s)) -> settled (status d) ->
  In d (docs (tables t s')).
Proof.
  intros Hfr [E|i d0 p Hf Hn _ E|i d0 Hf Hn E|row Hi Hlt _ E|E] Hin Hs; rewrite E.
  - exact Hin.
  - apply in_map_iff. exists d. split; [|exact Hin].
    destruct (has_id i d) eqn:Hd; [|reflexivity].
    rewrite (@only_row i _ d0 d Hf Hin Hd) in Hs. contradiction.
  - apply filter_In. split; [exact Hin|].
    destruct (has_id i d) eqn:Hd; [|reflexivity].
    rewrite (@only_row i _ d0 d Hf Hin Hd), Hn in Hs.
    destruct Hs; discriminate.
  - apply in_or_app. now left.
  - apply filter_In. split; [exact Hin|].
    unfold has_id. apply negb_true_iff, Nat.eqb_neq.
    specialize (Hfr t d Hin). lia.
Qed.

Lemma mild_fresh (s s' : Store) : fresh_ids s -> mild s s' -> fresh_ids s'.
Proof.
  intros Hfr [Hle Hch] t d Hin.
  destruct (Hch t) as [E|i d0 p Hf Hn _ E|i d0 Hf Hn E|row Hi Hlt _ E|E];
    rewrite E in Hin.
  - specialize (Hfr t d Hin). lia.
  - apply in_map_iff in Hin. destruct Hin as [x [Hx Hin]].
    specialize (Hfr t x Hin).
    destruct (has_id i x); subst d; [rewrite id_apply_patch|]; lia.
  - apply filter_In in Hin. destruct Hin as [Hin _].
    specialize (Hfr t d Hin). lia.
  - apply in_app_or in Hin. destruct Hin as [Hin|[<-|[]]].
    + specialize (Hfr t d Hin). lia.
    + lia.
  - apply filter_In in Hin. destruct Hin as [Hin _].
    specialize (Hfr t d Hin). lia.
Qed.

Lemma mild_same (s s' : Store) : doc_tables s' = doc_tables s -> mild s s'.
Proof.
  unfold doc_tables. intros H. injection H as Hb Hp Hn.
  split; [lia|]. intros [|]; apply rows_same; assumption.
Qed.

Lemma mild_refl (s : Store) : mild s s.
Proof. apply mild_same. reflexivity. Qed.

Lemma doc_tables_recorded t a s : doc_tables (recorded t a s) = doc_tables s.
Proof. destruct t; reflexivity. Qed.

Lemma doc_tables_noted n s : doc_tables (noted n s) = doc_tables s.
Proof. reflexivity. Qed.

Lemma mild_patched (t : DocType) (i : Id) (p : Patch) (s s0 s' : Store) (d0 : Doc) :
  doc_tables s0 = doc_tables s ->
  filter (has_id i) (docs (tables t s)) = [d0] -> ~ settled (status d0) ->
  status (apply_patch p d0) = status d0
  \/ edge (status d0) (status (apply_patch p d0)) = true ->
  doc_tables s' = doc_tables (patched t i p s0) ->
  mild s s'.
Proof.
  intros H0 Hf Hn He H'.
  assert (Hd : forall t', docs (tables t' s0) = docs (tables t' s))
    by (unfold doc_tables in H0; injection H0 as Hb Hp _; intros [|]; assumption).
  assert (Hd' : forall t', docs (tables t' s') = docs (tables t' (patched t i p s0)))
    by (unfold doc_tables in H'; injection H' as Hb Hp _; intros [|]; assumption).
  split.
  - unfold doc_tables in H0, H'. injection H0 as _ _ Hn0. injection H' as _ _ Hn'.
    rewrite Hn'. destruct t; cbn; cbn in Hn0; lia.
  - intros t'. destruct (DocType_eq_dec t t') as [<-|Hne].
    + apply row_patched with (i := i) (d0 := d0) (p := p);
        [exact Hf|exact Hn|exact He|].
      now rewrite Hd', docs_patched, Hd.
    + apply rows_same. now rewrite Hd', docs_patched_other, Hd.
Qed.

Lemma keeps_docs_uploadSignature t r : keeps doc_tables (uploadSignature t r).
Proof.
  unfold uploadSignature, BaseRepository.findById, null_if_not_found, throw_on_error.
  keeps_tac.
Qed.

Lemma keeps_docs_notify n : keeps doc_tables (notificationService.notify n).
Proof.
  unfold notificationService.notify, notificationService.logged_only,
    notificationService.createNotification, throw_on_error.
  keeps_tac.
Qed.

Lemma keeps_docs_processBAPBPayment i p : keeps doc_tables (processBAPBPayment i p).
Proof.
  unfold processBAPBPayment, Repository.findByIdWithRelations, null_if_not_found,
    simulatePaymentGateway, logPaymentAttempt,
    notificationService.notifyPaymentProcessed, notificationService.logged_only,
    notificationService.createNotification, throw_on_error.
  keeps_tac.
Qed.

Lemma keeps_docs_processBAPPPayment i p : keeps doc_tables (processBAPPPayment i p).
Proof.
  unfold processBAPPPayment, Repository.findByIdWithRelations, null_if_not_found,
    simulatePaymentGateway, logPaymentAttempt,
    notificationService.notifyPaymentProcessed, notificationService.logged_only,
    notificationService.createNotification, throw_on_error.
  keeps_tac.
Qed.

Lemma keeps_docs_checkPaymentReadiness dt i :
  keeps doc_tables (checkPaymentReadiness dt i).
Proof.
  unfold checkPaymentReadiness, BaseRepository.findById, UserRepository.findById,
    null_if_not_found, throw_on_error.
  keeps_tac.
Qed.

Lemma commit_mild t a p n msg warn w d0 :
  filter (has_id (ap_doc_id a)) (docs (tables t (db w))) = [d0] ->
  ~ settled (status d0) ->
  status (apply_patch p d0) = status d0
  \/ edge (status d0) (status (apply_patch p d0)) = true ->
  mild (db w) (db (snd (record_then_update t a p n msg warn w))).
Proof.
  intros Hf Hn He. rewrite record_then_update_run. cbv zeta.
  destruct (fault_at w (ncalls w)); [apply mild_refl|].
  destruct (fault_at w (S (ncalls w))).
  { apply mild_same. cbn [snd]. world_simpl. apply doc_tables_recorded. }
  rewrite Hf.
  destruct (fault_at w (S (S (S (ncalls w))))); cbn [snd]; world_simpl;
    destruct (fault_at w (S (S (ncalls w))));
    (apply mild_patched
       with (t := t) (i := ap_doc_id a) (p := p) (s0 := recorded t a (db w)) (d0 := d0);
     [apply doc_tables_recorded | exact Hf | exact Hn | exact He
     | first [reflexivity | apply doc_tables_noted]]).
Qed.

Lemma approve_mild t step req w :
  quiet step -> mild (db w) (db (snd (approve t step req w))).
Proof.
  intros Hq. rewrite approve_run. cbv zeta.
  destruct (fault_at w (ncalls w)); [apply mild_refl|].
  destruct (filter (has_id (rq_id req)) (docs (tables t (db w))))
    as [|d [|d' l]] eqn:Hf; try apply mild_refl.
  destruct (status_in [submitted; in_review] (status d)) eqn:Hs; cbn [negb];
    [|apply mild_refl].
  destruct (negb (Js.includes (reviewer_roles t) (user_role (rq_user req))));
    [apply mild_refl|].
  destruct (fault_at w (S (ncalls w))); [apply mild_refl|].
  set (w1 := tick w (ev op_select (table_name t) true) (db w)).
  destruct (approved_by t (rq_id req) (user_id (rq_user req)) (db w))
    as [|a [|a' l]]; try apply mild_refl.
  all: set (w2 := tick w1 (ev op_select (approvals_table t) false) (db w)).
  all: pose proof (Hq (rq_id req) (user_id (rq_user req)) w2) as Hdb.
  all: destruct (step (rq_id req) (user_id (rq_user req)) w2)
    as [[[refused|warn]|e] w3]; cbn [snd] in Hdb |- *.
  all: try (rewrite Hdb; apply mild_refl).
  all: rewrite answered_db.
  all: replace (db w) with (db w3) by exact Hdb.
  all: apply commit_mild with (d0 := d);
    [cbn [approval_of ap_doc_id]; rewrite Hdb; exact Hf
    |apply not_settled_in_review; exact Hs
    |right; apply edge_from_review; [exact Hs|now left]].
Qed.

Lemma decide_mild t act target required verb_status unauthorized finished failed
      note req w :
  target = approved \/ target = rejected \/ target = revision_required ->
  mild (db w)
       (db (snd (decide t act target required verb_status unauthorized finished
                        failed note req w))).
Proof.
  intros Htarget. rewrite decide_run.
  destruct (reason_missing (rq_reason req)); [apply mild_refl|].
  destruct (fault_at w (ncalls w)); [apply mild_refl|].
  destruct (filter (has_id (rq_id req)) (docs (tables t (db w))))
    as [|d [|d' l]] eqn:Hf; try apply mild_refl.
  cbv zeta.
  destruct (status_in [submitted; in_review] (status d)) eqn:Hs; cbn [negb];
    [|apply mild_refl].
  destruct (negb (Js.includes (reviewer_roles t) (user_role (rq_user req))));
    [apply mild_refl|].
  rewrite answered_db.
  change (db w) with (db (tick w (ev op_select (table_name t) true) (db w))) at 1.
  apply commit_mild with (d0 := d);
    [exact Hf|apply not_settled_in_review; exact Hs
    |right; apply edge_from_review; [exact Hs|exact Htarget]].
Qed.

Lemma doc_tables_deleted_next t i s :
  next_id (deleted t i s) = next_id s.
Proof. destruct t; reflexivity. Qed.

Lemma delete_mild t req w : mild (db w) (db (snd (deleteDoc t req w))).
Proof.
  unfold deleteDoc. cbv beta zeta delta [try_catch bind ret].
  rewrite findById_run.
  destruct (fault_at w (ncalls w)); [apply mild_refl|].
  destruct (filter (has_id (dr_id req)) (docs (tables t (db w))))
    as [|d [|d' l]] eqn:Hf; try apply mild_refl.
  destruct (isVendor t (user_role (dr_user req))
            && negb (vendor_id d =? user_id (dr_user req))); [apply mild_refl|].
  destruct (negb (canManage t (user_role (dr_user req)))); [apply mild_refl|].
  destruct (Status_eqb (status d) draft) eqn:Hs; cbn [negb]; [|apply mild_refl].
  apply Status_eqb_eq in Hs.
  rewrite delete_run. world_simpl.
  destruct (fault_at w (S (ncalls w))); [apply mild_refl|].
  cbn [snd]. world_simpl. split.
  - rewrite doc_tables_deleted_next. lia.
  - intros t'. destruct (DocType_eq_dec t t') as [<-|Hne].
    + apply row_removed with (i := dr_id req) (d0 := d);
        [exact Hf|exact Hs|apply docs_deleted].
    + apply rows_same. now apply docs_deleted_other.
Qed.

Ltac destruct_found :=
  match goal with
  | |- context [match filter ?a ?b with _ => _ end] =>
      destruct (filter a b) as [|? [|? ?]]
  end.

Lemma submit_mild t req w : mild (db w) (db (snd (submit t req w))).
Proof.
  unfold submit. cbv beta zeta delta [try_catch bind ret].
  rewrite findByIdWithRelations_run.
  destruct (fault_at w (ncalls w)); [apply mild_refl|].
  destruct (filter (has_id (dr_id req)) (docs (tables t (db w))))
    as [|d [|d' l]] eqn:Hf; try apply mild_refl.
  cbn [hydrate w_doc w_items].
  destruct (negb (vendor_id d =? user_id (dr_user req))); [apply mild_refl|].
  destruct (negb (canManage t (user_role (dr_user req)))); [apply mild_refl|].
  destruct (status_in [draft; revision_required] (status d)) eqn:Hs; cbn [negb];
    [|apply mild_refl].
  destruct (items_length (items_of t (db w) (id d)) =? 0); [apply mild_refl|].
  rewrite updateStatus_run, update_run. world_simpl.
  destruct (fault_at w (S (ncalls w))); [apply mild_refl|].
  rewrite Hf.
  assert (Hm : forall s',
             doc_tables s'
             = doc_tables (patched t (dr_id req) (status_patch submitted None None)
                                   (db w)) ->
             mild (db w) s').
  { intros s' H. apply mild_patched
      with (t := t) (i := dr_id req) (p := status_patch submitted None None)
           (s0 := db w) (d0 := d);
      [reflexivity|exact Hf|apply not_settled_editable; exact Hs
      |right; apply edge_submit; exact Hs|exact H]. }
  rewrite notifySubmitted_run. world_simpl. cbv zeta.
  destruct (fault_at w (S (S (ncalls w)))).
  - rewrite findByIdWithRelations_run. world_simpl.
    destruct (fault_at w (S (S (S (ncalls w))))); [apply Hm; reflexivity|].
    destruct_found; apply Hm; reflexivity.
  - destruct (fault_at w (S (S (S (ncalls w))))).
    + rewrite findByIdWithRelations_run. world_simpl.
      destruct (fault_at w (S (S (S (S (ncalls w)))))); [apply Hm; reflexivity|].
      destruct_found; apply Hm; reflexivity.
    + rewrite findByIdWithRelations_run. world_simpl.
      destruct (fault_at w (S (S (S (S (ncalls w)))))); [apply Hm; reflexivity|].
      destruct_found; apply Hm; reflexivity.
Qed.

Lemma edge_edit (p : Patch) (d : Doc) :
  status_in [draft; revision_required] (status d) = true ->
  p_status p = back_to_draft d ->
  status (apply_patch p d) = status d
  \/ edge (status d) (status (apply_patch p d)) = true.
Proof.
  intros Hs Hp. cbn [apply_patch status]. rewrite Hp. unfold back_to_draft.
  destruct (status d); try discriminate Hs; cbn; auto.
Qed.

Lemma keeps_rest_updateWithItems i p items :
  keeps (fun s => (docs (bapp s), next_id s)) (BAPBRepository.updateWithItems i p items).
Proof.
  unfold BAPBRepository.updateWithItems, BaseRepository.update,
    Repository.findByIdWithRelations, null_if_not_found, throw_on_error.
  keeps_tac.
Qed.

Lemma keeps_rest_updateWithWorkItems i p items :
  keeps (fun s => (docs (bapb s), next_id s))
        (BAPPRepository.updateWithWorkItems i p items).
Proof.
  unfold BAPPRepository.updateWithWorkItems, BaseRepository.update,
    Repository.findByIdWithRelations, null_if_not_found, throw_on_error.
  keeps_tac.
Qed.

Lemma updateBAPB_mild req w : mild (db w) (db (snd (updateBAPB req w))).
Proof.
  unfold updateBAPB. cbv beta zeta delta [try_catch bind ret].
  rewrite findById_run.
  destruct (fault_at w (ncalls w)); [apply mild_refl|].
  destruct (filter (has_id (ub_id req)) (docs (tables BAPB (db w))))
    as [|d [|d' l]] eqn:Hf; try apply mild_refl.
  destruct (isVendor BAPB (user_role (ub_user req))
            && negb (vendor_id d =? user_id (ub_user req))); [apply mild_refl|].
  destruct (negb (canManage BAPB (user_role (ub_user req)))); [apply mild_refl|].
  destruct (status_in [draft; revision_required] (status d)) eqn:Hs; cbn [negb];
    [|apply mild_refl].
  set (w1 := tick w (ev op_select (table_name BAPB) true) (db w)).
  pose proof (updateWithItems_docs (ub_id req) (updateDataBAPB req d) (ub_items req) w1)
    as [Hd _].
  pose proof (keeps_rest_updateWithItems (ub_id req) (updateDataBAPB req d)
                (ub_items req) w1) as Hk.
  cbv zeta in Hd. cbv beta in Hk.
  destruct (BAPBRepository.updateWithItems (ub_id req) (updateDataBAPB req d)
              (ub_items req) w1) as [[x|e] w2]; cbn [snd] in *;
    subst w1; world_simpl; injection Hk as Hp Hn.
  all: split; [lia|].
  all: intros [|]; [|apply rows_same; exact Hp].
  all: destruct Hd as [Hd|Hd];
    [apply rows_same; exact Hd
    |apply row_patched with (i := ub_id req) (d0 := d) (p := updateDataBAPB req d);
     [exact Hf|apply not_settled_editable; exact Hs
     |apply edge_edit; [exact Hs|reflexivity]
     |now rewrite <- (docs_patched BAPB)]].
Qed.

Lemma updateBAPP_mild req w : mild (db w) (db (snd (updateBAPP req w))).
Proof.
  unfold updateBAPP. cbv beta zeta delta [try_catch bind ret].
  rewrite findById_run.
  destruct (fault_at w (ncalls w)); [apply mild_refl|].
  destruct (filter (has_id (up_id req)) (docs (tables BAPP (db w))))
    as [|d [|d' l]] eqn:Hf; try apply mild_refl.
  destruct (isVendor BAPP (user_role (up_user req))
            && negb (vendor_id d =? user_id (up_user req))); [apply mild_refl|].
  destruct (negb (canManage BAPP (user_role (up_user req)))); [apply mild_refl|].
  destruct (status_in [draft; revision_required] (status d)) eqn:Hs; cbn [negb];
    [|apply mild_refl].
  set (w1 := tick w (ev op_select (table_name BAPP) true) (db w)).
  pose proof (updateWithWorkItems_docs (up_id req) (updateDataBAPP req d)
                (up_workItems req) w1) as [Hd _].
  pose proof (keeps_rest_updateWithWorkItems (up_id req) (updateDataBAPP req d)
                (up_workItems req) w1) as Hk.
  cbv zeta in Hd. cbv beta in Hk.
  destruct (BAPPRepository.updateWithWorkItems (up_id req) (updateDataBAPP req d)
              (up_workItems req) w1) as [[x|e] w2]; cbn [snd] in *;
    subst w1; world_simpl; injection Hk as Hp Hn.
  all: split; [lia|].
  all: intros [|]; [apply rows_same; exact Hp|].
  all: destruct Hd as [Hd|Hd];
    [apply rows_same; exact Hd
    |apply row_patched with (i := up_id req) (d0 := d)
                            (p := work_patch (updateDataBAPP req d) (up_workItems req));
     [exact Hf|apply not_settled_editable; exact Hs
     |apply edge_edit; [exact Hs|destruct (up_workItems req); reflexivity]
     |now rewrite <- (docs_patched BAPP)]].
Qed.

Lemma mild_inserted t clock d s s' :
  status d = draft ->
  doc_tables s' = doc_tables (inserted t clock d s) -> mild s s'.
Proof.
  unfold doc_tables. intros Hs H. injection H as Hb Hp Hn. split.
  - rewrite Hn. destruct t; cbn; lia.
  - intros t'. destruct t, t'.
    + apply row_added with (row := stamp (next_id s) clock d);
        [reflexivity|rewrite Hn; cbn; lia|exact Hs|exact Hb].
    + apply rows_same. exact Hp.
    + apply rows_same. exact Hb.
    + apply row_added with (row := stamp (next_id s) clock d);
        [reflexivity|rewrite Hn; cbn; lia|exact Hs|exact Hp].
Qed.

Lemma mild_rolled_back t clock d s s' :
  doc_tables s' = doc_tables (deleted t (next_id s) (inserted t clock d s)) ->
  mild s s'.
Proof.
  unfold doc_tables. intros H. injection H as Hb Hp Hn. split.
  - rewrite Hn. destruct t; cbn; lia.
  - intros t'. destruct t, t'.
    + apply row_rolled_back. cbn [tables]. rewrite Hb.
      apply (docs_deleted_inserted BAPB).
    + apply rows_same. exact Hp.
    + apply rows_same. exact Hb.
    + apply row_rolled_back. cbn [tables]. rewrite Hp.
      apply (docs_deleted_inserted BAPP).
Qed.

Lemma createWithItems_mild d items w :
  status d = draft ->
  mild (db w) (db (snd (BAPBRepository.createWithItems d items w))).
Proof.
  intros Hdraft. unfold BAPBRepository.createWithItems.
  cbv beta zeta delta [try_catch bind ret throw].
  rewrite create_run.
  destruct (fault_at w (ncalls w)); [apply mild_refl|].
  destruct items as [[|x l]|].
  1,3: rewrite findByIdWithRelations_run; world_simpl;
    destruct (fault_at w (S (ncalls w)));
    [|destruct_found]; (apply (@mild_inserted BAPB (now w) d); [exact Hdraft|reflexivity]).
  unfold query. world_simpl.
  destruct (fault_at w (S (ncalls w))); cbn [fst snd error error_reply ok_reply].
  - rewrite delete_run. world_simpl.
    destruct (fault_at w (S (S (ncalls w)))); cbn [fst snd].
    + (apply (@mild_inserted BAPB (now w) d); [exact Hdraft|reflexivity]).
    + apply (@mild_rolled_back BAPB (now w) d). world_simpl. reflexivity.
  - rewrite findByIdWithRelations_run; world_simpl.
    destruct (fault_at w (S (S (ncalls w))));
      [|destruct_found]; (apply (@mild_inserted BAPB (now w) d); [exact Hdraft|reflexivity]).
Qed.

Lemma createWithWorkItems_mild d items w :
  status d = draft ->
  mild (db w) (db (snd (BAPPRepository.createWithWorkItems d items w))).
Proof.
  intros Hdraft. unfold BAPPRepository.createWithWorkItems.
  cbv beta zeta delta [try_catch bind ret throw].
  rewrite create_run.
  destruct (fault_at w (ncalls w)); [apply mild_refl|].
  set (d1 := doc_with_total d _).
  destruct items as [[|x l]|].
  1,3: rewrite findByIdWithRelations_run; world_simpl;
    destruct (fault_at w (S (ncalls w)));
    [|destruct_found]; (apply (@mild_inserted BAPP (now w) d1); [exact Hdraft|reflexivity]).
  unfold query. world_simpl.
  destruct (fault_at w (S (ncalls w))); cbn [fst snd error error_reply ok_reply].
  - rewrite delete_run. world_simpl.
    destruct (fault_at w (S (S (ncalls w)))); cbn [fst snd].
    + (apply (@mild_inserted BAPP (now w) d1); [exact Hdraft|reflexivity]).
    + apply (@mild_rolled_back BAPP (now w) d1). world_simpl. reflexivity.
  - rewrite findByIdWithRelations_run; world_simpl.
    destruct (fault_at w (S (S (ncalls w))));
      [|destruct_found]; (apply (@mild_inserted BAPP (now w) d1); [exact Hdraft|reflexivity]).
Qed.

Lemma mild_after_tick w e s' : mild (db w) s' -> mild (db (tick w e (db w))) s'.
Proof. exact (fun H => H). Qed.

Lemma createBAPB_mild req w : mild (db w) (db (snd (createBAPB req w))).
Proof.
  unfold createBAPB, generateBAPBNumber.
  cbv beta zeta delta [try_catch bind ret throw].
  destruct (negb (canManage BAPB (user_role (cb_user req)))); [apply mild_refl|].
  destruct (cb_items req) as [[|x l]|]; try apply mild_refl.
  destruct (validate_items 0 (x :: l)); [apply mild_refl|].
  rewrite generateNumber_run.
  destruct (fault_at w (ncalls w)); [apply mild_refl|].
  match goal with
  | |- context [BAPBRepository.createWithItems ?d ?items ?w1] =>
      pose proof (@createWithItems_mild d items w1 eq_refl) as Hm;
      destruct (BAPBRepository.createWithItems d items w1) as [[[v|]|e] w2]
  end; cbn [snd] in Hm; world_simpl; try exact Hm.
  destruct (items_length (w_items v) =? 0); exact Hm.
Qed.

Lemma createBAPP_mild req w : mild (db w) (db (snd (createBAPP req w))).
Proof.
  unfold createBAPP, generateBAPPNumber.
  cbv beta zeta delta [try_catch bind ret throw].
  destruct (negb (canManage BAPP (user_role (cp_user req)))); [apply mild_refl|].
  destruct (negb _); [apply mild_refl|].
  destruct (cp_workItems req) as [[|x l]|]; try apply mild_refl.
  destruct (validate_work_items 0 (x :: l)); [apply mild_refl|].
  rewrite generateNumber_run.
  destruct (fault_at w (ncalls w)); [apply mild_refl|].
  match goal with
  | |- context [BAPPRepository.createWithWorkItems ?d ?items ?w1] =>
      pose proof (@createWithWorkItems_mild d items w1 eq_refl) as Hm;
      destruct (BAPPRepository.createWithWorkItems d items w1) as [[[v|]|e] w2]
  end; cbn [snd] in Hm; world_simpl; try exact Hm.
  destruct (items_length (w_items v) =? 0); exact Hm.
Qed.

Lemma serve_mild (r : Request) (w : World) : mild (db w) (db (serve r w)).
Proof.
  destruct r; cbn [serve].
  - apply createBAPB_mild.
  - apply createBAPP_mild.
  - apply updateBAPB_mild.
  - apply updateBAPP_mild.
  - apply delete_mild.
  - apply submit_mild.
  - apply approve_mild, quiet_signatureWarningBAPB.
  - apply approve_mild, quiet_signatureUndeclared.
  - apply approve_mild, quiet_signatureRequiredBAPP.
  - apply decide_mild. right. now left.
  - apply decide_mild. right. now right.
  - apply mild_same, keeps_docs_uploadSignature.
  - apply mild_same, keeps_docs_processBAPBPayment.
  - apply mild_same, keeps_docs_processBAPPPayment.
  - apply mild_same, keeps_docs_checkPaymentReadiness.
Qed.

(** No request changes or removes a document that is [approved] or
    [rejected]: in a store whose next id is above the ids in use, every
    such row of either table is still there, column by column, after the
    request was served, whatever the request, the caller and the failures
    of the store; and the next id is still above the ids in use. *)
Theorem settled_rows_stay (r : Request) (w : World) :
  fresh_ids (db w) ->
  fresh_ids (db (serve r w))
  /\ forall t d,
      In d (docs (tables t (db w))) -> settled (status d) ->
      In d (docs (tables t (db (serve r w)))).
Proof.
  intros Hfr. pose proof (serve_mild r w) as Hm. split.
  - exact (@mild_fresh (db w) (db (serve r w)) Hfr Hm).
  - intros t d Hin Hs. destruct Hm as [_ Hch].
    exact (@row_change_stays t (db w) (db (serve r w)) d Hfr (Hch t) Hin Hs).
Qed.

(** The status column follows the state machine, whatever the request,
    the caller and the failures of the store.  A row that was there
    before the request is still there under its id, with the same status
    or one that an edge leads to ([draft] or [revision_required] to
    [submitted], [revision_required] to [draft], [submitted] or
    [in_review] to [approved], [rejected] or [revision_required]); or it
    was a [draft] and no row has its id any more.  A row whose id was not
    in the table before is a [draft]. *)
Theorem status_follows_edges (r : Request) (w : World) (t : DocType) :
  fresh_ids (db w) ->
  (forall d,
      In d (docs (tables t (db w))) ->
      (exists d',
          In d' (docs (tables t (db (serve r w)))) /\ id d' = id d
          /\ (status d' = status d \/ edge (status d) (status d') = true))
      \/ (status d = draft
          /\ forall x, In x (docs (tables t (db (serve r w)))) -> id x <> id d))
  /\ (forall d',
        In d' (docs (tables t (db (serve r w)))) ->
        (exists d, In d (docs (tables t (db w))) /\ id d = id d')
        \/ status d' = draft).
Proof.
  intros Hfr. destruct (serve_mild r w) as [_ Hch].
  destruct (Hch t) as [E|i d0 p Hf Hn He E|i d0 Hf Hn E|row Hi Hlt Hs E|E];
    rewrite E; clear E Hch.
  - split.
    + intros d Hin. left. exists d. auto.
    + intros d' Hin. left. exists d'. auto.
  - split.
    + intros d Hin. left. destruct (has_id i d) eqn:Hd.
      * rewrite (@only_row i _ d0 d Hf Hin Hd).
        exists (apply_patch p d0). split; [|split; [apply id_apply_patch|exact He]].
        apply in_map_iff. exists d0.
        destruct (filter_has_id_single _ _ Hf) as [Hid Hin0].
        split; [|exact Hin0]. unfold has_id. now rewrite Hid, Nat.eqb_refl.
      * exists d. split; [|auto]. apply in_map_iff. exists d. now rewrite Hd.
    + intros d' Hin. left. apply in_map_iff in Hin. destruct Hin as [x [Hx Hin]].
      exists x. split; [exact Hin|].
      destruct (has_id i x); subst d'; [now rewrite id_apply_patch|reflexivity].
  - split.
    + intros d Hin. destruct (has_id i d) eqn:Hd.
      * right. rewrite (@only_row i _ d0 d Hf Hin Hd). split; [exact Hn|].
        intros x Hx Heq. apply filter_In in Hx. destruct Hx as [_ Hx].
        destruct (filter_has_id_single _ _ Hf) as [Hid _].
        unfold has_id in Hx. rewrite Heq, Hid, Nat.eqb_refl in Hx. discriminate.
      * left. exists d. split; [|auto]. apply filter_In. now rewrite Hd.
    + intros d' Hin. left. apply filter_In in Hin. exists d'. tauto.
  - split.
    + intros d Hin. left. exists d. split; [|auto]. apply in_or_app. now left.
    + intros d' Hin. apply in_app_or in Hin. destruct Hin as [Hin|[<-|[]]].
      * left. exists d'. auto.
      * right. exact Hs.
  - split.
    + intros d Hin. left. exists d. split; [|auto]. apply filter_In.
      split; [exact Hin|]. unfold has_id. apply negb_true_iff, Nat.eqb_neq.
      specialize (Hfr t d Hin). lia.
    + intros d' Hin. left. apply filter_In in Hin. exists d'. tauto.
Qed.

(** ** The lookup of an earlier approval *)

(** [hasUserApproved] answers [true] exactly when the table holds one
    [approved] record of the approver for the document: with none it is
    [false], and with two or more it is [false] as well, because the
    error of [.single()] for several rows has the code the method lets
    pass.  A call the store refuses is thrown.  The method writes nothing. *)
Theorem hasUserApproved_exactly_one (t : DocType) (i u : Id) (w : World) :
  result_of (Repository.hasUserApproved t i u) w
  = (if fault_at w (ncalls w) then Thrown store_failure
     else Returned (List.length (approved_by t i u (db w)) =? 1))
  /\ db (world_after (Repository.hasUserApproved t i u) w) = db w.
Proof.
  unfold result_of, world_after. rewrite hasUserApproved_run. unfold approved_by.
  destruct (fault_at w (ncalls w)); [split; reflexivity|].
  destruct (filter _ _) as [|a [|a' l]]; split; reflexivity.
Qed.

(** ** Creating a BAPB *)

Lemma validate_items_cons (item : BapbItemInput) (rest : list BapbItemInput) (k : nat) :
  validate_items k (item :: rest)
  = match missing_field item with
    | Some field =>
        Some (("Item " ++ Js.String_ (k + 1)) ++ ": " ++ field ++ " is required")%string
    | None => validate_items (S k) rest
    end.
Proof.
  cbn [validate_items]. cbv zeta. unfold missing_field.
  destruct (negb (Js.truthy (in_itemName item))); [reflexivity|].
  destruct (is_none (in_quantityOrdered item)); [reflexivity|].
  destruct (is_none (in_quantityReceived item)); [reflexivity|].
  destruct (negb (Js.truthy (in_unit item))); reflexivity.
Qed.

Lemma validate_items_spec (l : list BapbItemInput) (k : nat) :
  match validate_items k l with
  | None => forallb complete l = true
  | Some msg =>
      exists pre item post field,
        l = pre ++ item :: post
        /\ forallb complete pre = true
        /\ missing_field item = Some field
        /\ msg = (("Item " ++ Js.String_ (k + List.length pre + 1))
                    ++ ": " ++ field ++ " is required")%string
  end.
Proof.
  revert k. induction l as [|item rest IH]; intros k; [reflexivity|].
  rewrite validate_items_cons.
  destruct (missing_field item) as [field|] eqn:Hm.
  - exists [], item, rest, field. cbn [List.length app forallb].
    rewrite Nat.add_0_r. auto.
  - specialize (IH (S k)).
    destruct (validate_items (S k) rest) as [msg|].
    + destruct IH as [pre [item0 [post [field [-> [Hpre [Hm0 ->]]]]]]].
      exists (item :: pre), item0, post, field. cbn [forallb List.length app].
      split; [reflexivity|]. split.
      * unfold complete at 1. now rewrite Hm, Hpre.
      * split; [exact Hm0|]. do 3 f_equal. lia.
    + cbn [forallb]. unfold complete at 1. now rewrite Hm, IH.
Qed.

Lemma validate_items_first (pre : list BapbItemInput) (item : BapbItemInput)
      (post : list BapbItemInput) (field : string) (k : nat) :
  forallb complete pre = true -> missing_field item = Some field ->
  validate_items k (pre ++ item :: post)
  = Some (("Item " ++ Js.String_ (k + List.length pre + 1))
            ++ ": " ++ field ++ " is required")%string.
Proof.
  revert k. induction pre as [|x pre IH]; intros k Hpre Hm.
  - cbn [app List.length]. rewrite validate_items_cons, Hm, Nat.add_0_r. reflexivity.
  - cbn [forallb] in Hpre. apply andb_true_iff in Hpre. destruct Hpre as [Hx Hpre].
    cbn [app List.length]. rewrite validate_items_cons.
    unfold complete in Hx. destruct (missing_field x); [discriminate|].
    rewrite (IH (S k) Hpre Hm).
    replace (k + S (List.length pre) + 1) with (S k + List.length pre + 1) by lia.
    reflexivity.
Qed.

(** A create request that is turned down is turned down before any call
    of the store, and the world is as it was: with a 403 when the role
    does not manage BAPBs, with a 400 when no item is given, and with a
    400 that names the first incomplete item by its position, counted
    from 1, and the first field it lacks. *)
Theorem createBAPB_turned_down (req : CreateBAPBReq) (w : World) :
  (canManage BAPB (user_role (cb_user req)) = false ->
   exists resp, createBAPB req w = (Returned resp, w) /\ code resp = 403)
  /\ (canManage BAPB (user_role (cb_user req)) = true ->
      cb_items req = None \/ cb_items req = Some [] ->
      exists resp, createBAPB req w = (Returned resp, w) /\ code resp = 400)
  /\ (canManage BAPB (user_role (cb_user req)) = true ->
      forall pre item post field,
        cb_items req = Some (pre ++ item :: post) ->
        forallb complete pre = true -> missing_field item = Some field ->
        createBAPB req w
        = (Returned (failure 400 (("Item " ++ Js.String_ (List.length pre + 1))
                                    ++ ": " ++ field ++ " is required")%string), w)).
Proof.
  unfold createBAPB. cbv beta zeta delta [try_catch bind ret throw].
  split; [|split].
  - intros ->. cbn [negb]. eexists. split; reflexivity.
  - intros -> [-> | ->]; cbn [negb]; eexists; split; reflexivity.
  - intros -> pre item post field -> Hpre Hm. cbn [negb].
    rewrite (validate_items_first pre item post 0 Hpre Hm).
    destruct pre; reflexivity.
Qed.

Lemma createBAPB_accepted (req : CreateBAPBReq) (w : World) (resp : Response) :
  result_of (createBAPB req) w = Returned resp -> code resp = 201 ->
  exists items,
    cb_items req = Some items /\ items <> []
    /\ canManage BAPB (user_role (cb_user req)) = true
    /\ forallb complete items = true
    /\ docs (bapb (db (world_after (createBAPB req) w)))
       = docs (bapb (db w))
         ++ [stamp (next_id (db w)) (now w)
                   (new_bapb req (number_text BAPB (now w)
                                    (counted BAPB (now w) (db w))))]
    /\ bapb_items (db (world_after (createBAPB req) w))
       = bapb_items (db w) ++ map (bapb_item_row (next_id (db w))) items.
Proof.
  unfold result_of, world_after, createBAPB, generateBAPBNumber.
  cbv beta zeta delta [try_catch bind ret throw].
  destruct (canManage BAPB (user_role (cb_user req))) eqn:Hm; cbn [negb];
    [|intros H Hc; injection H as <-; discriminate Hc].
  destruct (cb_items req) as [[|x l]|] eqn:Hi;
    try (intros H Hc; injection H as <-; discriminate Hc).
  pose proof (validate_items_spec (x :: l) 0) as Hv.
  destruct (validate_items 0 (x :: l));
    [intros H Hc; injection H as <-; discriminate Hc|].
  rewrite generateNumber_run.
  destruct (fault_at w (ncalls w));
    [intros H Hc; injection H as <-; discriminate Hc|].
  fold (counted BAPB (now w) (db w)).
  fold (new_bapb req (number_text BAPB (now w) (counted BAPB (now w) (db w)))).
  set (d := new_bapb req _).
  unfold BAPBRepository.createWithItems.
  cbv beta zeta delta [try_catch bind ret throw].
  rewrite create_run. world_simpl.
  destruct (fault_at w (S (ncalls w)));
    [intros H Hc; injection H as <-; discriminate Hc|].
  unfold query. world_simpl.
  destruct (fault_at w (S (S (ncalls w)))); cbn [fst snd error error_reply ok_reply].
  { rewrite delete_run. world_simpl.
    destruct (fault_at w (S (S (S (ncalls w)))));
      intros H Hc; injection H as <-; discriminate Hc. }
  rewrite findByIdWithRelations_run. world_simpl.
  destruct (fault_at w (S (S (S (ncalls w)))));
    [intros H Hc; injection H as <-; discriminate Hc|].
  destruct_found; try (intros H Hc; injection H as <-; discriminate Hc).
  match goal with
  | |- context [items_length ?v =? 0] => destruct (items_length v =? 0)
  end; [intros H Hc; injection H as <-; discriminate Hc|].
  intros _ _. exists (x :: l). split; [reflexivity|]. split; [discriminate|].
  split; [reflexivity|]. split; [exact Hv|]. cbn [fst snd]. world_simpl.
  split; reflexivity.
Qed.

(** An accepted create (201): the role manages BAPBs and every item of
    the non-empty list is complete.  One row was appended to the document
    table: a [draft] of the caller with the id the store handed out, the
    number generated from the count of the month, and the order number,
    delivery date and notes of the request; and one line item per item of
    the request was appended, in the order of the request. *)
Theorem createBAPB_outcome (req : CreateBAPBReq) (w : World) (resp : Response) :
  result_of (createBAPB req) w = Returned resp -> code resp = 201 ->
  exists items,
    cb_items req = Some items /\ items <> []
    /\ canManage BAPB (user_role (cb_user req)) = true
    /\ forallb complete items = true
    /\ docs (bapb (db (world_after (createBAPB req) w)))
       = docs (bapb (db w))
         ++ [stamp (next_id (db w)) (now w)
                   (new_bapb req (number_text BAPB (now w)
                                    (counted BAPB (now w) (db w))))]
    /\ bapb_items (db (world_after (createBAPB req) w))
       = bapb_items (db w) ++ map (bapb_item_row (next_id (db w))) items.
Proof. exact (@createBAPB_accepted req w resp). Qed.

Lemma or_num_zero (q : Q) (b : option Q) : (q == 0)%Q -> or_num (Some q) b = b.
Proof.
  intros H. unfold or_num, num_truthy.
  apply Qeq_bool_iff in H. now rewrite H.
Qed.

(** A quantity of 0 passes the validation of [createBAPB] (only a missing
    quantity is refused) and is then lost: in an accepted create, the
    line item stored for an item whose [quantityReceived] (or
    [quantityOrdered]) is 0, and which does not carry the snake-case
    spelling of the field, has [null] in that column. *)
Theorem zero_quantity_is_stored_as_null (req : CreateBAPBReq) (w : World)
        (resp : Response) (items : list BapbItemInput) (k : nat)
        (item : BapbItemInput) (q : Q) :
  result_of (createBAPB req) w = Returned resp -> code resp = 201 ->
  cb_items req = Some items -> nth_error items k = Some item ->
  (q == 0)%Q ->
  exists row,
    nth_error (bapb_items (db (world_after (createBAPB req) w)))
              (List.length (bapb_items (db w)) + k) = Some row
    /\ (in_quantityReceived item = Some q -> in_quantity_received item = None ->
        quantity_received row = None)
    /\ (in_quantityOrdered item = Some q -> in_quantity_ordered item = None ->
        quantity_ordered row = None).
Proof.
  intros H Hc Hi Hk Hq.
  destruct (createBAPB_accepted req w H Hc) as [items' [Hi' [_ [_ [_ [_ Hrows]]]]]].
  rewrite Hi in Hi'. injection Hi' as <-.
  exists (bapb_item_row (next_id (db w)) item). split.
  - rewrite Hrows, nth_error_app2 by lia.
    replace (List.length (bapb_items (db w)) + k - List.length (bapb_items (db w)))
      with k by lia.
    now rewrite nth_error_map, Hk.
  - split; intros Ha Hb; cbn; rewrite Ha, Hb; apply (or_num_zero _ Hq).
Qed.

(** ** An id that names no document *)

(** Every handler that works on one document answers 404 when the table
    has no row with the id (for a reject or a request for revision: once
    the reason is there; for a signature upload: once the data has the
    right form), whoever the caller is: the lookup is its only call and
    nothing is written. *)
Theorem unknown_id_is_404 (t : DocType) (i : Id) (m : M Response) (w : World) :
  names_document t i m ->
  fault_at w (ncalls w) = false ->
  filter (has_id i) (docs (tables t (db w))) = [] ->
  (exists resp, result_of m w = Returned resp /\ code resp = 404
                /\ success resp = false)
  /\ calls_of m w = [ev op_select (table_name t) false]
  /\ db (world_after m w) = db w.
Proof.
  intros Hn F Hf.
  assert (Hcalls : forall (r : Outcome Response) w',
             m w = (r, w') ->
             w' = tick w (ev op_select (table_name t) false) (db w) ->
             calls_of m w = [ev op_select (table_name t) false]).
  { intros r w' E ->. apply (@calls_of_intro _ m w). now rewrite E. }
  assert (Hgoal : forall resp,
             m w = (Returned resp, tick w (ev op_select (table_name t) false) (db w)) ->
             code resp = 404 -> success resp = false ->
             (exists resp, result_of m w = Returned resp /\ code resp = 404
                           /\ success resp = false)
             /\ calls_of m w = [ev op_select (table_name t) false]
             /\ db (world_after m w) = db w).
  { intros resp E Hc Hs. split; [|split].
    - exists resp. unfold result_of. now rewrite E.
    - exact (Hcalls _ _ E eq_refl).
    - unfold world_after. now rewrite E. }
  destruct Hn as [r|r|t r|t r|t r|r|r|r|t r Hr|t r Hr|t r data Hd Hb].
  - apply Hgoal with (resp := failure 404 "BAPB not found"); try reflexivity.
    unfold updateBAPB. cbv beta zeta delta [try_catch bind ret].
    now rewrite findById_run, F, Hf.
  - apply Hgoal with (resp := failure 404 "BAPP not found"); try reflexivity.
    unfold updateBAPP. cbv beta zeta delta [try_catch bind ret].
    now rewrite findById_run, F, Hf.
  - apply Hgoal with (resp := failure 404 (DocType_name t ++ " not found"));
      try reflexivity.
    unfold deleteDoc. cbv beta zeta delta [try_catch bind ret].
    now rewrite findById_run, F, Hf.
  - apply Hgoal with (resp := failure 404 (DocType_name t ++ " not found"));
      try reflexivity.
    unfold submit. cbv beta zeta delta [try_catch bind ret].
    now rewrite findByIdWithRelations_run, F, Hf.
  - apply Hgoal with (resp := failure 404 (DocType_name t ++ " not found"));
      try reflexivity.
    unfold getById. cbv beta zeta delta [try_catch bind ret].
    now rewrite findByIdWithRelations_run, F, Hf.
  - apply Hgoal with (resp := failure 404 "BAPB not found"); try reflexivity.
    unfold approveBAPB. rewrite approve_run. cbv zeta. now rewrite F, Hf.
  - apply Hgoal with (resp := failure 404 "BAPB not found"); try reflexivity.
    unfold BackendMain.approveBAPB. rewrite approve_run. cbv zeta. now rewrite F, Hf.
  - apply Hgoal with (resp := failure 404 "BAPP not found"); try reflexivity.
    unfold approveBAPP. rewrite approve_run. cbv zeta. now rewrite F, Hf.
  - apply Hgoal with (resp := failure 404 (DocType_name t ++ " not found"));
      try reflexivity.
    unfold reject. rewrite decide_run. now rewrite Hr, F, Hf.
  - apply Hgoal with (resp := failure 404 (DocType_name t ++ " not found"));
      try reflexivity.
    unfold requestRevision. rewrite decide_run. now rewrite Hr, F, Hf.
  - apply Hgoal with (resp := failure 404 (DocType_name t ++ " not found"));
      try reflexivity.
    unfold uploadSignature. cbv beta zeta delta [try_catch bind ret].
    rewrite Hd. destruct data as [|c data]; [discriminate Hb|].
    rewrite Hb. cbn [negb]. now rewrite findById_run, F, Hf.
Qed.

(** ** Signatures *)

(** An accepted signature upload (201): the data starts with the prefix
    of a base64 PNG or JPEG image, the document exists, and the caller is
    its vendor with the vendor role of the type, or has a reviewing role.
    One attachment was appended: a signature of the caller for the
    document; so the caller has one signature more for it than before,
    also when there was one already.  A request turned down with a 400,
    403 or 404 has written nothing. *)
Theorem uploadSignature_outcome (t : DocType) (req : SignatureReq) (w : World) :
  let u := user_id (sg_user req) in
  let run := uploadSignature t req in
  (forall resp,
      result_of run w = Returned resp -> code resp = 201 ->
      exists data d row,
        sg_signatureData req = Some data /\ is_base64_image data = true
        /\ filter (has_id (sg_id req)) (docs (tables t (db w))) = [d]
        /\ ((user_role (sg_user req) = signer_role t /\ vendor_id d = u)
            \/ Js.includes (reviewer_roles t) (user_role (sg_user req)) = true)
        /\ attachments (tables t (db (world_after run w)))
           = attachments (tables t (db w)) ++ [row]
        /\ is_signature_of (sg_id req) u row = true
        /\ signatures_of t (sg_id req) u (db (world_after run w))
           = signatures_of t (sg_id req) u (db w) ++ [row]
        /\ docs (tables t (db (world_after run w))) = docs (tables t (db w)))
  /\ (forall resp,
        result_of run w = Returned resp -> turned_down resp ->
        db (world_after run w) = db w).
Proof.
  cbv zeta. unfold result_of, world_after, uploadSignature.
  cbv beta zeta delta [try_catch bind ret].
  destruct (sg_signatureData req) as [[|c data]|] eqn:Hd;
    try (split; [not_accepted|wrote_nothing]).
  destruct (is_base64_image (String c data)) eqn:Hb; cbn [negb];
    [|split; [not_accepted|wrote_nothing]].
  rewrite findById_run.
  destruct (fault_at w (ncalls w)); [split; [not_accepted|not_turned_down]|].
  destruct (filter (has_id (sg_id req)) (docs (tables t (db w))))
    as [|d [|d' l]] eqn:Hf; try (split; [not_accepted|wrote_nothing]).
  destruct (String.eqb (user_role (sg_user req)) (signer_role t)
            && (vendor_id d =? user_id (sg_user req))
            || Js.includes (reviewer_roles t) (user_role (sg_user req))) eqn:Hcan;
    cbn [negb]; [|split; [not_accepted|wrote_nothing]].
  unfold query, throw_on_error. world_simpl.
  destruct (fault_at w (S (ncalls w))); cbn [fst snd error error_reply ok_reply];
    cbv beta iota zeta delta [ret throw];
    [split; [not_accepted|not_turned_down]|].
  split; [|not_turned_down].
  intros resp _ _. cbn [fst snd]. world_simpl.
  match goal with
  | |- context [set_attachments t (_ ++ [?r]) _] => set (row := r)
  end.
  exists (String c data), d, row. split; [reflexivity|]. split; [exact Hb|].
  split; [reflexivity|]. split.
  { apply orb_true_iff in Hcan. destruct Hcan as [Hcan|Hcan]; [left|right; exact Hcan].
    apply andb_true_iff in Hcan. destruct Hcan as [Hr Ho].
    split; [apply String.eqb_eq; exact Hr|apply Nat.eqb_eq; exact Ho]. }
  assert (Hsig : is_signature_of (sg_id req) (user_id (sg_user req)) row = true).
  { unfold is_signature_of, row. cbn. now rewrite !Nat.eqb_refl. }
  assert (Hatt : attachments (tables t (set_attachments t
                    (attachments (tables t (db w)) ++ [row]) (db w)))
                 = attachments (tables t (db w)) ++ [row])
    by (destruct t; reflexivity).
  split; [exact Hatt|]. split; [exact Hsig|].
  split.
  - unfold signatures_of. rewrite Hatt, filter_app. cbn [filter]. now rewrite Hsig.
  - destruct t; reflexivity.
Qed.

(** The signature check of [approveBAPP] asks for exactly one signature
    attachment of the caller.  For a BAPP under review, a caller with a
    reviewing role whose [approved] record the lookup does not find, and
    a store that accepts the calls: with one signature the approval is
    accepted; with none, and also with two or more (a second upload adds
    a second attachment), it is answered with the request to upload a
    signature first, and nothing is written. *)
Theorem approveBAPP_wants_one_signature (req : ApprovalReq) (w : World) (d : Doc) :
  let i := rq_id req in
  let u := user_id (rq_user req) in
  no_faults w ->
  filter (has_id i) (docs (bapp (db w))) = [d] ->
  status d = submitted \/ status d = in_review ->
  Js.includes (reviewer_roles BAPP) (user_role (rq_user req)) = true ->
  List.length (approved_by BAPP i u (db w)) <> 1 ->
  (List.length (signatures_of BAPP i u (db w)) = 1 ->
   exists resp,
     result_of (approveBAPP req) w = Returned resp
     /\ code resp = 200 /\ success resp = true)
  /\ (List.length (signatures_of BAPP i u (db w)) <> 1 ->
      result_of (approveBAPP req) w = Returned signature_refusal
      /\ db (world_after (approveBAPP req) w) = db w).
Proof.
  intros i u Hnf Hf Hst Hrole Hab.
  pose proof (no_faults_here Hnf) as F0.
  pose proof (no_faults_ahead 1 Hnf) as F1.
  pose proof (no_faults_ahead 2 Hnf) as F2.
  pose proof (no_faults_ahead 3 Hnf) as F3.
  pose proof (no_faults_ahead 4 Hnf) as F4.
  pose proof (no_faults_ahead 5 Hnf) as F5.
  pose proof (no_faults_ahead 6 Hnf) as F6.
  cbn [Nat.add] in *.
  assert (Hs : status_in [submitted; in_review] (status d) = true)
    by (destruct Hst as [-> | ->]; reflexivity).
  unfold result_of, world_after, approveBAPP. rewrite approve_run. cbv zeta.
  fold i u. cbn [tables] in *. rewrite F0, Hf, Hs, Hrole. cbn [negb]. rewrite F1.
  assert (Hstep : forall w2,
             ncalls w2 = S (S (ncalls w)) -> fault_at w2 = fault_at w ->
             db w2 = db w ->
             signatureRequiredBAPP i u w2
             = match signatures_of BAPP i u (db w) with
               | [_] => (Returned (inr None),
                         tick w2 (ev op_select "bapp_attachments" true) (db w))
               | _ => (Returned (inl signature_refusal),
                       tick w2 (ev op_select "bapp_attachments" false) (db w))
               end).
  { intros w2 Hn Hfa Hdb. rewrite signatureRequiredBAPP_run, Hn, Hfa, F2, Hdb.
    reflexivity. }
  destruct (approved_by BAPP i u (db w)) as [|a [|a' l]] eqn:Ea;
    try (cbn in Hab; lia).
  all: rewrite Hstep by reflexivity.
  all: destruct (signatures_of BAPP i u (db w)) as [|s [|s' ss]] eqn:Es;
    (split; [intros Hone|intros Hmany]); try (cbn in Hone; discriminate Hone);
    try (cbn in Hmany; lia); try (split; reflexivity).
  all: rewrite record_then_update_run; cbv zeta; world_simpl.
  all: rewrite F3, F4, F5, F6; cbn [approval_of ap_doc_id tables].
  all: fold i; rewrite Hf; cbn [negb answered fst snd].
  all: eexists; split; [reflexivity|split; reflexivity].
Qed.

(** ** Payments *)

Lemma keeps_side_processBAPBPayment i p :
  keeps document_side (processBAPBPayment i p).
Proof.
  unfold processBAPBPayment, Repository.findByIdWithRelations, null_if_not_found,
    simulatePaymentGateway, logPaymentAttempt,
    notificationService.notifyPaymentProcessed, notificationService.logged_only,
    notificationService.createNotification, throw_on_error.
  keeps_tac.
Qed.

Lemma keeps_side_processBAPPPayment i p :
  keeps document_side (processBAPPPayment i p).
Proof.
  unfold processBAPPPayment, Repository.findByIdWithRelations, null_if_not_found,
    simulatePaymentGateway, logPaymentAttempt,
    notificationService.notifyPaymentProcessed, notificationService.logged_only,
    notificationService.createNotification, throw_on_error.
  keeps_tac.
Qed.

(** A payment run returns only for a document that is [approved]; for a
    document in another status it throws "... must be approved before
    payment processing" and writes nothing.  Whatever happens, it writes
    to the payment log and the notifications only: the documents, their
    line items, approvals and attachments and the users are as before.
    And it never reads the payment log: an earlier payment of the same
    document does not stop it. *)
Theorem payment_needs_approval (t : DocType) (i : Id) (p : PaymentData) (w : World) :
  let run := processPayment t i p in
  (forall r,
      result_of run w = Returned r ->
      exists d, filter (has_id i) (docs (tables t (db w))) = [d]
                /\ status d = approved)
  /\ (forall d,
        fault_at w (ncalls w) = false ->
        filter (has_id i) (docs (tables t (db w))) = [d] ->
        status d <> approved ->
        result_of run w
        = Thrown (Error_ (DocType_name t
                            ++ " must be approved before payment processing"))
        /\ db (world_after run w) = db w)
  /\ document_side (db (world_after run w)) = document_side (db w)
  /\ (forall e,
        In e (calls_of run w) -> ev_table e = "payment_logs"%string ->
        ev_op e = op_insert).
Proof.
  intros run. unfold result_of, world_after.
  destruct (payment_facts t i p w) as [Htr Hcase]. cbv zeta in Hcase. fold run in Hcase.
  split; [|split; [|split]].
  - intros r Hr.
    destruct (filter (has_id i) (docs (tables t (db w)))) as [|d [|d' l]];
      try (destruct Hcase as [[e He] _]; congruence).
    destruct (fault_at w (ncalls w)); [destruct Hcase as [[e He] _]; congruence|].
    destruct (Status_eqb (status d) approved) eqn:Hs;
      [|destruct Hcase as [[e He] _]; congruence].
    exists d. split; [reflexivity|apply Status_eqb_eq; exact Hs].
  - intros d F Hf Hs. clear Hcase Htr.
    assert (Hb : Status_eqb (status d) approved = false).
    { destruct (Status_eqb (status d) approved) eqn:E; [|reflexivity].
      apply Status_eqb_eq in E. contradiction. }
    unfold run. destruct t; cbn [processPayment];
      [unfold processBAPBPayment|unfold processBAPPPayment];
      cbv beta zeta delta [try_catch bind ret throw];
      rewrite findByIdWithRelations_run, F, Hf; cbn [hydrate w_doc];
      rewrite Hb; split; reflexivity.
  - unfold run. destruct t; cbn [processPayment].
    + apply keeps_side_processBAPBPayment.
    + apply keeps_side_processBAPPPayment.
  - intros e Hin Ht.
    assert (Hevs : calls_of run w = payment_calls t i p w)
      by (apply calls_of_intro; exact Htr).
    rewrite Hevs in Hin. unfold payment_calls in Hin.
    assert (Hsel : forall b, e = ev op_select (table_name t) b -> ev_op e = op_insert).
    { intros b ->. cbn in Ht. destruct t; discriminate Ht. }
    destruct (fault_at w (ncalls w)); [destruct Hin as [<-|[]]; eapply Hsel; reflexivity|].
    destruct (filter (has_id i) (docs (tables t (db w)))) as [|d [|d' l]];
      try (destruct Hin as [<-|[]]; eapply Hsel; reflexivity).
    destruct Hin as [<-|Hin]; [eapply Hsel; reflexivity|].
    destruct (Status_eqb (status d) approved); [|destruct Hin].
    destruct Hin as [<-|Hin]; [reflexivity|].
    destruct (settles w && negb (is_none (pd_amount p))); [|destruct Hin].
    destruct Hin as [<-|[]]. reflexivity.
Qed.




(** ** A vendor changes its own documents only *)

Lemma spared_same (u : Id) (s s' : Store) :
  doc_tables s' = doc_tables s -> spared u s s'.
Proof.
  unfold doc_tables. intros H. injection H as Hb Hp _.
  intros [|] d Hin _ _; cbn [tables] in *; congruence.
Qed.

Lemma spared_refl (u : Id) (s : Store) : spared u s s.
Proof. apply spared_same. reflexivity. Qed.

Lemma spared_patched (u : Id) (t : DocType) (i : Id) (p : Patch) (s s0 s' : Store)
      (d0 : Doc) :
  doc_tables s0 = doc_tables s ->
  filter (has_id i) (docs (tables t s)) = [d0] -> vendor_id d0 = u ->
  doc_tables s' = doc_tables (patched t i p s0) ->
  spared u s s'.
Proof.
  intros H0 Hf Hown H'.
  assert (Hd : forall t', docs (tables t' s0) = docs (tables t' s))
    by (unfold doc_tables in H0; injection H0 as Hb Hp _; intros [|]; assumption).
  assert (Hd' : forall t', docs (tables t' s') = docs (tables t' (patched t i p s0)))
    by (unfold doc_tables in H'; injection H' as Hb Hp _; intros [|]; assumption).
  intros t' d Hin _ Hne. rewrite Hd'.
  destruct (DocType_eq_dec t t') as [<-|Hdiff].
  - rewrite docs_patched, Hd. apply in_map_iff. exists d. split; [|exact Hin].
    destruct (has_id i d) eqn:Hi; [|reflexivity].
    rewrite (@only_row i _ d0 d Hf Hin Hi) in Hne. contradiction.
  - now rewrite docs_patched_other, Hd.
Qed.

Lemma spared_deleted (u : Id) (t : DocType) (i : Id) (s s' : Store) (d0 : Doc) :
  filter (has_id i) (docs (tables t s)) = [d0] -> vendor_id d0 = u ->
  doc_tables s' = doc_tables (deleted t i s) ->
  spared u s s'.
Proof.
  intros Hf Hown H'.
  assert (Hd' : forall t', docs (tables t' s') = docs (tables t' (deleted t i s)))
    by (unfold doc_tables in H'; injection H' as Hb Hp _; intros [|]; assumption).
  intros t' d Hin _ Hne. rewrite Hd'.
  destruct (DocType_eq_dec t t') as [<-|Hdiff].
  - rewrite docs_deleted. apply filter_In. split; [exact Hin|].
    destruct (has_id i d) eqn:Hi; [|reflexivity].
    rewrite (@only_row i _ d0 d Hf Hin Hi) in Hne. contradiction.
  - now rewrite docs_deleted_other.
Qed.

Lemma spared_inserted (u : Id) (t : DocType) (clock : DateTime) (d : Doc) (s s' : Store) :
  doc_tables s' = doc_tables (inserted t clock d s) -> spared u s s'.
Proof.
  unfold doc_tables. intros H. injection H as Hb Hp _.
  intros t' x Hin _ _. destruct t, t'; cbn [tables] in *;
    first [rewrite Hb | rewrite Hp]; cbn; try exact Hin;
    apply in_or_app; now left.
Qed.

Lemma spared_rolled_back (u : Id) (t : DocType) (clock : DateTime) (d : Doc)
      (s s' : Store) :
  doc_tables s' = doc_tables (deleted t (next_id s) (inserted t clock d s)) ->
  spared u s s'.
Proof.
  intros H'.
  assert (Hd' : forall t', docs (tables t' s')
                           = docs (tables t' (deleted t (next_id s) (inserted t clock d s))))
    by (unfold doc_tables in H'; injection H' as Hb Hp _; intros [|]; assumption).
  intros t' x Hin Hlt _. rewrite Hd'.
  destruct (DocType_eq_dec t t') as [<-|Hdiff].
  - rewrite docs_deleted_inserted. apply filter_In. split; [exact Hin|].
    unfold has_id. apply negb_true_iff, Nat.eqb_neq. lia.
  - rewrite docs_deleted_other by exact Hdiff.
    destruct t, t'; try (now elim Hdiff); exact Hin.
Qed.

Lemma vendor_not_reviewer (t : DocType) (role : string) :
  Js.includes vendor_roles role = true ->
  Js.includes (reviewer_roles t) role = false.
Proof.
  unfold Js.includes, vendor_roles, reviewer_roles. cbn [existsb].
  intros H. repeat (apply orb_prop in H; destruct H as [H|H]); try discriminate H;
    apply String.eqb_eq in H; subst role; destruct t; reflexivity.
Qed.

Lemma vendor_manages_as_vendor (t : DocType) (role : string) :
  Js.includes vendor_roles role = true -> canManage t role = true ->
  isVendor t role = true.
Proof.
  unfold Js.includes, vendor_roles, canManage, isVendor. cbn [existsb].
  intros H. repeat (apply orb_prop in H; destruct H as [H|H]); try discriminate H;
    apply String.eqb_eq in H; subst role; destruct t; cbn; intros Hc;
    first [reflexivity | discriminate Hc].
Qed.

Lemma approve_by_vendor t step req w :
  Js.includes vendor_roles (user_role (rq_user req)) = true ->
  db (snd (approve t step req w)) = db w.
Proof.
  intros Hv. rewrite approve_run. cbv zeta.
  destruct (fault_at w (ncalls w)); [reflexivity|].
  destruct (filter (has_id (rq_id req)) (docs (tables t (db w))))
    as [|d [|d' l]]; try reflexivity.
  destruct (negb (status_in [submitted; in_review] (status d))); [reflexivity|].
  rewrite (vendor_not_reviewer t _ Hv). reflexivity.
Qed.

Lemma decide_by_vendor t act target required verb_status unauthorized finished failed
      note req w :
  Js.includes vendor_roles (user_role (rq_user req)) = true ->
  db (snd (decide t act target required verb_status unauthorized finished
                  failed note req w)) = db w.
Proof.
  intros Hv. rewrite decide_run.
  destruct (reason_missing (rq_reason req)); [reflexivity|].
  destruct (fault_at w (ncalls w)); [reflexivity|].
  destruct (filter (has_id (rq_id req)) (docs (tables t (db w))))
    as [|d [|d' l]]; try reflexivity.
  cbv zeta.
  destruct (negb (status_in [submitted; in_review] (status d))); [reflexivity|].
  rewrite (vendor_not_reviewer t _ Hv). reflexivity.
Qed.

Lemma owner_passes (t : DocType) (u : User) (d : Doc) :
  Js.includes vendor_roles (user_role u) = true ->
  isVendor t (user_role u) && negb (vendor_id d =? user_id u) = false ->
  negb (canManage t (user_role u)) = false ->
  vendor_id d = user_id u.
Proof.
  intros Hv Hg Hc. apply negb_false_iff in Hc.
  rewrite (vendor_manages_as_vendor t _ Hv Hc) in Hg. cbn [andb] in Hg.
  apply negb_false_iff, Nat.eqb_eq in Hg. exact Hg.
Qed.

Lemma delete_spares t req w :
  Js.includes vendor_roles (user_role (dr_user req)) = true ->
  spared (user_id (dr_user req)) (db w) (db (snd (deleteDoc t req w))).
Proof.
  intros Hv. unfold deleteDoc. cbv beta zeta delta [try_catch bind ret].
  rewrite findById_run.
  destruct (fault_at w (ncalls w)); [apply spared_refl|].
  destruct (filter (has_id (dr_id req)) (docs (tables t (db w))))
    as [|d [|d' l]] eqn:Hf; try apply spared_refl.
  destruct (isVendor t (user_role (dr_user req))
            && negb (vendor_id d =? user_id (dr_user req))) eqn:Hg;
    [apply spared_refl|].
  destruct (negb (canManage t (user_role (dr_user req)))) eqn:Hc; [apply spared_refl|].
  destruct (Status_eqb (status d) draft); cbn [negb]; [|apply spared_refl].
  rewrite delete_run. world_simpl.
  destruct (fault_at w (S (ncalls w))); [apply spared_refl|].
  cbn [snd]. world_simpl.
  apply spared_deleted with (t := t) (i := dr_id req) (d0 := d);
    [exact Hf|exact (owner_passes t _ d Hv Hg Hc)|reflexivity].
Qed.

Lemma submit_spares t req w :
  spared (user_id (dr_user req)) (db w) (db (snd (submit t req w))).
Proof.
  unfold submit. cbv beta zeta delta [try_catch bind ret].
  rewrite findByIdWithRelations_run.
  destruct (fault_at w (ncalls w)); [apply spared_refl|].
  destruct (filter (has_id (dr_id req)) (docs (tables t (db w))))
    as [|d [|d' l]] eqn:Hf; try apply spared_refl.
  cbn [hydrate w_doc w_items].
  destruct (negb (vendor_id d =? user_id (dr_user req))) eqn:Hg; [apply spared_refl|].
  apply negb_false_iff, Nat.eqb_eq in Hg.
  destruct (negb (canManage t (user_role (dr_user req)))); [apply spared_refl|].
  destruct (status_in [draft; revision_required] (status d)); cbn [negb];
    [|apply spared_refl].
  destruct (items_length (items_of t (db w) (id d)) =? 0); [apply spared_refl|].
  rewrite updateStatus_run, update_run. world_simpl.
  destruct (fault_at w (S (ncalls w))); [apply spared_refl|].
  rewrite Hf.
  assert (Hm : forall s',
             doc_tables s'
             = doc_tables (patched t (dr_id req) (status_patch submitted None None)
                                   (db w)) ->
             spared (user_id (dr_user req)) (db w) s').
  { intros s' H. apply spared_patched
      with (t := t) (i := dr_id req) (p := status_patch submitted None None)
           (s0 := db w) (d0 := d);
      [reflexivity|exact Hf|exact Hg|exact H]. }
  rewrite notifySubmitted_run. world_simpl. cbv zeta.
  destruct (fault_at w (S (S (ncalls w)))).
  - rewrite findByIdWithRelations_run. world_simpl.
    destruct (fault_at w (S (S (S (ncalls w))))); [apply Hm; reflexivity|].
    destruct_found; apply Hm; reflexivity.
  - destruct (fault_at w (S (S (S (ncalls w))))).
    + rewrite findByIdWithRelations_run. world_simpl.
      destruct (fault_at w (S (S (S (S (ncalls w)))))); [apply Hm; reflexivity|].
      destruct_found; apply Hm; reflexivity.
    + rewrite findByIdWithRelations_run. world_simpl.
      destruct (fault_at w (S (S (S (S (ncalls w)))))); [apply Hm; reflexivity|].
      destruct_found; apply Hm; reflexivity.
Qed.

Lemma spared_table (u : Id) (t : DocType) (i : Id) (p : Patch) (s s' : Store)
      (d0 : Doc) :
  filter (has_id i) (docs (tables t s)) = [d0] -> vendor_id d0 = u ->
  docs (tables (other t) s') = docs (tables (other t) s) ->
  docs (tables t s') = docs (tables t s)
  \/ docs (tables t s') = docs (tables t (patched t i p s)) ->
  spared u s s'.
Proof.
  intros Hf Hown Ho Hd t' d Hin _ Hne.
  destruct (DocType_eq_dec t t') as [<-|Hdiff].
  - destruct Hd as [Hd|Hd]; rewrite Hd; [exact Hin|].
    rewrite docs_patched. apply in_map_iff. exists d. split; [|exact Hin].
    destruct (has_id i d) eqn:Hi; [|reflexivity].
    rewrite (@only_row i _ d0 d Hf Hin Hi) in Hne. contradiction.
  - replace t' with (other t) in * by (destruct t, t'; try reflexivity; now elim Hdiff).
    now rewrite Ho.
Qed.

Lemma updateBAPB_spares req w :
  Js.includes vendor_roles (user_role (ub_user req)) = true ->
  spared (user_id (ub_user req)) (db w) (db (snd (updateBAPB req w))).
Proof.
  intros Hv. unfold updateBAPB. cbv beta zeta delta [try_catch bind ret].
  rewrite findById_run.
  destruct (fault_at w (ncalls w)); [apply spared_refl|].
  destruct (filter (has_id (ub_id req)) (docs (tables BAPB (db w))))
    as [|d [|d' l]] eqn:Hf; try apply spared_refl.
  destruct (isVendor BAPB (user_role (ub_user req))
            && negb (vendor_id d =? user_id (ub_user req))) eqn:Hg;
    [apply spared_refl|].
  destruct (negb (canManage BAPB (user_role (ub_user req)))) eqn:Hc;
    [apply spared_refl|].
  destruct (status_in [draft; revision_required] (status d)); cbn [negb];
    [|apply spared_refl].
  set (w1 := tick w (ev op_select (table_name BAPB) true) (db w)).
  pose proof (updateWithItems_docs (ub_id req) (updateDataBAPB req d) (ub_items req) w1)
    as [Hd _].
  pose proof (keeps_rest_updateWithItems (ub_id req) (updateDataBAPB req d)
                (ub_items req) w1) as Hk.
  cbv zeta in Hd. cbv beta in Hk.
  destruct (BAPBRepository.updateWithItems (ub_id req) (updateDataBAPB req d)
              (ub_items req) w1) as [[x|e] w2]; cbn [snd] in *;
    subst w1; world_simpl; injection Hk as Hp Hn.
  all: apply spared_table
    with (t := BAPB) (i := ub_id req) (p := updateDataBAPB req d) (d0 := d);
    [exact Hf|exact (owner_passes BAPB _ d Hv Hg Hc)|exact Hp|exact Hd].
Qed.

Lemma updateBAPP_spares req w :
  Js.includes vendor_roles (user_role (up_user req)) = true ->
  spared (user_id (up_user req)) (db w) (db (snd (updateBAPP req w))).
Proof.
  intros Hv. unfold updateBAPP. cbv beta zeta delta [try_catch bind ret].
  rewrite findById_run.
  destruct (fault_at w (ncalls w)); [apply spared_refl|].
  destruct (filter (has_id (up_id req)) (docs (tables BAPP (db w))))
    as [|d [|d' l]] eqn:Hf; try apply spared_refl.
  destruct (isVendor BAPP (user_role (up_user req))
            && negb (vendor_id d =? user_id (up_user req))) eqn:Hg;
    [apply spared_refl|].
  destruct (negb (canManage BAPP (user_role (up_user req)))) eqn:Hc;
    [apply spared_refl|].
  destruct (status_in [draft; revision_required] (status d)); cbn [negb];
    [|apply spared_refl].
  set (w1 := tick w (ev op_select (table_name BAPP) true) (db w)).
  pose proof (updateWithWorkItems_docs (up_id req) (updateDataBAPP req d)
                (up_workItems req) w1) as [Hd _].
  pose proof (keeps_rest_updateWithWorkItems (up_id req) (updateDataBAPP req d)
                (up_workItems req) w1) as Hk.
  cbv zeta in Hd. cbv beta in Hk.
  destruct (BAPPRepository.updateWithWorkItems (up_id req) (updateDataBAPP req d)
              (up_workItems req) w1) as [[x|e] w2]; cbn [snd] in *;
    subst w1; world_simpl; injection Hk as Hp Hn.
  all: apply spared_table
    with (t := BAPP) (i := up_id req)
         (p := work_patch (updateDataBAPP req d) (up_workItems req)) (d0 := d);
    [exact Hf|exact (owner_passes BAPP _ d Hv Hg Hc)|exact Hp|exact Hd].
Qed.

Lemma createWithItems_spares u d items w :
  spared u (db w) (db (snd (BAPBRepository.createWithItems d items w))).
Proof.
  unfold BAPBRepository.createWithItems.
  cbv beta zeta delta [try_catch bind ret throw].
  rewrite create_run.
  destruct (fault_at w (ncalls w)); [apply spared_refl|].
  destruct items as [[|x l]|].
  1,3: rewrite findByIdWithRelations_run; world_simpl;
    destruct (fault_at w (S (ncalls w)));
    [|destruct_found]; (apply (@spared_inserted u BAPB (now w) d); reflexivity).
  unfold query. world_simpl.
  destruct (fault_at w (S (ncalls w))); cbn [fst snd error error_reply ok_reply].
  - rewrite delete_run. world_simpl.
    destruct (fault_at w (S (S (ncalls w)))); cbn [fst snd].
    + apply (@spared_inserted u BAPB (now w) d); reflexivity.
    + apply (@spared_rolled_back u BAPB (now w) d). world_simpl. reflexivity.
  - rewrite findByIdWithRelations_run; world_simpl.
    destruct (fault_at w (S (S (ncalls w))));
      [|destruct_found]; (apply (@spared_inserted u BAPB (now w) d); reflexivity).
Qed.

Lemma createWithWorkItems_spares u d items w :
  spared u (db w) (db (snd (BAPPRepository.createWithWorkItems d items w))).
Proof.
  unfold BAPPRepository.createWithWorkItems.
  cbv beta zeta delta [try_catch bind ret throw].
  rewrite create_run.
  destruct (fault_at w (ncalls w)); [apply spared_refl|].
  set (d1 := doc_with_total d _).
  destruct items as [[|x l]|].
  1,3: rewrite findByIdWithRelations_run; world_simpl;
    destruct (fault_at w (S (ncalls w)));
    [|destruct_found]; (apply (@spared_inserted u BAPP (now w) d1); reflexivity).
  unfold query. world_simpl.
  destruct (fault_at w (S (ncalls w))); cbn [fst snd error error_reply ok_reply].
  - rewrite delete_run. world_simpl.
    destruct (fault_at w (S (S (ncalls w)))); cbn [fst snd].
    + apply (@spared_inserted u BAPP (now w) d1); reflexivity.
    + apply (@spared_rolled_back u BAPP (now w) d1). world_simpl. reflexivity.
  - rewrite findByIdWithRelations_run; world_simpl.
    destruct (fault_at w (S (S (ncalls w))));
      [|destruct_found]; (apply (@spared_inserted u BAPP (now w) d1); reflexivity).
Qed.

Lemma createBAPB_spares req w :
  spared (user_id (cb_user req)) (db w) (db (snd (createBAPB req w))).
Proof.
  unfold createBAPB, generateBAPBNumber.
  cbv beta zeta delta [try_catch bind ret throw].
  destruct (negb (canManage BAPB (user_role (cb_user req)))); [apply spared_refl|].
  destruct (cb_items req) as [[|x l]|]; try apply spared_refl.
  destruct (validate_items 0 (x :: l)); [apply spared_refl|].
  rewrite generateNumber_run.
  destruct (fault_at w (ncalls w)); [apply spared_refl|].
  match goal with
  | |- context [BAPBRepository.createWithItems ?d ?items ?w1] =>
      pose proof (@createWithItems_spares (user_id (cb_user req)) d items w1) as Hm;
      destruct (BAPBRepository.createWithItems d items w1) as [[[v|]|e] w2]
  end; cbn [snd] in Hm; world_simpl; try exact Hm.
  destruct (items_length (w_items v) =? 0); exact Hm.
Qed.

Lemma createBAPP_spares req w :
  spared (user_id (cp_user req)) (db w) (db (snd (createBAPP req w))).
Proof.
  unfold createBAPP, generateBAPPNumber.
  cbv beta zeta delta [try_catch bind ret throw].
  destruct (negb (canManage BAPP (user_role (cp_user req)))); [apply spared_refl|].
  destruct (negb _); [apply spared_refl|].
  destruct (cp_workItems req) as [[|x l]|]; try apply spared_refl.
  destruct (validate_work_items 0 (x :: l)); [apply spared_refl|].
  rewrite generateNumber_run.
  destruct (fault_at w (ncalls w)); [apply spared_refl|].
  match goal with
  | |- context [BAPPRepository.createWithWorkItems ?d ?items ?w1] =>
      pose proof (@createWithWorkItems_spares (user_id (cp_user req)) d items w1) as Hm;
      destruct (BAPPRepository.createWithWorkItems d items w1) as [[[v|]|e] w2]
  end; cbn [snd] in Hm; world_simpl; try exact Hm.
  destruct (items_length (w_items v) =? 0); exact Hm.
Qed.

(** A request made with one of the three vendor roles leaves the
    documents of every other vendor as they are, in both document tables
    and whatever the store answers: each row whose [vendor_id] is not the
    caller's id is still there, unchanged, once the request has been
    answered. (Ids handed out by the store are taken to be above the ids
    in use.) *)
Theorem vendor_changes_own_documents_only (r : Request) (u : User) (w : World) :
  caller r = Some u ->
  Js.includes vendor_roles (user_role u) = true ->
  fresh_ids (db w) ->
  forall t d, In d (docs (tables t (db w))) -> vendor_id d <> user_id u ->
              In d (docs (tables t (db (serve r w)))).
Proof.
  intros Hc Hv Hfr t d Hin Hne.
  assert (Hs : spared (user_id u) (db w) (db (serve r w))).
  { destruct r; cbn [serve caller] in *; try discriminate Hc; injection Hc as <-.
    - apply createBAPB_spares.
    - apply createBAPP_spares.
    - apply updateBAPB_spares, Hv.
    - apply updateBAPP_spares, Hv.
    - apply delete_spares, Hv.
    - apply submit_spares.
    - apply spared_same. unfold approveBAPB. now rewrite approve_by_vendor.
    - apply spared_same. unfold BackendMain.approveBAPB. now rewrite approve_by_vendor.
    - apply spared_same. unfold approveBAPP. now rewrite approve_by_vendor.
    - apply spared_same. unfold reject. now rewrite decide_by_vendor.
    - apply spared_same. unfold requestRevision. now rewrite decide_by_vendor.
    - apply spared_same, keeps_docs_uploadSignature. }
  exact (Hs t d Hin (Hfr t d Hin) Hne).
Qed.

(** ** Statistics *)

Lemma count_run (t : DocType) (f : Statistics.Filters) (w : World) :
  Statistics.count t f w =
  if fault_at w (ncalls w) then
    (Thrown store_failure, tick w (ev op_select (table_name t) false) (db w))
  else
    (Returned (List.length (filter (Statistics._applyFilters f) (docs (tables t (db w))))),
     tick w (ev op_select (table_name t) true) (db w)).
Proof.
  unfold Statistics.count, query, throw_on_error.
  cbv beta zeta delta [try_catch bind ret throw].
  destruct (fault_at w (ncalls w)); reflexivity.
Qed.

Lemma count_by_status (v : Id) (l : list Doc) :
  let n st := List.length
                (filter (Statistics._applyFilters
                           {| Statistics.f_vendor_id := Some v;
                              Statistics.f_status := Some st |}) l) in
  List.length (filter (Statistics._applyFilters
                         {| Statistics.f_vendor_id := Some v;
                            Statistics.f_status := None |}) l)
  = n draft + n submitted + n approved + n rejected
    + List.length (filter (in_the_loop v) l).
Proof.
  cbv zeta. induction l as [|d l IH]; [reflexivity|].
  assert (H : forall st,
             Statistics._applyFilters {| Statistics.f_vendor_id := Some v;
                                         Statistics.f_status := st |} d
             = (vendor_id d =? v)
               && match st with
                  | Some x => Status_eqb (status d) x
                  | None => true
                  end) by reflexivity.
  assert (H' : in_the_loop v d
               = (vendor_id d =? v)
                 && status_in [in_review; revision_required] (status d))
    by reflexivity.
  cbn [filter]. rewrite !H, H'.
  destruct (vendor_id d =? v); cbn [andb]; [|exact IH].
  destruct (status d); cbn [Status_eqb status_in existsb orb List.length];
    rewrite IH; lia.
Qed.

(** The statistics of a vendor's BAPB: the five counts are all asked
    for, whatever the store answers, and nothing is written. When the
    five are answered, [total] is the sum of the four counts under
    [by_status] plus the number of the vendor's documents that are
    [in_review] or [revision_required], which [by_status] leaves out; so
    the four add up to the total only for a vendor without such
    documents. When one of the five is refused, the statistics are not
    returned: the error of the store is thrown. *)
Theorem vendor_statistics_leave_out_review (v : Id) (w : World) :
  let run := Statistics.getVendorStatistics v in
  calls_of run w
  = map (fun k => ev op_select "bapb" (negb (fault_at w (k + ncalls w)))) [0; 1; 2; 3; 4]
  /\ db (world_after run w) = db w
  /\ ((forall k, k < 5 -> fault_at w (k + ncalls w) = false) ->
      exists st,
        result_of run w = Returned st
        /\ Statistics.vs_total st
           = Statistics.vs_draft st + Statistics.vs_submitted st
             + Statistics.vs_approved st + Statistics.vs_rejected st
             + List.length (filter (in_the_loop v) (docs (bapb (db w)))))
  /\ ((exists k, k < 5 /\ fault_at w (k + ncalls w) = true) ->
      result_of run w = Thrown store_failure).
Proof.
  cbv zeta.
  assert (Hrun :
    Statistics.getVendorStatistics v w
    = (if fault_at w (ncalls w) || fault_at w (1 + ncalls w)
          || fault_at w (2 + ncalls w) || fault_at w (3 + ncalls w)
          || fault_at w (4 + ncalls w)
       then Thrown store_failure
       else
         let n f := List.length (filter (Statistics._applyFilters f)
                                        (docs (bapb (db w)))) in
         let of_status st := {| Statistics.f_vendor_id := Some v;
                                Statistics.f_status := Some st |} in
         Returned {| Statistics.vs_total :=
                       n {| Statistics.f_vendor_id := Some v;
                            Statistics.f_status := None |};
                     Statistics.vs_draft := n (of_status draft);
                     Statistics.vs_submitted := n (of_status submitted);
                     Statistics.vs_approved := n (of_status approved);
                     Statistics.vs_rejected := n (of_status rejected) |},
       {| db := db w; now := now w; fault_at := fault_at w;
          ncalls := 5 + ncalls w;
          trace := trace w
                   ++ map (fun k => ev op_select "bapb"
                                       (negb (fault_at w (k + ncalls w))))
                          [0; 1; 2; 3; 4];
          random := random w; ndraws := ndraws w |})).
  { unfold Statistics.getVendorStatistics.
    cbv beta zeta delta [try_catch bind ret throw].
    cbn [Statistics.Promise_all].
    rewrite !count_run. cbn [Nat.add map table_name tables].
    destruct (fault_at w (ncalls w)); world_simpl;
      rewrite !count_run; world_simpl;
      destruct (fault_at w (S (ncalls w))); world_simpl;
      rewrite ?count_run; world_simpl;
      destruct (fault_at w (S (S (ncalls w)))); world_simpl;
      rewrite ?count_run; world_simpl;
      destruct (fault_at w (S (S (S (ncalls w))))); world_simpl;
      rewrite ?count_run; world_simpl;
      destruct (fault_at w (S (S (S (S (ncalls w)))))); world_simpl;
      cbn [orb negb nth tick]; unfold tick, ev; world_simpl;
      rewrite <- ?app_assoc; reflexivity. }
  split; [|split; [|split]].
  - apply calls_of_intro. rewrite Hrun. reflexivity.
  - unfold world_after. rewrite Hrun. reflexivity.
  - intros Hok. unfold result_of. rewrite Hrun.
    pose proof (Hok 0) as H0. pose proof (Hok 1) as H1. pose proof (Hok 2) as H2.
    pose proof (Hok 3) as H3. pose proof (Hok 4) as H4.
    cbn [Nat.add] in H0, H1, H2, H3, H4 |- *.
    rewrite H0, H1, H2, H3, H4 by lia.
    cbn [orb fst]. eexists. split; [reflexivity|].
    cbn [Statistics.vs_total Statistics.vs_draft Statistics.vs_submitted
         Statistics.vs_approved Statistics.vs_rejected].
    apply count_by_status.
  - intros [k [Hk Hbad]]. unfold result_of. rewrite Hrun.
    assert (Hcases : k = 0 \/ k = 1 \/ k = 2 \/ k = 3 \/ k = 4) by lia.
    destruct Hcases as [->|[->|[->|[->| ->]]]]; cbn [Nat.add] in Hbad |- *;
      rewrite Hbad; rewrite ?orb_true_r; reflexivity.
Qed.

Lemma tally_total (t : DocType) (rows : list (option string))
      (stats : Statistics.TypeStatistics) :
  Statistics.total (fold_left (Statistics.tally t) rows stats) = Statistics.total stats.
Proof.
  revert stats. induction rows as [|r rows IH]; intros stats; [reflexivity|].
  cbn [fold_left]. rewrite IH. unfold Statistics.tally.
  destruct t;
    repeat match goal with
           | |- context [if ?b then _ else _] => destruct b
           end; reflexivity.
Qed.

Lemma tally_step (t : DocType) (stats : Statistics.TypeStatistics)
      (r : option string) :
  let out := Statistics.tally t stats r in
  Statistics.vendor_barang out + Statistics.vendor_jasa out
  + Statistics.vendor_legacy out + (if no_vendor_role r then 1 else 0)
  = Statistics.vendor_barang stats + Statistics.vendor_jasa stats
    + Statistics.vendor_legacy stats + 1.
Proof.
  cbv zeta. destruct r as [x|]; [|destruct t; cbn; lia].
  unfold Statistics.tally, Statistics.is_role, no_vendor_role, Js.includes,
    vendor_roles. cbn [existsb].
  destruct (String.eqb x "vendor_barang") eqn:Eb.
  { apply String.eqb_eq in Eb. subst x. destruct t; cbn; lia. }
  destruct (String.eqb x "vendor_jasa") eqn:Ej.
  { apply String.eqb_eq in Ej. subst x. destruct t; cbn; lia. }
  destruct (String.eqb x "vendor") eqn:El; destruct t; cbn; lia.
Qed.

Lemma tally_counts (t : DocType) (rows : list (option string))
      (stats : Statistics.TypeStatistics) :
  let out := fold_left (Statistics.tally t) rows stats in
  Statistics.vendor_barang out + Statistics.vendor_jasa out
  + Statistics.vendor_legacy out + List.length (filter no_vendor_role rows)
  = Statistics.vendor_barang stats + Statistics.vendor_jasa stats
    + Statistics.vendor_legacy stats + List.length rows.
Proof.
  cbv zeta. revert stats. induction rows as [|r rows IH]; intros stats.
  { cbn. lia. }
  cbn [fold_left filter List.length].
  pose proof (tally_step t stats r) as Hs. cbv zeta in Hs.
  specialize (IH (Statistics.tally t stats r)).
  destruct (no_vendor_role r); cbn [List.length]; lia.
Qed.

(** The statistics by vendor type of either repository, when the store
    answers: [total] is the number of documents in the table, and the
    three counters, with the documents whose vendor is no account or has
    another role than the three vendor roles (an admin may create
    documents), add up to it. So the three counters may fall short of
    the total, and never exceed it. Nothing is written. *)
Theorem type_statistics_add_up (t : DocType) (w : World) :
  fault_at w (ncalls w) = false ->
  let run := Statistics.getStatisticsByVendorType t in
  exists st,
    result_of run w = Returned st
    /\ Statistics.total st = List.length (docs (tables t (db w)))
    /\ Statistics.vendor_barang st + Statistics.vendor_jasa st
       + Statistics.vendor_legacy st
       + List.length (filter (without_vendor_role (db w)) (docs (tables t (db w))))
       = Statistics.total st
    /\ db (world_after run w) = db w.
Proof.
  intros Hok run. unfold result_of, world_after, run,
    Statistics.getStatisticsByVendorType, query, throw_on_error.
  cbv beta zeta delta [try_catch bind ret throw]. rewrite Hok.
  cbn [fst snd error data ok_reply]. world_simpl.
  eexists. split; [reflexivity|].
  set (l := docs (tables t (db w))).
  set (rows := map (Statistics.vendor_role (db w)) l).
  assert (Hlen : List.length (filter (without_vendor_role (db w)) l)
                 = List.length (filter no_vendor_role rows)).
  { subst rows. induction l as [|d l' IH]; [reflexivity|].
    cbn [map filter]. fold (without_vendor_role (db w) d).
    destruct (without_vendor_role (db w) d); cbn [List.length]; now rewrite IH. }
  pose proof (tally_counts t rows
                {| Statistics.vendor_barang := 0; Statistics.vendor_jasa := 0;
                   Statistics.vendor_legacy := 0;
                   Statistics.total := List.length rows |}) as H.
  cbv zeta in H. cbn [Statistics.vendor_barang Statistics.vendor_jasa
                      Statistics.vendor_legacy Nat.add] in H.
  rewrite tally_total. cbn [Statistics.total].
  split; [apply length_map|]. split; [|reflexivity].
  rewrite Hlen. exact H.
Qed.

(** ** The total progress is a percentage *)

(** The total progress [_calculateTotalProgress] derives is a percentage
    when the progress values it reads off the work items are: if each is
    between 0 and 100, so is the total, also after the roundings of the
    binary64 sum and quotient and the rounding to two decimals.  The list
    is a JavaScript array, which has fewer than 2^32 elements.  (The
    controllers check that a progress value is given, not that it is in
    this range.) *)
Theorem total_progress_is_a_percentage (workItems : option (list WorkItemInput)) :
  (forall l, workItems = Some l -> (Z.of_nat (List.length l) < 2 ^ 32)%Z) ->
  (forall l item, workItems = Some l -> In item l ->
                  (0 <= actual_read item)%Q /\ (actual_read item <= 100)%Q) ->
  (0 <= JsTotal_value (_calculateTotalProgress workItems))%Q
  /\ (JsTotal_value (_calculateTotalProgress workItems) <= 100)%Q.
Proof.
  intros Hlen H.
  destruct workItems as [[|x l]|];
    [split; apply Qle_bool_iff; reflexivity| |split; apply Qle_bool_iff; reflexivity].
  set (items := x :: l) in *.
  assert (Hne : items <> []) by discriminate.
  destruct (@quotient_bounds items Hne (Hlen items eq_refl)
              (fun item Hin => H items item eq_refl Hin)) as [M0 [M1 _]].
  unfold _calculateTotalProgress. fold items.
  set (q := Js.round64 (sum_actual items / inject_Z (Z.of_nat (List.length items)))) in *.
  destruct (toFixed2_half_up M0) as [Hlo Hhi].
  cbn [JsTotal_value]. set (h := toFixed2 q) in *.
  assert (Hh0 : (0 <= h)%Z).
  { assert (Hq : (inject_Z (-1) < inject_Z h)%Q)
      by (change (inject_Z (-1)) with (-1)%Q; lra).
    rewrite <- Zlt_Qlt in Hq. lia. }
  assert (Hh1 : (h <= 10000)%Z).
  { assert (Hq : (inject_Z h < inject_Z 10001)%Q)
      by (change (inject_Z 10001) with 10001%Q; lra).
    rewrite <- Zlt_Qlt in Hq. lia. }
  unfold Qle. cbn. lia.
Qed.

(** ** Reading a document *)

(** Who is shown a document by [getBAPBById] / [getBAPPById]: an answer
    200 carries the one row with the id asked for, hydrated, and a caller
    with a vendor role of the document type owns it; a caller without
    such a role (a reviewer, an admin, but also a vendor of the other
    type) is shown any document, and so is the owner; a vendor of the
    type asking for another vendor's document gets a 403 without data.
    Nothing is written. *)
Theorem vendor_reads_own_documents_only (t : DocType) (req : DocReq) (w : World) :
  let run := getById t req in
  let mine d := vendor_id d = user_id (dr_user req) in
  let found := filter (has_id (dr_id req)) (docs (tables t (db w))) in
  (forall resp, result_of run w = Returned resp -> code resp = 200 ->
     exists d, found = [d] /\ res_data resp = Some (hydrate t (db w) d)
               /\ (isVendor t (user_role (dr_user req)) = true -> mine d))
  /\ (forall d, fault_at w (ncalls w) = false -> found = [d] ->
        (isVendor t (user_role (dr_user req)) = false \/ mine d ->
         exists resp, result_of run w = Returned resp /\ code resp = 200
                      /\ res_data resp = Some (hydrate t (db w) d))
        /\ (isVendor t (user_role (dr_user req)) = true -> ~ mine d ->
            exists resp, result_of run w = Returned resp /\ code resp = 403
                         /\ res_data resp = None))
  /\ db (world_after run w) = db w.
Proof.
  cbv zeta. unfold result_of, world_after, getById.
  cbv beta zeta delta [try_catch bind ret]. rewrite findByIdWithRelations_run.
  destruct (fault_at w (ncalls w)) eqn:F.
  { split; [not_accepted|]. split; [intros d Hd; discriminate Hd|reflexivity]. }
  destruct (filter (has_id (dr_id req)) (docs (tables t (db w))))
    as [|d [|d' l]] eqn:Hf.
  1,3: split; [not_accepted|]; split; [intros d0 _ Hd; discriminate Hd|reflexivity].
  cbn [hydrate w_doc].
  destruct (isVendor t (user_role (dr_user req))) eqn:Hv; cbn [andb].
  - destruct (vendor_id d =? user_id (dr_user req)) eqn:Ho; cbn [negb].
    + apply Nat.eqb_eq in Ho. split; [|split; [|reflexivity]].
      * intros resp H _. injection H as <-. exists d. auto.
      * intros d0 _ Hd. injection Hd as <-. split.
        -- intros _. eexists. split; [reflexivity|]. split; reflexivity.
        -- intros _ Hn. now elim Hn.
    + apply Nat.eqb_neq in Ho. split; [not_accepted|]. split; [|reflexivity].
      intros d0 _ Hd. injection Hd as <-. split.
      * intros [H|H]; [discriminate H|now elim Ho].
      * intros _ _. eexists. split; [reflexivity|]. split; reflexivity.
  - split; [|split; [|reflexivity]].
    + intros resp H _. injection H as <-. exists d.
      split; [reflexivity|]. split; [reflexivity|]. intros H. discriminate H.
    + intros d0 _ Hd. injection Hd as <-. split.
      * intros _. eexists. split; [reflexivity|]. split; reflexivity.
      * intros H. discriminate H.
Qed.

(** ** The notification inbox *)

Lemma unread_after_mark (u v : Id) (clock : DateTime) (r : Inbox.Row) :
  Inbox.unread_of v (if Inbox.unread_of u r then Inbox.mark clock r else r)
  = Inbox.unread_of v r && negb (v =? u).
Proof.
  unfold Inbox.unread_of.
  destruct (Inbox.nt_user_id r =? u) eqn:Eu; cbn [andb].
  - apply Nat.eqb_eq in Eu.
    destruct (Inbox.nt_is_read r) eqn:Er; cbn [negb Inbox.mark Inbox.nt_user_id
                                               Inbox.nt_is_read].
    + rewrite Er. cbn. now rewrite andb_false_r.
    + rewrite andb_false_r. rewrite <- Eu.
      destruct (Inbox.nt_user_id r =? v) eqn:Ev; [|reflexivity].
      apply Nat.eqb_eq in Ev. rewrite Ev, Nat.eqb_refl. reflexivity.
  - destruct (Inbox.nt_user_id r =? v) eqn:Ev; cbn [andb]; [|reflexivity].
    apply Nat.eqb_eq in Ev.
    assert (Hvu : (v =? u) = false) by (rewrite <- Ev; exact Eu).
    rewrite Hvu. cbn [negb]. now rewrite andb_true_r.
Qed.

(** Marking all as read, when the store answers: the count reported is
    the number of the user's unread notifications before; afterwards the
    user has none unread; the unread count of every other user is what
    it was; every row that was not an unread notification of the user is
    in the table as before, and no row is added or removed. When the
    store refuses the call the error is thrown and no row is changed. *)
Theorem markAllAsRead_clears_unread (u : Id) (clock : DateTime)
        (rows : list Inbox.Row) :
  let out := Inbox.markAllAsRead u clock false rows in
  fst out = Returned (Inbox.getUnreadCount u false rows)
  /\ Inbox.getUnreadCount u false (snd out) = 0
  /\ (forall v, v <> u ->
        Inbox.getUnreadCount v false (snd out) = Inbox.getUnreadCount v false rows)
  /\ (forall r, In r rows -> Inbox.unread_of u r = false -> In r (snd out))
  /\ map Inbox.nt_id (snd out) = map Inbox.nt_id rows
  /\ Inbox.markAllAsRead u clock true rows = (Thrown store_failure, rows).
Proof.
  cbv zeta. unfold Inbox.markAllAsRead, Inbox.getUnreadCount, Inbox.call.
  cbn [fst snd error data ok_reply error_reply].
  assert (Hcount : forall v,
             List.length
               (filter (Inbox.unread_of v)
                       (map (fun r => if Inbox.unread_of u r
                                      then Inbox.mark clock r else r) rows))
             = List.length (filter (fun r => Inbox.unread_of v r && negb (v =? u)) rows)).
  { intros v. induction rows as [|r rows IH]; [reflexivity|].
    cbn [map filter]. rewrite unread_after_mark.
    destruct (Inbox.unread_of v r && negb (v =? u)); cbn [List.length];
      now rewrite IH. }
  split; [now rewrite length_map|]. split; [|split; [|split; [|split]]].
  - rewrite Hcount, Nat.eqb_refl. cbn [negb]. clear Hcount.
    induction rows as [|r rows IH]; [reflexivity|].
    cbn [filter]. now rewrite andb_false_r.
  - intros v Hv. rewrite Hcount.
    assert (E : (v =? u) = false) by now apply Nat.eqb_neq.
    rewrite E. cbn [negb]. f_equal. apply filter_ext. intros r. apply andb_true_r.
  - intros r Hin Hr. apply in_map_iff. exists r. split; [|exact Hin].
    now rewrite Hr.
  - rewrite map_map. apply map_ext. intros r.
    now destruct (Inbox.unread_of u r).
  - reflexivity.
Qed.

(** A notification of somebody else is out of reach: when no row with
    the id belongs to the caller, [markAsRead] throws the error of
    [.single()] and [deleteNotification] answers success, and neither
    changes a row. *)
Theorem foreign_notification_is_out_of_reach (i u : Id) (clock : DateTime)
        (rows : list Inbox.Row) :
  (forall r, In r rows -> Inbox.nt_id r = i -> Inbox.nt_user_id r <> u) ->
  Inbox.markAsRead i u clock false rows = (Thrown PGRST116, rows)
  /\ Inbox.deleteNotification i u false rows = (Returned true, rows).
Proof.
  intros H.
  assert (Hmiss : forall r, In r rows -> Inbox.is_note i u r = false).
  { intros r Hin. unfold Inbox.is_note.
    destruct (Inbox.nt_id r =? i) eqn:Ei; [|reflexivity].
    apply Nat.eqb_eq in Ei. cbn [andb]. apply Nat.eqb_neq. now apply H. }
  assert (Hf : filter (Inbox.is_note i u) rows = []).
  { clear H. induction rows as [|r rows IH]; [reflexivity|].
    cbn [filter]. rewrite (Hmiss r (or_introl eq_refl)).
    apply IH. intros x Hx. apply Hmiss. now right. }
  assert (Hm : map (fun r => if Inbox.is_note i u r then Inbox.mark clock r else r) rows
               = rows).
  { clear H Hf. induction rows as [|r rows IH]; [reflexivity|].
    cbn [map]. rewrite (Hmiss r (or_introl eq_refl)). f_equal.
    apply IH. intros x Hx. apply Hmiss. now right. }
  assert (Hd : filter (fun r => negb (Inbox.is_note i u r)) rows = rows).
  { clear H Hf Hm. induction rows as [|r rows IH]; [reflexivity|].
    cbn [filter]. rewrite (Hmiss r (or_introl eq_refl)). cbn [negb]. f_equal.
    apply IH. intros x Hx. apply Hmiss. now right. }
  unfold Inbox.markAsRead, Inbox.deleteNotification, Inbox.call.
  rewrite Hf, Hm, Hd. split; reflexivity.
Qed.

(** ** An update whose new items the store refuses *)

(** An update that replaces the line items is not undone when it fails
    half way: when the store accepts the update of the row and the delete
    of the old line items and then refuses the insert of the new ones,
    the request is answered 500, the row carries the new columns, and the
    document has no line items left: the old ones are gone and the new
    ones are not there. No further call is made. *)
Theorem failed_update_loses_items (req : UpdateBAPBReq) (w : World) (d : Doc)
        (x : BapbItemInput) (l : list BapbItemInput) :
  let i := ub_id req in
  let run := updateBAPB req in
  filter (has_id i) (docs (bapb (db w))) = [d] ->
  vendor_id d = user_id (ub_user req) ->
  canManage BAPB (user_role (ub_user req)) = true ->
  status_in [draft; revision_required] (status d) = true ->
  ub_items req = Some (x :: l) ->
  fault_at w (ncalls w) = false -> fault_at w (1 + ncalls w) = false ->
  fault_at w (2 + ncalls w) = false -> fault_at w (3 + ncalls w) = true ->
  result_of run w = Returned (server_error "Error updating BAPB" store_failure)
  /\ docs (bapb (db (world_after run w)))
     = replaced i (apply_patch (updateDataBAPB req d) d) (docs (bapb (db w)))
  /\ bapb_items (db (world_after run w))
     = filter (fun it => negb (bi_bapb_id it =? i)) (bapb_items (db w))
  /\ items_of BAPB (db (world_after run w)) i = GoodsItems []
  /\ calls_of run w
     = [ev op_select "bapb" true; ev op_update "bapb" true;
        ev op_delete "bapb_items" true; ev op_insert "bapb_items" false].
Proof.
  intros i run Hf Hown Hcan Hst Hitems F0 F1 F2 F3. cbn [Nat.add] in F1, F2, F3.
  assert (Hrun :
    updateBAPB req w
    = (Returned (server_error "Error updating BAPB" store_failure),
       {| db := set_bapb_items
                  (filter (fun it => negb (bi_bapb_id it =? i))
                          (bapb_items (patched BAPB i (updateDataBAPB req d) (db w))))
                  (patched BAPB i (updateDataBAPB req d) (db w));
          now := now w; fault_at := fault_at w; ncalls := 4 + ncalls w;
          trace := trace w ++ [ev op_select "bapb" true; ev op_update "bapb" true;
                               ev op_delete "bapb_items" true;
                               ev op_insert "bapb_items" false];
          random := random w; ndraws := ndraws w |})).
  { unfold updateBAPB. cbv beta zeta delta [try_catch bind ret].
    rewrite findById_run, F0. cbn [tables]. fold i. rewrite Hf, Hown, Nat.eqb_refl.
    cbn [negb]. rewrite andb_false_r, Hcan, Hst. cbn [negb].
    unfold BAPBRepository.updateWithItems.
    cbv beta zeta delta [try_catch bind ret throw].
    rewrite update_run. world_simpl. rewrite F1. cbn [tables]. rewrite Hf, Hitems.
    unfold query. world_simpl. rewrite F2. cbn [fst snd error empty_reply].
    world_simpl. rewrite F3. cbn [fst snd error error_reply].
    unfold tick, ev. world_simpl. rewrite <- !app_assoc. reflexivity. }
  unfold result_of, world_after, run. split; [now rewrite Hrun|].
  split; [|split; [rewrite Hrun; reflexivity|split]].
  - rewrite Hrun. cbn [snd db]. change (docs (bapb ?s)) with (docs (tables BAPB s)).
    change (set_bapb_items ?l ?s) with (set_bapb_items l s).
    transitivity (docs (tables BAPB (patched BAPB i (updateDataBAPB req d) (db w))));
      [reflexivity|].
    rewrite docs_patched. unfold replaced. apply map_ext_in. intros y Hy.
    destruct (has_id i y) eqn:Hi; [|reflexivity].
    now rewrite (@only_row i _ d y Hf Hy Hi).
  - rewrite Hrun. cbn [snd db]. unfold items_of. f_equal.
    change (bapb_items (set_bapb_items ?l ?s)) with l.
    set (old := bapb_items _).
    induction old as [|it old IH]; [reflexivity|].
    cbn [filter]. destruct (bi_bapb_id it =? i) eqn:E; cbn [negb filter];
      [exact IH|rewrite E; exact IH].
  - apply calls_of_intro. rewrite Hrun. reflexivity.
Qed.

(** * The further statements on concrete runs *)

Lemma sample_fresh (goods works : list Doc) :
  (forall d, In d goods -> id d < 100) -> (forall d, In d works -> id d < 100) ->
  fresh_ids (Sample.store goods works).
Proof. intros Hg Hw [|] d Hin; cbn in *; auto. Defined.

Lemma one_row_below (d x : Doc) : id d < 100 -> In x [d] -> id x < 100.
Proof. intros H [<-|[]]. exact H. Defined.

(** The reviewer rejects the submitted BAPB 1 with a reason: the row is
    [rejected] and carries the reason, and the record is in the approvals
    table. *)
Lemma decision_outcome_witness :
  let w := Scenario.submitted_world Sample.never in
  let run := reject BAPB Cases.reject_req in
  decision BAPB (reject BAPB) act_rejected rejected
  /\ exists resp d,
      result_of run w = Returned resp /\ code resp = 200
      /\ docs (bapb (db w)) = [d]
      /\ map status (docs (bapb (db (world_after run w)))) = [rejected]
      /\ map rejection_reason (docs (bapb (db (world_after run w))))
         = [Some "Jumlah tidak sesuai"%string]
      /\ approvals (bapb (db (world_after run w)))
         = [approval_of Cases.reject_req act_rejected].
Proof.
  cbv zeta.
  assert (Hd : decision BAPB (reject BAPB) act_rejected rejected)
    by (left; repeat split).
  split; [exact Hd|].
  destruct (result_of (reject BAPB Cases.reject_req)
                      (Scenario.submitted_world Sample.never))
    as [resp|e] eqn:E; [|vm_compute in E; discriminate E].
  assert (Hc : code resp = 200) by (vm_compute in E; injection E as <-; reflexivity).
  destruct (proj1 (@decision_outcome BAPB (reject BAPB) act_rejected rejected
                     Cases.reject_req (Scenario.submitted_world Sample.never) Hd)
                  resp E Hc)
    as [d [reason [Hr [_ [Hf [_ [_ [Hdocs [_ [_ Happ]]]]]]]]]].
  exists resp, d. split; [reflexivity|]. split; [exact Hc|].
  vm_compute in Hr. injection Hr as <-.
  vm_compute in Hf. injection Hf as <-.
  cbn [tables] in Hdocs, Happ.
  split; [reflexivity|]. rewrite Hdocs, Happ. repeat split.
Defined.

(** The reviewer approves the submitted BAPB 1: the row is [approved] and
    the record is in the approvals table. *)
Lemma approval_outcome_witness :
  let w := Scenario.submitted_world Sample.never in
  let run := approveBAPB (Sample.approve_req 1) in
  approve_handler BAPB approveBAPB
  /\ exists resp,
      result_of run w = Returned resp /\ code resp = 200
      /\ map status (docs (bapb (db (world_after run w)))) = [approved]
      /\ approvals (bapb (db (world_after run w)))
         = [approval_of (Sample.approve_req 1) act_approved].
Proof.
  cbv zeta.
  assert (Hh : approve_handler BAPB approveBAPB) by (left; reflexivity).
  split; [exact Hh|].
  destruct (result_of (approveBAPB (Sample.approve_req 1))
                      (Scenario.submitted_world Sample.never))
    as [resp|e] eqn:E; [|vm_compute in E; discriminate E].
  assert (Hc : code resp = 200) by (vm_compute in E; injection E as <-; reflexivity).
  destruct (proj1 (@approval_outcome BAPB approveBAPB (Sample.approve_req 1)
                     (Scenario.submitted_world Sample.never) Hh)
                  resp E Hc)
    as [d [Hf [_ [_ [_ [_ [Hdocs [_ [_ [_ Happ]]]]]]]]]].
  exists resp. split; [reflexivity|]. split; [exact Hc|].
  vm_compute in Hf. injection Hf as <-.
  cbn [tables] in Hdocs, Happ. rewrite Hdocs, Happ. split; reflexivity.
Defined.

(** The vendor deletes the draft BAPB 1: no row is left. *)
Lemma delete_outcome_witness :
  let run := deleteDoc BAPB Scenario.submit_req in
  exists resp,
    result_of run Scenario.full_draft = Returned resp /\ code resp = 200
    /\ docs (bapb (db (world_after run Scenario.full_draft))) = [].
Proof.
  cbv zeta.
  destruct (result_of (deleteDoc BAPB Scenario.submit_req) Scenario.full_draft)
    as [resp|e] eqn:E; [|vm_compute in E; discriminate E].
  assert (Hc : code resp = 200) by (vm_compute in E; injection E as <-; reflexivity).
  destruct (proj1 (delete_outcome BAPB Scenario.submit_req Scenario.full_draft)
                  resp E Hc)
    as [d [_ [_ [_ [_ Hdocs]]]]].
  exists resp. split; [reflexivity|]. split; [exact Hc|].
  cbn [tables] in Hdocs. rewrite Hdocs. reflexivity.
Defined.

(** The vendor submits the draft BAPB 1: the row is [submitted] and the
    one active reviewer is notified. *)
Lemma submit_outcome_witness :
  let run := submit BAPB Scenario.submit_req in
  exists resp,
    result_of run Scenario.full_draft = Returned resp /\ code resp = 200
    /\ map status (docs (bapb (db (world_after run Scenario.full_draft))))
       = [submitted]
    /\ map n_user_id (notifications (db (world_after run Scenario.full_draft)))
       = [2].
Proof.
  cbv zeta.
  destruct (result_of (submit BAPB Scenario.submit_req) Scenario.full_draft)
    as [resp|e] eqn:E; [|vm_compute in E; discriminate E].
  assert (Hc : code resp = 200) by (vm_compute in E; injection E as <-; reflexivity).
  destruct (proj1 (submit_outcome BAPB Scenario.submit_req Scenario.full_draft)
                  resp E Hc)
    as [d [Hf [Hdocs [_ [_ Hnotes]]]]].
  exists resp. split; [reflexivity|]. split; [exact Hc|].
  vm_compute in Hf. injection Hf as <-.
  cbn [tables] in Hdocs. rewrite Hdocs, Hnotes. split; reflexivity.
Defined.

(** The vendor's delete of the approved BAPB 1 leaves the row where it
    is. *)
Lemma settled_rows_stay_witness :
  let w := Scenario.approved_world [] Sample.never (1 # 2) in
  let r := ReqDelete BAPB Scenario.submit_req in
  fresh_ids (db w)
  /\ settled (status (Scenario.doc_in approved None))
  /\ In (Scenario.doc_in approved None) (docs (bapb (db (serve r w)))).
Proof.
  cbv zeta.
  assert (Hfr : fresh_ids (db (Scenario.approved_world [] Sample.never (1 # 2)))).
  { apply (@sample_fresh [Scenario.doc_in approved None] [Scenario.doc_in approved None]);
      intros d Hin;
      (apply (@one_row_below (Scenario.doc_in approved None) d); [cbn; lia|exact Hin]). }
  split; [exact Hfr|]. split; [left; reflexivity|].
  apply (proj2 (@settled_rows_stay (ReqDelete BAPB Scenario.submit_req)
                  (Scenario.approved_world [] Sample.never (1 # 2)) Hfr)
               BAPB (Scenario.doc_in approved None)).
  - left. reflexivity.
  - left. reflexivity.
Defined.

(** The vendor's submit moves the draft BAPB 1 along the edge to
    [submitted]. *)
Lemma status_follows_edges_witness :
  let w := Scenario.full_draft in
  let r := ReqSubmit BAPB Scenario.submit_req in
  fresh_ids (db w)
  /\ ((exists d',
          In d' (docs (bapb (db (serve r w)))) /\ id d' = 1
          /\ (status d' = draft \/ edge draft (status d') = true))
      \/ forall x, In x (docs (bapb (db (serve r w)))) -> id x <> 1).
Proof.
  cbv zeta.
  assert (Hfr : fresh_ids (db Scenario.full_draft)).
  { apply (@sample_fresh [Scenario.doc_in draft None] [Scenario.doc_in draft None]);
      intros d Hin;
      (apply (@one_row_below (Scenario.doc_in draft None) d); [cbn; lia|exact Hin]). }
  split; [exact Hfr|].
  destruct (proj1 (@status_follows_edges (ReqSubmit BAPB Scenario.submit_req)
                     Scenario.full_draft BAPB Hfr)
                  (Scenario.doc_in draft None) (or_introl eq_refl))
    as [H|[_ H]]; [left; exact H|right; exact H].
Defined.

(** The vendor creates the first BAPB of March 2024 with one line item. *)
Lemma createBAPB_outcome_witness :
  let w := Scenario.empty_world in
  let run := createBAPB (Cases.create_req Scenario.cement) in
  exists resp,
    result_of run w = Returned resp /\ code resp = 201
    /\ map number (docs (bapb (db (world_after run w)))) = ["BAPB/2024/03/0001"%string]
    /\ map status (docs (bapb (db (world_after run w)))) = [draft]
    /\ map item_name (bapb_items (db (world_after run w))) = [Some "Semen"%string].
Proof.
  cbv zeta.
  destruct (result_of (createBAPB (Cases.create_req Scenario.cement))
                      Scenario.empty_world)
    as [resp|e] eqn:E; [|vm_compute in E; discriminate E].
  assert (Hc : code resp = 201) by (vm_compute in E; injection E as <-; reflexivity).
  destruct (@createBAPB_outcome (Cases.create_req Scenario.cement)
              Scenario.empty_world resp E Hc)
    as [items [Hi [_ [_ [_ [Hdocs Hitems]]]]]].
  exists resp. split; [reflexivity|]. split; [exact Hc|].
  vm_compute in Hi. injection Hi as <-.
  rewrite Hdocs, Hitems. repeat split.
Defined.

(** A line item of which 0 was received is stored without a received
    quantity. *)
Lemma zero_quantity_is_stored_as_null_witness :
  let w := Scenario.empty_world in
  let run := createBAPB (Cases.create_req Cases.nothing_received) in
  exists resp row,
    result_of run w = Returned resp /\ code resp = 201
    /\ in_quantityReceived Cases.nothing_received = Some 0%Q
    /\ nth_error (bapb_items (db (world_after run w))) 0 = Some row
    /\ quantity_received row = None.
Proof.
  cbv zeta.
  destruct (result_of (createBAPB (Cases.create_req Cases.nothing_received))
                      Scenario.empty_world)
    as [resp|e] eqn:E; [|vm_compute in E; discriminate E].
  assert (Hc : code resp = 201) by (vm_compute in E; injection E as <-; reflexivity).
  destruct (@zero_quantity_is_stored_as_null
              (Cases.create_req Cases.nothing_received) Scenario.empty_world resp
              [Cases.nothing_received] 0 Cases.nothing_received 0%Q
              E Hc eq_refl eq_refl (Qeq_refl 0))
    as [row [Hrow [Hreceived _]]].
  exists resp, row. split; [reflexivity|]. split; [exact Hc|].
  split; [reflexivity|]. split; [exact Hrow|].
  apply Hreceived; reflexivity.
Defined.

(** The vendor submits a BAPB that is not there. *)
Lemma unknown_id_is_404_witness :
  let w := Scenario.full_draft in
  let run := submit BAPB Cases.missing_req in
  names_document BAPB 7 run
  /\ filter (has_id 7) (docs (bapb (db w))) = []
  /\ (exists resp, result_of run w = Returned resp /\ code resp = 404
                   /\ success resp = false)
  /\ calls_of run w = [ev op_select "bapb" false]
  /\ db (world_after run w) = db w.
Proof.
  cbv zeta.
  split; [exact (names_submit BAPB Cases.missing_req)|]. split; [reflexivity|].
  exact (@unknown_id_is_404 BAPB 7 (submit BAPB Cases.missing_req) Scenario.full_draft
           (names_submit BAPB Cases.missing_req) eq_refl eq_refl).
Defined.

(** The vendor uploads a signature for its BAPB 1. *)
Lemma uploadSignature_outcome_witness :
  let w := Scenario.full_draft in
  let run := uploadSignature BAPB Cases.signature_req in
  exists resp,
    result_of run w = Returned resp /\ code resp = 201
    /\ List.length (signatures_of BAPB 1 1 (db (world_after run w))) = 1
    /\ docs (bapb (db (world_after run w))) = docs (bapb (db w)).
Proof.
  cbv zeta.
  destruct (result_of (uploadSignature BAPB Cases.signature_req) Scenario.full_draft)
    as [resp|e] eqn:E; [|vm_compute in E; discriminate E].
  assert (Hc : code resp = 201) by (vm_compute in E; injection E as <-; reflexivity).
  destruct (proj1 (uploadSignature_outcome BAPB Cases.signature_req Scenario.full_draft)
                  resp E Hc)
    as [data [d [row [_ [_ [_ [_ [_ [_ [Hsig Hdocs]]]]]]]]]].
  exists resp. split; [reflexivity|]. split; [exact Hc|].
  split; [|exact Hdocs].
  cbn [user_id Cases.signature_req sg_user sg_id Sample.vendor] in Hsig.
  rewrite Hsig. reflexivity.
Defined.

(** BAPP 1 is submitted and the reviewer has uploaded no signature: the
    approval is answered with the request to upload one. *)
Lemma approveBAPP_wants_one_signature_witness :
  let w := Scenario.submitted_world Sample.never in
  let req := Sample.approve_req 1 in
  no_faults w
  /\ signatures_of BAPP 1 2 (db w) = []
  /\ result_of (approveBAPP req) w = Returned signature_refusal
  /\ db (world_after (approveBAPP req) w) = db w.
Proof.
  cbv zeta.
  assert (Hnf : no_faults (Scenario.submitted_world Sample.never))
    by apply never_no_faults.
  split; [exact Hnf|]. split; [reflexivity|].
  apply (@approveBAPP_wants_one_signature (Sample.approve_req 1)
           (Scenario.submitted_world Sample.never) (Scenario.doc_in submitted None)
           Hnf eq_refl (or_introl eq_refl) eq_refl).
  - cbn. lia.
  - cbn. lia.
Defined.

(** A payment of BAPB 1 while it is only submitted is refused, and
    nothing is written. *)
Lemma payment_needs_approval_witness :
  let w := Scenario.submitted_world Sample.never in
  let run := processPayment BAPB 1 Scenario.pay in
  result_of run w = Thrown (Error_ "BAPB must be approved before payment processing")
  /\ db (world_after run w) = db w.
Proof.
  cbv zeta.
  apply (proj1 (proj2 (payment_needs_approval BAPB 1 Scenario.pay
                         (Scenario.submitted_world Sample.never)))
               (Scenario.doc_in submitted None) eq_refl eq_refl).
  discriminate.
Defined.




(** Another vendor's delete of the draft BAPB 1 leaves the row where it
    is. *)
Lemma vendor_changes_own_documents_only_witness :
  let w := Scenario.full_draft in
  let r := ReqDelete BAPB Cases.strangers_req in
  caller r = Some Cases.stranger
  /\ fresh_ids (db w)
  /\ In (Scenario.doc_in draft None) (docs (bapb (db (serve r w)))).
Proof.
  cbv zeta.
  assert (Hfr : fresh_ids (db Scenario.full_draft)).
  { apply (@sample_fresh [Scenario.doc_in draft None] [Scenario.doc_in draft None]);
      intros d Hin;
      (apply (@one_row_below (Scenario.doc_in draft None) d); [cbn; lia|exact Hin]). }
  split; [reflexivity|]. split; [exact Hfr|].
  apply (@vendor_changes_own_documents_only (ReqDelete BAPB Cases.strangers_req)
           Cases.stranger Scenario.full_draft eq_refl eq_refl Hfr BAPB
           (Scenario.doc_in draft None)).
  - left. reflexivity.
  - cbn. lia.
Defined.

(** The statistics of the vendor whose one BAPB is sent back for
    revision: a total of 1 and nothing under the four statuses. *)
Lemma vendor_statistics_leave_out_review_witness :
  let w := Scenario.sent_back in
  exists st,
    result_of (Statistics.getVendorStatistics 1) w = Returned st
    /\ Statistics.vs_total st = 1
    /\ Statistics.vs_draft st + Statistics.vs_submitted st
       + Statistics.vs_approved st + Statistics.vs_rejected st = 0.
Proof.
  cbv zeta.
  destruct (proj1 (proj2 (proj2 (vendor_statistics_leave_out_review 1 Scenario.sent_back)))
                  (fun k _ => eq_refl))
    as [st [Hst Hsum]].
  exists st. split; [exact Hst|].
  change (List.length (filter (in_the_loop 1) (docs (bapb (db Scenario.sent_back)))))
    with 1 in Hsum.
  assert (Ht : Statistics.vs_total st = 1)
    by (vm_compute in Hst; injection Hst as <-; reflexivity).
  split; [exact Ht|]. lia.
Defined.

(** One BAPB, of a vendor with the role [vendor_barang]. *)
Lemma type_statistics_add_up_witness :
  let w := Scenario.full_draft in
  exists st,
    result_of (Statistics.getStatisticsByVendorType BAPB) w = Returned st
    /\ Statistics.total st = 1
    /\ Statistics.vendor_barang st + Statistics.vendor_jasa st
       + Statistics.vendor_legacy st = 1.
Proof.
  cbv zeta.
  destruct (@type_statistics_add_up BAPB Scenario.full_draft eq_refl)
    as [st [Hst [Htotal [Hsum _]]]].
  exists st. split; [exact Hst|]. split; [exact Htotal|].
  rewrite Htotal in Hsum.
  change (List.length (filter (without_vendor_role (db Scenario.full_draft))
                              (docs (tables BAPB (db Scenario.full_draft)))))
    with 0 in Hsum.
  change (List.length (docs (tables BAPB (db Scenario.full_draft)))) with 1 in Hsum.
  lia.
Defined.

(** Two work items, 40 and 60 percent done. *)
Lemma total_progress_is_a_percentage_witness :
  (0 <= JsTotal_value (_calculateTotalProgress (Some Scenario.two_items)))%Q
  /\ (JsTotal_value (_calculateTotalProgress (Some Scenario.two_items)) <= 100)%Q.
Proof.
  apply total_progress_is_a_percentage.
  - intros l E. injection E as <-. reflexivity.
  - intros l item E Hin. injection E as <-.
    destruct Hin as [<-|[<-|[]]]; split; apply Qle_bool_iff; reflexivity.
Defined.

(** The other vendor asks for BAPB 1 and is refused; the owner and the
    contractor, a vendor of the other type, are shown it. *)
Lemma vendor_reads_own_documents_only_witness :
  let w := Scenario.full_draft in
  (exists resp,
      result_of (getById BAPB Cases.strangers_req) w = Returned resp
      /\ code resp = 403 /\ res_data resp = None)
  /\ (exists resp,
         result_of (getById BAPB {| dr_user := Sample.contractor; dr_id := 1 |}) w
         = Returned resp
         /\ code resp = 200
         /\ res_data resp
            = Some (hydrate BAPB (db w) (Scenario.doc_in draft None))).
Proof.
  cbv zeta. split.
  - apply (proj2 (proj1 (proj2 (vendor_reads_own_documents_only
                                  BAPB Cases.strangers_req Scenario.full_draft))
                        (Scenario.doc_in draft None) eq_refl eq_refl)).
    + reflexivity.
    + cbn. lia.
  - apply (proj1 (proj1 (proj2 (vendor_reads_own_documents_only
                                  BAPB {| dr_user := Sample.contractor; dr_id := 1 |}
                                  Scenario.full_draft))
                        (Scenario.doc_in draft None) eq_refl eq_refl)).
    left. reflexivity.
Defined.

(** User 1 marks all as read: one row is reported, user 1 has nothing
    unread and user 2 still has one. *)
Lemma markAllAsRead_clears_unread_witness :
  let out := Inbox.markAllAsRead 1 Scenario.clock false Cases.inbox in
  fst out = Returned 1
  /\ Inbox.getUnreadCount 1 false (snd out) = 0
  /\ Inbox.getUnreadCount 2 false (snd out) = 1.
Proof.
  cbv zeta.
  destruct (markAllAsRead_clears_unread 1 Scenario.clock Cases.inbox)
    as [Hcount [Hzero [Hothers _]]].
  split; [exact Hcount|]. split; [exact Hzero|].
  rewrite (Hothers 2) by lia. reflexivity.
Defined.

(** User 1 tries to mark and to delete notification 2, which is user
    2's. *)
Lemma foreign_notification_is_out_of_reach_witness :
  Inbox.markAsRead 2 1 Scenario.clock false Cases.inbox = (Thrown PGRST116, Cases.inbox)
  /\ Inbox.deleteNotification 2 1 false Cases.inbox = (Returned true, Cases.inbox).
Proof.
  apply foreign_notification_is_out_of_reach.
  intros r [<-|[<-|[]]]; cbn; intros H; lia.
Defined.

(** The second of two items lacks its unit. *)
Lemma createBAPB_turned_down_witness :
  let unitless :=
    {| in_itemName := Some "Pasir"%string; in_item_name := None;
       in_quantityOrdered := Some 3%Q; in_quantity_ordered := None;
       in_quantityReceived := Some 3%Q; in_quantity_received := None;
       in_unit := None; in_condition := None; in_notes := None |} in
  let req :=
    {| cb_user := Sample.vendor; cb_orderNumber := Some "PO-7"%string;
       cb_deliveryDate := None; cb_items := Some [Scenario.cement; unitless];
       cb_notes := None |} in
  createBAPB req Scenario.empty_world
  = (Returned (failure 400 "Item 2: unit is required"), Scenario.empty_world).
Proof.
  cbv zeta.
  match goal with
  | |- createBAPB ?r _ = _ =>
      exact (proj2 (proj2 (createBAPB_turned_down r Scenario.empty_world)) eq_refl
                   [Scenario.cement] _ [] "unit"%string eq_refl eq_refl eq_refl)
  end.
Defined.

(** The reviewer's [approved] record of BAPB 1 is found. *)
Lemma hasUserApproved_exactly_one_witness :
  result_of (Repository.hasUserApproved BAPB 1 2) Scenario.orphaned = Returned true.
Proof.
  exact (proj1 (hasUserApproved_exactly_one BAPB 1 2 Scenario.orphaned)).
Defined.

(** The vendor's BAPB 1 had one line item; after the failed replacement
    it has none, and the order number is the new one. *)
Lemma failed_update_loses_items_witness :
  let w := Cases.insert_refused in
  let run := updateBAPB Cases.replace_req in
  List.length (bapb_items (db w)) = 1
  /\ result_of run w = Returned (server_error "Error updating BAPB" store_failure)
  /\ map order_number (docs (bapb (db (world_after run w)))) = [Some "PO-2"%string]
  /\ bapb_items (db (world_after run w)) = [].
Proof.
  cbv zeta.
  destruct (@failed_update_loses_items Cases.replace_req Cases.insert_refused
              (Scenario.doc_in draft None) Scenario.cement []
              eq_refl eq_refl eq_refl eq_refl eq_refl eq_refl eq_refl eq_refl eq_refl)
    as [Hres [Hdocs [Hitems _]]].
  split; [reflexivity|]. split; [exact Hres|].
  rewrite Hdocs, Hitems. split; reflexivity.
Defined.
